(** * Tripee / ai-trip-designer: the provider fallback pipeline, the itinerary
    synthesis and the cost estimator, embedded from the TypeScript sources.

    Source files embedded here:
    - [src/cache.ts]                 the TTL cache
    - [src/providers/weather.ts]     weather provider and its mock
    - [src/providers/flights.ts]     flight provider and its mock
    - [src/providers/stays.ts]       stay provider (mock only)
    - [src/providers/places.ts]      destination and attraction providers
    - [src/mcp.ts]                   validation, escaping, formatting,
                                     provenance, stay tiers, cost estimate,
                                     itinerary, the HTML rendering, the
                                     methods of the toolset, configuration

    Conventions of the embedding.
    - JavaScript numbers that the code computes with (day counts, prices,
      minutes, timestamps in milliseconds) are integers on every path and are
      modelled by [Z]; numbers that are only transported or compared
      (coordinates, ratings, temperatures, interest scores) are modelled by [Q].
    - Strings are [string] (byte strings); [toLowerCase] acts on ASCII letters.
    - A call that can raise returns [Exc A]; asynchronous calls are sequenced
      in program order, and the answer of every [fetch] is an input of the
      model (an outcome value), so that theorems quantify over all of them.
    - Values have the types that [src/types.ts] and the response interfaces
      of the providers declare; a payload that can be read but is not of its
      declared type is outside the model.
    - What the platform decides (the locale and time zone of the [Intl]
      formatters, the reading of date strings that are not ISO) is a [Host],
      an argument of the functions that depend on it. *)

From Stdlib Require Import ZArith QArith Qround Lia Lqa List Bool Ascii String DecimalString.
From Stdlib Require Import Sorting.Sorted Sorting.Permutation.
From stdpp Require Import base option gmap strings list.

Import ListNotations.
Local Open Scope string_scope.
Local Open Scope Z_scope.

(** ** JavaScript primitives used by the sources *)

Module JS.

(** Exceptions of the platform that the sources can meet. *)
Inductive Error : Type :=
| RangeError (msg : string)
| TypeError (msg : string)
| PlainError (msg : string).

(** The result of an expression that may raise. *)
Inductive Exc (A : Type) : Type :=
| Return (a : A)
| Raise (e : Error).
Arguments Return {A} a.
Arguments Raise {A} e.

Definition bind {A B : Type} (m : Exc A) (k : A -> Exc B) : Exc B :=
  match m with
  | Return a => k a
  | Raise e => Raise e
  end.

Definition returns {A : Type} (m : Exc A) : bool :=
  match m with Return _ => true | Raise _ => false end.

(** [try { body } catch { handler }]. *)
Definition tryCatch {A : Type} (body : Exc A) (handler : Error -> Exc A) : Exc A :=
  match body with
  | Return a => Return a
  | Raise e => handler e
  end.

(** [xs.map(f)] for a callback that may raise: the first raise ends the loop. *)
Fixpoint mapM {A B : Type} (f : A -> Exc B) (xs : list A) : Exc (list B) :=
  match xs with
  | [] => Return []
  | x :: rest =>
      bind (f x) (fun y => bind (mapM f rest) (fun ys => Return (y :: ys)))
  end.

(** [String.prototype.toLowerCase], on ASCII letters. *)
Definition lowerChar (c : ascii) : ascii :=
  let n := nat_of_ascii c in
  if (Nat.leb 65 n && Nat.leb n 90)%bool then ascii_of_nat (n + 32) else c.

Definition upperChar (c : ascii) : ascii :=
  let n := nat_of_ascii c in
  if (Nat.leb 97 n && Nat.leb n 122)%bool then ascii_of_nat (n - 32) else c.

Fixpoint mapChars (f : ascii -> ascii) (s : string) : string :=
  match s with
  | EmptyString => EmptyString
  | String c rest => String (f c) (mapChars f rest)
  end.

Definition toLowerCase : string -> string := mapChars lowerChar.
Definition toUpperCase : string -> string := mapChars upperChar.

(** [s.startsWith(p)]. *)
Fixpoint startsWith (s p : string) {struct p} : bool :=
  match p, s with
  | EmptyString, _ => true
  | String _ _, EmptyString => false
  | String b p', String a s' => Ascii.eqb a b && startsWith s' p'
  end.

(** [s.includes(sub)]. *)
Fixpoint includes (s sub : string) : bool :=
  startsWith s sub ||
  match s with
  | EmptyString => false
  | String _ rest => includes rest sub
  end.

(** [s.replace(/pat/, by)] for a literal pattern: the first occurrence only. *)
Fixpoint replaceFirst (s pat by_ : string) : string :=
  if startsWith s pat
  then (by_ ++ String.substring (String.length pat) (String.length s - String.length pat) s)%string
  else match s with
       | EmptyString => EmptyString
       | String c rest => String c (replaceFirst rest pat by_)
       end.

(** [s.replace(/c/g, by)] for a pattern of one character and a replacement
    without [$]: every occurrence, from left to right. *)
Fixpoint replaceAllChar (c : ascii) (by_ : string) (s : string) : string :=
  match s with
  | EmptyString => EmptyString
  | String a rest =>
      if Ascii.eqb a c then (by_ ++ replaceAllChar c by_ rest)%string
      else String a (replaceAllChar c by_ rest)
  end.

(** [xs.slice(0, n)] for an integer [n]: a negative [n] counts from the end. *)
Definition slice0 {A : Type} (xs : list A) (n : Z) : list A :=
  if n <? 0 then firstn (Z.to_nat (Z.of_nat (List.length xs) + n)) xs
  else firstn (Z.to_nat n) xs.

(** [xs.find(p)]. *)
Definition find {A : Type} (p : A -> bool) (xs : list A) : option A := List.find p xs.

(** [a ?? b]. *)
Definition nullish {A : Type} (a : option A) (b : A) : A :=
  match a with Some x => x | None => b end.

(** [a ?? b] where [b] may itself be undefined. *)
Definition nullishOpt {A : Type} (a b : option A) : option A :=
  match a with Some x => Some x | None => b end.

(** *** Sets in insertion order: [new Set(xs)], [set.add(x)], [Array.from(set)] *)

Definition Set_add (x : string) (s : list string) : list string :=
  if existsb (String.eqb x) s then s else (s ++ [x])%list.

Definition Set_from (xs : list string) : list string :=
  fold_left (fun s x => Set_add x s) xs [].

(** *** Arrays *)

(** [xs[i]] for an integer index: [undefined] outside the array. *)
Definition index {A : Type} (xs : list A) (i : Z) : option A :=
  if i <? 0 then None else nth_error xs (Z.to_nat i).

(** [xs.sort(cmp)], stable, for a comparator given by [leb x y], which
    stands for [cmp(x, y) <= 0]. *)
Fixpoint sortInsert {A : Type} (leb : A -> A -> bool) (x : A) (l : list A) : list A :=
  match l with
  | [] => [x]
  | y :: rest => if leb x y then x :: y :: rest else y :: sortInsert leb x rest
  end.

Definition sort {A : Type} (leb : A -> A -> bool) (l : list A) : list A :=
  fold_right (sortInsert leb) [] l.

(** [queue.shift()]. *)
Definition shift {A : Type} (queue : list A) : option A * list A :=
  match queue with
  | [] => (None, [])
  | x :: rest => (Some x, rest)
  end.

(** *** Numbers and their spellings *)

Definition digitVal (c : ascii) : option Z :=
  let n := nat_of_ascii c in
  if (Nat.leb 48 n && Nat.leb n 57)%bool then Some (Z.of_nat n - 48) else None.

Definition digitChar (v : Z) : ascii := ascii_of_nat (Z.to_nat (v + 48)).

(** The value of a string made of decimal digits only. *)
Fixpoint parseDigitsFrom (acc : Z) (s : string) : option Z :=
  match s with
  | EmptyString => Some acc
  | String c rest =>
      match digitVal c with
      | Some v => parseDigitsFrom (10 * acc + v) rest
      | None => None
      end
  end.

Definition parseDigits (s : string) : option Z := parseDigitsFrom 0 s.

(** [w] decimal digits of [n], zero padded. *)
Fixpoint digits (w : nat) (n : Z) : string :=
  match w with
  | O => EmptyString
  | S w' => (digits w' (n / 10) ++ String (digitChar (n mod 10)) EmptyString)%string
  end.

(** [String(n)] for an integer. *)
Definition Z_toString (z : Z) : string := NilZero.string_of_int (Z.to_int z).

Fixpoint fracDigits (fuel : nat) (num den : Z) : string :=
  match fuel with
  | O => EmptyString
  | S f =>
      if num =? 0 then EmptyString
      else String (digitChar (num * 10 / den)) (fracDigits f (num * 10 mod den) den)
  end.

(** [String(q)] for a number with a finite decimal expansion (at most 17
    fractional digits are produced). *)
Definition Number_toString (q : Q) : string :=
  let n := Qnum q in
  let d := Z.pos (Qden q) in
  let a := Z.abs n in
  ((if (n <? 0)%Z then "-" else "") ++ Z_toString (a / d)%Z
   ++ (if (a mod d =? 0)%Z then "" else "." ++ fracDigits 17 (a mod d)%Z d))%string.

(** [Math.round]: the nearest integer, halves upwards. *)
Definition Math_round (q : Q) : Z := Qfloor (q + (1 # 2)).

Definition Number_isInteger (q : Q) : bool := Qnum q mod Z.pos (Qden q) =? 0.

Fixpoint zeros (n : nat) : string :=
  match n with
  | O => EmptyString
  | S n' => String "0" (zeros n')
  end.

(** [x.toFixed(f)] for a number below [10^21]: the nearest multiple of
    [10^-f], the larger one of two, with exactly [f] fraction digits. *)
Definition toFixed (f : nat) (x : Q) : string :=
  let negative := negb (Qle_bool 0 x) in
  let x := if negative then (- x)%Q else x in
  let n := Qfloor (x * inject_Z (10 ^ Z.of_nat f) + (1 # 2)) in
  let s := Z_toString n in
  let s := (zeros (f + 1 - String.length s) ++ s)%string in
  let k := (String.length s - f)%nat in
  ((if negative then "-" else "") ++ String.substring 0 k s
   ++ (if Nat.eqb f 0 then "" else "." ++ String.substring k f s))%string.

(** White space of [String.prototype.trim], within ASCII. *)
Definition isSpace (c : ascii) : bool :=
  let n := nat_of_ascii c in
  (Nat.eqb n 32 || (Nat.leb 9 n && Nat.leb n 13))%bool.

Fixpoint trimStart (s : string) : string :=
  match s with
  | EmptyString => EmptyString
  | String c rest => if isSpace c then trimStart rest else s
  end.

Fixpoint trimEnd (s : string) : string :=
  match s with
  | EmptyString => EmptyString
  | String c rest =>
      match trimEnd rest with
      | EmptyString => if isSpace c then EmptyString else String c EmptyString
      | r => String c r
      end
  end.

Definition trim (s : string) : string := trimEnd (trimStart s).

(** Splits a string at the first occurrence of [sep]. *)
Fixpoint splitAt (sep : ascii) (s : string) : string * option string :=
  match s with
  | EmptyString => (EmptyString, None)
  | String c rest =>
      if Ascii.eqb c sep then (EmptyString, Some rest)
      else let '(a, b) := splitAt sep rest in (String c a, b)
  end.

(** [Number(s)] for a string: the empty string is 0, a decimal literal with
    an optional sign and fraction is its value, and anything else is [NaN]
    ([None]).  Exponents, hexadecimal literals and [Infinity] are outside
    this model and read as [NaN]. *)
Definition StringToNumber (s : string) : option Q :=
  let s := trim s in
  match s with
  | EmptyString => Some 0%Q
  | String c rest =>
      let '(neg, body) :=
        if Ascii.eqb c "-" then (true, rest)
        else if Ascii.eqb c "+" then (false, rest) else (false, s) in
      let '(ip, fp) := splitAt "." body in
      let fp := nullish fp EmptyString in
      if (Nat.eqb (String.length ip + String.length fp) 0)%nat then None
      else
        i ← parseDigits ip;
        f ← parseDigits fp;
        let q := ((i * 10 ^ Z.of_nat (String.length fp) + f)
                  # Pos.of_nat (Nat.pow 10 (String.length fp)))%Q in
        Some (if neg then (- q)%Q else q)
  end.

(** *** Escapes *)

Definition hexDigit (n : nat) : ascii :=
  if Nat.ltb n 10 then ascii_of_nat (48 + n)%nat else ascii_of_nat (55 + n)%nat.

Definition isUnreserved (c : ascii) : bool :=
  let n := nat_of_ascii c in
  ((Nat.leb 48 n && Nat.leb n 57) || (Nat.leb 65 n && Nat.leb n 90)
   || (Nat.leb 97 n && Nat.leb n 122)
   || existsb (Nat.eqb n) [45; 95; 46; 33; 126; 42; 39; 40; 41]%nat)%bool.

(** [encodeURIComponent], the string being read as its UTF-8 bytes. *)
Fixpoint encodeURIComponent (s : string) : string :=
  match s with
  | EmptyString => EmptyString
  | String c rest =>
      if isUnreserved c then String c (encodeURIComponent rest)
      else
        let n := nat_of_ascii c in
        String "%" (String (hexDigit (n / 16)%nat) (String (hexDigit (n mod 16)%nat)
          (encodeURIComponent rest)))
  end.

Definition dquote : ascii := ascii_of_nat 34.
Definition backslash : ascii := ascii_of_nat 92.

(** The double quote and the line feed, as strings. *)
Definition dq : string := String dquote EmptyString.
Definition nl : string := String (ascii_of_nat 10) EmptyString.

Fixpoint jsonEscape (s : string) : string :=
  match s with
  | EmptyString => EmptyString
  | String c rest =>
      let n := nat_of_ascii c in
      let tail := jsonEscape rest in
      if (Nat.eqb n 34 || Nat.eqb n 92)%bool then String backslash (String c tail)
      else if Nat.eqb n 10 then String backslash (String "n" tail)
      else if Nat.eqb n 13 then String backslash (String "r" tail)
      else if Nat.eqb n 9 then String backslash (String "t" tail)
      else if Nat.eqb n 8 then String backslash (String "b" tail)
      else if Nat.eqb n 12 then String backslash (String "f" tail)
      else if Nat.ltb n 32
      then (String backslash "u00" ++ String (ascii_of_nat (48 + n / 16)%nat)
              (String (if Nat.ltb (n mod 16)%nat 10 then ascii_of_nat (48 + n mod 16)%nat
                       else ascii_of_nat (87 + n mod 16)%nat) tail))%string
      else String c tail
  end.

(** [JSON.stringify(s)] for a string. *)
Definition jsonString (s : string) : string :=
  String dquote (jsonEscape s ++ String dquote EmptyString)%string.

(** [JSON.stringify] of an object from its fields in declaration order; a
    field whose value is [undefined] is left out. *)
Fixpoint jsonFields (first : bool) (fields : list (string * option string)) : string :=
  match fields with
  | [] => EmptyString
  | (_, None) :: rest => jsonFields first rest
  | (k, Some v) :: rest =>
      ((if first then "" else ",") ++ jsonString k ++ ":" ++ v ++ jsonFields false rest)%string
  end.

Definition jsonObject (fields : list (string * option string)) : string :=
  ("{" ++ jsonFields true fields ++ "}")%string.

Definition jsonArray (items : list string) : string :=
  ("[" ++ String.concat "," items ++ "]")%string.

(** Truthiness of a string and of an optional string. *)
Definition truthy (s : string) : bool := negb (String.eqb s EmptyString).
Definition truthyOpt (s : option string) : bool :=
  match s with Some x => truthy x | None => false end.

End JS.

#[global] Instance exc_ret : MRet JS.Exc := @JS.Return.
#[global] Instance exc_bind : MBind JS.Exc := fun A B k m => JS.bind m k.

(** ** [src/cache.ts] *)

Module Cache.

Record CacheOptions : Type := { ttlMs : option Z }.

Section WithValue.
Context {T : Type}.

Record CacheRecord : Type := { value : T; expiresAt : Z }.

(** [class TTLCache]: the private [store] and the constructor argument. *)
Record TTLCache : Type := {
  store : gmap string CacheRecord;
  defaultTtlMs : Z
}.

(** [new TTLCache(defaultTtlMs = 1000 * 60 * 60 * 6)]. *)
Definition new (ttl : option Z) : TTLCache :=
  {| store := ∅; defaultTtlMs := JS.nullish ttl (1000 * 60 * 60 * 6) |}.

(** [get(key)], reading the clock [now = Date.now()].  The record found is
    an object, hence truthy: only a missing key takes the first return. *)
Definition get (c : TTLCache) (now : Z) (key : string) : option T * TTLCache :=
  match store c !! key with
  | None => (None, c)
  | Some record =>
      if expiresAt record <? now
      then (None, {| store := delete key (store c); defaultTtlMs := defaultTtlMs c |})
      else (Some (value record), c)
  end.

(** [options?.ttlMs ?? this.defaultTtlMs]. *)
Definition ttlOf (c : TTLCache) (options : option CacheOptions) : Z :=
  JS.nullish (options ≫= ttlMs) (defaultTtlMs c).

(** [set(key, value, options?)]. *)
Definition set (c : TTLCache) (now : Z) (key : string) (v : T)
    (options : option CacheOptions) : TTLCache :=
  let ttl := ttlOf c options in
  {| store := <[ key := {| value := v; expiresAt := now + ttl |} ]> (store c);
     defaultTtlMs := defaultTtlMs c |}.

End WithValue.
Arguments CacheRecord T : clear implicits.
Arguments TTLCache T : clear implicits.

End Cache.

(** ** The proleptic Gregorian calendar behind [Date] *)

Module Calendar.

Record Civil : Type := { year : Z; month : Z; day : Z }.

Definition isLeapYear (y : Z) : bool :=
  (y mod 4 =? 0) && (negb (y mod 100 =? 0) || (y mod 400 =? 0)).

Definition daysInMonth (y m : Z) : Z :=
  match m with
  | 2 => if isLeapYear y then 29 else 28
  | 4 | 6 | 9 | 11 => 30
  | _ => 31
  end.

(** A date that exists in the calendar. *)
Definition validCivil (c : Civil) : bool :=
  (1 <=? month c) && (month c <=? 12) && (1 <=? day c)
  && (day c <=? daysInMonth (year c) (month c)).

(** The next calendar day. *)
Definition tomorrow (c : Civil) : Civil :=
  if day c <? daysInMonth (year c) (month c)
  then {| year := year c; month := month c; day := day c + 1 |}
  else if month c <? 12
  then {| year := year c; month := month c + 1; day := 1 |}
  else {| year := year c + 1; month := 1; day := 1 |}.

(** Day number within a 400-year era that starts on 1 March; [yoe] is the
    year of the era, [mp] the month counted from March. *)
Definition doeOf (yoe mp d : Z) : Z :=
  yoe * 365 + yoe / 4 - yoe / 100 + (153 * mp + 2) / 5 + d - 1.

(** Days from 1970-01-01 to the given year, month (1..12) and day; linear in
    the day, which may lie outside the month. *)
Definition daysFromCivil (y m d : Z) : Z :=
  let y' := if m <=? 2 then y - 1 else y in
  let mp := if m <=? 2 then m + 9 else m - 3 in
  (y' / 400) * 146097 + doeOf (y' mod 400) mp d - 719468.

(** The date inside an era from its day number [doe]. *)
Definition civilOfDoe (doe : Z) : Z * Z * Z :=
  let yoe := (doe - doe / 1460 + doe / 36524 - doe / 146096) / 365 in
  let doy := doe - (365 * yoe + yoe / 4 - yoe / 100) in
  let mp := (5 * doy + 2) / 153 in
  let d := doy - (153 * mp + 2) / 5 + 1 in
  (yoe, mp, d).

(** The calendar date of a day number. *)
Definition civilFromDays (z : Z) : Civil :=
  let z' := z + 719468 in
  let '(yoe, mp, d) := civilOfDoe (z' mod 146097) in
  let m := if mp <? 10 then mp + 3 else mp - 9 in
  {| year := yoe + (z' / 146097) * 400 + (if m <=? 2 then 1 else 0);
     month := m; day := d |}.

End Calendar.

(** ** [Date], as far as the sources use it *)

Module Date.
Import Calendar.

Definition msPerDay : Z := 86400000.

(** A time value in milliseconds since the epoch; [None] is the invalid date. *)
Definition t : Type := option Z.

Definition Day (tv : Z) : Z := tv / msPerDay.
Definition TimeWithinDay (tv : Z) : Z := tv mod msPerDay.

Definition YearFromTime (tv : Z) : Z := year (civilFromDays (Day tv)).
(** Months are numbered from 0 here, as in the language. *)
Definition MonthFromTime (tv : Z) : Z := month (civilFromDays (Day tv)) - 1.
Definition DateFromTime (tv : Z) : Z := day (civilFromDays (Day tv)).

Definition MakeDay (y m dt : Z) : Z :=
  daysFromCivil (y + m / 12) (m mod 12 + 1) 1 + dt - 1.

Definition MakeDate (d tm : Z) : Z := d * msPerDay + tm.

Definition TimeClip (tv : Z) : t :=
  if Z.abs tv >? 8640000000000000 then None else Some tv.

Import JS.

Definition isChar (s : string) (i : nat) (c : ascii) : bool :=
  match String.get i s with
  | Some a => Ascii.eqb a c
  | None => false
  end.

(** The fields of a string of the shape [/^\d{4}-\d{2}-\d{2}$/]. *)
Definition matchISODate (s : string) : option (Z * Z * Z) :=
  if (Nat.eqb (String.length s) 10 && isChar s 4 "-" && isChar s 7 "-")%bool
  then
    y ← parseDigits (String.substring 0 4 s);
    m ← parseDigits (String.substring 5 2 s);
    d ← parseDigits (String.substring 8 2 s);
    Some (y, m, d)
  else None.

(** The fields [HH:mm:ss] of a suffix [THH:mm:ssZ]. *)
Definition matchTimeZ (s : string) : option (Z * Z * Z) :=
  if (Nat.eqb (String.length s) 10 && isChar s 0 "T" && isChar s 3 ":"
      && isChar s 6 ":" && isChar s 9 "Z")%bool
  then
    h ← parseDigits (String.substring 1 2 s);
    mi ← parseDigits (String.substring 4 2 s);
    se ← parseDigits (String.substring 7 2 s);
    Some (h, mi, se)
  else None.

(** The fields [HH:mm:ss.sss] of a suffix [THH:mm:ss.sssZ]. *)
Definition matchTimeMsZ (s : string) : option (Z * Z * Z * Z) :=
  if (Nat.eqb (String.length s) 14 && isChar s 0 "T" && isChar s 3 ":"
      && isChar s 6 ":" && isChar s 9 "." && isChar s 13 "Z")%bool
  then
    h ← parseDigits (String.substring 1 2 s);
    mi ← parseDigits (String.substring 4 2 s);
    se ← parseDigits (String.substring 7 2 s);
    ms ← parseDigits (String.substring 10 3 s);
    Some (h, mi, se, ms)
  else None.

(** The time of the day that follows the date in [s], in UTC. *)
Definition timeOfDay (s : string) : option (Z * Z * Z * Z) :=
  if Nat.eqb (String.length s) 10 then Some (0, 0, 0, 0)
  else
    let suffix := String.substring 10 (String.length s - 10) s in
    match matchTimeZ suffix with
    | Some (h, mi, se) => Some (h, mi, se, 0)
    | None => matchTimeMsZ suffix
    end.

(** [Date.parse] on the shapes the sources build: the date-only form
    [YYYY-MM-DD] (read as UTC midnight), [YYYY-MM-DDTHH:mm:ssZ] and the form
    of [toISOString], [YYYY-MM-DDTHH:mm:ss.sssZ].  Month 01..12 and day
    01..31 are accepted, and a day past the end of its month rolls over into
    the next one, as in V8; any other string is [NaN] here (see [Mcp.newDate]
    for the strings of other shapes that reach the renderer). *)
Definition parse (s : string) : t :=
  '(y, m, d) ← matchISODate (String.substring 0 10 s);
  '(h, mi, se, ms) ← timeOfDay s;
  if ((1 <=? m) && (m <=? 12) && (1 <=? d) && (d <=? 31)
      && (h <=? 23) && (mi <=? 59) && (se <=? 59))%bool
  then TimeClip (MakeDate (MakeDay y (m - 1) d)
                   (h * 3600000 + mi * 60000 + se * 1000 + ms))
  else None.

(** [new Date(s)]. *)
Definition new (s : string) : t := parse s.

(** [date.getUTCDate()]; [None] is [NaN]. *)
Definition getUTCDate (date : t) : option Z := DateFromTime <$> date.

(** [date.setUTCDate(dt)] where [dt] may be [NaN]; the new time value. *)
Definition setUTCDate (date : t) (dt : option Z) : t :=
  tv ← date;
  d ← dt;
  TimeClip (MakeDate (MakeDay (YearFromTime tv) (MonthFromTime tv) d) (TimeWithinDay tv)).

(** The year field of [toISOString]: four digits, or a sign and six. *)
Definition isoYear (y : Z) : string :=
  if ((0 <=? y) && (y <=? 9999))%bool then digits 4 y
  else if y <? 0 then ("-" ++ digits 6 (- y))%string
  else ("+" ++ digits 6 y)%string.

Definition isoDate (c : Civil) : string :=
  (isoYear (year c) ++ "-" ++ digits 2 (month c) ++ "-" ++ digits 2 (day c))%string.

(** The ISO spelling of a time value. *)
Definition isoString (tv : Z) : string :=
  let tm := TimeWithinDay tv in
  (isoDate (civilFromDays (Day tv)) ++ "T"
   ++ digits 2 (tm / 3600000) ++ ":"
   ++ digits 2 (tm / 60000 mod 60) ++ ":"
   ++ digits 2 (tm / 1000 mod 60) ++ "."
   ++ digits 3 (tm mod 1000) ++ "Z")%string.

(** [date.toISOString()]: raises a [RangeError] on the invalid date. *)
Definition toISOString (date : t) : JS.Exc string :=
  match date with
  | None => JS.Raise (JS.RangeError "Invalid time value")
  | Some tv => JS.Return (isoString tv)
  end.

End Date.

(** ** [src/types.ts] *)

Inductive CabinClass : Type := economy | premium_economy | business | first.

Inductive StayType : Type := budget | mid | premium.

#[global] Instance StayType_eq_dec : EqDecision StayType.
Proof. solve_decision. Defined.

Definition StayType_eqb (a b : StayType) : bool := bool_decide (a = b).

Definition StayType_toString (ty : StayType) : string :=
  match ty with budget => "budget" | mid => "mid" | premium => "premium" end.

Record PlanTripInput : Type := {
  pti_origin : option string;
  pti_destination : string;
  pti_startDate : string;
  pti_days : option Z;
  pti_budgetUSD : option Q;
  pti_interests : option (list string)
}.

Record DestinationInfo : Type := {
  dest_name : string;
  dest_country : string;
  dest_lat : Q;
  dest_lon : Q
}.

Record TripDates : Type := { td_start : string; td_end : string; td_days : Z }.

(** [hiC] and [loC] are [None] when the number is [NaN]. *)
Record WeatherDay : Type := {
  wd_date : string;
  hiC : option Q;
  loC : option Q;
  precipProb : option Q
}.

Record WeatherSnapshot : Type := { daily : list WeatherDay }.

Record FlightOption : Type := {
  carrier : string;
  fo_from : string;
  fo_to : string;
  depart : string;
  arrive : string;
  priceUSD : Z;
  fo_link : option string
}.

Record FlightsResult : Type := {
  fr_note : option string;
  fr_options : list FlightOption
}.

Record StayOption : Type := {
  stay_name : string;
  stay_type : StayType;
  pricePerNightUSD : Z;
  totalUSD : Z;
  rating : option Q;
  address : option string;
  stay_link : option string
}.

Record StaysResult : Type := {
  sr_note : option string;
  sr_options : list StayOption
}.

Record PlaceOption : Type := {
  place_id : string;
  place_name : string;
  category : string;
  place_lat : Q;
  place_lon : Q;
  url : option string;
  estMinutes : option Z
}.

Record PlacesResult : Type := {
  pr_note : option string;
  pr_options : list PlaceOption
}.

Record ItineraryDay : Type := {
  it_day : Z;
  it_date : string;
  morning : list string;
  afternoon : list string;
  evening : list string;
  mapUrl : option string
}.

Record CostEstimate : Type := {
  lowUSD : Z;
  midUSD : Z;
  highUSD : Z;
  ce_notes : list string
}.

Record ToolMeta : Type := {
  generatedAt : string;
  providers : list string;
  cached : bool
}.

Record FlightSearchParams : Type := {
  fsp_origin : string;
  fsp_destination : string;
  departDate : string;
  returnDate : option string;
  adults : option Z;
  cabin : option CabinClass
}.

Record StaySearchParams : Type := {
  ssp_destination : string;
  checkIn : string;
  nights : Z;
  guests : option Z
}.

Record AttractionSearchParams : Type := {
  asp_destination : string;
  tags : option (list string);
  limit : option Z
}.

Record WeatherQueryParams : Type := {
  wq_lat : Q;
  wq_lon : Q;
  wq_startDate : string;
  wq_days : Z
}.

Record AmadeusCredentials : Type := { clientId : string; clientSecret : string }.

Record ProviderConfig : Type := {
  amadeus : option AmadeusCredentials;
  skyscanner : option string;
  booking : option string;
  openTripMap : option string
}.

(** What the shared cache holds: the result objects of the five providers,
    stored under keys that begin with the provider's prefix. *)
Inductive CacheValue : Type :=
| VDestination (d : DestinationInfo)
| VWeather (w : WeatherSnapshot)
| VFlights (f : FlightsResult)
| VStays (s : StaysResult)
| VPlaces (p : PlacesResult).

(** [ProviderContext]: the borrowed cache and the provenance set of a request. *)
Record ProviderContext : Type := {
  cache : Cache.TTLCache CacheValue;
  providersUsed : list string
}.

Record PlanTripResult : Type := {
  ptr_destination : DestinationInfo;
  ptr_dates : TripDates;
  ptr_weather : WeatherSnapshot;
  ptr_flights : option FlightsResult;
  ptr_stays : list StayOption;
  ptr_places : list PlaceOption;
  ptr_itinerary : list ItineraryDay;
  ptr_costEstimate : CostEstimate;
  ptr_html : string;
  ptr_meta : ToolMeta
}.

(** The results of the four single tools: the provider result (spread into
    the object in the source), the rendering and the metadata. *)
Record FlightsToolResult : Type := {
  ftr_flights : FlightsResult;
  ftr_html : string;
  ftr_meta : ToolMeta
}.

Record StaysToolResult : Type := {
  str_stays : StaysResult;
  str_html : string;
  str_meta : ToolMeta
}.

Record PlacesToolResult : Type := {
  plr_places : PlacesResult;
  plr_html : string;
  plr_meta : ToolMeta
}.

Record WeatherToolResult : Type := {
  wtr_weather : WeatherSnapshot;
  wtr_html : string;
  wtr_meta : ToolMeta
}.

(** ** What the network answers

    Every [fetch] of the sources gets its answer from an outcome value, so that
    a provider is a function of its arguments, the context, the clock and the
    outcomes of the requests it may send. *)

Inductive FetchOutcome (Body : Type) : Type :=
| FetchRejected
    (** the promise of [fetch] rejects: no connection, DNS failure, ... *)
| Response (ok : bool) (status : Z) (body : option Body)
    (** a response arrived; [body] is [None] when [response.json()] rejects
        (the body is not JSON) or yields [null] or [undefined], so that the
        first access to the payload raises; otherwise it is the payload, a
        value of the interface type that the code casts it to. *).
Arguments FetchRejected {Body}.
Arguments Response {Body} ok status body.

(** ** Helpers on the provider context *)

Module Ctx.

Definition get (context : ProviderContext) (now : Z) (key : string)
    : option CacheValue * ProviderContext :=
  let '(v, c) := Cache.get (cache context) now key in
  (v, {| cache := c; providersUsed := providersUsed context |}).

Definition set (context : ProviderContext) (now : Z) (key : string) (v : CacheValue)
    : ProviderContext :=
  {| cache := Cache.set (cache context) now key v None;
     providersUsed := providersUsed context |}.

Definition add (context : ProviderContext) (tag : string) : ProviderContext :=
  {| cache := cache context; providersUsed := JS.Set_add tag (providersUsed context) |}.

(** A value of another provider found under this provider's key: the key
    prefixes exclude it, see [WellKeyed]. *)
Definition confused {A : Type} (context : ProviderContext) : JS.Exc A * ProviderContext :=
  (JS.Raise (JS.TypeError "cached value of another provider"), context).

(** [try { body } catch (error) { handler }] on a computation with state. *)
Definition tryCatch {A : Type} (body : JS.Exc A * ProviderContext)
    (handler : ProviderContext -> JS.Exc A * ProviderContext)
    : JS.Exc A * ProviderContext :=
  match body with
  | (JS.Return a, context) => (JS.Return a, context)
  | (JS.Raise _, context) => handler context
  end.

(** Computations that use the context and may raise. *)
Definition M (A : Type) : Type := ProviderContext -> JS.Exc A * ProviderContext.

#[global] Instance M_ret : MRet M := fun A a context => (JS.Return a, context).

#[global] Instance M_bind : MBind M := fun A B k m context =>
  match m context with
  | (JS.Return a, context') => k a context'
  | (JS.Raise e, context') => (JS.Raise e, context')
  end.

Definition call {A : Type} (f : ProviderContext -> JS.Exc A * ProviderContext) : M A := f.
Definition lift {A : Type} (e : JS.Exc A) : M A := fun context => (e, context).
Definition current : M ProviderContext := fun context => (JS.Return context, context).

End Ctx.

(** ** [src/providers/weather.ts] *)

Module Weather.

Record OpenMeteoDaily : Type := {
  om_time : list string;
  temperature_2m_max : list Q;
  temperature_2m_min : list Q;
  precipitation_probability_max : option (list Q)
}.

Record OpenMeteoResponse : Type := { om_daily : option OpenMeteoDaily }.

(** [function addDays(start, days)]. *)
Definition addDays (start : string) (days : Z) : JS.Exc string :=
  let date := Date.new start in
  let date := Date.setUTCDate date ((fun d => d + days) <$> Date.getUTCDate date) in
  iso ← Date.toISOString date;
  mret (String.substring 0 10 iso).

(** The callback of [Array.from] in [buildMockWeather]. *)
Definition mockDay (start : Date.t) (index : Z) : JS.Exc WeatherDay :=
  let date := start in
  let date := Date.setUTCDate date ((fun d => d + index) <$> Date.getUTCDate start) in
  let baseHi := 30 - index in
  iso ← Date.toISOString date;
  mret {| wd_date := String.substring 0 10 iso;
          hiC := Some (inject_Z baseHi);
          loC := Some (inject_Z (baseHi - 6));
          precipProb := Some (inject_Z (20 + index * 5)) |}.

(** The indices [0 .. n-1]. *)
Definition indices (n : nat) : list Z := map Z.of_nat (seq 0 n).

(** [function buildMockWeather(params)].  [Array.from({ length })] raises for
    a length above [2^32 - 1]; a negative length gives the empty array. *)
Definition buildMockWeather (params : WeatherQueryParams) : JS.Exc WeatherSnapshot :=
  let start := Date.new (wq_startDate params) in
  if wq_days params >? 4294967295 then JS.Raise (JS.RangeError "Invalid array length")
  else
    days ← JS.mapM (mockDay start) (indices (Z.to_nat (wq_days params)));
    mret {| daily := days |}.

Definition cacheKey (params : WeatherQueryParams) : string :=
  ("weather:" ++ JS.jsonObject
     [("lat", Some (JS.Number_toString (wq_lat params)));
      ("lon", Some (JS.Number_toString (wq_lon params)));
      ("startDate", Some (JS.jsonString (wq_startDate params)));
      ("days", Some (JS.Z_toString (wq_days params)))])%string.

(** The three statements that every fallback branch repeats. *)
Definition useMock (params : WeatherQueryParams) (now : Z) (context : ProviderContext)
    : JS.Exc WeatherSnapshot * ProviderContext :=
  match buildMockWeather params with
  | JS.Raise e => (JS.Raise e, context)
  | JS.Return mock =>
      let context := Ctx.add context "weather:mock" in
      let context := Ctx.set context now (cacheKey params) (VWeather mock) in
      (JS.Return mock, context)
  end.

(** [Number(x?.toFixed(1))] for an array element that may be missing. *)
Definition toFixed1 (x : option Q) : option Q :=
  (fun q => if Qle_bool 0 q then (JS.Math_round (q * 10) # 1) / 10
            else - ((JS.Math_round (- q * 10) # 1) / 10))%Q <$> x.

Definition liveDays (d : OpenMeteoDaily) : list WeatherDay :=
  map (fun '(index, time) =>
         {| wd_date := time;
            hiC := toFixed1 (nth_error (temperature_2m_max d) index);
            loC := toFixed1 (nth_error (temperature_2m_min d) index);
            precipProb := precipitation_probability_max d ≫= (fun l => nth_error l index) |})
      (combine (seq 0 (List.length (om_time d))) (om_time d)).

(** [export async function weatherProvider(params, context, _config)]. *)
Definition weatherProvider (params : WeatherQueryParams) (context : ProviderContext)
    (_config : ProviderConfig) (now : Z) (upstream : FetchOutcome OpenMeteoResponse)
    : JS.Exc WeatherSnapshot * ProviderContext :=
  let '(cached, context) := Ctx.get context now (cacheKey params) in
  match cached with
  | Some (VWeather w) => (JS.Return w, Ctx.add context "cache:open-meteo")
  | Some _ => Ctx.confused context
  | None =>
      Ctx.tryCatch
        match addDays (wq_startDate params) (wq_days params - 1) with
        | JS.Raise e => (JS.Raise e, context)
        | JS.Return _endDate =>
            match upstream with
            | FetchRejected => (JS.Raise (JS.TypeError "fetch failed"), context)
            | Response ok _ body =>
                if negb ok then useMock params now context
                else
                  match body with
                  | None => (JS.Raise (JS.TypeError "invalid payload"), context)
                  | Some data =>
                      match om_daily data with
                      | None => useMock params now context
                      | Some d =>
                          if Nat.eqb (List.length (om_time d)) 0
                          then useMock params now context
                          else
                            let snapshot := {| daily := liveDays d |} in
                            let context := Ctx.add context "open-meteo" in
                            let context :=
                              Ctx.set context now (cacheKey params) (VWeather snapshot) in
                            (JS.Return snapshot, context)
                      end
                  end
            end
        end
        (fun context => useMock params now context)
  end.

End Weather.

(** ** [src/providers/flights.ts] *)

Module Flights.

Definition MOCK_FLIGHTS : list FlightOption :=
  [ {| carrier := "Mock Air"; fo_from := "AAA"; fo_to := "BBB";
       depart := "2025-01-10T08:30:00"; arrive := "2025-01-10T12:10:00";
       priceUSD := 425; fo_link := Some "https://example.com/mock-air" |};
    {| carrier := "Sample Airlines"; fo_from := "AAA"; fo_to := "BBB";
       depart := "2025-01-10T13:45:00"; arrive := "2025-01-10T17:20:00";
       priceUSD := 468; fo_link := Some "https://example.com/sample-air" |};
    {| carrier := "Demo Jet"; fo_from := "AAA"; fo_to := "BBB";
       depart := "2025-01-10T19:15:00"; arrive := "2025-01-10T22:55:00";
       priceUSD := 512; fo_link := Some "https://example.com/demo-jet" |} ].

Record AmadeusTokenResponse : Type := { access_token : option string }.

Record Endpoint : Type := { iataCode : option string; at_ : string }.

Record Segment : Type := {
  departure : Endpoint;
  arrival : Endpoint;
  marketingCarrierCode : option string;
  carrierCode : option string
}.

Record AmadeusFlightOffer : Type := {
  price_total : option string;
  itineraries : option (list (list Segment))
}.

Record SearchResponse : Type := { data : option (list AmadeusFlightOffer) }.

Definition cabinMap (c : CabinClass) : string :=
  match c with
  | economy => "ECONOMY"
  | premium_economy => "PREMIUM_ECONOMY"
  | business => "BUSINESS"
  | first => "FIRST"
  end.

Definition CabinClass_toString (c : CabinClass) : string :=
  match c with
  | economy => "economy"
  | premium_economy => "premium_economy"
  | business => "business"
  | first => "first"
  end.

(** [async function fetchAmadeusToken]: [Return None] is [null]. *)
Definition fetchAmadeusToken (clientId clientSecret : string)
    (upstream : FetchOutcome AmadeusTokenResponse) : JS.Exc (option string) :=
  match upstream with
  | FetchRejected => JS.Raise (JS.TypeError "fetch failed")
  | Response ok _ body =>
      if negb ok then JS.Return None
      else match body with
           | None => JS.Raise (JS.TypeError "invalid payload")
           | Some json => JS.Return (access_token json)
           end
  end.

(** [function mapAmadeusOfferToOption(offer, fallback)]. *)
Definition mapAmadeusOfferToOption (offer : AmadeusFlightOffer)
    (fallback : FlightSearchParams) : option FlightOption :=
  let price := price_total offer ≫= JS.StringToNumber in
  match itineraries offer ≫= head with
  | None => None
  | Some segments =>
      match head segments, last segments with
      | Some firstSegment, Some lastSegment =>
          Some {| carrier :=
                    JS.nullish
                      (JS.nullishOpt (marketingCarrierCode firstSegment)
                         (carrierCode firstSegment))
                      "Amadeus Partner";
                  fo_from := JS.nullish (iataCode (departure firstSegment))
                               (fsp_origin fallback);
                  fo_to := JS.nullish (iataCode (arrival lastSegment))
                             (fsp_destination fallback);
                  depart := at_ (departure firstSegment);
                  arrive := at_ (arrival lastSegment);
                  priceUSD := match price with
                              | Some p => JS.Math_round p
                              | None => 0
                              end;
                  fo_link := None |}
      | _, _ => None
      end
  end.

(** The body of the [try] block of [fetchAmadeusFlights]. *)
Definition searchOffers (params : FlightSearchParams) (credentials : AmadeusCredentials)
    (tokenUpstream : FetchOutcome AmadeusTokenResponse)
    (searchUpstream : FetchOutcome SearchResponse) : JS.Exc (option FlightsResult) :=
  token ← fetchAmadeusToken (clientId credentials) (clientSecret credentials) tokenUpstream;
  if negb (JS.truthyOpt token) then mret None
  else
    match searchUpstream with
    | FetchRejected => JS.Raise (JS.TypeError "fetch failed")
    | Response ok _ body =>
        if negb ok then mret None
        else
          match body with
          | None => JS.Raise (JS.TypeError "invalid payload")
          | Some json =>
              let options :=
                match data json with
                | Some offers =>
                    omap (fun offer => mapAmadeusOfferToOption offer params)
                         (JS.slice0 offers 5)
                | None => []
                end in
              if Nat.eqb (List.length options) 0 then mret None
              else mret (Some {| fr_note := None; fr_options := options |})
          end
    end.

(** [async function fetchAmadeusFlights(params, config)]: never raises. *)
Definition fetchAmadeusFlights (params : FlightSearchParams) (config : ProviderConfig)
    (tokenUpstream : FetchOutcome AmadeusTokenResponse)
    (searchUpstream : FetchOutcome SearchResponse) : option FlightsResult :=
  match amadeus config with
  | None => None
  | Some credentials =>
      if negb (JS.truthy (clientId credentials) && JS.truthy (clientSecret credentials))
      then None
      else
        match searchOffers params credentials tokenUpstream searchUpstream with
        | JS.Return r => r
        | JS.Raise _ => None
        end
  end.

Definition schedule : list (Z * Z) := [(8, 12); (13, 17); (19, 23)].

(** [String(h).padStart(2, '0')]. *)
Definition padStart2 (s : string) : string :=
  match String.length s with
  | O => "00"
  | S O => ("0" ++ s)%string
  | _ => s
  end.

(** The callback of [MOCK_FLIGHTS.map] in [buildMockFlights]. *)
Definition mockFlight (params : FlightSearchParams) (entry : nat * FlightOption)
    : JS.Exc FlightOption :=
  let '(index, flight) := entry in
  let hours := JS.nullish (JS.nullishOpt (nth_error schedule index) (head schedule)) (8, 12) in
  let depart := Date.new (departDate params ++ "T" ++ padStart2 (JS.Z_toString (fst hours))
                          ++ ":15:00Z")%string in
  let arrive := Date.new (departDate params ++ "T" ++ padStart2 (JS.Z_toString (snd hours))
                          ++ ":45:00Z")%string in
  departIso ← Date.toISOString depart;
  arriveIso ← Date.toISOString arrive;
  mret {| carrier := (carrier flight ++ " "
                      ++ String (ascii_of_nat (65 + index)) EmptyString)%string;
          fo_from := JS.toUpperCase (fsp_origin params);
          fo_to := JS.toUpperCase (fsp_destination params);
          depart := departIso;
          arrive := arriveIso;
          priceUSD := priceUSD flight;
          fo_link := fo_link flight |}.

(** [function buildMockFlights(params)]. *)
Definition buildMockFlights (params : FlightSearchParams) : JS.Exc (list FlightOption) :=
  JS.mapM (mockFlight params)
          (combine (seq 0 (List.length MOCK_FLIGHTS)) MOCK_FLIGHTS).

Definition cacheKey (params : FlightSearchParams) : string :=
  ("flights:" ++ JS.jsonObject
     [("origin", Some (JS.jsonString (fsp_origin params)));
      ("destination", Some (JS.jsonString (fsp_destination params)));
      ("departDate", Some (JS.jsonString (departDate params)));
      ("returnDate", JS.jsonString <$> returnDate params);
      ("adults", JS.Z_toString <$> adults params);
      ("cabin", (fun c => JS.jsonString (CabinClass_toString c)) <$> cabin params)])%string.

Definition mockNote : string :=
  "Using mock flight data. Add Amadeus credentials to retrieve live fares.".

(** [export async function searchFlightsProvider(params, context, config)]. *)
Definition searchFlightsProvider (params : FlightSearchParams) (context : ProviderContext)
    (config : ProviderConfig) (now : Z)
    (tokenUpstream : FetchOutcome AmadeusTokenResponse)
    (searchUpstream : FetchOutcome SearchResponse)
    : JS.Exc FlightsResult * ProviderContext :=
  let '(cached, context) := Ctx.get context now (cacheKey params) in
  match cached with
  | Some (VFlights f) => (JS.Return f, Ctx.add context "cache:flights")
  | Some _ => Ctx.confused context
  | None =>
      match fetchAmadeusFlights params config tokenUpstream searchUpstream with
      | Some liveResult =>
          let context := Ctx.add context "amadeus" in
          let context := Ctx.set context now (cacheKey params) (VFlights liveResult) in
          (JS.Return liveResult, context)
      | None =>
          let context := Ctx.add context "flights:mock" in
          match buildMockFlights params with
          | JS.Raise e => (JS.Raise e, context)
          | JS.Return options =>
              let mockResult := {| fr_note := Some mockNote; fr_options := options |} in
              let context := Ctx.set context now (cacheKey params) (VFlights mockResult) in
              (JS.Return mockResult, context)
          end
      end
  end.

End Flights.

(** ** [src/providers/stays.ts] *)

Module Stays.

(** An entry of [MOCK_STAYS]: a [StayOption] without its two prices. *)
Record MockStay : Type := {
  ms_name : string;
  ms_type : StayType;
  ms_rating : option Q;
  ms_address : option string;
  ms_link : option string
}.

Definition mockStay (n : string) (ty : StayType) (r : Q) (a l : string) : MockStay :=
  {| ms_name := n; ms_type := ty; ms_rating := Some r; ms_address := Some a;
     ms_link := Some l |}.

Definition MOCK_STAYS : list MockStay :=
  [ mockStay "Old Town Guesthouse" budget (44 # 10)
      "Soi Moonmuang 8, Chiang Mai" "https://example.com/old-town-guesthouse";
    mockStay "Nimman Boutique Hotel" mid (46 # 10)
      "Nimmanahaeminda Rd., Chiang Mai" "https://example.com/nimman-boutique";
    mockStay "Ping River Retreat" premium (48 # 10)
      "Charoenrat Rd., Chiang Mai" "https://example.com/ping-river-retreat";
    mockStay "Night Bazaar Lofts" mid (45 # 10)
      "Chang Khlan Rd., Chiang Mai" "https://example.com/night-bazaar-lofts";
    mockStay "Doi Suthep View Villas" premium (49 # 10)
      "Huay Kaew Rd., Chiang Mai" "https://example.com/doi-suthep-view";
    mockStay "Backpackers Hub Hostel" budget (42 # 10)
      "Tha Phae Gate, Chiang Mai" "https://example.com/backpackers-hub";
    mockStay "Riverside Boutique Suites" premium (47 # 10)
      "Wat Ket, Chiang Mai" "https://example.com/riverside-boutique";
    mockStay "Garden Lane Homestay" budget (43 # 10)
      "Santitham, Chiang Mai" "https://example.com/garden-lane-homestay";
    mockStay "Craft Hotel Nimman" mid (46 # 10)
      "Nimmanahaeminda Soi 11, Chiang Mai" "https://example.com/craft-hotel-nimman";
    mockStay "Zen Garden Residence" premium (49 # 10)
      "Mae Rim, Chiang Mai" "https://example.com/zen-garden-residence" ].

Definition basePrices (ty : StayType) : Z :=
  match ty with budget => 35 | mid => 82 | premium => 185 end.

(** [function withPricing(stays, params)]. *)
Definition withPricing (stays : list MockStay) (params : StaySearchParams)
    : list StayOption :=
  map (fun '(index, stay) =>
         let priceAdjust := (1 + inject_Z (Z.of_nat index) * (5 # 100))%Q in
         let nightly := JS.Math_round (inject_Z (basePrices (ms_type stay)) * priceAdjust) in
         let total := nightly * nights params in
         {| stay_name := ms_name stay; stay_type := ms_type stay;
            pricePerNightUSD := nightly; totalUSD := total;
            rating := ms_rating stay; address := ms_address stay;
            stay_link := ms_link stay |})
      (combine (seq 0 (List.length stays)) stays).

Definition cacheKey (params : StaySearchParams) : string :=
  ("stays:" ++ JS.jsonObject
     [("destination", Some (JS.jsonString (ssp_destination params)));
      ("checkIn", Some (JS.jsonString (checkIn params)));
      ("nights", Some (JS.Z_toString (nights params)));
      ("guests", JS.Z_toString <$> guests params)])%string.

Definition mockNote : string :=
  "Using curated Chiang Mai stays. Provide a Booking/Amadeus key to enable live inventory.".

(** [export async function searchStaysProvider(params, context, config)]; the
    branch on [config.booking] only logs. *)
Definition searchStaysProvider (params : StaySearchParams) (context : ProviderContext)
    (config : ProviderConfig) (now : Z) : JS.Exc StaysResult * ProviderContext :=
  let '(cached, context) := Ctx.get context now (cacheKey params) in
  match cached with
  | Some (VStays r) => (JS.Return r, Ctx.add context "cache:stays")
  | Some _ => Ctx.confused context
  | None =>
      let context := Ctx.add context "stays:mock" in
      let result := {| sr_note := Some mockNote;
                       sr_options := withPricing MOCK_STAYS params |} in
      let context := Ctx.set context now (cacheKey params) (VStays result) in
      (JS.Return result, context)
  end.

End Stays.

(** ** [src/providers/places.ts] *)

Module Places.

Record Properties : Type := {
  xid : option string;
  prop_name : string;
  kinds : option string
}.

(** [geometry.coordinates] is the pair [lon, lat]. *)
Record OpenTripMapFeature : Type := {
  feature_id : string;
  coordinates : Q * Q;
  properties : Properties
}.

Record RadiusResponse : Type := { features : option (list OpenTripMapFeature) }.

Definition MOCK_DESTINATION : DestinationInfo :=
  {| dest_name := "Chiang Mai"; dest_country := "Thailand";
     dest_lat := 187883 # 10000; dest_lon := 989853 # 10000 |}.

Definition mockPlace (i n c : string) (la lo : Q) (u : string) (m : Z) : PlaceOption :=
  {| place_id := i; place_name := n; category := c; place_lat := la; place_lon := lo;
     url := Some u; estMinutes := Some m |}.

Definition MOCK_PLACES : list PlaceOption :=
  [ mockPlace "mock-wat-phra-singh" "Wat Phra Singh" "temple"
      (18788889 # 1000000) (98981944 # 1000000) "https://goo.gl/maps/VWnvaQRcWtr" 90;
    mockPlace "mock-wat-chedi-luang" "Wat Chedi Luang" "temple"
      (18786944 # 1000000) (98985556 # 1000000) "https://goo.gl/maps/6L3pCTrGhm12" 75;
    mockPlace "mock-sunday-market" "Sunday Walking Street" "market"
      (187883 # 10000) (989853 # 10000) "https://goo.gl/maps/KTrgU5d5gNv" 120;
    mockPlace "mock-elephant-nature-park" "Elephant Nature Park" "nature"
      (189364 # 10000) (988576 # 10000) "https://goo.gl/maps/1pVxS6c3hHB2" 240;
    mockPlace "mock-doi-suthep" "Doi Suthep Temple" "temple"
      (188046 # 10000) (989215 # 10000) "https://goo.gl/maps/nc7ovjGpq8K2" 120;
    mockPlace "mock-grand-canyon" "Grand Canyon Water Park" "adventure"
      (186466 # 10000) (989807 # 10000) "https://goo.gl/maps/tT9nVWyN7Aq" 180;
    mockPlace "mock-warorot-market" "Warorot Market" "market"
      (18791 # 1000) (99001 # 1000) "https://goo.gl/maps/nsTfxcb5geT2" 90;
    mockPlace "mock-nimman-coffee" "Nimman Coffee Crawl" "food"
      (18799 # 1000) (98967 # 1000) "https://goo.gl/maps/owS1iEZzu1L2" 120;
    mockPlace "mock-night-safari" "Chiang Mai Night Safari" "wildlife"
      (187417 # 10000) (989236 # 10000) "https://goo.gl/maps/tiHXF6Uq7Kt" 150;
    mockPlace "mock-cooking-class" "Thai Farm Cooking School" "food"
      (188105 # 10000) (990288 # 10000) "https://goo.gl/maps/LpLwVB1USwq" 240;
    mockPlace "mock-artisan-village" "Bo Sang Umbrella Village" "culture"
      (187727 # 10000) (990857 # 10000) "https://goo.gl/maps/C2LKveJSu2R2" 120;
    mockPlace "mock-night-market" "Chiang Mai Night Bazaar" "market"
      (187837 # 10000) (990001 # 10000) "https://goo.gl/maps/hSu7dYNEsD52" 150 ].

(** [function mapKindsToCategory(kinds)]. *)
Definition mapKindsToCategory (kinds : string) : string :=
  if JS.includes kinds "temples" then "temple"
  else if JS.includes kinds "churches" || JS.includes kinds "religion" then "spiritual"
  else if JS.includes kinds "foods" || JS.includes kinds "restaurants" then "food"
  else if JS.includes kinds "natural" then "nature"
  else if JS.includes kinds "cultural" then "culture"
  else if JS.includes kinds "museums" then "museum"
  else if JS.includes kinds "sport" then "adventure"
  else if JS.includes kinds "amusements" then "entertainment"
  else if JS.includes kinds "shopping" then "shopping"
  else "attraction".

(** [function mapKindsToDuration(kinds)]. *)
Definition mapKindsToDuration (kinds : string) : Z :=
  if JS.includes kinds "foods" || JS.includes kinds "restaurants" then 90
  else if JS.includes kinds "temples" || JS.includes kinds "religion" then 120
  else if JS.includes kinds "museums" then 120
  else if JS.includes kinds "natural" then 180
  else 90.

Definition destKey (city : string) : string := ("dest:" ++ JS.toLowerCase city)%string.

Definition useMockDestination (city : string) (now : Z) (context : ProviderContext)
    : JS.Exc DestinationInfo * ProviderContext :=
  let context := Ctx.add context "opentripmap:mock" in
  let context := Ctx.set context now (destKey city) (VDestination MOCK_DESTINATION) in
  (JS.Return MOCK_DESTINATION, context).

(** [export async function resolveDestination(city, context, config)]; the
    answer of the geoname request has the fields of a [DestinationInfo]. *)
Definition resolveDestination (city : string) (context : ProviderContext)
    (config : ProviderConfig) (now : Z) (upstream : FetchOutcome DestinationInfo)
    : JS.Exc DestinationInfo * ProviderContext :=
  let '(cached, context) := Ctx.get context now (destKey city) in
  match cached with
  | Some (VDestination d) => (JS.Return d, Ctx.add context "cache:opentripmap")
  | Some _ => Ctx.confused context
  | None =>
      if negb (JS.truthyOpt (openTripMap config)) then useMockDestination city now context
      else
        Ctx.tryCatch
          match upstream with
          | FetchRejected => (JS.Raise (JS.TypeError "fetch failed"), context)
          | Response ok _ body =>
              if negb ok then useMockDestination city now context
              else
                match body with
                | None => (JS.Raise (JS.TypeError "invalid payload"), context)
                | Some data =>
                    let destination :=
                      {| dest_name := dest_name data; dest_country := dest_country data;
                         dest_lat := dest_lat data; dest_lon := dest_lon data |} in
                    let context := Ctx.add context "opentripmap" in
                    let context :=
                      Ctx.set context now (destKey city) (VDestination destination) in
                    (JS.Return destination, context)
                end
          end
          (fun context => useMockDestination city now context)
  end.

Definition cacheKey (params : AttractionSearchParams) : string :=
  ("places:" ++ JS.jsonObject
     [("destination", Some (JS.jsonString (asp_destination params)));
      ("tags", (fun l => JS.jsonArray (map JS.jsonString l)) <$> tags params);
      ("limit", JS.Z_toString <$> limit params)])%string.

Definition useMockPlaces (params : AttractionSearchParams) (note : string) (n : Z)
    (now : Z) (context : ProviderContext) : JS.Exc PlacesResult * ProviderContext :=
  let context := Ctx.add context "opentripmap:mock" in
  let mockResult := {| pr_note := Some note; pr_options := JS.slice0 MOCK_PLACES n |} in
  let context := Ctx.set context now (cacheKey params) (VPlaces mockResult) in
  (JS.Return mockResult, context).

(** The callback that turns a feature into a [PlaceOption]. *)
Definition featureToPlace (feature : OpenTripMapFeature) : PlaceOption :=
  let '(lon, lat) := coordinates feature in
  let kinds := JS.nullish (kinds (properties feature)) "" in
  let name := prop_name (properties feature) in
  {| place_id := JS.nullish (xid (properties feature)) (feature_id feature);
     place_name := name;
     category := mapKindsToCategory kinds;
     place_lat := lat;
     place_lon := lon;
     url := Some ("https://www.google.com/maps/search/?api=1&query="
                  ++ JS.encodeURIComponent
                       (name ++ " " ++ JS.Number_toString lat ++ ","
                        ++ JS.Number_toString lon))%string;
     estMinutes := Some (mapKindsToDuration kinds) |}.

Definition noteNoKey : string :=
  "Using curated Chiang Mai attractions. Add an OpenTripMap key for live data.".
Definition noteFailed : string :=
  "OpenTripMap request failed, using curated Chiang Mai attractions.".
Definition noteEmpty : string :=
  "OpenTripMap returned no places, using curated Chiang Mai attractions.".
Definition noteErrored : string :=
  "OpenTripMap request errored, using curated Chiang Mai attractions.".

(** [export async function nearbyAttractionsProvider(params, context, config)];
    [geoUpstream] answers the geoname request of the nested
    [resolveDestination], [upstream] the radius request. *)
Definition nearbyAttractionsProvider (params : AttractionSearchParams)
    (context : ProviderContext) (config : ProviderConfig) (now : Z)
    (geoUpstream : FetchOutcome DestinationInfo)
    (upstream : FetchOutcome RadiusResponse)
    : JS.Exc PlacesResult * ProviderContext :=
  let '(cached, context) := Ctx.get context now (cacheKey params) in
  match cached with
  | Some (VPlaces r) => (JS.Return r, Ctx.add context "cache:opentripmap")
  | Some _ => Ctx.confused context
  | None =>
      if negb (JS.truthyOpt (openTripMap config))
      then useMockPlaces params noteNoKey (JS.nullish (limit params) 12) now context
      else
        Ctx.tryCatch
          match resolveDestination (asp_destination params) context config now geoUpstream with
          | (JS.Raise e, context) => (JS.Raise e, context)
          | (JS.Return _destination, context) =>
              let limit := JS.nullish (limit params) 12 in
              match upstream with
              | FetchRejected => (JS.Raise (JS.TypeError "fetch failed"), context)
              | Response ok _ body =>
                  if negb ok then useMockPlaces params noteFailed limit now context
                  else
                    match body with
                    | None => (JS.Raise (JS.TypeError "invalid payload"), context)
                    | Some json =>
                        let features := JS.nullish (features json) [] in
                        let options :=
                          JS.slice0
                            (map featureToPlace
                               (List.filter (fun feature =>
                                               JS.truthy (prop_name (properties feature)))
                                            features))
                            limit in
                        if Nat.eqb (List.length options) 0
                        then useMockPlaces params noteEmpty limit now context
                        else
                          let result := {| pr_note := None; pr_options := options |} in
                          let context := Ctx.add context "opentripmap" in
                          let context :=
                            Ctx.set context now (cacheKey params) (VPlaces result) in
                          (JS.Return result, context)
                    end
              end
          end
          (fun context =>
             useMockPlaces params noteErrored (JS.nullish (limit params) 12) now context)
  end.

End Places.

(** ** [src/mcp.ts] *)

Module Mcp.

(** *** Unvalidated input *)

#[warnings="-register-all"]
Inductive JSValue : Type :=
| JUndefined
| JNull
| JBool (b : bool)
| JNumber (q : Q)
| JString (s : string)
| JArray (items : list JSValue)
| JObject (fields : list (string * JSValue)).

(** The property [key] of a value, as object destructuring reads it. *)
Definition getField (input : JSValue) (key : string) : JSValue :=
  match input with
  | JObject fields =>
      match List.find (fun kv => String.eqb (fst kv) key) fields with
      | Some kv => snd kv
      | None => JUndefined
      end
  | _ => JUndefined
  end.

(** [!input || typeof input !== 'object'] is false. *)
Definition isObject (input : JSValue) : bool :=
  match input with
  | JObject _ | JArray _ => true
  | _ => false
  end.

(** [Number(value)]; [None] is [NaN].  An array converts through its string
    form: only the empty and the one-element cases are modelled. *)
Definition ToNumber (value : JSValue) : option Q :=
  match value with
  | JUndefined => None
  | JNull => Some 0%Q
  | JBool b => Some (if b then 1%Q else 0%Q)
  | JNumber q => Some q
  | JString s => JS.StringToNumber s
  | JArray [] => Some 0%Q
  | JArray [JNumber q] => Some q
  | JArray [JString s] => JS.StringToNumber s
  | JArray _ => None
  | JObject _ => None
  end.

Definition error {A : Type} (msg : string) : JS.Exc A := JS.Raise (JS.PlainError msg).

(** [function coerceString(value)]. *)
Definition coerceString (value : JSValue) : option string :=
  match value with
  | JString s => if Nat.ltb 0 (String.length (JS.trim s)) then Some (JS.trim s) else None
  | _ => None
  end.

(** [function validateISODate(value, field)]. *)
Definition validateISODate (value field : string) : JS.Exc unit :=
  match Date.matchISODate value with
  | None => error ("`" ++ field ++ "` must be in YYYY-MM-DD format.")
  | Some _ =>
      match Date.parse value with
      | None => error ("`" ++ field ++ "` must be a valid date.")
      | Some _ => mret tt
      end
  end.

(** The interest and tag lists: strings only, trimmed, lowered, non-empty. *)
Definition cleanStrings (items : list JSValue) : option (list string) :=
  let filtered :=
    List.filter (fun item => Nat.ltb 0 (String.length item))
      (map (fun item => JS.toLowerCase (JS.trim item))
         (omap (fun item => match item with JString s => Some s | _ => None end) items)) in
  if Nat.ltb 0 (List.length filtered) then Some filtered else None.

(** [function validatePlanTripInput(input)]. *)
Definition validatePlanTripInput (input : JSValue) : JS.Exc PlanTripInput :=
  if negb (isObject input) then error "Input must be an object."
  else
    let origin := getField input "origin" in
    let destination := getField input "destination" in
    let startDate := getField input "startDate" in
    let days := getField input "days" in
    let budgetUSD := getField input "budgetUSD" in
    let interests := getField input "interests" in
    match coerceString destination with
    | None => error "`destination` is required."
    | Some resolvedDestination =>
        match coerceString startDate with
        | None => error "`startDate` is required."
        | Some resolvedStartDate =>
            _ ← validateISODate resolvedStartDate "startDate";
            resolvedDays ←
              match days with
              | JUndefined => mret 4
              | _ =>
                  match ToNumber days with
                  | Some numericDays =>
                      if negb (JS.Number_isInteger numericDays)
                         || negb (Qle_bool 1 numericDays)
                      then error "`days` must be a positive integer."
                      else mret (Qfloor numericDays)
                  | None => error "`days` must be a positive integer."
                  end
              end;
            resolvedBudget ←
              match budgetUSD with
              | JUndefined => mret None
              | _ =>
                  match ToNumber budgetUSD with
                  | Some numericBudget =>
                      if negb (Qle_bool 0 numericBudget)
                      then error "`budgetUSD` must be a positive number."
                      else mret (Some numericBudget)
                  | None => error "`budgetUSD` must be a positive number."
                  end
              end;
            let resolvedInterests :=
              match interests with
              | JArray items => cleanStrings items
              | _ => None
              end in
            let resolvedOrigin := coerceString origin in
            mret {| pti_origin := resolvedOrigin;
                    pti_destination := resolvedDestination;
                    pti_startDate := resolvedStartDate;
                    pti_days := Some resolvedDays;
                    pti_budgetUSD := resolvedBudget;
                    pti_interests := resolvedInterests |}
        end
    end.

(** The value of [FlightSearchParams['cabin']] spelled by an allowed string. *)
Definition cabinOfString (s : string) : option CabinClass :=
  if String.eqb s "economy" then Some economy
  else if String.eqb s "premium_economy" then Some premium_economy
  else if String.eqb s "business" then Some business
  else if String.eqb s "first" then Some first
  else None.

(** [function validateFlightSearchInput(input)]. *)
Definition validateFlightSearchInput (input : JSValue) : JS.Exc FlightSearchParams :=
  if negb (isObject input) then error "Input must be an object."
  else
    let origin := getField input "origin" in
    let destination := getField input "destination" in
    let departDate := getField input "departDate" in
    let returnDate := getField input "returnDate" in
    let adults := getField input "adults" in
    let cabin := getField input "cabin" in
    match coerceString origin, coerceString destination with
    | Some resolvedOrigin, Some resolvedDestination =>
        match coerceString departDate with
        | None => error "`departDate` is required."
        | Some resolvedDepartDate =>
            _ ← validateISODate resolvedDepartDate "departDate";
            resolvedReturnDate ←
              match returnDate with
              | JUndefined => mret None
              | _ =>
                  match coerceString returnDate with
                  | None => error "`returnDate` must be a valid string."
                  | Some returnStr =>
                      _ ← validateISODate returnStr "returnDate";
                      mret (Some returnStr)
                  end
              end;
            resolvedAdults ←
              match adults with
              | JUndefined => mret None
              | _ =>
                  match ToNumber adults with
                  | Some numericAdults =>
                      if negb (JS.Number_isInteger numericAdults)
                         || negb (Qle_bool 1 numericAdults)
                      then error "`adults` must be a positive integer."
                      else mret (Some (Qfloor numericAdults))
                  | None => error "`adults` must be a positive integer."
                  end
              end;
            resolvedCabin ←
              match cabin with
              | JUndefined => mret None
              | _ =>
                  match coerceString cabin ≫= cabinOfString with
                  | None =>
                      error
                        "`cabin` must be one of economy, premium_economy, business, or first."
                  | Some c => mret (Some c)
                  end
              end;
            mret {| fsp_origin := resolvedOrigin;
                    fsp_destination := resolvedDestination;
                    departDate := resolvedDepartDate;
                    returnDate := resolvedReturnDate;
                    adults := resolvedAdults;
                    cabin := resolvedCabin |}
        end
    | _, _ => error "`origin` and `destination` are required."
    end.

(** [function validateStaySearchInput(input)]. *)
Definition validateStaySearchInput (input : JSValue) : JS.Exc StaySearchParams :=
  if negb (isObject input) then error "Input must be an object."
  else
    let destination := getField input "destination" in
    let checkIn := getField input "checkIn" in
    let nights := getField input "nights" in
    let guests := getField input "guests" in
    match coerceString destination with
    | None => error "`destination` is required."
    | Some resolvedDestination =>
        match coerceString checkIn with
        | None => error "`checkIn` is required."
        | Some resolvedCheckIn =>
            _ ← validateISODate resolvedCheckIn "checkIn";
            resolvedNights ←
              match ToNumber nights with
              | Some resolvedNights =>
                  if negb (JS.Number_isInteger resolvedNights)
                     || negb (Qle_bool 1 resolvedNights)
                  then error "`nights` must be a positive integer."
                  else mret (Qfloor resolvedNights)
              | None => error "`nights` must be a positive integer."
              end;
            resolvedGuests ←
              match guests with
              | JUndefined => mret None
              | _ =>
                  match ToNumber guests with
                  | Some numericGuests =>
                      if negb (JS.Number_isInteger numericGuests)
                         || negb (Qle_bool 1 numericGuests)
                      then error "`guests` must be a positive integer when provided."
                      else mret (Some (Qfloor numericGuests))
                  | None => error "`guests` must be a positive integer when provided."
                  end
              end;
            mret {| ssp_destination := resolvedDestination;
                    checkIn := resolvedCheckIn;
                    nights := resolvedNights;
                    guests := resolvedGuests |}
        end
    end.

(** [function validateNearbyAttractionsInput(input)]. *)
Definition validateNearbyAttractionsInput (input : JSValue)
    : JS.Exc AttractionSearchParams :=
  if negb (isObject input) then error "Input must be an object."
  else
    let destination := getField input "destination" in
    let tags := getField input "tags" in
    let limit := getField input "limit" in
    match coerceString destination with
    | None => error "`destination` is required."
    | Some resolvedDestination =>
        let resolvedTags :=
          match tags with
          | JArray items => cleanStrings items
          | _ => None
          end in
        resolvedLimit ←
          match limit with
          | JUndefined => mret None
          | _ =>
              match ToNumber limit with
              | Some numericLimit =>
                  if negb (JS.Number_isInteger numericLimit)
                     || negb (Qle_bool 1 numericLimit)
                  then error "`limit` must be a positive integer."
                  else mret (Some (Qfloor numericLimit))
              | None => error "`limit` must be a positive integer."
              end
          end;
        mret {| asp_destination := resolvedDestination;
                tags := resolvedTags;
                limit := resolvedLimit |}
    end.

(** [function validateWeatherInput(input)]. *)
Definition validateWeatherInput (input : JSValue) : JS.Exc WeatherQueryParams :=
  if negb (isObject input) then error "Input must be an object."
  else
    let lat := getField input "lat" in
    let lon := getField input "lon" in
    let startDate := getField input "startDate" in
    let days := getField input "days" in
    match ToNumber lat with
    | None => error "`lat` must be between -90 and 90."
    | Some latitude =>
        if negb (Qle_bool (-90) latitude) || negb (Qle_bool latitude 90)
        then error "`lat` must be between -90 and 90."
        else
          match ToNumber lon with
          | None => error "`lon` must be between -180 and 180."
          | Some longitude =>
              if negb (Qle_bool (-180) longitude) || negb (Qle_bool longitude 180)
              then error "`lon` must be between -180 and 180."
              else
                match coerceString startDate with
                | None => error "`startDate` is required."
                | Some resolvedStartDate =>
                    _ ← validateISODate resolvedStartDate "startDate";
                    match ToNumber days with
                    | Some resolvedDays =>
                        if negb (JS.Number_isInteger resolvedDays)
                           || negb (Qle_bool 1 resolvedDays)
                        then error "`days` must be a positive integer."
                        else mret {| wq_lat := latitude;
                                     wq_lon := longitude;
                                     wq_startDate := resolvedStartDate;
                                     wq_days := Qfloor resolvedDays |}
                    | None => error "`days` must be a positive integer."
                    end
                end
          end
    end.

(** *** Formatting *)

(** [function escapeHtml(value)]: five replacements, one after the other. *)
Definition escapeHtml (value : string) : string :=
  JS.replaceAllChar "'" "&#39;"
    (JS.replaceAllChar JS.dquote "&quot;"
       (JS.replaceAllChar ">" "&gt;"
          (JS.replaceAllChar "<" "&lt;"
             (JS.replaceAllChar "&" "&amp;" value)))).

Fixpoint groupRev (cs : list ascii) (k : nat) : list ascii :=
  match cs with
  | [] => []
  | c :: rest =>
      if Nat.eqb k 3 then ","%char :: c :: groupRev rest 1
      else c :: groupRev rest (S k)
  end.

Definition groupThousands (s : string) : string :=
  string_of_list_ascii (rev (groupRev (rev (list_ascii_of_string s)) 0)).

(** [function formatCurrency(value)]: US dollars without fraction digits. *)
Definition formatCurrency (value : Q) : string :=
  let n := if Qle_bool 0 value then Qfloor (value + (1 # 2))
           else - Qfloor (- value + (1 # 2)) in
  ((if (n <? 0)%Z then "-" else "") ++ "$" ++ groupThousands (JS.Z_toString (Z.abs n)))%string.

(** What the platform decides. *)
Record Host : Type := {
  (** [Date.parse] on a string of another shape than those of [Date.parse]
      above: other ISO forms, and the formats that the engine chooses to
      read; [None] is [NaN] *)
  parseOther : string -> Date.t;
  (** [DATE_FORMATTER.format] and [TIME_FORMATTER.format] on a valid time
      value, in the time zone of the host *)
  dateFormat : Z -> string;
  timeFormat : Z -> string;
  (** [date.toLocaleString()] on a valid time value, in the locale and the
      time zone of the host *)
  localeString : Z -> string
}.

(** [new Date(value)] for a string of any shape. *)
Definition newDate (host : Host) (value : string) : Date.t :=
  match Date.parse value with
  | Some tv => Some tv
  | None => parseOther host value
  end.

(** [function formatDate(value)]: [format] raises a [RangeError] on the
    invalid date. *)
Definition formatDate (host : Host) (value : string) : JS.Exc string :=
  match newDate host value with
  | Some tv => JS.Return (dateFormat host tv)
  | None => JS.Raise (JS.RangeError "Invalid time value")
  end.

(** [function formatTime(value)]. *)
Definition formatTime (host : Host) (value : string) : JS.Exc string :=
  match newDate host value with
  | Some tv => JS.Return (timeFormat host tv)
  | None => JS.Raise (JS.RangeError "Invalid time value")
  end.

(** [new Date(value).toLocaleString()], which does not raise. *)
Definition toLocaleString (host : Host) (value : string) : string :=
  match newDate host value with
  | Some tv => localeString host tv
  | None => "Invalid Date"
  end.

(** [function addDays(base, offset)]. *)
Definition addDays (base : string) (offset : Z) : JS.Exc string :=
  let date := Date.new base in
  let date := Date.setUTCDate date ((fun d => d + offset) <$> Date.getUTCDate date) in
  iso ← Date.toISOString date;
  mret (String.substring 0 10 iso).

(** *** Provenance *)

(** [function createProviderContext(cache)]. *)
Definition createProviderContext (cache : Cache.TTLCache CacheValue) : ProviderContext :=
  {| cache := cache; providersUsed := [] |}.

(** [function formatProviderName(name)], for names that are not properties of
    [Object.prototype]. *)
Definition formatProviderName (name : string) : string :=
  if String.eqb name "amadeus" then "Amadeus"
  else if String.eqb name "opentripmap:mock" then "OpenTripMap (mock)"
  else if String.eqb name "opentripmap" then "OpenTripMap"
  else if String.eqb name "stays:mock" then "Mock stays"
  else if String.eqb name "flights:mock" then "Mock flights"
  else if String.eqb name "weather:mock" then "Weather (mock)"
  else if String.eqb name "open-meteo" then "Open-Meteo"
  else JS.replaceFirst name "cache:" "cache→".

(** [function providersFromContext(context)], at the clock reading [now]. *)
Definition providersFromContext (context : ProviderContext) (now : Z) : ToolMeta :=
  let providers := providersUsed context in
  let readableProviders :=
    map formatProviderName
      (List.filter (fun name => negb (JS.startsWith name "cache:")) providers) in
  let cached := existsb (fun name => JS.startsWith name "cache:") providers in
  {| generatedAt := Date.isoString now;
     providers := if Nat.ltb 0 (List.length readableProviders)
                  then readableProviders else ["mock-data"];
     cached := cached |}.

(** *** Stay tiers *)

(** [function selectStayTiers(options)]. *)
Definition selectStayTiers (options : list StayOption) : list StayOption :=
  let desiredTypes := [budget; mid; premium] in
  fold_left
    (fun result type =>
       let stay :=
         JS.nullishOpt
           (JS.find (fun option => StayType_eqb (stay_type option) type) options)
           (JS.find (fun _ => true) options) in
       match stay with
       | Some s => (result ++ [s])%list
       | None => result
       end)
    desiredTypes [].

(** *** Cost estimate *)

Record CostNotes : Type := {
  cn_flights : option string;
  cn_stays : option string;
  cn_places : option string;
  cn_weather : option string
}.

(** Every price is an integer, hence finite. *)
Definition Number_isFinite (_ : Z) : bool := true.

(** The sorted positive prices, when there is a flight result. *)
Definition flightPrices (flights : option FlightsResult) : option (list Z) :=
  (fun f =>
     JS.sort (fun a b => a - b <=? 0)
       (List.filter (fun price => Number_isFinite price && (price >? 0))
          (map priceUSD (fr_options f)))) <$> flights.

(** [flightLow], [flightMid] and [flightHigh]. *)
Definition flightComponents (flights : option FlightsResult) (originProvided : bool)
    : Z * Z * Z :=
  let flightPrices := flightPrices flights in
  let len := JS.nullish ((fun l => Z.of_nat (List.length l)) <$> flightPrices) 1 in
  let flightLow :=
    JS.nullish (flightPrices ≫= (fun l => JS.index l 0))
               (if originProvided then 0 else 0) in
  let flightMid :=
    JS.nullish (flightPrices ≫= (fun l => JS.index l (Z.min 1 (len - 1)))) flightLow in
  let flightHigh :=
    JS.nullish (flightPrices ≫= (fun l => JS.index l (Z.min 2 (len - 1)))) flightMid in
  (flightLow, flightMid, flightHigh).

(** [stayLookup]: the [Map] filled by [stays.forEach]. *)
Definition Map_set (m : StayType -> option StayOption) (k : StayType) (v : StayOption)
    : StayType -> option StayOption :=
  fun k' => if decide (k' = k) then Some v else m k'.

Definition stayLookup (stays : list StayOption) : StayType -> option StayOption :=
  fold_left (fun m stay => Map_set m (stay_type stay) stay) stays (fun _ => None).

(** [stayBudget], [stayMid] and [stayPremium]. *)
Definition stayComponents (stays : list StayOption) : Z * Z * Z :=
  let stayLookup := stayLookup stays in
  let stayBudget := JS.nullish (totalUSD <$> stayLookup budget) 0 in
  let stayMid := JS.nullish (totalUSD <$> stayLookup mid) stayBudget in
  let stayPremium := JS.nullish (totalUSD <$> stayLookup premium) stayMid in
  (stayBudget, stayMid, stayPremium).

(** [Math.round] of an integer. *)
Definition Math_round (z : Z) : Z := z.

(** [function computeCostEstimate(days, stays, flights, budget, originProvided, notes)]. *)
Definition computeCostEstimate (days : Z) (stays : list StayOption)
    (flights : option FlightsResult) (budget : option Q) (originProvided : bool)
    (notes : CostNotes) : CostEstimate :=
  let '(flightLow, flightMid, flightHigh) := flightComponents flights originProvided in
  let '(stayBudget, stayMid, stayPremium) := stayComponents stays in
  let dailySpendLow := 45 in
  let dailySpendMid := 75 in
  let dailySpendHigh := 130 in
  let activityLow := dailySpendLow * days in
  let activityMid := dailySpendMid * days in
  let activityHigh := dailySpendHigh * days in
  let lowUSD := Math_round (flightLow + stayBudget + activityLow) in
  let midUSD := Math_round (flightMid + stayMid + activityMid) in
  let highUSD := Math_round (flightHigh + stayPremium + activityHigh) in
  let costNotes :=
    [("Daily activity budgets: $" ++ JS.Z_toString dailySpendLow ++ "/"
      ++ JS.Z_toString dailySpendMid ++ "/" ++ JS.Z_toString dailySpendHigh
      ++ " (low/mid/high).")%string] in
  let costNotes :=
    match budget with
    | Some b =>
        if Qeq_bool b 0 then costNotes
        else (costNotes
              ++ [("Target budget: " ++ formatCurrency b ++ ".")%string;
                  ("Mid-range estimate is "
                   ++ (if Qle_bool (inject_Z midUSD) b then "within" else "above")
                   ++ " budget.")%string])%list
    | None => costNotes
    end in
  let push (note : option string) (l : list string) :=
    match note with
    | Some n => if JS.truthy n then (l ++ [n])%list else l
    | None => l
    end in
  let costNotes := push (cn_flights notes) costNotes in
  let costNotes := push (cn_stays notes) costNotes in
  let costNotes := push (cn_places notes) costNotes in
  let costNotes := push (cn_weather notes) costNotes in
  {| lowUSD := lowUSD; midUSD := midUSD; highUSD := highUSD; ce_notes := costNotes |}.

(** *** Itinerary *)

(** [function computeInterestScore(place, interests)]; [interests] is the
    [Set] in insertion order. *)
Definition computeInterestScore (place : PlaceOption) (interests : list string) : Q :=
  if Nat.eqb (List.length interests) 0 then 1%Q
  else
    let base := 1%Q in
    fold_left
      (fun score interest =>
         let score :=
           if JS.includes (JS.toLowerCase (category place)) interest
           then (score + 2)%Q else score in
         if JS.includes (JS.toLowerCase (place_name place)) interest
         then (score + (15 # 10))%Q else score)
      interests base.

(** [new Set((interests ?? []).map((item) => item.toLowerCase()))]. *)
Definition interestSet (interests : option (list string)) : list string :=
  JS.Set_from (map JS.toLowerCase (JS.nullish interests [])).

(** [scoredPlaces]: the places in descending score, ties in their order. *)
Definition scoredPlaces (places : list PlaceOption) (interests : option (list string))
    : list PlaceOption :=
  let interestSet := interestSet interests in
  map fst
    (JS.sort (fun a b => Qle_bool (snd b - snd a) 0)
       (map (fun place => (place, computeInterestScore place interestSet)) places)).

Definition morningFiller : string := "Leisurely breakfast and walking tour of the Old City".
Definition afternoonFiller : string := "Street food crawl & coffee tasting".
Definition eveningFiller : string := "Night market stroll & live music".

Definition morningText (p : PlaceOption) : string :=
  ("Start at " ++ place_name p ++ " (" ++ category p ++ ", ~"
   ++ JS.Z_toString (JS.nullish (estMinutes p) 90) ++ " mins)")%string.

Definition afternoonText (p : PlaceOption) : string :=
  ("Afternoon at " ++ place_name p ++ " (" ++ category p ++ ", ~"
   ++ JS.Z_toString (JS.nullish (estMinutes p) 90) ++ " mins)")%string.

Definition eveningText (p : PlaceOption) : string :=
  ("Evening at " ++ place_name p ++ " (" ++ category p ++ ")")%string.

(** The object [slots] built by one round of the loop, after the sunset rule. *)
Definition makeSlots (dayIndex : Z) (date : string)
    (morning afternoon evening : option PlaceOption) : ItineraryDay :=
  let eveningItem :=
    match evening with
    | Some e => eveningText e
    | None => eveningFiller
    end in
  let eveningItem :=
    match morning, evening with
    | Some m, Some e =>
        if String.eqb (category m) (category e)
        then (eveningItem ++ " with a sunset twist")%string else eveningItem
    | _, _ => eveningItem
    end in
  {| it_day := dayIndex + 1;
     it_date := date;
     morning := [match morning with Some m => morningText m | None => morningFiller end];
     afternoon :=
       [match afternoon with Some a => afternoonText a | None => afternoonFiller end];
     evening := [eveningItem];
     mapUrl := JS.nullishOpt (morning ≫= url)
                 (JS.nullishOpt (afternoon ≫= url) (evening ≫= url)) |}.

(** The [for] loop of [groupPlacesForItinerary]: [rounds] rounds are left,
    the next one for [dayIndex], with [queue] still to be consumed. *)
Fixpoint itineraryLoop (startDate : string) (rounds : nat) (dayIndex : Z)
    (queue : list PlaceOption) : JS.Exc (list ItineraryDay) :=
  match rounds with
  | O => mret []
  | S rounds' =>
      date ← addDays startDate dayIndex;
      let '(morning, queue) := JS.shift queue in
      let '(afternoon, queue) := JS.shift queue in
      let '(evening, queue) := JS.shift queue in
      let slots := makeSlots dayIndex date morning afternoon evening in
      rest ← itineraryLoop startDate rounds' (dayIndex + 1) queue;
      mret (slots :: rest)
  end.

(** [function groupPlacesForItinerary(startDate, days, places, interests)]. *)
Definition groupPlacesForItinerary (startDate : string) (days : Z)
    (places : list PlaceOption) (interests : option (list string))
    : JS.Exc (list ItineraryDay) :=
  let queue := scoredPlaces places interests in
  itineraryLoop startDate (Z.to_nat days) 0 queue.

(** *** Rendering

    The values rendered have their declared types, so that only the two
    date formatters can raise. *)

(** [const BASE_STYLE]. *)
Definition BASE_STYLE : string :=
  (JS.nl ++ "  <style>"
    ++ JS.nl ++ "    .trip-widget {"
    ++ JS.nl ++ "      font-family: 'Inter', -apple-system, BlinkMacSystemFont, 'Segoe UI', sans-serif;"
    ++ JS.nl ++ "      color: #101828;"
    ++ JS.nl ++ "      background: #ffffff;"
    ++ JS.nl ++ "      border-radius: 16px;"
    ++ JS.nl ++ "      padding: 20px;"
    ++ JS.nl ++ "      box-sizing: border-box;"
    ++ JS.nl ++ "      max-width: 960px;"
    ++ JS.nl ++ "      margin: 0 auto;"
    ++ JS.nl ++ "      border: 1px solid rgba(16,24,40,0.08);"
    ++ JS.nl ++ "      box-shadow: 0 20px 45px -20px rgba(15, 23, 42, 0.25);"
    ++ JS.nl ++ "    }"
    ++ JS.nl
    ++ JS.nl ++ "    .trip-widget h2, .trip-widget h3 {"
    ++ JS.nl ++ "      margin: 0 0 12px;"
    ++ JS.nl ++ "      color: #0f172a;"
    ++ JS.nl ++ "    }"
    ++ JS.nl
    ++ JS.nl ++ "    .trip-widget .grid {"
    ++ JS.nl ++ "      display: grid;"
    ++ JS.nl ++ "      gap: 16px;"
    ++ JS.nl ++ "    }"
    ++ JS.nl
    ++ JS.nl ++ "    .trip-widget .grid.two {"
    ++ JS.nl ++ "      grid-template-columns: repeat(auto-fit, minmax(240px, 1fr));"
    ++ JS.nl ++ "    }"
    ++ JS.nl
    ++ JS.nl ++ "    .trip-card {"
    ++ JS.nl ++ "      border: 1px solid rgba(148,163,184,0.4);"
    ++ JS.nl ++ "      border-radius: 14px;"
    ++ JS.nl ++ "      padding: 16px;"
    ++ JS.nl ++ "      background: linear-gradient(180deg, rgba(248,250,252,0.95) 0%, #ffffff 100%);"
    ++ JS.nl ++ "    }"
    ++ JS.nl
    ++ JS.nl ++ "    .trip-metadata {"
    ++ JS.nl ++ "      display: flex;"
    ++ JS.nl ++ "      gap: 12px;"
    ++ JS.nl ++ "      flex-wrap: wrap;"
    ++ JS.nl ++ "      font-size: 0.9rem;"
    ++ JS.nl ++ "      color: #475467;"
    ++ JS.nl ++ "      margin-bottom: 16px;"
    ++ JS.nl ++ "    }"
    ++ JS.nl
    ++ JS.nl ++ "    .trip-pills {"
    ++ JS.nl ++ "      display: flex;"
    ++ JS.nl ++ "      gap: 6px;"
    ++ JS.nl ++ "      flex-wrap: wrap;"
    ++ JS.nl ++ "    }"
    ++ JS.nl
    ++ JS.nl ++ "    .trip-pill {"
    ++ JS.nl ++ "      padding: 4px 10px;"
    ++ JS.nl ++ "      background: rgba(59,130,246,0.08);"
    ++ JS.nl ++ "      border-radius: 999px;"
    ++ JS.nl ++ "      color: #1d4ed8;"
    ++ JS.nl ++ "      font-size: 0.85rem;"
    ++ JS.nl ++ "    }"
    ++ JS.nl
    ++ JS.nl ++ "    .trip-table {"
    ++ JS.nl ++ "      width: 100%;"
    ++ JS.nl ++ "      border-collapse: collapse;"
    ++ JS.nl ++ "      margin-top: 8px;"
    ++ JS.nl ++ "    }"
    ++ JS.nl
    ++ JS.nl ++ "    .trip-table th,"
    ++ JS.nl ++ "    .trip-table td {"
    ++ JS.nl ++ "      padding: 8px 12px;"
    ++ JS.nl ++ "      text-align: left;"
    ++ JS.nl ++ "      border-bottom: 1px solid rgba(148,163,184,0.3);"
    ++ JS.nl ++ "      font-size: 0.92rem;"
    ++ JS.nl ++ "    }"
    ++ JS.nl
    ++ JS.nl ++ "    .trip-table th {"
    ++ JS.nl ++ "      color: #334155;"
    ++ JS.nl ++ "      background: rgba(226,232,240,0.35);"
    ++ JS.nl ++ "    }"
    ++ JS.nl
    ++ JS.nl ++ "    .trip-section {"
    ++ JS.nl ++ "      margin-top: 28px;"
    ++ JS.nl ++ "    }"
    ++ JS.nl
    ++ JS.nl ++ "    .trip-section:first-of-type {"
    ++ JS.nl ++ "      margin-top: 0;"
    ++ JS.nl ++ "    }"
    ++ JS.nl
    ++ JS.nl ++ "    .trip-small {"
    ++ JS.nl ++ "      font-size: 0.85rem;"
    ++ JS.nl ++ "      color: #475467;"
    ++ JS.nl ++ "    }"
    ++ JS.nl
    ++ JS.nl ++ "    .trip-itinerary-block {"
    ++ JS.nl ++ "      border-left: 3px solid rgba(59,130,246,0.4);"
    ++ JS.nl ++ "      padding-left: 12px;"
    ++ JS.nl ++ "      margin-bottom: 10px;"
    ++ JS.nl ++ "    }"
    ++ JS.nl
    ++ JS.nl ++ "    .trip-itinerary-block ul {"
    ++ JS.nl ++ "      margin: 4px 0 0 0;"
    ++ JS.nl ++ "      padding-left: 18px;"
    ++ JS.nl ++ "    }"
    ++ JS.nl
    ++ JS.nl ++ "    .trip-itinerary-block li {"
    ++ JS.nl ++ "      margin-bottom: 4px;"
    ++ JS.nl ++ "    }"
    ++ JS.nl
    ++ JS.nl ++ "    .trip-price {"
    ++ JS.nl ++ "      font-weight: 600;"
    ++ JS.nl ++ "      color: #1f2937;"
    ++ JS.nl ++ "      font-size: 1.05rem;"
    ++ JS.nl ++ "    }"
    ++ JS.nl
    ++ JS.nl ++ "    .trip-note {"
    ++ JS.nl ++ "      background: rgba(245,158,11,0.12);"
    ++ JS.nl ++ "      color: #92400e;"
    ++ JS.nl ++ "      padding: 10px 12px;"
    ++ JS.nl ++ "      border-radius: 10px;"
    ++ JS.nl ++ "      font-size: 0.9rem;"
    ++ JS.nl ++ "      margin-top: 10px;"
    ++ JS.nl ++ "    }"
    ++ JS.nl
    ++ JS.nl ++ "    .trip-link {"
    ++ JS.nl ++ "      color: #2563eb;"
    ++ JS.nl ++ "      text-decoration: none;"
    ++ JS.nl ++ "      font-weight: 500;"
    ++ JS.nl ++ "    }"
    ++ JS.nl
    ++ JS.nl ++ "    .trip-link:hover {"
    ++ JS.nl ++ "      text-decoration: underline;"
    ++ JS.nl ++ "    }"
    ++ JS.nl
    ++ JS.nl ++ "    @media (max-width: 640px) {"
    ++ JS.nl ++ "      .trip-widget {"
    ++ JS.nl ++ "        border-radius: 12px;"
    ++ JS.nl ++ "        padding: 16px;"
    ++ JS.nl ++ "      }"
    ++ JS.nl ++ "    }"
    ++ JS.nl ++ "  </style>"
    ++ JS.nl)%string.

(** The card of one flight: the callback of [flights.options.map] in
    [renderFlightsSection]. *)
Definition flightCard (host : Host) (flight : FlightOption) : JS.Exc string :=
  departText ← formatTime host (depart flight);
  arriveText ← formatTime host (arrive flight);
  mret (JS.nl ++ "        <article class=" ++ JS.dq ++ "trip-card" ++ JS.dq ++ " role=" ++ JS.dq ++ "group" ++ JS.dq ++ " aria-label=" ++ JS.dq ++ escapeHtml (carrier flight) ++ " flight" ++ JS.dq ++ ">"
         ++ JS.nl ++ "          <h4 style=" ++ JS.dq ++ "margin-top:0;" ++ JS.dq ++ ">" ++ escapeHtml (carrier flight) ++ "</h4>"
         ++ JS.nl ++ "          <p class=" ++ JS.dq ++ "trip-price" ++ JS.dq ++ ">" ++ formatCurrency (inject_Z (priceUSD flight)) ++ "</p>"
         ++ JS.nl ++ "          <p class=" ++ JS.dq ++ "trip-small" ++ JS.dq ++ ">" ++ escapeHtml (fo_from flight) ++ " → " ++ escapeHtml (fo_to flight) ++ "</p>"
         ++ JS.nl ++ "          <p class=" ++ JS.dq ++ "trip-small" ++ JS.dq ++ ">" ++ departText ++ " → " ++ arriveText ++ "</p>"
         ++ JS.nl ++ "          " ++ (match fo_link flight with
        | Some link =>
            if JS.truthy link
            then ("<a class=" ++ JS.dq ++ "trip-link" ++ JS.dq ++ " href=" ++ JS.dq ++ escapeHtml link ++ JS.dq ++ " target=" ++ JS.dq ++ "_blank" ++ JS.dq ++ " rel=" ++ JS.dq ++ "noopener" ++ JS.dq ++ ">View booking</a>")%string
            else EmptyString
        | None => EmptyString
        end)
         ++ JS.nl ++ "        </article>"
         ++ JS.nl ++ "      ")%string.

(** [function renderFlightsSection(flights)]. *)
Definition renderFlightsSection (host : Host) (flights : option FlightsResult)
    : JS.Exc string :=
  match flights with
  | None => mret ("<h3>Flights</h3><p class=" ++ JS.dq ++ "trip-small" ++ JS.dq ++ ">No flight search configured.</p>")%string
  | Some flights =>
      cards ← JS.mapM (flightCard host) (fr_options flights);
      let cards := String.concat EmptyString cards in
      let note :=
        match fr_note flights with
        | Some text =>
            if JS.truthy text
            then ("<div class=" ++ JS.dq ++ "trip-note" ++ JS.dq ++ ">" ++ escapeHtml text ++ "</div>")%string
            else EmptyString
        | None => EmptyString
        end in
      mret (JS.nl ++ "    <h3>Flights</h3>"
             ++ JS.nl ++ "    <div class=" ++ JS.dq ++ "grid two" ++ JS.dq ++ ">"
             ++ JS.nl ++ "      " ++ (if JS.truthy cards then cards
             else ("<p class=" ++ JS.dq ++ "trip-small" ++ JS.dq ++ ">No flights available for this search.</p>")%string)
             ++ JS.nl ++ "    </div>"
             ++ JS.nl ++ "    " ++ note
             ++ JS.nl ++ "  ")%string
  end.

(** The card of one stay: the callback of [stays.map] in [renderStaysSection]. *)
Definition stayCard (stay : StayOption) : string :=
  (JS.nl ++ "        <article class=" ++ JS.dq ++ "trip-card" ++ JS.dq ++ " role=" ++ JS.dq ++ "group" ++ JS.dq ++ " aria-label=" ++ JS.dq ++ escapeHtml (stay_name stay) ++ " stay" ++ JS.dq ++ ">"
    ++ JS.nl ++ "          <div class=" ++ JS.dq ++ "trip-pills" ++ JS.dq ++ " style=" ++ JS.dq ++ "margin-bottom: 8px;" ++ JS.dq ++ ">"
    ++ JS.nl ++ "            <span class=" ++ JS.dq ++ "trip-pill" ++ JS.dq ++ ">" ++ escapeHtml (StayType_toString (stay_type stay)) ++ "</span>"
    ++ JS.nl ++ "            " ++ (match rating stay with
        | Some value => ("<span class=" ++ JS.dq ++ "trip-pill" ++ JS.dq ++ ">★ " ++ JS.toFixed 1 value ++ "</span>")%string
        | None => EmptyString
        end)
    ++ JS.nl ++ "          </div>"
    ++ JS.nl ++ "          <h4 style=" ++ JS.dq ++ "margin: 0 0 6px 0;" ++ JS.dq ++ ">" ++ escapeHtml (stay_name stay) ++ "</h4>"
    ++ JS.nl ++ "          <p class=" ++ JS.dq ++ "trip-small" ++ JS.dq ++ ">" ++ (match address stay with
        | Some text =>
            if JS.truthy text
            then escapeHtml text
            else EmptyString
        | None => EmptyString
        end) ++ "</p>"
    ++ JS.nl ++ "          <p class=" ++ JS.dq ++ "trip-price" ++ JS.dq ++ ">" ++ formatCurrency (inject_Z (pricePerNightUSD stay)) ++ " <span class=" ++ JS.dq ++ "trip-small" ++ JS.dq ++ ">/ night</span></p>"
    ++ JS.nl ++ "          <p class=" ++ JS.dq ++ "trip-small" ++ JS.dq ++ ">Total: " ++ formatCurrency (inject_Z (totalUSD stay)) ++ "</p>"
    ++ JS.nl ++ "          " ++ (match stay_link stay with
        | Some link =>
            if JS.truthy link
            then ("<a class=" ++ JS.dq ++ "trip-link" ++ JS.dq ++ " href=" ++ JS.dq ++ escapeHtml link ++ JS.dq ++ " target=" ++ JS.dq ++ "_blank" ++ JS.dq ++ " rel=" ++ JS.dq ++ "noopener" ++ JS.dq ++ ">View property</a>")%string
            else EmptyString
        | None => EmptyString
        end)
    ++ JS.nl ++ "        </article>"
    ++ JS.nl ++ "      ")%string.

(** [function renderStaysSection(stays)]. *)
Definition renderStaysSection (stays : list StayOption) : string :=
  let cards := String.concat EmptyString (map stayCard stays) in
  (JS.nl ++ "    <h3>Stay Options</h3>"
    ++ JS.nl ++ "    <div class=" ++ JS.dq ++ "grid two" ++ JS.dq ++ ">" ++ cards ++ "</div>"
    ++ JS.nl ++ "  ")%string.

(** The card of one place: the callback of [places.map] in
    [renderPlacesSection]. *)
Definition placeCard (place : PlaceOption) : string :=
  (JS.nl ++ "        <article class=" ++ JS.dq ++ "trip-card" ++ JS.dq ++ " role=" ++ JS.dq ++ "group" ++ JS.dq ++ " aria-label=" ++ JS.dq ++ escapeHtml (place_name place) ++ JS.dq ++ ">"
    ++ JS.nl ++ "          <div class=" ++ JS.dq ++ "trip-pills" ++ JS.dq ++ " style=" ++ JS.dq ++ "margin-bottom: 6px;" ++ JS.dq ++ ">"
    ++ JS.nl ++ "            <span class=" ++ JS.dq ++ "trip-pill" ++ JS.dq ++ ">" ++ escapeHtml (category place) ++ "</span>"
    ++ JS.nl ++ "            " ++ (match estMinutes place with
        | Some minutes =>
            if (minutes =? 0)%Z then EmptyString
            else ("<span class=" ++ JS.dq ++ "trip-pill" ++ JS.dq ++ ">~" ++ JS.Z_toString minutes ++ " mins</span>")%string
        | None => EmptyString
        end)
    ++ JS.nl ++ "          </div>"
    ++ JS.nl ++ "          <h4 style=" ++ JS.dq ++ "margin: 0 0 4px 0;" ++ JS.dq ++ ">" ++ escapeHtml (place_name place) ++ "</h4>"
    ++ JS.nl ++ "          <p class=" ++ JS.dq ++ "trip-small" ++ JS.dq ++ ">" ++ JS.toFixed 3 (place_lat place) ++ ", " ++ JS.toFixed 3 (place_lon place) ++ "</p>"
    ++ JS.nl ++ "          " ++ (match url place with
        | Some link =>
            if JS.truthy link
            then ("<a class=" ++ JS.dq ++ "trip-link" ++ JS.dq ++ " href=" ++ JS.dq ++ escapeHtml link ++ JS.dq ++ " target=" ++ JS.dq ++ "_blank" ++ JS.dq ++ " rel=" ++ JS.dq ++ "noopener" ++ JS.dq ++ ">Open in Google Maps</a>")%string
            else EmptyString
        | None => EmptyString
        end)
    ++ JS.nl ++ "        </article>"
    ++ JS.nl ++ "      ")%string.

(** [function renderPlacesSection(places)]. *)
Definition renderPlacesSection (places : list PlaceOption) : string :=
  let items := String.concat EmptyString (map placeCard places) in
  (JS.nl ++ "    <h3>Attractions & Food</h3>"
    ++ JS.nl ++ "    <div class=" ++ JS.dq ++ "grid two" ++ JS.dq ++ ">" ++ items ++ "</div>"
    ++ JS.nl ++ "  ")%string.

(** [Math.round(x)] spelled out, [NaN] included. *)
Definition roundedText (x : option Q) : string :=
  match x with
  | Some q => JS.Z_toString (JS.Math_round q)
  | None => "NaN"
  end.

(** The row of one day: the callback of [weather.daily.map] in
    [renderWeatherSection]. *)
Definition weatherRow (host : Host) (day : WeatherDay) : JS.Exc string :=
  dateText ← formatDate host (wd_date day);
  mret (JS.nl ++ "        <tr>"
         ++ JS.nl ++ "          <td>" ++ dateText ++ "</td>"
         ++ JS.nl ++ "          <td>" ++ roundedText (hiC day) ++ "° / " ++ roundedText (loC day) ++ "°C</td>"
         ++ JS.nl ++ "          <td>" ++ JS.Number_toString (JS.nullish (precipProb day) 0%Q) ++ "%</td>"
         ++ JS.nl ++ "        </tr>"
         ++ JS.nl ++ "      ")%string.

(** [function renderWeatherSection(weather)]. *)
Definition renderWeatherSection (host : Host) (weather : WeatherSnapshot)
    : JS.Exc string :=
  rows ← JS.mapM (weatherRow host) (daily weather);
  let rows := String.concat EmptyString rows in
  mret (JS.nl ++ "    <h3>Weather Snapshot</h3>"
         ++ JS.nl ++ "    <table class=" ++ JS.dq ++ "trip-table" ++ JS.dq ++ ">"
         ++ JS.nl ++ "      <thead>"
         ++ JS.nl ++ "        <tr>"
         ++ JS.nl ++ "          <th>Date</th>"
         ++ JS.nl ++ "          <th>Hi / Lo</th>"
         ++ JS.nl ++ "          <th>Rain</th>"
         ++ JS.nl ++ "        </tr>"
         ++ JS.nl ++ "      </thead>"
         ++ JS.nl ++ "      <tbody>" ++ rows ++ "</tbody>"
         ++ JS.nl ++ "    </table>"
         ++ JS.nl ++ "  ")%string.

(** [items.map((item) => `<li>...</li>`).join('')]. *)
Definition listItems (items : list string) : string :=
  String.concat EmptyString
    (map (fun item => ("<li>" ++ escapeHtml item ++ "</li>")%string) items).

(** The card of one day: the callback of [itinerary.map] in
    [renderItinerarySection]. *)
Definition dayCard (host : Host) (day : ItineraryDay) : JS.Exc string :=
  let morningItems := listItems (morning day) in
  let afternoonItems := listItems (afternoon day) in
  let eveningItems := listItems (evening day) in
  dateText ← formatDate host (it_date day);
  mret (JS.nl ++ "        <article class=" ++ JS.dq ++ "trip-card" ++ JS.dq ++ " aria-label=" ++ JS.dq ++ "Day " ++ JS.Z_toString (it_day day) ++ " itinerary" ++ JS.dq ++ ">"
         ++ JS.nl ++ "          <h4 style=" ++ JS.dq ++ "margin-top:0;" ++ JS.dq ++ ">Day " ++ JS.Z_toString (it_day day) ++ " · " ++ dateText ++ "</h4>"
         ++ JS.nl ++ "          <div class=" ++ JS.dq ++ "trip-itinerary-block" ++ JS.dq ++ ">"
         ++ JS.nl ++ "            <strong>Morning</strong>"
         ++ JS.nl ++ "            <ul>" ++ morningItems ++ "</ul>"
         ++ JS.nl ++ "          </div>"
         ++ JS.nl ++ "          <div class=" ++ JS.dq ++ "trip-itinerary-block" ++ JS.dq ++ ">"
         ++ JS.nl ++ "            <strong>Afternoon</strong>"
         ++ JS.nl ++ "            <ul>" ++ afternoonItems ++ "</ul>"
         ++ JS.nl ++ "          </div>"
         ++ JS.nl ++ "          <div class=" ++ JS.dq ++ "trip-itinerary-block" ++ JS.dq ++ ">"
         ++ JS.nl ++ "            <strong>Evening</strong>"
         ++ JS.nl ++ "            <ul>" ++ eveningItems ++ "</ul>"
         ++ JS.nl ++ "          </div>"
         ++ JS.nl ++ "          " ++ (match mapUrl day with
        | Some link =>
            if JS.truthy link
            then ("<a class=" ++ JS.dq ++ "trip-link" ++ JS.dq ++ " href=" ++ JS.dq ++ escapeHtml link ++ JS.dq ++ " target=" ++ JS.dq ++ "_blank" ++ JS.dq ++ " rel=" ++ JS.dq ++ "noopener" ++ JS.dq ++ ">View custom map</a>")%string
            else EmptyString
        | None => EmptyString
        end)
         ++ JS.nl ++ "        </article>"
         ++ JS.nl ++ "      ")%string.

(** [function renderItinerarySection(itinerary)]. *)
Definition renderItinerarySection (host : Host) (itinerary : list ItineraryDay)
    : JS.Exc string :=
  cards ← JS.mapM (dayCard host) itinerary;
  let cards := String.concat EmptyString cards in
  mret (JS.nl ++ "    <h3>Day-by-Day Plan</h3>"
         ++ JS.nl ++ "    <div class=" ++ JS.dq ++ "grid" ++ JS.dq ++ ">" ++ cards ++ "</div>"
         ++ JS.nl ++ "  ")%string.

(** [function renderCostSection(costEstimate)]; the list of notes is always
    there. *)
Definition renderCostSection (costEstimate : CostEstimate) : string :=
  let notes := listItems (ce_notes costEstimate) in
  (JS.nl ++ "    <h3>Cost Estimate</h3>"
    ++ JS.nl ++ "    <div class=" ++ JS.dq ++ "trip-card" ++ JS.dq ++ ">"
    ++ JS.nl ++ "      <p><strong>Low:</strong> " ++ formatCurrency (inject_Z (lowUSD costEstimate)) ++ "</p>"
    ++ JS.nl ++ "      <p><strong>Mid:</strong> " ++ formatCurrency (inject_Z (midUSD costEstimate)) ++ "</p>"
    ++ JS.nl ++ "      <p><strong>High:</strong> " ++ formatCurrency (inject_Z (highUSD costEstimate)) ++ "</p>"
    ++ JS.nl ++ "      " ++ (if JS.truthy notes
        then ("<details style=" ++ JS.dq ++ "margin-top:12px;" ++ JS.dq ++ ">"
                ++ JS.nl ++ "              <summary>Notes</summary>"
                ++ JS.nl ++ "              <ul>" ++ notes ++ "</ul>"
                ++ JS.nl ++ "            </details>")%string
        else EmptyString)
    ++ JS.nl ++ "    </div>"
    ++ JS.nl ++ "  ")%string.

(** [function renderPlanTripHtml(result)]. *)
Definition renderPlanTripHtml (host : Host) (result : PlanTripResult) : JS.Exc string :=
  flightsHtml ← renderFlightsSection host (ptr_flights result);
  let staysHtml := renderStaysSection (ptr_stays result) in
  let placesHtml := renderPlacesSection (JS.slice0 (ptr_places result) 8) in
  weatherHtml ← renderWeatherSection host (ptr_weather result);
  itineraryHtml ← renderItinerarySection host (ptr_itinerary result);
  let costHtml := renderCostSection (ptr_costEstimate result) in
  let interests :=
    String.concat EmptyString
      (map (fun item =>
              ("<span class=" ++ JS.dq ++ "trip-pill" ++ JS.dq ++ ">" ++ escapeHtml (JS.trim (fst (JS.splitAt "(" item))) ++ "</span>")%string)
         (JS.slice0
            (flat_map (fun day => (morning day ++ afternoon day ++ evening day)%list)
               (ptr_itinerary result))
            6)) in
  startText ← formatDate host (td_start (ptr_dates result));
  endText ← formatDate host (td_end (ptr_dates result));
  mret (JS.nl ++ "    <section class=" ++ JS.dq ++ "trip-widget" ++ JS.dq ++ " aria-label=" ++ JS.dq ++ "AI Trip Designer Plan" ++ JS.dq ++ ">"
         ++ JS.nl ++ "      " ++ BASE_STYLE
         ++ JS.nl ++ "      <header>"
         ++ JS.nl ++ "        <h2>Trip to " ++ escapeHtml (dest_name (ptr_destination result)) ++ ", " ++ escapeHtml (dest_country (ptr_destination result)) ++ "</h2>"
         ++ JS.nl ++ "        <div class=" ++ JS.dq ++ "trip-metadata" ++ JS.dq ++ ">"
         ++ JS.nl ++ "          <span>" ++ startText ++ " → " ++ endText ++ "</span>"
         ++ JS.nl ++ "          <span>" ++ JS.Z_toString (td_days (ptr_dates result)) ++ " days</span>"
         ++ JS.nl ++ "        </div>"
         ++ JS.nl ++ "        <div class=" ++ JS.dq ++ "trip-pills" ++ JS.dq ++ " aria-label=" ++ JS.dq ++ "Highlights" ++ JS.dq ++ ">"
         ++ JS.nl ++ "          " ++ interests
         ++ JS.nl ++ "        </div>"
         ++ JS.nl ++ "      </header>"
         ++ JS.nl ++ "      <div class=" ++ JS.dq ++ "trip-section" ++ JS.dq ++ ">" ++ flightsHtml ++ "</div>"
         ++ JS.nl ++ "      <div class=" ++ JS.dq ++ "trip-section" ++ JS.dq ++ ">" ++ staysHtml ++ "</div>"
         ++ JS.nl ++ "      <div class=" ++ JS.dq ++ "trip-section" ++ JS.dq ++ ">" ++ weatherHtml ++ "</div>"
         ++ JS.nl ++ "      <div class=" ++ JS.dq ++ "trip-section" ++ JS.dq ++ ">" ++ placesHtml ++ "</div>"
         ++ JS.nl ++ "      <div class=" ++ JS.dq ++ "trip-section" ++ JS.dq ++ ">" ++ itineraryHtml ++ "</div>"
         ++ JS.nl ++ "      <div class=" ++ JS.dq ++ "trip-section" ++ JS.dq ++ ">" ++ costHtml ++ "</div>"
         ++ JS.nl ++ "      <footer class=" ++ JS.dq ++ "trip-small" ++ JS.dq ++ " style=" ++ JS.dq ++ "margin-top: 18px;" ++ JS.dq ++ ">"
         ++ JS.nl ++ "        Generated " ++ toLocaleString host (generatedAt (ptr_meta result)) ++ " • Sources: " ++ String.concat ", " (providers (ptr_meta result)) ++ (if cached (ptr_meta result) then " • cached" else EmptyString)
         ++ JS.nl ++ "      </footer>"
         ++ JS.nl ++ "    </section>"
         ++ JS.nl ++ "  ")%string.

(** [function renderFlightsHtml(result)]. *)
Definition renderFlightsHtml (host : Host) (result : FlightsToolResult) : JS.Exc string :=
  sectionHtml ← renderFlightsSection host (Some (ftr_flights result));
  mret (JS.nl ++ "    <section class=" ++ JS.dq ++ "trip-widget" ++ JS.dq ++ ">"
         ++ JS.nl ++ "      " ++ BASE_STYLE
         ++ JS.nl ++ "      <h3>Flight Options</h3>"
         ++ JS.nl ++ "      " ++ sectionHtml
         ++ JS.nl ++ "      <footer class=" ++ JS.dq ++ "trip-small" ++ JS.dq ++ " style=" ++ JS.dq ++ "margin-top: 12px;" ++ JS.dq ++ ">"
         ++ JS.nl ++ "        Generated " ++ toLocaleString host (generatedAt (ftr_meta result)) ++ " • Sources: " ++ String.concat ", " (providers (ftr_meta result)) ++ (if cached (ftr_meta result) then " • cached" else EmptyString)
         ++ JS.nl ++ "      </footer>"
         ++ JS.nl ++ "    </section>"
         ++ JS.nl ++ "  ")%string.

(** [function renderStaysHtml(result)]. *)
Definition renderStaysHtml (host : Host) (result : StaysToolResult) : string :=
  let sectionHtml := renderStaysSection (JS.slice0 (sr_options (str_stays result)) 6) in
  (JS.nl ++ "    <section class=" ++ JS.dq ++ "trip-widget" ++ JS.dq ++ ">"
    ++ JS.nl ++ "      " ++ BASE_STYLE
    ++ JS.nl ++ "      <h3>Stay Suggestions</h3>"
    ++ JS.nl ++ "      " ++ sectionHtml
    ++ JS.nl ++ "      " ++ (match sr_note (str_stays result) with
        | Some text =>
            if JS.truthy text
            then ("<div class=" ++ JS.dq ++ "trip-note" ++ JS.dq ++ " style=" ++ JS.dq ++ "margin-top: 16px;" ++ JS.dq ++ ">" ++ escapeHtml text ++ "</div>")%string
            else EmptyString
        | None => EmptyString
        end)
    ++ JS.nl ++ "      <footer class=" ++ JS.dq ++ "trip-small" ++ JS.dq ++ " style=" ++ JS.dq ++ "margin-top: 12px;" ++ JS.dq ++ ">"
    ++ JS.nl ++ "        Generated " ++ toLocaleString host (generatedAt (str_meta result)) ++ " • Sources: " ++ String.concat ", " (providers (str_meta result)) ++ (if cached (str_meta result) then " • cached" else EmptyString)
    ++ JS.nl ++ "      </footer>"
    ++ JS.nl ++ "    </section>"
    ++ JS.nl ++ "  ")%string.

(** [function renderPlacesHtml(result)]. *)
Definition renderPlacesHtml (host : Host) (result : PlacesToolResult) : string :=
  let sectionHtml := renderPlacesSection (pr_options (plr_places result)) in
  (JS.nl ++ "    <section class=" ++ JS.dq ++ "trip-widget" ++ JS.dq ++ ">"
    ++ JS.nl ++ "      " ++ BASE_STYLE
    ++ JS.nl ++ "      <h3>Nearby Highlights</h3>"
    ++ JS.nl ++ "      " ++ sectionHtml
    ++ JS.nl ++ "      " ++ (match pr_note (plr_places result) with
        | Some text =>
            if JS.truthy text
            then ("<div class=" ++ JS.dq ++ "trip-note" ++ JS.dq ++ " style=" ++ JS.dq ++ "margin-top: 16px;" ++ JS.dq ++ ">" ++ escapeHtml text ++ "</div>")%string
            else EmptyString
        | None => EmptyString
        end)
    ++ JS.nl ++ "      <footer class=" ++ JS.dq ++ "trip-small" ++ JS.dq ++ " style=" ++ JS.dq ++ "margin-top: 12px;" ++ JS.dq ++ ">"
    ++ JS.nl ++ "        Generated " ++ toLocaleString host (generatedAt (plr_meta result)) ++ " • Sources: " ++ String.concat ", " (providers (plr_meta result)) ++ (if cached (plr_meta result) then " • cached" else EmptyString)
    ++ JS.nl ++ "      </footer>"
    ++ JS.nl ++ "    </section>"
    ++ JS.nl ++ "  ")%string.

(** [function renderWeatherHtml(result)]. *)
Definition renderWeatherHtml (host : Host) (result : WeatherToolResult) : JS.Exc string :=
  sectionHtml ← renderWeatherSection host (wtr_weather result);
  mret (JS.nl ++ "    <section class=" ++ JS.dq ++ "trip-widget" ++ JS.dq ++ ">"
         ++ JS.nl ++ "      " ++ BASE_STYLE
         ++ JS.nl ++ "      <h3>Weather Outlook</h3>"
         ++ JS.nl ++ "      " ++ sectionHtml
         ++ JS.nl ++ "      <footer class=" ++ JS.dq ++ "trip-small" ++ JS.dq ++ " style=" ++ JS.dq ++ "margin-top: 12px;" ++ JS.dq ++ ">"
         ++ JS.nl ++ "        Generated " ++ toLocaleString host (generatedAt (wtr_meta result)) ++ " • Source: " ++ String.concat ", " (providers (wtr_meta result)) ++ (if cached (wtr_meta result) then " • cached" else EmptyString)
         ++ JS.nl ++ "      </footer>"
         ++ JS.nl ++ "    </section>"
         ++ JS.nl ++ "  ")%string.


(** *** [class TripToolset] *)

(** The answers of the network to the requests of one [planTrip] call, and
    the clock readings of its provider calls. *)
Record Upstreams : Type := {
  up_geo : FetchOutcome DestinationInfo;
  up_weather : FetchOutcome Weather.OpenMeteoResponse;
  up_token : FetchOutcome Flights.AmadeusTokenResponse;
  up_search : FetchOutcome Flights.SearchResponse;
  up_geoPlaces : FetchOutcome DestinationInfo;
  up_radius : FetchOutcome Places.RadiusResponse;
  now_destination : Z;
  now_weather : Z;
  now_flights : Z;
  now_stays : Z;
  now_places : Z;
  now_meta : Z
}.

(** The statements of [async planTrip(input)] up to the object [plan],
    whose [html] is still empty, as a computation on the context of the
    call. *)
Definition planTripObject (providerConfig : ProviderConfig) (input : PlanTripInput)
    (up : Upstreams) : Ctx.M PlanTripResult :=
  let days := JS.nullish (pti_days input) 4 in
  destination ← Ctx.call (fun context =>
    Places.resolveDestination (pti_destination input) context providerConfig
      (now_destination up) (up_geo up));
  endDate ← Ctx.lift (addDays (pti_startDate input) (days - 1));
  let tripDates :=
    {| td_start := pti_startDate input; td_end := endDate; td_days := days |} in
  weather ← Ctx.call (fun context =>
    Weather.weatherProvider
      {| wq_lat := dest_lat destination; wq_lon := dest_lon destination;
         wq_startDate := pti_startDate input; wq_days := days |}
      context providerConfig (now_weather up) (up_weather up));
  '(flights, notesFlights) ←
    (if JS.truthyOpt (pti_origin input)
     then
       flights ← Ctx.call (fun context =>
         Flights.searchFlightsProvider
           {| fsp_origin := JS.nullish (pti_origin input) "";
              fsp_destination := dest_name destination;
              departDate := pti_startDate input;
              returnDate := None; adults := Some 1; cabin := None |}
           context providerConfig (now_flights up) (up_token up) (up_search up));
       mret (flights, if JS.truthyOpt (fr_note flights) then fr_note flights else None)
     else
       mret ({| fr_note := Some "No origin provided."; fr_options := [] |}, None));
  staysResult ← Ctx.call (fun context =>
    Stays.searchStaysProvider
      {| ssp_destination := dest_name destination; checkIn := pti_startDate input;
         nights := days; guests := None |}
      context providerConfig (now_stays up));
  let notesStays :=
    if JS.truthyOpt (sr_note staysResult) then sr_note staysResult else None in
  let stayOptions := selectStayTiers (sr_options staysResult) in
  placesResult ← Ctx.call (fun context =>
    Places.nearbyAttractionsProvider
      {| asp_destination := dest_name destination; tags := pti_interests input;
         limit := Some (Z.max 12 (days * 3)) |}
      context providerConfig (now_places up) (up_geoPlaces up) (up_radius up));
  let notesPlaces :=
    if JS.truthyOpt (pr_note placesResult) then pr_note placesResult else None in
  itinerary ← Ctx.lift
    (groupPlacesForItinerary (pti_startDate input) days (pr_options placesResult)
       (pti_interests input));
  let notes := {| cn_flights := notesFlights; cn_stays := notesStays;
                  cn_places := notesPlaces; cn_weather := None |} in
  let costEstimate :=
    computeCostEstimate days stayOptions (Some flights) (pti_budgetUSD input)
      (JS.truthyOpt (pti_origin input)) notes in
  context ← Ctx.current;
  let meta := providersFromContext context (now_meta up) in
  mret {| ptr_destination := destination;
          ptr_dates := tripDates;
          ptr_weather := weather;
          ptr_flights := Some flights;
          ptr_stays := stayOptions;
          ptr_places := pr_options placesResult;
          ptr_itinerary := itinerary;
          ptr_costEstimate := costEstimate;
          ptr_html := "";
          ptr_meta := meta |}.

(** [plan.html = html]. *)
Definition withHtml (plan : PlanTripResult) (html : string) : PlanTripResult :=
  {| ptr_destination := ptr_destination plan;
     ptr_dates := ptr_dates plan;
     ptr_weather := ptr_weather plan;
     ptr_flights := ptr_flights plan;
     ptr_stays := ptr_stays plan;
     ptr_places := ptr_places plan;
     ptr_itinerary := ptr_itinerary plan;
     ptr_costEstimate := ptr_costEstimate plan;
     ptr_html := html;
     ptr_meta := ptr_meta plan |}.

(** [async planTrip(input)] of a toolset with the given configuration and
    cache, on a given host: the plan is built, rendered and returned; the
    result comes with the shared cache afterwards. *)
Definition planTrip (host : Host) (providerConfig : ProviderConfig)
    (cache0 : Cache.TTLCache CacheValue) (input : PlanTripInput) (up : Upstreams)
    : JS.Exc PlanTripResult * Cache.TTLCache CacheValue :=
  let '(result, context) :=
    (plan ← planTripObject providerConfig input up;
     html ← Ctx.lift (renderPlanTripHtml host plan);
     mret (withHtml plan html)) (createProviderContext cache0) in
  (result, cache context).

(** The other four methods of the toolset.  Each one creates its own
    context on the shared cache, calls its provider, reads the metadata off
    the context and renders the result; the result comes with the shared
    cache afterwards. *)

(** [async searchFlights(input)]. *)
Definition searchFlights (host : Host) (providerConfig : ProviderConfig)
    (cache0 : Cache.TTLCache CacheValue) (input : FlightSearchParams)
    (now now_meta : Z)
    (tokenUpstream : FetchOutcome Flights.AmadeusTokenResponse)
    (searchUpstream : FetchOutcome Flights.SearchResponse)
    : JS.Exc FlightsToolResult * Cache.TTLCache CacheValue :=
  let context := createProviderContext cache0 in
  match Flights.searchFlightsProvider input context providerConfig now
          tokenUpstream searchUpstream with
  | (JS.Return flights, context) =>
      let meta := providersFromContext context now_meta in
      let result := {| ftr_flights := flights; ftr_html := ""; ftr_meta := meta |} in
      (html ← renderFlightsHtml host result;
       mret {| ftr_flights := flights; ftr_html := html; ftr_meta := meta |},
       cache context)
  | (JS.Raise e, context) => (JS.Raise e, cache context)
  end.

(** [async searchStays(input)]. *)
Definition searchStays (host : Host) (providerConfig : ProviderConfig)
    (cache0 : Cache.TTLCache CacheValue) (input : StaySearchParams) (now now_meta : Z)
    : JS.Exc StaysToolResult * Cache.TTLCache CacheValue :=
  let context := createProviderContext cache0 in
  match Stays.searchStaysProvider input context providerConfig now with
  | (JS.Return stays, context) =>
      let meta := providersFromContext context now_meta in
      let result := {| str_stays := stays; str_html := ""; str_meta := meta |} in
      let html := renderStaysHtml host result in
      (JS.Return {| str_stays := stays; str_html := html; str_meta := meta |},
       cache context)
  | (JS.Raise e, context) => (JS.Raise e, cache context)
  end.

(** [async nearbyAttractions(input)]. *)
Definition nearbyAttractions (host : Host) (providerConfig : ProviderConfig)
    (cache0 : Cache.TTLCache CacheValue) (input : AttractionSearchParams)
    (now now_meta : Z)
    (geoUpstream : FetchOutcome DestinationInfo)
    (upstream : FetchOutcome Places.RadiusResponse)
    : JS.Exc PlacesToolResult * Cache.TTLCache CacheValue :=
  let context := createProviderContext cache0 in
  match Places.nearbyAttractionsProvider input context providerConfig now
          geoUpstream upstream with
  | (JS.Return places, context) =>
      let meta := providersFromContext context now_meta in
      let result := {| plr_places := places; plr_html := ""; plr_meta := meta |} in
      let html := renderPlacesHtml host result in
      (JS.Return {| plr_places := places; plr_html := html; plr_meta := meta |},
       cache context)
  | (JS.Raise e, context) => (JS.Raise e, cache context)
  end.

(** [async weather(input)]. *)
Definition weather (host : Host) (providerConfig : ProviderConfig)
    (cache0 : Cache.TTLCache CacheValue) (input : WeatherQueryParams) (now now_meta : Z)
    (upstream : FetchOutcome Weather.OpenMeteoResponse)
    : JS.Exc WeatherToolResult * Cache.TTLCache CacheValue :=
  let context := createProviderContext cache0 in
  match Weather.weatherProvider input context providerConfig now upstream with
  | (JS.Return snapshot, context) =>
      let meta := providersFromContext context now_meta in
      let result := {| wtr_weather := snapshot; wtr_html := ""; wtr_meta := meta |} in
      (html ← renderWeatherHtml host result;
       mret {| wtr_weather := snapshot; wtr_html := html; wtr_meta := meta |},
       cache context)
  | (JS.Raise e, context) => (JS.Raise e, cache context)
  end.

(** *** Configuration *)

(** [function resolveProviderConfigFromEnv()], for the environment [env];
    each credential object is kept as the one string it holds. *)
Definition resolveProviderConfigFromEnv (env : gmap string string) : ProviderConfig :=
  {| amadeus :=
       match env !! "AMADEUS_CLIENT_ID", env !! "AMADEUS_CLIENT_SECRET" with
       | Some id, Some secret =>
           if JS.truthy id && JS.truthy secret
           then Some {| clientId := id; clientSecret := secret |}
           else None
       | _, _ => None
       end;
     skyscanner :=
       match env !! "SKYSCANNER_API_KEY" with
       | Some key => if JS.truthy key then Some key else None
       | None => None
       end;
     booking :=
       match env !! "BOOKING_RAPIDAPI_KEY" with
       | Some key => if JS.truthy key then Some key else None
       | None => None
       end;
     openTripMap :=
       match env !! "OPENTRIPMAP_API_KEY" with
       | Some key => if JS.truthy key then Some key else None
       | None => None
       end |}.

End Mcp.

(** * Vocabulary of the statements *)

Import Calendar.

(** The entry that [get] sees, if any. *)
Definition visibleAt {T : Type} (c : Cache.TTLCache T) (now : Z) (key : string) : option T :=
  r ← Cache.store c !! key;
  if Cache.expiresAt r <? now then None else Some (Cache.value r).

(** The property of the specification: an entry is seen only strictly before
    the instant at which it expires. *)
Definition seenOnlyBeforeExpiry {T : Type} (c : Cache.TTLCache T) (now : Z) (key : string)
    : Prop :=
  forall v, fst (Cache.get c now key) = Some v ->
  exists r, Cache.store c !! key = Some r /\ now < Cache.expiresAt r.

Definition priceLeb (a b : Z) : bool := a - b <=? 0.

(** The prices that the estimator keeps: those of the options that are
    positive, in the order of the options; none without a flight result. *)
Definition positivePrices (flights : option FlightsResult) : list Z :=
  match flights with
  | Some f => List.filter (fun price => price >? 0) (map priceUSD (fr_options f))
  | None => []
  end.

(** The reading of the specification: the first, second and third entry of
    an ascending list, each missing entry repeating the one before it, and 0
    for a missing first entry. *)
Definition tiersOf (ascending : list Z) : Z * Z * Z :=
  let lo := nth 0 ascending 0 in
  let mi := nth 1 ascending lo in
  let hi := nth 2 ascending mi in
  (lo, mi, hi).

Definition flightWithPrice (p : Z) : FlightOption :=
  {| carrier := "XX"; fo_from := "AAA"; fo_to := "BBB";
     depart := "2025-01-10T08:30:00"; arrive := "2025-01-10T12:10:00";
     priceUSD := p; fo_link := None |}.

Definition stayWithTotal (ty : StayType) (total : Z) : StayOption :=
  {| stay_name := "Stay"; stay_type := ty; pricePerNightUSD := total; totalUSD := total;
     rating := None; address := None; stay_link := None |}.

Definition noNotes : Mcp.CostNotes :=
  {| Mcp.cn_flights := None; Mcp.cn_stays := None; Mcp.cn_places := None;
     Mcp.cn_weather := None |}.

Definition ofTier (ty : StayType) (option : StayOption) : bool :=
  StayType_eqb (stay_type option) ty.

(** The entry selected for a tier from a list that starts with [o]. *)
Definition pick (o : StayOption) (rest : list StayOption) (ty : StayType) : StayOption :=
  JS.nullish (List.find (ofTier ty) (o :: rest)) o.

Definition offers (options : list StayOption) (ty : StayType) : Prop :=
  exists o, In o options /\ stay_type o = ty.

Definition isCacheTag (name : string) : bool := JS.startsWith name "cache:".

(** What one keyword adds to the score of a place. *)
Definition bonus (place : PlaceOption) (keyword : string) : Q :=
  (if JS.includes (JS.toLowerCase (category place)) keyword then 2 else 0)
  + (if JS.includes (JS.toLowerCase (place_name place)) keyword then 15 # 10 else 0).

Definition bonusSum (place : PlaceOption) (keywords : list string) : Q :=
  fold_right (fun k acc => bonus place k + acc)%Q 0%Q keywords.

Definition placeOf (name cat : string) : PlaceOption :=
  {| place_id := name; place_name := name; category := cat; place_lat := 0; place_lon := 0;
     url := None; estMinutes := None |}.

(** [p] holds on [n] consecutive integers from [z]. *)
Fixpoint allFrom (n : nat) (z : Z) (p : Z -> bool) : bool :=
  match n with
  | O => true
  | S n' => p z && allFrom n' (z + 1) p
  end.

(** The month number of a month counted from March. *)
Definition monthOf (mp : Z) : Z := if mp <? 10 then mp + 3 else mp - 9.

(** The civil year of a year of the era and a month counted from March. *)
Definition shiftYear (yoe mp : Z) : Z := yoe + (if monthOf mp <=? 2 then 1 else 0).

(** The date of a day of the era is a date of the calendar, and it is the
    date with that day number. *)
Definition eraOK (doe : Z) : bool :=
  let '(yoe, mp, d) := civilOfDoe doe in
  (0 <=? yoe) && (yoe <=? 399) && (0 <=? mp) && (mp <=? 11) && (1 <=? d)
  && (d <=? daysInMonth (shiftYear yoe mp) (monthOf mp))
  && (doeOf yoe mp d =? doe).

(** A date of the calendar has a day number inside the era, from which it
    is found again. *)
Definition civOK (yoe mp d : Z) : bool :=
  implb (d <=? daysInMonth (shiftYear yoe mp) (monthOf mp))
    ((0 <=? doeOf yoe mp d) && (doeOf yoe mp d <? 146097)
     && (let '(yoe', mp', d') := civilOfDoe (doeOf yoe mp d) in
         (yoe' =? yoe) && (mp' =? mp) && (d' =? d))).

(** The month counted from March, from the month number. *)
Definition marchBased (m : Z) : Z := if m <=? 2 then m + 9 else m - 3.

(** The fields of a civil date, as one value. *)
Definition civilOf (fields : Z * Z * Z) : Civil :=
  let '(y, m, d) := fields in {| year := y; month := m; day := d |}.

(** The day number of a civil date. *)
Definition dayNumber (c : Civil) : Z := daysFromCivil (year c) (month c) (day c).

(** The start date is a date of the calendar, and the last of [days] dates
    from it still has a year of four digits. *)
Definition tripInCalendar (start : string) (days : Z) : bool :=
  match Date.matchISODate start with
  | Some f =>
      validCivil (civilOf f)
      && (year (Nat.iter (Z.to_nat days - 1) tomorrow (civilOf f)) <=? 9999)
  | None => false
  end.

(** The date [i] days after the start date, spelled [YYYY-MM-DD]. *)
Definition dateAfter (start : string) (i : nat) : string :=
  match Date.matchISODate start with
  | Some f => Date.isoDate (Nat.iter i tomorrow (civilOf f))
  | None => EmptyString
  end.

(** The text of the evening slot, from the candidates of the morning and of
    the evening. *)
Definition eveningLine (m e : option PlaceOption) : string :=
  match e with
  | None => Mcp.eveningFiller
  | Some p =>
      (Mcp.eveningText p
       ++ (match m with
           | Some q => if String.eqb (category q) (category p)
                       then " with a sunset twist" else ""
           | None => ""
           end))%string
  end.

Definition scoreOf (interests : option (list string)) (place : PlaceOption) : Q :=
  Mcp.computeInterestScore place (Mcp.interestSet interests).

(** The entry of day [i] when the whole queue was [q]. *)
Definition entryOf (start : string) (q : list PlaceOption) (i : nat) : ItineraryDay :=
  Mcp.makeSlots (Z.of_nat i) (dateAfter start i)
    (nth_error q (3 * i)) (nth_error q (3 * i + 1)) (nth_error q (3 * i + 2)).

Definition scoreLeb (a b : PlaceOption * Q) : bool := Qle_bool (snd b - snd a) 0.

(** The record of day [i] of the mock forecast. *)
Definition mockRecord (start : string) (i : nat) : WeatherDay :=
  {| wd_date := dateAfter start i;
     hiC := Some (inject_Z (30 - Z.of_nat i));
     loC := Some (inject_Z (30 - Z.of_nat i - 6));
     precipProb := Some (inject_Z (20 + Z.of_nat i * 5)) |}.

(** The live path of the weather provider fails: the request is rejected,
    the status is not a success, the body cannot be used, or it has no day. *)
Definition liveWeatherFails (upstream : FetchOutcome Weather.OpenMeteoResponse) : bool :=
  match upstream with
  | FetchRejected => true
  | Response ok _ body =>
      negb ok
      || match body with
         | None => true
         | Some data =>
             match Weather.om_daily data with
             | None => true
             | Some d => Nat.eqb (List.length (Weather.om_time d)) 0
             end
         end
  end.

(** The prefix of the keys under which a provider stores its results. *)
Definition keyPrefix (v : CacheValue) : string :=
  match v with
  | VDestination _ => "dest:"
  | VWeather _ => "weather:"
  | VFlights _ => "flights:"
  | VStays _ => "stays:"
  | VPlaces _ => "places:"
  end.

(** Every entry sits under a key of the provider that made it; this is what
    the five providers, the only writers of the cache, maintain. *)
Definition WellKeyed (c : Cache.TTLCache CacheValue) : Prop :=
  forall key r, Cache.store c !! key = Some r ->
                JS.startsWith key (keyPrefix (Cache.value r)) = true.

(** The advisory note of a provider result; [DestinationInfo] and
    [WeatherSnapshot] have no note field. *)
Definition resultNote (v : CacheValue) : option string :=
  match v with
  | VDestination _ => None
  | VWeather _ => None
  | VFlights f => fr_note f
  | VStays s => sr_note s
  | VPlaces p => pr_note p
  end.

(** The live path of the destination provider fails. *)
Definition geoFails (upstream : FetchOutcome DestinationInfo) : bool :=
  match upstream with
  | FetchRejected => true
  | Response ok _ body => negb ok || match body with None => true | Some _ => false end
  end.

(** The two time suffixes of the mock flight number [i]. *)
Definition mockTimes (i : nat) : string * string :=
  let hours :=
    JS.nullish (JS.nullishOpt (nth_error Flights.schedule i) (head Flights.schedule))
      (8, 12) in
  (("T" ++ Flights.padStart2 (JS.Z_toString (fst hours)) ++ ":15:00Z")%string,
   ("T" ++ Flights.padStart2 (JS.Z_toString (snd hours)) ++ ":45:00Z")%string).

(** The live path of the flight provider fails: no usable credentials, no
    token, or no usable offer. *)
Definition tokenFails (upstream : FetchOutcome Flights.AmadeusTokenResponse) : bool :=
  match upstream with
  | FetchRejected => true
  | Response ok _ body =>
      negb ok
      || match body with
         | None => true
         | Some json => negb (JS.truthyOpt (Flights.access_token json))
         end
  end.

Definition searchFails (params : FlightSearchParams)
    (upstream : FetchOutcome Flights.SearchResponse) : bool :=
  match upstream with
  | FetchRejected => true
  | Response ok _ body =>
      negb ok
      || match body with
         | None => true
         | Some json =>
             match Flights.data json with
             | None => true
             | Some offers =>
                 Nat.eqb
                   (List.length
                      (omap (fun offer => Flights.mapAmadeusOfferToOption offer params)
                            (JS.slice0 offers 5)))
                   0
             end
         end
  end.

Definition flightsLiveFails (params : FlightSearchParams) (config : ProviderConfig)
    (tokenUpstream : FetchOutcome Flights.AmadeusTokenResponse)
    (searchUpstream : FetchOutcome Flights.SearchResponse) : bool :=
  match amadeus config with
  | None => true
  | Some credentials =>
      negb (JS.truthy (clientId credentials) && JS.truthy (clientSecret credentials))
      || tokenFails tokenUpstream || searchFails params searchUpstream
  end.

(** The options that the live path of the attraction provider would return. *)
Definition liveOptions (params : AttractionSearchParams) (json : Places.RadiusResponse)
    : list PlaceOption :=
  JS.slice0
    (map Places.featureToPlace
       (List.filter (fun feature => JS.truthy (Places.prop_name (Places.properties feature)))
          (JS.nullish (Places.features json) [])))
    (JS.nullish (limit params) 12).

(** The live path of the attraction provider fails. *)
Definition placesLiveFails (params : AttractionSearchParams)
    (upstream : FetchOutcome Places.RadiusResponse) : bool :=
  match upstream with
  | FetchRejected => true
  | Response ok _ body =>
      negb ok
      || match body with
         | None => true
         | Some json => Nat.eqb (List.length (liveOptions params json)) 0
         end
  end.

(** What a mock answer of the attraction provider looks like. *)
Definition mockPlaces (params : AttractionSearchParams) (r : PlacesResult) : Prop :=
  (exists note, pr_note r = Some note /\ JS.truthy note = true)
  /\ pr_options r = JS.slice0 Places.MOCK_PLACES (JS.nullish (limit params) 12).

Definition noCredentials : ProviderConfig :=
  {| amadeus := None; skyscanner := None; booking := None; openTripMap := None |}.

Definition chiangMaiWeather : WeatherQueryParams :=
  {| wq_lat := 187883 # 10000; wq_lon := 989853 # 10000;
     wq_startDate := "2025-11-20"; wq_days := 3 |}.

(** The five characters that [escapeHtml] replaces. *)
Definition isHtmlSpecial (c : ascii) : bool :=
  Ascii.eqb c "&" || Ascii.eqb c "<" || Ascii.eqb c ">"
  || Ascii.eqb c JS.dquote || Ascii.eqb c "'".

(** What stands for a character after escaping. *)
Definition entityOf (c : ascii) : string :=
  if Ascii.eqb c "&" then "&amp;"
  else if Ascii.eqb c "<" then "&lt;"
  else if Ascii.eqb c ">" then "&gt;"
  else if Ascii.eqb c JS.dquote then "&quot;"
  else if Ascii.eqb c "'" then "&#39;"
  else String c EmptyString.

(** The escaping done in one pass, character by character. *)
Fixpoint escapeChars (s : string) : string :=
  match s with
  | EmptyString => EmptyString
  | String c rest => (entityOf c ++ escapeChars rest)%string
  end.

Definition htmlEntities : list string := ["&amp;"; "&lt;"; "&gt;"; "&quot;"; "&#39;"].

(** No character of the string is one of the five. *)
Fixpoint plainText (s : string) : bool :=
  match s with
  | EmptyString => true
  | String c rest => negb (isHtmlSpecial c) && plainText rest
  end.

(** What a position of an escaped string can hold. *)
Definition safeAt (out : string) (i : nat) (c : ascii) : Prop :=
  c <> "<"%char /\ c <> ">"%char /\ c <> JS.dquote /\ c <> "'"%char
  /\ (c = "&"%char ->
      exists e, In e htmlEntities /\ String.substring i (String.length e) out = e).

(** A non-empty string without white space at either end. *)
Definition trimmedText (s : string) : Prop := s <> EmptyString /\ JS.trim s = s.

(** A string of the shape [YYYY-MM-DD] with a month 01..12 and a day 01..31. *)
Definition isoShaped (s : string) : Prop :=
  exists y m d, Date.matchISODate s = Some (y, m, d)
                /\ 0 <= y <= 9999 /\ 1 <= m <= 12 /\ 1 <= d <= 31.

(** A non-empty list of lower-case keywords, each a [trimmedText]. *)
Definition keywordList (l : list string) : Prop :=
  l <> [] /\ List.Forall (fun s => trimmedText s /\ JS.toLowerCase s = s) l.

(** The second context differs from the first at most under the given keys
    of the cache, and has every provenance tag of the first. *)
Definition touchesOnly (keys : list string) (before after : ProviderContext) : Prop :=
  Cache.defaultTtlMs (cache after) = Cache.defaultTtlMs (cache before)
  /\ (forall k, ~ In k keys ->
                Cache.store (cache after) !! k = Cache.store (cache before) !! k)
  /\ (forall tag, In tag (providersUsed before) -> In tag (providersUsed after)).

(** The entry that a provider leaves for a result [v] stored at time [now]. *)
Definition entryFor (c : Cache.TTLCache CacheValue) (now : Z) (v : CacheValue)
    : Cache.CacheRecord CacheValue :=
  {| Cache.value := v; Cache.expiresAt := now + Cache.defaultTtlMs c |}.

(** The context after a hit: the cache as it was, and one more tag. *)
Definition afterHit (context : ProviderContext) (tag : string) : ProviderContext :=
  {| cache := cache context; providersUsed := JS.Set_add tag (providersUsed context) |}.

(** The candidates whose score is [v]. *)
Definition withScore (interests : option (list string)) (v : Q) (places : list PlaceOption)
    : list PlaceOption :=
  List.filter (fun p => Qeq_bool (scoreOf interests p) v) places.

(** A host that prints time values in their ISO spelling and reads no date
    string beyond those of [Date.parse]. *)
Definition isoHost : Mcp.Host :=
  {| Mcp.parseOther := fun _ => None;
     Mcp.dateFormat := Date.isoString;
     Mcp.timeFormat := Date.isoString;
     Mcp.localeString := Date.isoString |}.

(** A string that [Date.parse] reads on every host. *)
Definition parses (s : string) : Prop := exists tv, Date.parse s = Some tv.

(** The flight times that the renderer has to format. *)
Definition flightTimesParse (flights : option FlightsResult) : Prop :=
  forall f, flights = Some f ->
            List.Forall (fun o => parses (depart o) /\ parses (arrive o)) (fr_options f).

(** The time of the day in the spelling of [toISOString]. *)
Definition isoTime (tm : Z) : string :=
  ("T" ++ JS.digits 2 (tm / 3600000) ++ ":" ++ JS.digits 2 (tm / 60000 mod 60) ++ ":"
   ++ JS.digits 2 (tm / 1000 mod 60) ++ "." ++ JS.digits 3 (tm mod 1000) ++ "Z")%string.

(** The metadata of a request with the given sources, read at [now_meta]. *)
Definition metaOf (now_meta : Z) (sources : list string) (fromCache : bool) : ToolMeta :=
  {| generatedAt := Date.isoString now_meta; providers := sources; cached := fromCache |}.

(** The queries that [planTrip] puts to the providers. *)
Definition weatherQuery (input : PlanTripInput) (dest : DestinationInfo) (days : Z)
    : WeatherQueryParams :=
  {| wq_lat := dest_lat dest; wq_lon := dest_lon dest;
     wq_startDate := pti_startDate input; wq_days := days |}.

Definition flightQuery (input : PlanTripInput) (dest : DestinationInfo)
    : FlightSearchParams :=
  {| fsp_origin := JS.nullish (pti_origin input) ""; fsp_destination := dest_name dest;
     departDate := pti_startDate input; returnDate := None; adults := Some 1;
     cabin := None |}.

Definition stayQuery (input : PlanTripInput) (dest : DestinationInfo) (days : Z)
    : StaySearchParams :=
  {| ssp_destination := dest_name dest; checkIn := pti_startDate input; nights := days;
     guests := None |}.

Definition placeQuery (input : PlanTripInput) (dest : DestinationInfo) (days : Z)
    : AttractionSearchParams :=
  {| asp_destination := dest_name dest; tags := pti_interests input;
     limit := Some (Z.max 12 (days * 3)) |}.

(** The flight section of a plan without an origin. *)
Definition noOriginFlights : FlightsResult :=
  {| fr_note := Some "No origin provided."; fr_options := [] |}.

(** One run of [planTrip] up to the rendering, step by step: what each of
    its calls returned, and the contexts [c1] .. [c5] after the five provider
    calls. *)
Record PlanRun : Type := {
  run_dest : DestinationInfo;
  run_c1 : ProviderContext;
  run_end : string;
  run_weather : WeatherSnapshot;
  run_c2 : ProviderContext;
  run_flights : FlightsResult;
  run_c3 : ProviderContext;
  run_stays : StaysResult;
  run_c4 : ProviderContext;
  run_places : PlacesResult;
  run_c5 : ProviderContext;
  run_itinerary : list ItineraryDay
}.

(** The notes that a run hands to the cost estimate. *)
Definition notesOfRun (input : PlanTripInput) (r : PlanRun) : Mcp.CostNotes :=
  {| Mcp.cn_flights :=
       if JS.truthyOpt (pti_origin input)
       then (if JS.truthyOpt (fr_note (run_flights r)) then fr_note (run_flights r)
             else None)
       else None;
     Mcp.cn_stays :=
       if JS.truthyOpt (sr_note (run_stays r)) then sr_note (run_stays r) else None;
     Mcp.cn_places :=
       if JS.truthyOpt (pr_note (run_places r)) then pr_note (run_places r) else None;
     Mcp.cn_weather := None |}.

(** The plan that a run adds up to, not yet rendered. *)
Definition planOfRun (input : PlanTripInput) (up : Mcp.Upstreams) (days : Z) (r : PlanRun)
    : PlanTripResult :=
  {| ptr_destination := run_dest r;
     ptr_dates := {| td_start := pti_startDate input; td_end := run_end r;
                     td_days := days |};
     ptr_weather := run_weather r;
     ptr_flights := Some (run_flights r);
     ptr_stays := Mcp.selectStayTiers (sr_options (run_stays r));
     ptr_places := pr_options (run_places r);
     ptr_itinerary := run_itinerary r;
     ptr_costEstimate :=
       Mcp.computeCostEstimate days (Mcp.selectStayTiers (sr_options (run_stays r)))
         (Some (run_flights r)) (pti_budgetUSD input) (JS.truthyOpt (pti_origin input))
         (notesOfRun input r);
     ptr_html := "";
     ptr_meta := Mcp.providersFromContext (run_c5 r) (Mcp.now_meta up) |}.

(** The steps of a run fit the calls of [planTrip] from the context [c0]. *)
Definition runOf (config : ProviderConfig) (c0 : ProviderContext)
    (input : PlanTripInput) (up : Mcp.Upstreams) (days : Z) (r : PlanRun) : Prop :=
  Places.resolveDestination (pti_destination input) c0 config (Mcp.now_destination up)
    (Mcp.up_geo up)
  = (JS.Return (run_dest r), run_c1 r)
  /\ Mcp.addDays (pti_startDate input) (days - 1) = JS.Return (run_end r)
  /\ Weather.weatherProvider (weatherQuery input (run_dest r) days) (run_c1 r) config
       (Mcp.now_weather up) (Mcp.up_weather up)
     = (JS.Return (run_weather r), run_c2 r)
  /\ (if JS.truthyOpt (pti_origin input)
      then Flights.searchFlightsProvider (flightQuery input (run_dest r)) (run_c2 r) config
             (Mcp.now_flights up) (Mcp.up_token up) (Mcp.up_search up)
           = (JS.Return (run_flights r), run_c3 r)
      else run_flights r = noOriginFlights /\ run_c3 r = run_c2 r)
  /\ Stays.searchStaysProvider (stayQuery input (run_dest r) days) (run_c3 r) config
       (Mcp.now_stays up)
     = (JS.Return (run_stays r), run_c4 r)
  /\ Places.nearbyAttractionsProvider (placeQuery input (run_dest r) days) (run_c4 r)
       config (Mcp.now_places up) (Mcp.up_geoPlaces up) (Mcp.up_radius up)
     = (JS.Return (run_places r), run_c5 r)
  /\ Mcp.groupPlacesForItinerary (pti_startDate input) days (pr_options (run_places r))
       (pti_interests input)
     = JS.Return (run_itinerary r).

(** The answers to the two flight requests replaced by others. *)
Definition withFlightAnswers (up : Mcp.Upstreams)
    (tok : FetchOutcome Flights.AmadeusTokenResponse)
    (srch : FetchOutcome Flights.SearchResponse) : Mcp.Upstreams :=
  {| Mcp.up_geo := Mcp.up_geo up; Mcp.up_weather := Mcp.up_weather up;
     Mcp.up_token := tok; Mcp.up_search := srch;
     Mcp.up_geoPlaces := Mcp.up_geoPlaces up; Mcp.up_radius := Mcp.up_radius up;
     Mcp.now_destination := Mcp.now_destination up; Mcp.now_weather := Mcp.now_weather up;
     Mcp.now_flights := Mcp.now_flights up; Mcp.now_stays := Mcp.now_stays up;
     Mcp.now_places := Mcp.now_places up; Mcp.now_meta := Mcp.now_meta up |}.

(** Every request is rejected, and the clock stands at 0. *)
Definition rejecting : Mcp.Upstreams :=
  {| Mcp.up_geo := FetchRejected; Mcp.up_weather := FetchRejected;
     Mcp.up_token := FetchRejected; Mcp.up_search := FetchRejected;
     Mcp.up_geoPlaces := FetchRejected; Mcp.up_radius := FetchRejected;
     Mcp.now_destination := 0; Mcp.now_weather := 0; Mcp.now_flights := 0;
     Mcp.now_stays := 0; Mcp.now_places := 0; Mcp.now_meta := 0 |}.

(** A host that reads the expanded-year month [+010000-01] as the first
    instant of the year 10000, as the date parser of V8 does, that reads no
    other string beyond those of [Date.parse], and that prints time values in
    their ISO spelling. *)
Definition expandedYearHost : Mcp.Host :=
  {| Mcp.parseOther :=
       fun value => if String.eqb value "+010000-01" then Some 253402300800000 else None;
     Mcp.dateFormat := Date.isoString;
     Mcp.timeFormat := Date.isoString;
     Mcp.localeString := Date.isoString |}.



Definition dailyBudgetNote : string := "Daily activity budgets: $45/75/130 (low/mid/high).".

(** The two notes about a target budget [b] for a mid-range figure [mid]. *)
Definition budgetNotes (b : Q) (mid : Z) : list string :=
  [("Target budget: " ++ Mcp.formatCurrency b ++ ".")%string;
   if Qle_bool (inject_Z mid) b then "Mid-range estimate is within budget."
   else "Mid-range estimate is above budget."].

(** * Lemmas and theorems *)

(** * Facts about the TTL cache *)

Section CacheFacts.
Context {T : Type}.
Implicit Types (c : Cache.TTLCache T) (key : string) (v : T).

Lemma get_miss c now key :
  Cache.store c !! key = None -> Cache.get c now key = (None, c).
Proof. intros H. unfold Cache.get. now rewrite H. Qed.

Lemma get_live c now key r :
  Cache.store c !! key = Some r -> (Cache.expiresAt r <? now) = false ->
  Cache.get c now key = (Some (Cache.value r), c).
Proof. intros H E. unfold Cache.get. now rewrite H, E. Qed.

Lemma get_expired c now key r :
  Cache.store c !! key = Some r -> (Cache.expiresAt r <? now) = true ->
  Cache.get c now key
  = (None, {| Cache.store := delete key (Cache.store c);
              Cache.defaultTtlMs := Cache.defaultTtlMs c |}).
Proof. intros H E. unfold Cache.get. now rewrite H, E. Qed.

Lemma store_set c now key v options :
  Cache.store (Cache.set c now key v options) !! key
  = Some {| Cache.value := v; Cache.expiresAt := now + Cache.ttlOf c options |}.
Proof. unfold Cache.set. simpl. apply lookup_insert_eq. Qed.

Lemma get_visible c now key : fst (Cache.get c now key) = visibleAt c now key.
Proof.
  unfold Cache.get, visibleAt.
  destruct (Cache.store c !! key) as [r|]; simpl; [|reflexivity].
  now destruct (Cache.expiresAt r <? now).
Qed.

End CacheFacts.

(** C2, as stated, fails at the instant of expiry: an entry stored at time
    1000 with a time-to-live of 500 is still returned at time 1500, when the
    time-to-live has elapsed and [now < expiresAt] is false. *)
Lemma cache_visible_at_expiry_instant :
  let c := Cache.set (Cache.new None) 1000 "k" 7
             (Some {| Cache.ttlMs := Some 500 |}) in
  fst (Cache.get c 1500 "k") = Some 7 /\ ~ seenOnlyBeforeExpiry c 1500 "k".
Proof.
  intros c. assert (G : fst (Cache.get c 1500 "k") = Some 7).
  { rewrite get_visible. unfold visibleAt, c. now rewrite store_set. }
  split; [exact G|].
  intros H. destruct (H 7 G) as (r & Hr & Hlt).
  unfold c in Hr. rewrite store_set in Hr. inversion Hr; subst r.
  cbv in Hlt. discriminate.
Qed.

(** C2, amended: after [set] at time [t0], a [get] at time [t1] returns the
    stored value exactly when [t1 <= expiresAt = t0 + ttl]; a [get] strictly
    after [expiresAt] returns absent and removes the entry, and every later
    [get], at whatever clock reading [t2], still returns absent; on any cache
    an entry is seen exactly while [now <= expiresAt]. *)
Theorem cache_get_after_set :
  forall (T : Type) (c : Cache.TTLCache T) (key : string) (v : T)
         (options : option Cache.CacheOptions) (t0 t1 t2 : Z),
    let c1 := Cache.set c t0 key v options in
    let expires := t0 + Cache.ttlOf c options in
    let r1 := Cache.get c1 t1 key in
    fst r1 = (if expires <? t1 then None else Some v)
    /\ Cache.store (snd r1) !! key
       = (if expires <? t1 then None
          else Some {| Cache.value := v; Cache.expiresAt := expires |})
    /\ fst (Cache.get (snd r1) t2 key)
       = (if (expires <? t1) || (expires <? t2) then None else Some v)
    /\ (forall (c' : Cache.TTLCache T) (now : Z) (v' : T),
          fst (Cache.get c' now key) = Some v'
          <-> exists r, Cache.store c' !! key = Some r /\ Cache.value r = v'
                        /\ now <= Cache.expiresAt r).
Proof.
  intros T c key v options t0 t1 t2 c1 expires r1.
  assert (S1 : Cache.store c1 !! key
               = Some {| Cache.value := v; Cache.expiresAt := expires |})
    by apply store_set.
  destruct (expires <? t1) eqn:E1.
  - assert (R : r1 = (None, {| Cache.store := delete key (Cache.store c1);
                               Cache.defaultTtlMs := Cache.defaultTtlMs c1 |})).
    { unfold r1. eapply get_expired; [exact S1|exact E1]. }
    rewrite R; simpl. repeat split.
    + apply lookup_delete_eq.
    + rewrite get_miss; [reflexivity|]. simpl. apply lookup_delete_eq.
    + rewrite get_visible. unfold visibleAt. intros H.
      destruct (Cache.store c' !! key) as [r|]; simpl in H; [|discriminate].
      destruct (Cache.expiresAt r <? now) eqn:E; [discriminate|].
      exists r. apply Z.ltb_ge in E. inversion H. auto.
    + intros (r & Hr & Hv & Hle). rewrite get_visible. unfold visibleAt.
      rewrite Hr. simpl. apply Z.ltb_ge in Hle. rewrite Hle. now rewrite Hv.
  - assert (R : r1 = (Some v, c1)).
    { unfold r1. apply (get_live c1 t1 key _ S1 E1). }
    rewrite R; simpl. repeat split.
    + exact S1.
    + rewrite get_visible. unfold visibleAt. rewrite S1. simpl.
      now destruct (expires <? t2).
    + rewrite get_visible. unfold visibleAt. intros H.
      destruct (Cache.store c' !! key) as [r|]; simpl in H; [|discriminate].
      destruct (Cache.expiresAt r <? now) eqn:E; [discriminate|].
      exists r. apply Z.ltb_ge in E. inversion H. auto.
    + intros (r & Hr & Hv & Hle). rewrite get_visible. unfold visibleAt.
      rewrite Hr. simpl. apply Z.ltb_ge in Hle. rewrite Hle. now rewrite Hv.
Qed.

(** The amended C2 at a concrete cache: stored at 1000 for 500 ms, read at
    1500 (still there) and again at 1501 (gone). *)
Lemma cache_get_after_set_witness :
  let c1 := Cache.set (Cache.new None) 1000 "k" 7 (Some {| Cache.ttlMs := Some 500 |}) in
  fst (Cache.get c1 1500 "k") = Some 7
  /\ fst (Cache.get c1 1501 "k") = None
  /\ fst (Cache.get (snd (Cache.get c1 1501 "k")) 1200 "k") = None.
Proof.
  intros c1.
  destruct (cache_get_after_set Z (Cache.new None) "k" 7
              (Some {| Cache.ttlMs := Some 500 |}) 1000 1500 0) as (A & _).
  destruct (cache_get_after_set Z (Cache.new None) "k" 7
              (Some {| Cache.ttlMs := Some 500 |}) 1000 1501 1200) as (B & _ & C & _).
  split; [exact A | split; [exact B | exact C]].
Defined.


(** * Facts about [Array.prototype.sort] *)

Section SortFacts.
Context {A : Type} (leb : A -> A -> bool).

Lemma sortInsert_perm x l : Permutation (JS.sortInsert leb x l) (x :: l).
Proof.
  induction l as [|y l IH]; simpl; [reflexivity|].
  destruct (leb x y); [reflexivity|].
  rewrite IH. apply perm_swap.
Qed.

Lemma sort_perm l : Permutation (JS.sort leb l) l.
Proof.
  induction l as [|x l IH]; simpl; [reflexivity|].
  unfold JS.sort in *. simpl. rewrite sortInsert_perm. now rewrite IH.
Qed.

Lemma sort_length l : List.length (JS.sort leb l) = List.length l.
Proof. apply Permutation_length, sort_perm. Qed.

Hypothesis leb_total : forall x y, leb x y = false -> leb y x = true.
Hypothesis leb_trans : forall x y z, leb x y = true -> leb y z = true -> leb x z = true.

Lemma sortInsert_sorted x l :
  StronglySorted (fun a b => leb a b = true) l ->
  StronglySorted (fun a b => leb a b = true) (JS.sortInsert leb x l).
Proof.
  induction 1 as [|y l Hl IH Hy]; simpl.
  - repeat constructor.
  - destruct (leb x y) eqn:E.
    + constructor; [now constructor|].
      constructor; [exact E|].
      rewrite List.Forall_forall in Hy |- *. intros z Hz.
      eapply leb_trans; [exact E|]. now apply Hy.
    + constructor; [exact IH|].
      rewrite List.Forall_forall in Hy |- *. intros z Hz.
      apply (Permutation_in _ (sortInsert_perm x l)) in Hz.
      destruct Hz as [<-|Hz]; [now apply leb_total|now apply Hy].
Qed.

Lemma sort_sorted l : StronglySorted (fun a b => leb a b = true) (JS.sort leb l).
Proof.
  induction l as [|x l IH]; simpl; [constructor|].
  unfold JS.sort in *. simpl. now apply sortInsert_sorted.
Qed.

End SortFacts.

(** * Cost estimate *)

Lemma priceLeb_le a b : priceLeb a b = true <-> a <= b.
Proof. unfold priceLeb. rewrite Z.leb_le. lia. Qed.

Lemma flightComponents_tiers flights originProvided :
  Mcp.flightComponents flights originProvided
  = tiersOf (JS.sort priceLeb (positivePrices flights)).
Proof.
  unfold Mcp.flightComponents, Mcp.flightPrices, positivePrices, tiersOf.
  destruct flights as [f|]; simpl.
  - unfold Mcp.Number_isFinite. simpl.
    change (fun a b : Z => a - b <=? 0) with priceLeb.
    set (s := JS.sort priceLeb _).
    assert (E : (if originProvided then 0 else 0) = 0) by now destruct originProvided.
    rewrite E.
    destruct s as [|a [|b [|c s']]]; try reflexivity.
    replace (Z.min 1 (Z.of_nat (List.length (a :: b :: c :: s')) - 1)) with 1
      by (simpl List.length; lia).
    replace (Z.min 2 (Z.of_nat (List.length (a :: b :: c :: s')) - 1)) with 2
      by (simpl List.length; lia).
    reflexivity.
  - now destruct originProvided.
Qed.

Lemma tiersOf_ordered s :
  StronglySorted Z.le s ->
  let '(lo, mi, hi) := tiersOf s in lo <= mi <= hi.
Proof.
  intros H. unfold tiersOf.
  destruct s as [|a [|b [|c s']]]; simpl; try lia.
  - inversion H as [|? ? _ Ha]; subst. inversion Ha; subst. lia.
  - inversion H as [|? ? Hs Ha]; subst. inversion Ha as [|? ? Hab _]; subst.
    inversion Hs as [|? ? _ Hb]; subst. inversion Hb; subst. lia.
Qed.

Lemma StronglySorted_weaken {A : Type} (R R' : A -> A -> Prop) (l : list A) :
  (forall x y, R x y -> R' x y) -> StronglySorted R l -> StronglySorted R' l.
Proof.
  intros HR. induction 1 as [|x l Hl IH Hx]; constructor; [exact IH|].
  eapply List.Forall_impl; [|exact Hx]. intros y. apply HR.
Qed.

Lemma sorted_prices l : StronglySorted Z.le (JS.sort priceLeb l).
Proof.
  apply (StronglySorted_weaken (fun x y => priceLeb x y = true)).
  { intros x y. apply priceLeb_le. }
  apply sort_sorted.
  - intros x y H. apply priceLeb_le. apply not_true_iff_false in H.
    rewrite priceLeb_le in H. lia.
  - intros x y z. rewrite !priceLeb_le. lia.
Qed.

Lemma flightComponents_ordered flights originProvided :
  let '(lo, mi, hi) := Mcp.flightComponents flights originProvided in
  lo <= mi <= hi.
Proof. rewrite flightComponents_tiers. apply tiersOf_ordered, sorted_prices. Qed.

(** C3, as stated, fails when an option has no positive price: for the
    options priced 0 and 100 (0 is what [mapAmadeusOfferToOption] gives an
    offer without a readable price) the cheapest prices in ascending order are
    0, 100 and, repeated, 100, but the estimator's components are 100, 100, 100. *)
Lemma flight_tiers_skip_unpriced_option :
  let flights := Some {| fr_note := None;
                         fr_options := [flightWithPrice 0; flightWithPrice 100] |} in
  tiersOf (JS.sort priceLeb (map priceUSD [flightWithPrice 0; flightWithPrice 100]))
    = (0, 100, 100)
  /\ Mcp.flightComponents flights true = (100, 100, 100)
  /\ Mcp.flightComponents flights true
     <> tiersOf (JS.sort priceLeb (map priceUSD [flightWithPrice 0; flightWithPrice 100])).
Proof. repeat split; try reflexivity. vm_compute. discriminate. Qed.

(** C3, amended: the flight components are the first, second and third of
    the positive prices of the options in ascending order (options whose
    price is not positive are left out); with fewer than three such prices
    high repeats mid and mid repeats low, and without any the low component
    is 0. *)
Theorem flight_components_cheapest_positive :
  forall (flights : option FlightsResult) (originProvided : bool),
  exists ascending : list Z,
    Permutation ascending (positivePrices flights)
    /\ StronglySorted Z.le ascending
    /\ Mcp.flightComponents flights originProvided
       = (nth 0 ascending 0,
          nth 1 ascending (nth 0 ascending 0),
          nth 2 ascending (nth 1 ascending (nth 0 ascending 0))).
Proof.
  intros flights originProvided.
  exists (JS.sort priceLeb (positivePrices flights)).
  split; [apply sort_perm|]. split; [apply sorted_prices|].
  apply flightComponents_tiers.
Qed.

Lemma computeCostEstimate_totals days stays flights budget originProvided notes :
  let e := Mcp.computeCostEstimate days stays flights budget originProvided notes in
  let '(fl, fm, fh) := Mcp.flightComponents flights originProvided in
  let '(sb, sm, sp) := Mcp.stayComponents stays in
  lowUSD e = fl + sb + 45 * days
  /\ midUSD e = fm + sm + 75 * days
  /\ highUSD e = fh + sp + 130 * days.
Proof.
  unfold Mcp.computeCostEstimate.
  destruct (Mcp.flightComponents flights originProvided) as [[fl fm] fh].
  destruct (Mcp.stayComponents stays) as [[sb sm] sp].
  simpl. unfold Mcp.Math_round. auto.
Qed.

(** C4, as stated, fails for a selection whose budget option costs more than
    its mid option: for one day and the selection made from a budget stay at
    500, a mid stay at 100 and a premium stay at 150 (one option per tier,
    which [selectStayTiers] keeps as it is), low = 545 and mid = 175. *)
Lemma cost_low_above_mid :
  let offered := [stayWithTotal budget 500; stayWithTotal mid 100;
                  stayWithTotal premium 150] in
  let e := Mcp.computeCostEstimate 1 (Mcp.selectStayTiers offered)
             None None false noNotes in
  Mcp.selectStayTiers offered = offered
  /\ lowUSD e = 545 /\ midUSD e = 175 /\ highUSD e = 280
  /\ ~ (lowUSD e <= midUSD e <= highUSD e).
Proof. vm_compute. repeat split; try reflexivity. intros [H _]. now apply H. Qed.

(** The selection that a plan request makes from the stay provider's options
    has ordered lodging components. *)
Lemma mock_selection_ordered (params : StaySearchParams) :
  0 <= nights params ->
  let '(sb, sm, sp) :=
    Mcp.stayComponents (Mcp.selectStayTiers (Stays.withPricing Stays.MOCK_STAYS params)) in
  sb <= sm <= sp.
Proof.
  intros H.
  assert (E : Mcp.stayComponents
                (Mcp.selectStayTiers (Stays.withPricing Stays.MOCK_STAYS params))
              = (35 * nights params, 86 * nights params, 204 * nights params)).
  { reflexivity. }
  rewrite E. lia.
Qed.

(** C4, amended: for a day count that is not negative and a selection whose
    lodging components are ordered, budget <= mid <= premium after the
    fallbacks (as they are for the selection made from the stay provider's
    options), the estimate satisfies low <= mid <= high, whatever the flight
    result, the budget and the notes. *)
Theorem cost_estimate_monotone :
  forall (days : Z) (stays : list StayOption) (flights : option FlightsResult)
         (budget : option Q) (originProvided : bool) (notes : Mcp.CostNotes),
    0 <= days ->
    (let '(sb, sm, sp) := Mcp.stayComponents stays in sb <= sm <= sp) ->
    let e := Mcp.computeCostEstimate days stays flights budget originProvided notes in
    lowUSD e <= midUSD e <= highUSD e.
Proof.
  intros days stays flights budget originProvided notes Hd Hs e.
  pose proof (computeCostEstimate_totals days stays flights budget originProvided notes) as T.
  pose proof (flightComponents_ordered flights originProvided) as F.
  fold e in T.
  destruct (Mcp.flightComponents flights originProvided) as [[fl fm] fh].
  destruct (Mcp.stayComponents stays) as [[sb sm] sp].
  destruct T as (-> & -> & ->). lia.
Qed.

(** The amended C4 on a four-night selection from the mock stays, with the
    three mock flights. *)
Lemma cost_estimate_monotone_witness :
  let params := {| ssp_destination := "Chiang Mai"; checkIn := "2025-11-20";
                   nights := 4; guests := None |} in
  let stays := Mcp.selectStayTiers (Stays.withPricing Stays.MOCK_STAYS params) in
  let flights := Some {| fr_note := None; fr_options := Flights.MOCK_FLIGHTS |} in
  let e := Mcp.computeCostEstimate 4 stays flights None true noNotes in
  lowUSD e <= midUSD e <= highUSD e.
Proof.
  intros params stays flights.
  apply (cost_estimate_monotone 4 stays flights None true noNotes).
  - lia.
  - apply (mock_selection_ordered params). simpl. lia.
Defined.


(** * Stay tiers *)

Lemma ofTier_true ty o : ofTier ty o = true <-> stay_type o = ty.
Proof. unfold ofTier, StayType_eqb. apply bool_decide_eq_true. Qed.

Lemma selectStayTiers_empty : Mcp.selectStayTiers [] = [].
Proof. reflexivity. Qed.

Lemma selectStayTiers_cons o rest :
  Mcp.selectStayTiers (o :: rest) = map (pick o rest) [budget; mid; premium].
Proof.
  unfold Mcp.selectStayTiers, pick, JS.find, JS.nullishOpt, JS.nullish, ofTier.
  simpl.
  destruct (StayType_eqb (stay_type o) budget), (StayType_eqb (stay_type o) mid),
    (StayType_eqb (stay_type o) premium);
    destruct (List.find (fun option => StayType_eqb (stay_type option) budget) rest),
      (List.find (fun option => StayType_eqb (stay_type option) mid) rest),
      (List.find (fun option => StayType_eqb (stay_type option) premium) rest);
    reflexivity.
Qed.

Lemma pick_offered o rest ty :
  offers (o :: rest) ty -> stay_type (pick o rest ty) = ty.
Proof.
  intros (x & Hx & Hty). unfold pick, JS.nullish.
  destruct (List.find (ofTier ty) (o :: rest)) as [s|] eqn:E.
  - apply find_some in E. now apply ofTier_true.
  - exfalso. apply (find_none _ _ E) in Hx.
    apply ofTier_true in Hty. congruence.
Qed.

Lemma pick_missing o rest ty : ~ offers (o :: rest) ty -> pick o rest ty = o.
Proof.
  intros H. unfold pick, JS.nullish.
  destruct (List.find (ofTier ty) (o :: rest)) as [s|] eqn:E; [|reflexivity].
  exfalso. apply H. apply find_some in E. exists s. split; [tauto|].
  now apply ofTier_true.
Qed.

Lemma pick_own_tier o rest : pick o rest (stay_type o) = o.
Proof.
  unfold pick. simpl.
  assert (E : ofTier (stay_type o) o = true) by now apply ofTier_true.
  now rewrite E.
Qed.

Lemma offers_dec options ty : {offers options ty} + {~ offers options ty}.
Proof.
  destruct (List.find (ofTier ty) options) as [s|] eqn:E.
  - left. apply find_some in E. exists s. split; [tauto|]. now apply ofTier_true.
  - right. intros (x & Hx & Hty). apply (find_none _ _ E) in Hx.
    apply ofTier_true in Hty. congruence.
Qed.

(** C9, as stated, fails for a list without all three tiers: from a single
    premium option the selection has three entries, all of the premium tier. *)
Lemma stay_selection_repeats_tier :
  let options := [stayWithTotal premium 900] in
  map stay_type (Mcp.selectStayTiers options) = [premium; premium; premium]
  /\ ~ NoDup (map stay_type (Mcp.selectStayTiers options)).
Proof.
  intros options. split; [reflexivity|].
  change (~ NoDup [premium; premium; premium]).
  rewrite NoDup_cons, elem_of_cons. tauto.
Qed.

(** C9, amended: the selection of an empty list is empty; otherwise it has
    one entry for each of budget, mid and premium, in this order: the first
    option of that tier or, when the list has none of that tier, the first
    option of the list.  Hence it never has more than three entries, and no
    two of them share a tier exactly when the list is empty or offers all
    three tiers. *)
Theorem stay_tier_selection :
  forall options : list StayOption,
    Mcp.selectStayTiers options
    = match options with
      | [] => []
      | o :: _ =>
          map (fun ty => JS.nullish
                           (List.find (fun option => StayType_eqb (stay_type option) ty) options)
                           o)
              [budget; mid; premium]
      end
    /\ (List.length (Mcp.selectStayTiers options) <= 3)%nat
    /\ (NoDup (map stay_type (Mcp.selectStayTiers options))
        <-> options = [] \/ forall ty, offers options ty).
Proof.
  intros [|o rest].
  - split; [reflexivity|]. split; [simpl; lia|].
    split; [now left|]. intros _. simpl. constructor.
  - rewrite selectStayTiers_cons. split; [reflexivity|].
    split; [simpl; lia|]. split.
    + intros H. right. intros ty.
      destruct (offers_dec (o :: rest) ty) as [Y|N]; [exact Y|exfalso].
      assert (Hne : stay_type o <> ty).
      { intros <-. apply N. exists o. split; [now left|reflexivity]. }
      pose proof (pick_missing o rest ty N) as E1.
      pose proof (pick_own_tier o rest) as E2.
      simpl in H.
      rewrite !NoDup_cons, !elem_of_cons in H.
      destruct ty, (stay_type o) eqn:Et; try congruence;
        rewrite ?E1, ?E2, ?Et in H; tauto.
    + intros [H|H]; [discriminate|]. simpl.
      rewrite !pick_offered by apply H.
      rewrite !NoDup_cons, !elem_of_cons, elem_of_nil.
      repeat split; try apply NoDup_nil_2; try apply not_elem_of_nil;
        rewrite ?elem_of_nil; intuition congruence.
Qed.

(** The amended C9 on the options of the stay provider, which offer all
    three tiers. *)
Lemma stay_tier_selection_witness :
  let options :=
    Stays.withPricing Stays.MOCK_STAYS
      {| ssp_destination := "Chiang Mai"; checkIn := "2025-11-20"; nights := 4;
         guests := None |} in
  map stay_type (Mcp.selectStayTiers options) = [budget; mid; premium]
  /\ NoDup (map stay_type (Mcp.selectStayTiers options)).
Proof.
  intros options. split; [reflexivity|].
  destruct (stay_tier_selection options) as (_ & _ & H). apply H. right.
  intros ty. destruct ty.
  - exists (nth 0 options (stayWithTotal budget 0)). split; [now left|reflexivity].
  - exists (nth 1 options (stayWithTotal budget 0)). split; [right; now left|reflexivity].
  - exists (nth 2 options (stayWithTotal budget 0)).
    split; [right; right; now left|reflexivity].
Defined.


(** * Provenance *)

Lemma startsWith_cons_inv s c q :
  JS.startsWith s (String c q) = true ->
  exists s', s = String c s' /\ JS.startsWith s' q = true.
Proof.
  destruct s as [|a s']; simpl; [discriminate|].
  intros H. apply andb_true_iff in H as [Ha Hs].
  apply Ascii.eqb_eq in Ha. subst a. eauto.
Qed.

(** A string that is rewritten starts with the replacement. *)
Lemma replaced_form s :
  JS.startsWith s "cache:" = true ->
  exists r, JS.replaceFirst s "cache:" "cache→" = ("cache→" ++ r)%string.
Proof.
  intros Hs. destruct s as [|a s']; [discriminate|].
  unfold JS.replaceFirst. fold JS.replaceFirst. rewrite Hs. eauto.
Qed.

(** A string that is not rewritten at its head keeps its first character. *)
Lemma kept_head s c q :
  JS.startsWith s "cache:" = false ->
  JS.startsWith (JS.replaceFirst s "cache:" "cache→") (String c q) = true ->
  exists s', s = String c s'
             /\ JS.startsWith (JS.replaceFirst s' "cache:" "cache→") q = true.
Proof.
  intros Hs. destruct s as [|a s'].
  - simpl. discriminate.
  - unfold JS.replaceFirst. fold JS.replaceFirst. rewrite Hs.
    intros H. apply startsWith_cons_inv in H as (x & E & Hx).
    inversion E; subst. eauto.
Qed.

Lemma replaceFirst_no_cache_prefix s :
  isCacheTag s = false ->
  isCacheTag (JS.replaceFirst s "cache:" "cache→") = false.
Proof.
  unfold isCacheTag. intros Hs.
  destruct (JS.startsWith (JS.replaceFirst s "cache:" "cache→") "cache:") eqn:E;
    [exfalso|reflexivity].
  apply kept_head in E as (s1 & -> & E); [|exact Hs].
  destruct (JS.startsWith s1 "cache:") eqn:H1.
  { apply replaced_form in H1 as (r & Hr). rewrite Hr in E. discriminate E. }
  apply kept_head in E as (s2 & -> & E); [|exact H1].
  destruct (JS.startsWith s2 "cache:") eqn:H2.
  { apply replaced_form in H2 as (r & Hr). rewrite Hr in E. discriminate E. }
  apply kept_head in E as (s3 & -> & E); [|exact H2].
  destruct (JS.startsWith s3 "cache:") eqn:H3.
  { apply replaced_form in H3 as (r & Hr). rewrite Hr in E. discriminate E. }
  apply kept_head in E as (s4 & -> & E); [|exact H3].
  destruct (JS.startsWith s4 "cache:") eqn:H4.
  { apply replaced_form in H4 as (r & Hr). rewrite Hr in E. discriminate E. }
  apply kept_head in E as (s5 & -> & E); [|exact H4].
  destruct (JS.startsWith s5 "cache:") eqn:H5.
  { apply replaced_form in H5 as (r & Hr). rewrite Hr in E. discriminate E. }
  apply kept_head in E as (s6 & -> & E); [|exact H5].
  cbv in Hs. discriminate Hs.
Qed.

Lemma formatProviderName_no_cache_prefix name :
  isCacheTag name = false -> isCacheTag (Mcp.formatProviderName name) = false.
Proof.
  intros H. unfold Mcp.formatProviderName.
  repeat match goal with
         | |- context [String.eqb name ?k] => destruct (String.eqb name k); [reflexivity|]
         end.
  now apply replaceFirst_no_cache_prefix.
Qed.

Lemma filter_nil_iff {A : Type} (p : A -> bool) (l : list A) :
  List.filter p l = [] <-> forall x, In x l -> p x = false.
Proof.
  induction l as [|a l IH]; simpl; [tauto|].
  destruct (p a) eqn:E; split.
  - discriminate.
  - intros H. specialize (H a (or_introl eq_refl)). congruence.
  - intros H x [<-|Hx]; [exact E|]. now apply IH.
  - intros H. apply IH. intros x Hx. apply H. now right.
Qed.

(** C7: from the tags of a request, [cached] is true exactly when some tag
    begins with the cache prefix; the displayed list is made of the display
    names of the tags that do not begin with it, in their order, and none of
    its names begins with the prefix; when no such tag exists the displayed
    list is exactly the sentinel ["mock-data"]. *)
Theorem provenance_summary :
  forall (context : ProviderContext) (now : Z),
    let tags := providersUsed context in
    let meta := Mcp.providersFromContext context now in
    let shown := List.filter (fun tag => negb (isCacheTag tag)) tags in
    (cached meta = true <-> exists tag, In tag tags /\ isCacheTag tag = true)
    /\ providers meta
       = (if Nat.eqb (List.length shown) 0 then ["mock-data"]
          else map Mcp.formatProviderName shown)
    /\ (forall name, In name (providers meta) -> isCacheTag name = false)
    /\ ((forall tag, In tag tags -> isCacheTag tag = true) <-> shown = [])
    /\ (shown = [] -> providers meta = ["mock-data"]).
Proof.
  intros context now tags meta shown.
  assert (P : providers meta
              = (if Nat.eqb (List.length shown) 0 then ["mock-data"]
                 else map Mcp.formatProviderName shown)).
  { change (providers meta)
      with (if Nat.ltb 0 (List.length (map Mcp.formatProviderName shown))
            then map Mcp.formatProviderName shown else ["mock-data"]).
    rewrite length_map. now destruct shown. }
  split; [|split; [exact P|split; [|split]]].
  - change (cached meta) with (existsb isCacheTag tags).
    rewrite existsb_exists. reflexivity.
  - rewrite P. intros name Hin. destruct (Nat.eqb (List.length shown) 0).
    + destruct Hin as [<-|[]]. reflexivity.
    + apply in_map_iff in Hin as (tag & <- & Htag). unfold shown in Htag.
      apply filter_In in Htag as [_ Htag].
      apply formatProviderName_no_cache_prefix. now apply negb_true_iff.
  - unfold shown. rewrite filter_nil_iff. split; intros H x Hx.
    + rewrite (H x Hx). reflexivity.
    + apply negb_false_iff. now apply H.
  - intros E. rewrite P, E. reflexivity.
Qed.

(** C7 on the tags of a request that was served from the cache only, and on
    one that met the weather cache and the mock flights. *)
Lemma provenance_summary_witness :
  let fromCache := {| cache := Cache.new None;
                      providersUsed := ["cache:open-meteo"; "cache:flights"] |} in
  let mixed := {| cache := Cache.new None;
                  providersUsed := ["cache:open-meteo"; "flights:mock"] |} in
  providers (Mcp.providersFromContext fromCache 0) = ["mock-data"]
  /\ cached (Mcp.providersFromContext mixed 0) = true
  /\ providers (Mcp.providersFromContext mixed 0) = ["Mock flights"].
Proof.
  intros fromCache mixed.
  destruct (provenance_summary fromCache 0) as (_ & _ & _ & _ & A).
  destruct (provenance_summary mixed 0) as (B & C & _).
  split; [apply A; reflexivity|]. split; [|exact C].
  apply B. exists "cache:open-meteo". split; [now left|reflexivity].
Defined.

(** * Interest scores *)

Lemma startsWith_refl s : JS.startsWith s s = true.
Proof. induction s as [|a s IH]; simpl; [reflexivity|]. now rewrite Ascii.eqb_refl. Qed.

Lemma includes_refl s : JS.includes s s = true.
Proof. destruct s; simpl; [reflexivity|]. now rewrite Ascii.eqb_refl, startsWith_refl. Qed.

Lemma existsb_eqb_In x (s : list string) : existsb (String.eqb x) s = true <-> In x s.
Proof.
  rewrite existsb_exists. split.
  - intros (y & Hy & E). apply String.eqb_eq in E. now subst.
  - intros H. exists x. split; [exact H|apply String.eqb_refl].
Qed.

Lemma Set_add_In x s k : In k (JS.Set_add x s) <-> In k s \/ k = x.
Proof.
  unfold JS.Set_add. destruct (existsb (String.eqb x) s) eqn:E.
  - apply existsb_eqb_In in E. split; [tauto|]. intros [H| ->]; assumption.
  - rewrite in_app_iff. simpl. intuition.
Qed.

Lemma Set_add_NoDup x s : List.NoDup s -> List.NoDup (JS.Set_add x s).
Proof.
  intros H. unfold JS.Set_add. destruct (existsb (String.eqb x) s) eqn:E; [exact H|].
  assert (N : ~ In x s).
  { intros Hin. apply existsb_eqb_In in Hin. congruence. }
  clear E. induction H as [|y l Hy Hl IH]; simpl.
  - repeat constructor. intros [].
  - constructor.
    + rewrite in_app_iff. simpl. intros [Hin|[->|[]]]; [now apply Hy|].
      apply N. now left.
    + apply IH. intros Hin. apply N. now right.
Qed.

Lemma Set_fold_In xs s k :
  In k (fold_left (fun s x => JS.Set_add x s) xs s) <-> In k s \/ In k xs.
Proof.
  revert s. induction xs as [|x xs IH]; intros s; simpl; [tauto|].
  rewrite IH, Set_add_In. intuition.
Qed.

Lemma Set_fold_NoDup xs s :
  List.NoDup s -> List.NoDup (fold_left (fun s x => JS.Set_add x s) xs s).
Proof.
  revert s. induction xs as [|x xs IH]; intros s H; simpl; [exact H|].
  apply IH. now apply Set_add_NoDup.
Qed.

Lemma Set_from_In xs k : In k (JS.Set_from xs) <-> In k xs.
Proof. unfold JS.Set_from. rewrite Set_fold_In. simpl. tauto. Qed.

Lemma bonus_nonneg place k : (0 <= bonus place k)%Q.
Proof.
  unfold bonus.
  destruct (JS.includes (JS.toLowerCase (category place)) k),
    (JS.includes (JS.toLowerCase (place_name place)) k); lra.
Qed.

Lemma bonusSum_nonneg place ks : (0 <= bonusSum place ks)%Q.
Proof.
  induction ks as [|k ks IH]; simpl; [lra|].
  pose proof (bonus_nonneg place k). lra.
Qed.

Lemma bonusSum_ge place ks k : In k ks -> (bonus place k <= bonusSum place ks)%Q.
Proof.
  induction ks as [|k' ks IH]; simpl; [tauto|].
  intros [->|H].
  - pose proof (bonusSum_nonneg place ks). lra.
  - specialize (IH H). pose proof (bonus_nonneg place k'). lra.
Qed.

Lemma bonusSum_zero place ks :
  (forall k, In k ks ->
     JS.includes (JS.toLowerCase (category place)) k = false
     /\ JS.includes (JS.toLowerCase (place_name place)) k = false) ->
  (bonusSum place ks == 0)%Q.
Proof.
  induction ks as [|k ks IH]; simpl; intros H; [lra|].
  destruct (H k (or_introl eq_refl)) as [Hc Hn].
  unfold bonus at 1. rewrite Hc, Hn.
  rewrite IH; [lra|]. intros k' Hk'. apply H. now right.
Qed.

Lemma score_fold place ks (acc : Q) :
  (fold_left
     (fun score interest =>
        let score :=
          if JS.includes (JS.toLowerCase (category place)) interest
          then (score + 2)%Q else score in
        if JS.includes (JS.toLowerCase (place_name place)) interest
        then (score + (15 # 10))%Q else score)
     ks acc == acc + bonusSum place ks)%Q.
Proof.
  revert acc. induction ks as [|k ks IH]; intros acc; simpl; [lra|].
  rewrite IH. unfold bonus.
  destruct (JS.includes (JS.toLowerCase (category place)) k),
    (JS.includes (JS.toLowerCase (place_name place)) k); lra.
Qed.

Lemma score_formula place ks :
  (Mcp.computeInterestScore place ks == 1 + bonusSum place ks)%Q.
Proof.
  unfold Mcp.computeInterestScore. destruct ks as [|k ks].
  - simpl. lra.
  - change (Nat.eqb (List.length (k :: ks)) 0) with false. cbv iota.
    apply score_fold.
Qed.

(** C6: the interest set of a request holds the lowered keywords, each once.
    Without keywords every candidate scores 1.  With keywords the score is 1
    plus, for every keyword of the set, 2 if the keyword occurs in the lowered
    category and 1.5 if it occurs in the lowered name.  Hence a candidate whose
    category equals one of the given keywords scores strictly more than a
    candidate in whose category and name no keyword occurs. *)
Theorem interest_score :
  forall (place other : PlaceOption) (interests : option (list string)),
    let keywords := Mcp.interestSet interests in
    (forall k, In k keywords
               <-> exists i, In i (JS.nullish interests []) /\ k = JS.toLowerCase i)
    /\ List.NoDup keywords
    /\ (keywords = [] -> Mcp.computeInterestScore place keywords = 1%Q)
    /\ (Mcp.computeInterestScore place keywords == 1 + bonusSum place keywords)%Q
    /\ (forall keyword,
          In keyword (JS.nullish interests []) ->
          category place = keyword ->
          (forall k, In k keywords ->
             JS.includes (JS.toLowerCase (category other)) k = false
             /\ JS.includes (JS.toLowerCase (place_name other)) k = false) ->
          (Mcp.computeInterestScore other keywords
           < Mcp.computeInterestScore place keywords)%Q).
Proof.
  intros place other interests keywords.
  assert (M : forall k, In k keywords
                        <-> exists i, In i (JS.nullish interests []) /\ k = JS.toLowerCase i).
  { intros k. unfold keywords, Mcp.interestSet. rewrite Set_from_In, in_map_iff.
    split; intros (i & A & B); exists i; auto. }
  split; [exact M|]. split.
  { unfold keywords, Mcp.interestSet, JS.Set_from. apply Set_fold_NoDup. constructor. }
  split; [intros ->; reflexivity|].
  split; [apply score_formula|].
  intros keyword Hin Hcat Hother.
  rewrite (score_formula place), (score_formula other).
  rewrite (bonusSum_zero other keywords Hother).
  assert (K : In (JS.toLowerCase keyword) keywords) by (apply M; eauto).
  pose proof (bonusSum_ge place keywords _ K) as G.
  assert (B : (2 <= bonus place (JS.toLowerCase keyword))%Q).
  { unfold bonus. rewrite Hcat, includes_refl.
    destruct (JS.includes (JS.toLowerCase (place_name place)) (JS.toLowerCase keyword)); lra. }
  lra.
Qed.

(** C6 on two mock places and the keywords "Temple" and "food". *)
Lemma interest_score_witness :
  let temple := placeOf "Wat Phra Singh" "temple" in
  let park := placeOf "Elephant Nature Park" "nature" in
  let keywords := Mcp.interestSet (Some ["Temple"; "food"; "temple"]) in
  keywords = ["temple"; "food"]
  /\ (Mcp.computeInterestScore park keywords < Mcp.computeInterestScore temple keywords)%Q.
Proof.
  intros temple park keywords. split; [reflexivity|].
  destruct (interest_score temple park (Some ["Temple"; "food"; "temple"]))
    as (_ & _ & _ & _ & H).
  apply (H "temple").
  - right; right; now left.
  - reflexivity.
  - intros k [<-|[<-|[]]]; split; reflexivity.
Defined.


(** * The calendar *)

Lemma allFrom_spec n z p :
  allFrom n z p = true -> forall k, z <= k < z + Z.of_nat n -> p k = true.
Proof.
  revert z. induction n as [|n IH]; intros z H k Hk; [lia|].
  simpl in H. apply andb_true_iff in H as [Hz Hn].
  destruct (Z.eq_dec k z) as [->|Hne]; [exact Hz|].
  apply (IH (z + 1) Hn). lia.
Qed.

Lemma eraOK_all : allFrom (Z.to_nat 146097) 0 eraOK = true.
Proof. vm_cast_no_check (eq_refl true). Qed.

Lemma civOK_all :
  allFrom 400 0 (fun yoe => allFrom 12 0 (fun mp => allFrom 31 1 (civOK yoe mp))) = true.
Proof. vm_cast_no_check (eq_refl true). Qed.


Lemma eraOK_at doe : 0 <= doe < 146097 -> eraOK doe = true.
Proof.
  intros H. apply (allFrom_spec _ _ _ eraOK_all).
  rewrite Z2Nat.id; lia.
Qed.

Lemma civOK_at yoe mp d :
  0 <= yoe < 400 -> 0 <= mp < 12 -> 1 <= d <= 31 -> civOK yoe mp d = true.
Proof.
  intros Hy Hm Hd.
  pose proof (allFrom_spec _ _ _ civOK_all yoe ltac:(simpl; lia)) as H1.
  cbv beta in H1.
  pose proof (allFrom_spec _ _ _ H1 mp ltac:(simpl; lia)) as H2.
  cbv beta in H2.
  apply (allFrom_spec _ _ _ H2 d). simpl. lia.
Qed.

Lemma isLeapYear_shift y k : isLeapYear (y + k * 400) = isLeapYear y.
Proof.
  unfold isLeapYear.
  replace ((y + k * 400) mod 4) with (y mod 4)
    by (replace (k * 400) with (k * 100 * 4) by lia; now rewrite Z_mod_plus_full).
  replace ((y + k * 400) mod 100) with (y mod 100)
    by (replace (k * 400) with (k * 4 * 100) by lia; now rewrite Z_mod_plus_full).
  now rewrite Z_mod_plus_full.
Qed.

Lemma daysInMonth_shift y k m : daysInMonth (y + k * 400) m = daysInMonth y m.
Proof. unfold daysInMonth. now rewrite isLeapYear_shift. Qed.

Lemma daysInMonth_bound y m : 28 <= daysInMonth y m <= 31.
Proof.
  unfold daysInMonth.
  repeat match goal with
         | |- context [match ?x with _ => _ end] => destruct x
         end; lia.
Qed.

Lemma monthOf_range mp : 0 <= mp <= 11 -> 1 <= monthOf mp <= 12.
Proof. unfold monthOf. destruct (mp <? 10) eqn:E; [apply Z.ltb_lt in E|apply Z.ltb_ge in E]; lia. Qed.

Lemma marchBased_monthOf mp : 0 <= mp <= 11 -> marchBased (monthOf mp) = mp.
Proof.
  intros H. unfold marchBased, monthOf.
  destruct (mp <? 10) eqn:E; [apply Z.ltb_lt in E|apply Z.ltb_ge in E].
  - destruct (mp + 3 <=? 2) eqn:F; [apply Z.leb_le in F|]; lia.
  - destruct (mp - 9 <=? 2) eqn:F; [|apply Z.leb_gt in F]; lia.
Qed.

Lemma monthOf_marchBased m : 1 <= m <= 12 -> monthOf (marchBased m) = m.
Proof.
  intros H. unfold marchBased, monthOf.
  destruct (m <=? 2) eqn:E; [apply Z.leb_le in E|apply Z.leb_gt in E].
  - destruct (m + 9 <? 10) eqn:F; [apply Z.ltb_lt in F|]; lia.
  - destruct (m - 3 <? 10) eqn:F; [|apply Z.ltb_ge in F]; lia.
Qed.

Lemma daysFromCivil_era era yoe m d :
  0 <= yoe <= 399 -> 1 <= m <= 12 ->
  daysFromCivil (yoe + era * 400 + (if m <=? 2 then 1 else 0)) m d
  = era * 146097 + doeOf yoe (marchBased m) d - 719468.
Proof.
  intros Hy Hm. unfold daysFromCivil, marchBased.
  assert (E : (if m <=? 2 then yoe + era * 400 + (if m <=? 2 then 1 else 0) - 1
               else yoe + era * 400 + (if m <=? 2 then 1 else 0)) = yoe + era * 400).
  { destruct (m <=? 2); lia. }
  rewrite E.
  replace ((yoe + era * 400) / 400) with era
    by (apply (Z.div_unique _ _ era yoe); lia).
  replace ((yoe + era * 400) mod 400) with yoe
    by (apply (Z.mod_unique _ _ era yoe); lia).
  reflexivity.
Qed.

(** The date of a day number is a date of the calendar with that day number. *)
Lemma civilFromDays_spec z :
  let c := civilFromDays z in
  validCivil c = true /\ daysFromCivil (year c) (month c) (day c) = z.
Proof.
  unfold civilFromDays.
  set (z' := z + 719468).
  assert (Hd : 0 <= z' mod 146097 < 146097) by (apply Z.mod_pos_bound; lia).
  assert (Hz : z' = 146097 * (z' / 146097) + z' mod 146097) by (apply Z.div_mod; lia).
  pose proof (eraOK_at _ Hd) as H. unfold eraOK in H.
  destruct (civilOfDoe (z' mod 146097)) as [[yoe mp] d].
  repeat (apply andb_true_iff in H as [H ?]).
  repeat match goal with
         | X : (_ <=? _) = true |- _ => apply Z.leb_le in X
         | X : (_ =? _) = true |- _ => apply Z.eqb_eq in X
         end.
  fold (monthOf mp). cbn [year month day].
  assert (Hm : 1 <= monthOf mp <= 12) by (apply monthOf_range; lia).
  split.
  - unfold validCivil. cbn [year month day].
    replace (yoe + z' / 146097 * 400 + (if monthOf mp <=? 2 then 1 else 0))
      with (shiftYear yoe mp + z' / 146097 * 400) by (unfold shiftYear; lia).
    rewrite daysInMonth_shift.
    repeat (apply andb_true_iff; split); apply Z.leb_le; lia.
  - rewrite daysFromCivil_era by lia.
    rewrite marchBased_monthOf by lia. unfold z' in *. lia.
Qed.

(** A date of the calendar is the date of its day number. *)
Lemma civilFromDays_daysFromCivil c :
  validCivil c = true ->
  civilFromDays (daysFromCivil (year c) (month c) (day c)) = c.
Proof.
  destruct c as [y m d]. unfold validCivil. cbn [year month day]. intros H.
  repeat (apply andb_true_iff in H as [H ?]).
  repeat match goal with
         | X : (_ <=? _) = true |- _ => apply Z.leb_le in X
         end.
  set (y' := if m <=? 2 then y - 1 else y).
  assert (Ey : y = y' mod 400 + (y' / 400) * 400 + (if m <=? 2 then 1 else 0)).
  { pose proof (Z.div_mod y' 400 ltac:(lia)). unfold y' in *. destruct (m <=? 2); lia. }
  assert (Hyoe : 0 <= y' mod 400 < 400) by (apply Z.mod_pos_bound; lia).
  set (yoe := y' mod 400) in *. set (era := y' / 400) in *.
  assert (Hmp : 0 <= marchBased m <= 11).
  { unfold marchBased. destruct (m <=? 2) eqn:E;
      [apply Z.leb_le in E|apply Z.leb_gt in E]; lia. }
  assert (Hdim : daysInMonth y m = daysInMonth (shiftYear yoe (marchBased m)) m).
  { unfold shiftYear. rewrite monthOf_marchBased by lia.
    rewrite Ey at 1.
    replace (yoe + era * 400 + (if m <=? 2 then 1 else 0))
      with (yoe + (if m <=? 2 then 1 else 0) + era * 400) by lia.
    apply daysInMonth_shift. }
  assert (Hd31 : d <= 31) by (pose proof (daysInMonth_bound y m); lia).
  pose proof (civOK_at yoe (marchBased m) d ltac:(lia) ltac:(lia) ltac:(lia)) as C.
  unfold civOK in C. rewrite monthOf_marchBased in C by lia.
  rewrite <- Hdim in C.
  assert (T : (d <=? daysInMonth y m) = true) by (apply Z.leb_le; lia).
  rewrite T in C. cbn [implb] in C.
  apply andb_true_iff in C as [C C3]. apply andb_true_iff in C as [C1 C2].
  apply Z.leb_le in C1. apply Z.ltb_lt in C2.
  rewrite Ey at 1. rewrite daysFromCivil_era by lia.
  unfold civilFromDays.
  replace (era * 146097 + doeOf yoe (marchBased m) d - 719468 + 719468)
    with (doeOf yoe (marchBased m) d + era * 146097) by lia.
  rewrite Z_mod_plus_full, Z.mod_small by lia.
  rewrite Z_div_plus_full, Z.div_small by lia.
  destruct (civilOfDoe (doeOf yoe (marchBased m) d)) as [[yoe2 mp2] d2].
  repeat (apply andb_true_iff in C3 as [C3 ?]).
  repeat match goal with
         | X : (_ =? _) = true |- _ => apply Z.eqb_eq in X
         end.
  subst yoe2 mp2 d2. fold (monthOf (marchBased m)).
  rewrite monthOf_marchBased by lia. f_equal. lia.
Qed.


Lemma validCivil_iff c :
  validCivil c = true
  <-> 1 <= month c <= 12 /\ 1 <= day c <= daysInMonth (year c) (month c).
Proof.
  unfold validCivil. rewrite !andb_true_iff, !Z.leb_le. lia.
Qed.

(** Days before the year [y] starts in March, in closed form. *)
Lemma yearDays_closed y :
  y / 400 * 146097 + (y mod 400 * 365 + y mod 400 / 4 - y mod 400 / 100)
  = 365 * y + y / 4 - y / 100 + y / 400.
Proof. Z.div_mod_to_equations. lia. Qed.

Lemma daysFromCivil_closed y m d :
  daysFromCivil y m d
  = (let y' := if m <=? 2 then y - 1 else y in
     365 * y' + y' / 4 - y' / 100 + y' / 400)
    + (153 * marchBased m + 2) / 5 + d - 1 - 719468.
Proof.
  unfold daysFromCivil, doeOf, marchBased. cbv zeta.
  pose proof (yearDays_closed (if m <=? 2 then y - 1 else y)) as H. lia.
Qed.

Lemma leap_year_length y :
  365 * y + y / 4 - y / 100 + y / 400
  = 365 * (y - 1) + (y - 1) / 4 - (y - 1) / 100 + (y - 1) / 400
    + 337 + (if isLeapYear y then 29 else 28).
Proof.
  unfold isLeapYear.
  destruct (y mod 4 =? 0) eqn:E4; destruct (y mod 100 =? 0) eqn:E100;
    destruct (y mod 400 =? 0) eqn:E400; cbn [negb andb orb];
    rewrite ?Z.eqb_eq, ?Z.eqb_neq in *;
    Z.div_mod_to_equations; lia.
Qed.

(** The day after a date of the calendar is a date of the calendar, and its
    day number is the next one. *)
Lemma tomorrow_spec c :
  validCivil c = true ->
  let c' := tomorrow c in
  validCivil c' = true
  /\ daysFromCivil (year c') (month c') (day c')
     = daysFromCivil (year c) (month c) (day c) + 1.
Proof.
  destruct c as [y m d]. rewrite validCivil_iff. cbn [year month day].
  intros [Hm Hd]. unfold tomorrow. cbn [year month day].
  destruct (d <? daysInMonth y m) eqn:E; [apply Z.ltb_lt in E|apply Z.ltb_ge in E].
  - rewrite validCivil_iff. cbn [year month day]. split; [lia|].
    rewrite !daysFromCivil_closed. lia.
  - assert (d = daysInMonth y m) by lia. subst d. clear E Hd.
    destruct (m <? 12) eqn:E; [apply Z.ltb_lt in E|apply Z.ltb_ge in E];
      rewrite validCivil_iff; cbn [year month day].
    + split; [pose proof (daysInMonth_bound y (m + 1)); lia|].
      rewrite !daysFromCivil_closed.
      assert (Hc : m = 1 \/ m = 2 \/ m = 3 \/ m = 4 \/ m = 5 \/ m = 6 \/ m = 7
                   \/ m = 8 \/ m = 9 \/ m = 10 \/ m = 11) by lia.
      pose proof (leap_year_length y) as L.
      repeat (destruct Hc as [->|Hc]); try subst m;
        unfold marchBased, daysInMonth in *; simpl; simpl in L;
        try (destruct (isLeapYear y)); Z.div_mod_to_equations; lia.
    + assert (m = 12) by lia. subst m. split; [simpl; lia|].
      rewrite !daysFromCivil_closed. unfold marchBased, daysInMonth. simpl.
      Z.div_mod_to_equations. lia.
Qed.


Lemma civilFromDays_valid z : validCivil (civilFromDays z) = true.
Proof. apply civilFromDays_spec. Qed.

Lemma civilFromDays_succ z : civilFromDays (z + 1) = tomorrow (civilFromDays z).
Proof.
  destruct (civilFromDays_spec z) as [V E].
  destruct (tomorrow_spec _ V) as [V' E'].
  rewrite E in E'. rewrite <- E'. now apply civilFromDays_daysFromCivil.
Qed.

Lemma civilFromDays_add z (n : nat) :
  civilFromDays (z + Z.of_nat n) = Nat.iter n tomorrow (civilFromDays z).
Proof.
  induction n as [|n IH].
  - simpl. now rewrite Z.add_0_r.
  - rewrite Nat2Z.inj_succ. simpl Nat.iter. rewrite <- IH.
    replace (z + Z.succ (Z.of_nat n)) with (z + Z.of_nat n + 1) by lia.
    apply civilFromDays_succ.
Qed.

Lemma tomorrow_year c : year c <= year (tomorrow c).
Proof.
  unfold tomorrow.
  destruct (day c <? daysInMonth (year c) (month c)); [simpl; lia|].
  destruct (month c <? 12); simpl; lia.
Qed.

Lemma iter_tomorrow_year (i j : nat) c :
  (i <= j)%nat -> year (Nat.iter i tomorrow c) <= year (Nat.iter j tomorrow c).
Proof.
  induction 1 as [|j _ IH]; [lia|].
  simpl Nat.iter. pose proof (tomorrow_year (Nat.iter j tomorrow c)). lia.
Qed.

(** Day numbers of the dates of the years 0 to 9999 are far inside the range
    of time values. *)
Lemma daysFromCivil_bound c :
  validCivil c = true -> 0 <= year c <= 9999 ->
  -1000000 <= daysFromCivil (year c) (month c) (day c) <= 3000000.
Proof.
  rewrite validCivil_iff. intros [Hm Hd] Hy.
  pose proof (daysInMonth_bound (year c) (month c)).
  rewrite daysFromCivil_closed. unfold marchBased. cbv zeta.
  destruct (month c <=? 2); Z.div_mod_to_equations; lia.
Qed.


(** * Spellings of dates *)

Lemma digitVal_inv c v : JS.digitVal c = Some v -> 0 <= v <= 9 /\ JS.digitChar v = c.
Proof.
  unfold JS.digitVal, JS.digitChar.
  destruct (Nat.leb 48 (nat_of_ascii c) && Nat.leb (nat_of_ascii c) 57)%bool eqn:E;
    [|discriminate].
  apply andb_true_iff in E as [E1 E2]. apply Nat.leb_le in E1, E2.
  intros H. inversion H; subst v. split; [lia|].
  replace (Z.to_nat (Z.of_nat (nat_of_ascii c) - 48 + 48)) with (nat_of_ascii c) by lia.
  apply ascii_nat_embedding.
Qed.

Lemma length_append (a b : string) :
  String.length (a ++ b) = (String.length a + String.length b)%nat.
Proof. induction a as [|c a IH]; simpl; [reflexivity|]. now rewrite IH. Qed.

Lemma digits_length w n : String.length (JS.digits w n) = w.
Proof.
  revert n. induction w as [|w IH]; intros n; simpl; [reflexivity|].
  rewrite length_append, IH. simpl. lia.
Qed.

Lemma parseDigits2_inv c1 c2 v :
  JS.parseDigits (String c1 (String c2 "")) = Some v ->
  0 <= v <= 99 /\ JS.digits 2 v = String c1 (String c2 "").
Proof.
  unfold JS.parseDigits. cbn [JS.parseDigitsFrom].
  destruct (JS.digitVal c1) as [v1|] eqn:E1; [|discriminate].
  destruct (JS.digitVal c2) as [v2|] eqn:E2; [|discriminate].
  intros H. inversion H; subst v. clear H.
  apply digitVal_inv in E1 as [B1 <-]. apply digitVal_inv in E2 as [B2 <-].
  split; [lia|]. cbn [JS.digits String.append].
  replace ((10 * (10 * 0 + v1) + v2) mod 10) with v2 by (Z.div_mod_to_equations; lia).
  replace ((10 * (10 * 0 + v1) + v2) / 10 mod 10) with v1 by (Z.div_mod_to_equations; lia).
  reflexivity.
Qed.

Lemma parseDigits4_inv c1 c2 c3 c4 v :
  JS.parseDigits (String c1 (String c2 (String c3 (String c4 "")))) = Some v ->
  0 <= v <= 9999 /\ JS.digits 4 v = String c1 (String c2 (String c3 (String c4 ""))).
Proof.
  unfold JS.parseDigits. cbn [JS.parseDigitsFrom].
  destruct (JS.digitVal c1) as [v1|] eqn:E1; [|discriminate].
  destruct (JS.digitVal c2) as [v2|] eqn:E2; [|discriminate].
  destruct (JS.digitVal c3) as [v3|] eqn:E3; [|discriminate].
  destruct (JS.digitVal c4) as [v4|] eqn:E4; [|discriminate].
  intros H. inversion H; subst v. clear H.
  apply digitVal_inv in E1 as [B1 <-]. apply digitVal_inv in E2 as [B2 <-].
  apply digitVal_inv in E3 as [B3 <-]. apply digitVal_inv in E4 as [B4 <-].
  split; [lia|]. cbn [JS.digits String.append].
  set (n := 10 * (10 * (10 * (10 * 0 + v1) + v2) + v3) + v4).
  replace (n mod 10) with v4 by (unfold n; Z.div_mod_to_equations; lia).
  replace (n / 10 mod 10) with v3 by (unfold n; Z.div_mod_to_equations; lia).
  replace (n / 10 / 10 mod 10) with v2 by (unfold n; Z.div_mod_to_equations; lia).
  replace (n / 10 / 10 / 10 mod 10) with v1 by (unfold n; Z.div_mod_to_equations; lia).
  reflexivity.
Qed.

Lemma isChar_inv s i c : Date.isChar s i c = true -> String.get i s = Some c.
Proof.
  unfold Date.isChar. destruct (String.get i s) as [a|]; [|discriminate].
  intros H. apply Ascii.eqb_eq in H. now subst.
Qed.

(** A string of the shape [YYYY-MM-DD] is the spelling of its fields. *)
Lemma matchISODate_inv s y m d :
  Date.matchISODate s = Some (y, m, d) ->
  0 <= y <= 9999 /\ 0 <= m <= 99 /\ 0 <= d <= 99
  /\ String.length s = 10%nat
  /\ s = (JS.digits 4 y ++ "-" ++ JS.digits 2 m ++ "-" ++ JS.digits 2 d)%string.
Proof.
  unfold Date.matchISODate.
  destruct (Nat.eqb (String.length s) 10) eqn:L; [|discriminate].
  destruct (Date.isChar s 4 "-") eqn:C4; [|discriminate].
  destruct (Date.isChar s 7 "-") eqn:C7; [|discriminate].
  cbn [andb]. apply Nat.eqb_eq in L.
  apply isChar_inv in C4. apply isChar_inv in C7.
  destruct s as [|c0 [|c1 [|c2 [|c3 [|c4 [|c5 [|c6 [|c7 [|c8 [|c9 [|c10 r]]]]]]]]]]];
    try discriminate L.
  cbn [String.get Nat.eqb] in C4, C7. inversion C4; subst c4. inversion C7; subst c7.
  cbn [String.substring].
  destruct (JS.parseDigits (String c0 (String c1 (String c2 (String c3 ""))))) as [y'|] eqn:Ey;
    [|discriminate].
  destruct (JS.parseDigits (String c5 (String c6 ""))) as [m'|] eqn:Em; [|discriminate].
  destruct (JS.parseDigits (String c8 (String c9 ""))) as [d'|] eqn:Ed; [|discriminate].
  intros H. cbn in H. inversion H; subst y' m' d'. clear H.
  apply parseDigits4_inv in Ey as [By Ey].
  apply parseDigits2_inv in Em as [Bm Em].
  apply parseDigits2_inv in Ed as [Bd Ed].
  repeat split; try lia. rewrite Ey, Em, Ed. reflexivity.
Qed.

Lemma substring_all s : String.substring 0 (String.length s) s = s.
Proof. induction s as [|c s IH]; simpl; [reflexivity|]. now rewrite IH. Qed.

Lemma substring_prefix a b : String.substring 0 (String.length a) (a ++ b) = a.
Proof.
  induction a as [|c a IH]; simpl.
  - now destruct b.
  - now rewrite IH.
Qed.

Lemma isoDate_length c :
  0 <= year c <= 9999 -> String.length (Date.isoDate c) = 10%nat.
Proof.
  intros H. unfold Date.isoDate, Date.isoYear.
  assert (E : ((0 <=? year c) && (year c <=? 9999))%bool = true).
  { apply andb_true_iff. split; apply Z.leb_le; lia. }
  rewrite E. rewrite !length_append, !digits_length. reflexivity.
Qed.

Lemma isoDate_of_fields s y m d :
  Date.matchISODate s = Some (y, m, d) ->
  Date.isoDate {| year := y; month := m; day := d |} = s.
Proof.
  intros H. apply matchISODate_inv in H as (Hy & _ & _ & _ & ->).
  unfold Date.isoDate, Date.isoYear. cbn [year month day].
  assert (E : ((0 <=? y) && (y <=? 9999))%bool = true).
  { apply andb_true_iff. split; apply Z.leb_le; lia. }
  now rewrite E.
Qed.


(** * [Date] on whole days *)

Lemma Day_midnight n : Date.Day (n * Date.msPerDay) = n.
Proof. unfold Date.Day, Date.msPerDay. apply Z.div_mul. lia. Qed.

Lemma TimeWithinDay_midnight n : Date.TimeWithinDay (n * Date.msPerDay) = 0.
Proof. unfold Date.TimeWithinDay, Date.msPerDay. apply Z.mod_mul. lia. Qed.

Lemma daysFromCivil_linear y m d : daysFromCivil y m 1 + d - 1 = daysFromCivil y m d.
Proof. unfold daysFromCivil, doeOf. lia. Qed.

Lemma MakeDay_civil y m d : 1 <= m <= 12 -> Date.MakeDay y (m - 1) d = daysFromCivil y m d.
Proof.
  intros H. unfold Date.MakeDay.
  replace ((m - 1) / 12) with 0 by (Z.div_mod_to_equations; lia).
  replace ((m - 1) mod 12 + 1) with m by (Z.div_mod_to_equations; lia).
  rewrite Z.add_0_r. apply daysFromCivil_linear.
Qed.

Lemma TimeClip_midnight n :
  -100000000 <= n <= 100000000 ->
  Date.TimeClip (Date.MakeDate n 0) = Some (n * Date.msPerDay).
Proof.
  intros H. unfold Date.TimeClip, Date.MakeDate, Date.msPerDay.
  destruct (Z.abs (n * 86400000 + 0) >? 8640000000000000) eqn:E.
  - apply Z.gtb_lt in E. lia.
  - f_equal. lia.
Qed.

Lemma parse_date_only s f :
  Date.matchISODate s = Some f -> validCivil (civilOf f) = true ->
  Date.parse s = Some (dayNumber (civilOf f) * Date.msPerDay).
Proof.
  destruct f as [[y m] d]. intros H V.
  pose proof (matchISODate_inv _ _ _ _ H) as (Hy & _ & _ & L & _).
  pose proof V as V'. apply validCivil_iff in V'. cbn [civilOf year month day] in V'.
  pose proof (daysInMonth_bound y m) as B.
  unfold Date.parse, Date.timeOfDay. rewrite <- L at 1. rewrite substring_all, H.
  cbn [mbind option_bind]. rewrite L. cbn [Nat.eqb mbind option_bind].
  assert (E : ((1 <=? m) && (m <=? 12) && (1 <=? d) && (d <=? 31)
               && (0 <=? 23) && (0 <=? 59) && (0 <=? 59))%bool = true).
  { rewrite !andb_true_iff, !Z.leb_le. lia. }
  rewrite E. rewrite MakeDay_civil by lia.
  replace (0 * 3600000 + 0 * 60000 + 0 * 1000 + 0) with 0 by lia.
  apply TimeClip_midnight.
  pose proof (daysFromCivil_bound (civilOf (y, m, d)) V Hy) as D.
  cbn [civilOf year month day] in D. unfold dayNumber. cbn [civilOf year month day]. lia.
Qed.

Lemma setUTCDate_midnight n off :
  -100000000 <= n + off <= 100000000 ->
  Date.setUTCDate (Some (n * Date.msPerDay))
    ((fun d => d + off) <$> Date.getUTCDate (Some (n * Date.msPerDay)))
  = Some ((n + off) * Date.msPerDay).
Proof.
  intros H. unfold Date.setUTCDate, Date.getUTCDate.
  cbn [fmap option_fmap option_map mbind option_bind].
  unfold Date.YearFromTime, Date.MonthFromTime, Date.DateFromTime.
  rewrite Day_midnight, TimeWithinDay_midnight.
  destruct (civilFromDays_spec n) as [V E]. apply validCivil_iff in V.
  rewrite MakeDay_civil by lia. rewrite <- daysFromCivil_linear.
  replace (daysFromCivil (year (civilFromDays n)) (month (civilFromDays n)) 1
           + (day (civilFromDays n) + off) - 1)
    with (daysFromCivil (year (civilFromDays n)) (month (civilFromDays n)) 1
          + day (civilFromDays n) - 1 + off) by lia.
  rewrite daysFromCivil_linear, E. now apply TimeClip_midnight.
Qed.

Lemma isoString_midnight n :
  Date.isoString (n * Date.msPerDay)
  = (Date.isoDate (civilFromDays n) ++ "T00:00:00.000Z")%string.
Proof.
  unfold Date.isoString. rewrite Day_midnight, TimeWithinDay_midnight. reflexivity.
Qed.

(** The first ten characters of the ISO spelling of the date [i] days after
    a date of the calendar, as long as the year has four digits. *)
Lemma iso_prefix_after (c : Civil) (i : nat) :
  validCivil c = true -> 0 <= year c ->
  year (Nat.iter i tomorrow c) <= 9999 ->
  -100000000 <= dayNumber c + Z.of_nat i <= 100000000
  /\ String.substring 0 10 (Date.isoString ((dayNumber c + Z.of_nat i) * Date.msPerDay))
     = Date.isoDate (Nat.iter i tomorrow c).
Proof.
  intros V Y0 Y.
  assert (C : civilFromDays (dayNumber c + Z.of_nat i) = Nat.iter i tomorrow c).
  { rewrite civilFromDays_add. unfold dayNumber.
    now rewrite civilFromDays_daysFromCivil. }
  assert (Yi : 0 <= year (Nat.iter i tomorrow c) <= 9999).
  { split; [|exact Y].
    pose proof (iter_tomorrow_year 0 i c ltac:(lia)) as M. simpl in M. lia. }
  split.
  - pose proof (civilFromDays_spec (dayNumber c + Z.of_nat i)) as [V' E'].
    rewrite C in V', E'.
    pose proof (daysFromCivil_bound _ V' Yi) as B. lia.
  - rewrite isoString_midnight, C.
    rewrite <- (isoDate_length (Nat.iter i tomorrow c) Yi).
    apply substring_prefix.
Qed.

(** [addDays] on a date of the calendar: the date [i] days later, spelled
    [YYYY-MM-DD], as long as its year has four digits. *)
Lemma addDays_calendar s f (i : nat) :
  Date.matchISODate s = Some f -> validCivil (civilOf f) = true ->
  year (Nat.iter i tomorrow (civilOf f)) <= 9999 ->
  Mcp.addDays s (Z.of_nat i) = JS.Return (Date.isoDate (Nat.iter i tomorrow (civilOf f))).
Proof.
  intros H V Y.
  assert (Y0 : 0 <= year (civilOf f)).
  { destruct f as [[y m] d]. apply matchISODate_inv in H. cbn. lia. }
  destruct (iso_prefix_after _ i V Y0 Y) as [B P].
  unfold Mcp.addDays, Date.new. rewrite (parse_date_only s f H V).
  rewrite setUTCDate_midnight by exact B.
  cbn [Date.toISOString mbind exc_bind JS.bind mret exc_ret]. now rewrite P.
Qed.

Lemma addDays_zero s f :
  Date.matchISODate s = Some f -> validCivil (civilOf f) = true ->
  Mcp.addDays s 0 = JS.Return s.
Proof.
  intros H V.
  assert (Y : year (civilOf f) <= 9999).
  { destruct f as [[y m] d]. apply matchISODate_inv in H. cbn. lia. }
  change 0 with (Z.of_nat 0).
  rewrite (addDays_calendar s f 0 H V Y). simpl Nat.iter.
  destruct f as [[y m] d]. f_equal. now apply isoDate_of_fields.
Qed.

Lemma Weather_addDays_eq s n : Weather.addDays s n = Mcp.addDays s n.
Proof. reflexivity. Qed.


(** * Itinerary *)

Lemma tripInCalendar_inv start days :
  tripInCalendar start days = true ->
  exists f, Date.matchISODate start = Some f /\ validCivil (civilOf f) = true
            /\ forall i : nat, (i < Z.to_nat days)%nat ->
                 year (Nat.iter i tomorrow (civilOf f)) <= 9999.
Proof.
  unfold tripInCalendar. destruct (Date.matchISODate start) as [f|]; [|discriminate].
  intros H. apply andb_true_iff in H as [V Y]. apply Z.leb_le in Y.
  exists f. repeat split; [exact V|]. intros i Hi.
  pose proof (iter_tomorrow_year i (Z.to_nat days - 1) (civilOf f) ltac:(lia)). lia.
Qed.

Lemma addDays_dateAfter start days (i : nat) :
  tripInCalendar start days = true -> (i < Z.to_nat days)%nat ->
  Mcp.addDays start (Z.of_nat i) = JS.Return (dateAfter start i).
Proof.
  intros H Hi. apply tripInCalendar_inv in H as (f & M & V & Y).
  unfold dateAfter. rewrite M. now apply addDays_calendar; [| |apply Y].
Qed.

Lemma dateAfter_zero start days :
  tripInCalendar start days = true -> dateAfter start 0 = start.
Proof.
  intros H. apply tripInCalendar_inv in H as (f & M & V & _).
  unfold dateAfter. rewrite M. simpl. destruct f as [[y m] d].
  now apply isoDate_of_fields.
Qed.

Lemma shift_skipn {A : Type} (q : list A) (n : nat) :
  JS.shift (skipn n q) = (nth_error q n, skipn (S n) q).
Proof.
  revert q. induction n as [|n IH]; intros [|x q]; try reflexivity.
  - simpl skipn at 1. rewrite IH. reflexivity.
Qed.

Lemma itineraryLoop_spec start days q (rounds k : nat) :
  tripInCalendar start days = true -> (k + rounds <= Z.to_nat days)%nat ->
  Mcp.itineraryLoop start rounds (Z.of_nat k) (skipn (3 * k) q)
  = JS.Return (map (entryOf start q) (seq k rounds)).
Proof.
  intros H. revert k. induction rounds as [|rounds IH]; intros k Hk; [reflexivity|].
  cbn [Mcp.itineraryLoop].
  rewrite (addDays_dateAfter start days k H) by lia.
  cbn [mbind exc_bind JS.bind].
  rewrite !shift_skipn.
  replace (Z.of_nat k + 1) with (Z.of_nat (S k)) by lia.
  replace (S (S (S (3 * k)))) with (3 * S k)%nat by lia.
  rewrite IH by lia. cbn [JS.bind mret exc_ret seq map]. unfold entryOf at 2.
  replace (3 * k + 1)%nat with (S (3 * k)) by lia.
  replace (3 * k + 2)%nat with (S (S (3 * k))) by lia.
  reflexivity.
Qed.

Lemma append_empty_r (s : string) : (s ++ "")%string = s.
Proof.
  induction s as [|c s IH]; [reflexivity|].
  change (String c (s ++ "")%string = String c s). now f_equal.
Qed.

Lemma append_assoc3 (a b c : string) : ((a ++ b) ++ c)%string = (a ++ b ++ c)%string.
Proof.
  induction a as [|x a IH]; [reflexivity|].
  change (String x ((a ++ b) ++ c)%string = String x (a ++ b ++ c)%string). now f_equal.
Qed.

Lemma makeSlots_fields i date m a e :
  let s := Mcp.makeSlots i date m a e in
  it_day s = i + 1 /\ it_date s = date
  /\ morning s = [match m with Some p => Mcp.morningText p | None => Mcp.morningFiller end]
  /\ afternoon s
     = [match a with Some p => Mcp.afternoonText p | None => Mcp.afternoonFiller end]
  /\ evening s = [eveningLine m e].
Proof.
  unfold Mcp.makeSlots, eveningLine. cbn [it_day it_date morning afternoon evening].
  repeat split.
  destruct m as [m|], e as [e|]; try reflexivity.
  - destruct (String.eqb (category m) (category e)); [reflexivity|].
    now rewrite append_empty_r.
  - now rewrite append_empty_r.
Qed.

Lemma scoreLeb_le a b : scoreLeb a b = true <-> (snd b <= snd a)%Q.
Proof. unfold scoreLeb. rewrite Qle_bool_iff. split; intros H; lra. Qed.

Lemma scoredPlaces_perm places interests :
  Permutation (Mcp.scoredPlaces places interests) places.
Proof.
  unfold Mcp.scoredPlaces.
  rewrite (sort_perm _ _). rewrite map_map. simpl. now rewrite map_id.
Qed.

Lemma scoredPlaces_sorted places interests :
  StronglySorted (fun a b => (scoreOf interests b <= scoreOf interests a)%Q)
    (Mcp.scoredPlaces places interests).
Proof.
  unfold Mcp.scoredPlaces.
  set (scored := map (fun place =>
                        (place, Mcp.computeInterestScore place (Mcp.interestSet interests)))
                     places).
  change (fun a b : PlaceOption * Q => Qle_bool (snd b - snd a) 0) with scoreLeb.
  assert (S : StronglySorted (fun a b => scoreLeb a b = true) (JS.sort scoreLeb scored)).
  { apply sort_sorted.
    - intros x y H. apply scoreLeb_le. apply not_true_iff_false in H.
      rewrite scoreLeb_le in H. lra.
    - intros x y z. rewrite !scoreLeb_le. lra. }
  assert (F : List.Forall (fun a => snd a = scoreOf interests (fst a))
                (JS.sort scoreLeb scored)).
  { apply List.Forall_forall. intros x Hx.
    apply (Permutation_in _ (sort_perm scoreLeb scored)) in Hx.
    unfold scored in Hx. apply in_map_iff in Hx as (p & <- & _). reflexivity. }
  induction S as [|x l Hl IH Hx]; simpl; [constructor|].
  inversion F as [|? ? Fx Fl]; subst.
  constructor; [now apply IH|].
  apply List.Forall_forall. intros p Hp. apply in_map_iff in Hp as (y & <- & Hy).
  rewrite List.Forall_forall in Hx, Fl.
  specialize (Hx y Hy). apply scoreLeb_le in Hx.
  rewrite (Fl y Hy), Fx in Hx. exact Hx.
Qed.

(** C5, as stated for every start date, fails on start dates that pass the
    validation of the tools without being dates of the calendar whose trip
    stays within four-digit years: from 2025-02-30 the two entries are dated
    2025-03-02 and 2025-03-03, none of them on the start date, and from
    9999-12-31 the second entry is dated +010000-01, which is no date. *)
Lemma itinerary_dates_leave_the_calendar :
  Mcp.validateISODate "2025-02-30" "startDate" = JS.Return tt
  /\ Mcp.groupPlacesForItinerary "2025-02-30" 2 [] None
     = JS.Return [Mcp.makeSlots 0 "2025-03-02" None None None;
                  Mcp.makeSlots 1 "2025-03-03" None None None]
  /\ Mcp.validateISODate "9999-12-31" "startDate" = JS.Return tt
  /\ Mcp.groupPlacesForItinerary "9999-12-31" 2 [] None
     = JS.Return [Mcp.makeSlots 0 "9999-12-31" None None None;
                  Mcp.makeSlots 1 "+010000-01" None None None].
Proof. repeat split; vm_compute; reflexivity. Qed.

(** C5, amended: for a start date of the calendar and a day count that keeps
    the dates within four-digit years, the synthesis returns exactly [days]
    entries; entry [i] is numbered [i + 1] and dated [i] calendar days after
    the start date, the first one on the start date itself; the candidates,
    taken in descending score, are consumed three per day, morning, afternoon,
    evening; a slot with a candidate names it, its category and, in the
    morning and the afternoon, its minutes (90 when it has none), and a slot
    for which the queue is exhausted gets the filler phrase of that slot; the
    evening line ends in "with a sunset twist" when the candidates of the
    morning and of the evening have the same category. *)
Theorem itinerary_days :
  forall (start : string) (days : Z) (places : list PlaceOption)
         (interests : option (list string)),
    tripInCalendar start days = true ->
    exists (queue : list PlaceOption) (itinerary : list ItineraryDay),
      Permutation queue places
      /\ StronglySorted (fun a b => (scoreOf interests b <= scoreOf interests a)%Q) queue
      /\ Mcp.groupPlacesForItinerary start days places interests = JS.Return itinerary
      /\ Z.of_nat (List.length itinerary) = Z.max 0 days
      /\ dateAfter start 0 = start
      /\ forall i : nat, (i < Z.to_nat days)%nat ->
           exists e, nth_error itinerary i = Some e
             /\ it_day e = Z.of_nat i + 1
             /\ it_date e = dateAfter start i
             /\ morning e
                = [match nth_error queue (3 * i) with
                   | Some p =>
                       ("Start at " ++ place_name p ++ " (" ++ category p ++ ", ~"
                        ++ JS.Z_toString (JS.nullish (estMinutes p) 90) ++ " mins)")%string
                   | None => "Leisurely breakfast and walking tour of the Old City"
                   end]
             /\ afternoon e
                = [match nth_error queue (3 * i + 1) with
                   | Some p =>
                       ("Afternoon at " ++ place_name p ++ " (" ++ category p ++ ", ~"
                        ++ JS.Z_toString (JS.nullish (estMinutes p) 90) ++ " mins)")%string
                   | None => "Street food crawl & coffee tasting"
                   end]
             /\ evening e
                = [match nth_error queue (3 * i + 2) with
                   | Some p =>
                       ("Evening at " ++ place_name p ++ " (" ++ category p ++ ")"
                        ++ match nth_error queue (3 * i) with
                           | Some q => if String.eqb (category q) (category p)
                                       then " with a sunset twist" else ""
                           | None => ""
                           end)%string
                   | None => "Night market stroll & live music"
                   end].
Proof.
  intros start days places interests H.
  exists (Mcp.scoredPlaces places interests).
  exists (map (entryOf start (Mcp.scoredPlaces places interests)) (seq 0 (Z.to_nat days))).
  split; [apply scoredPlaces_perm|]. split; [apply scoredPlaces_sorted|].
  split.
  { unfold Mcp.groupPlacesForItinerary.
    apply (itineraryLoop_spec start days (Mcp.scoredPlaces places interests)
             (Z.to_nat days) 0 H). lia. }
  split; [rewrite length_map, length_seq; lia|].
  split; [now apply (dateAfter_zero start days)|].
  intros i Hi.
  exists (entryOf start (Mcp.scoredPlaces places interests) i).
  split.
  { rewrite nth_error_map, nth_error_seq.
    destruct (Nat.ltb i (Z.to_nat days)) eqn:E; [reflexivity|].
    apply Nat.ltb_ge in E. lia. }
  unfold entryOf.
  destruct (makeSlots_fields (Z.of_nat i) (dateAfter start i)
              (nth_error (Mcp.scoredPlaces places interests) (3 * i))
              (nth_error (Mcp.scoredPlaces places interests) (3 * i + 1))
              (nth_error (Mcp.scoredPlaces places interests) (3 * i + 2)))
    as (D & Dt & M & A & Ev).
  split; [exact D|]. split; [exact Dt|]. split; [exact M|]. split; [exact A|].
  rewrite Ev. unfold eveningLine, Mcp.eveningText, Mcp.eveningFiller.
  destruct (nth_error (Mcp.scoredPlaces places interests) (3 * i + 2)) as [p|];
    [|reflexivity].
  now rewrite !append_assoc3.
Qed.

(** C5 on four days from 2025-11-20 with the twelve mock places. *)
Lemma itinerary_days_witness :
  exists itinerary,
    Mcp.groupPlacesForItinerary "2025-11-20" 4 Places.MOCK_PLACES (Some ["food"])
    = JS.Return itinerary
    /\ map it_date itinerary = ["2025-11-20"; "2025-11-21"; "2025-11-22"; "2025-11-23"].
Proof.
  destruct (itinerary_days "2025-11-20" 4 Places.MOCK_PLACES (Some ["food"]) eq_refl)
    as (queue & itinerary & _ & _ & G & _).
  exists itinerary. split; [exact G|].
  assert (E : JS.Return itinerary
              = Mcp.groupPlacesForItinerary "2025-11-20" 4 Places.MOCK_PLACES (Some ["food"]))
    by (symmetry; exact G).
  vm_compute in E. inversion E. reflexivity.
Defined.


(** * Mock weather *)

Lemma mapM_map {A B : Type} (f : A -> JS.Exc B) (g : A -> B) (l : list A) :
  (forall x, In x l -> f x = JS.Return (g x)) -> JS.mapM f l = JS.Return (map g l).
Proof.
  induction l as [|x l IH]; intros H; [reflexivity|].
  cbn [JS.mapM map]. rewrite (H x (or_introl eq_refl)). cbn [JS.bind].
  rewrite IH; [reflexivity|]. intros y Hy. apply H. now right.
Qed.

Lemma mockDay_record start days (i : nat) :
  tripInCalendar start days = true -> (i < Z.to_nat days)%nat ->
  Weather.mockDay (Date.new start) (Z.of_nat i) = JS.Return (mockRecord start i).
Proof.
  intros H Hi. apply tripInCalendar_inv in H as (f & M & V & Y).
  assert (Y0 : 0 <= year (civilOf f)).
  { destruct f as [[y m] d]. apply matchISODate_inv in M. cbn. lia. }
  destruct (iso_prefix_after _ i V Y0 (Y i Hi)) as [B P].
  unfold Weather.mockDay, Date.new. rewrite (parse_date_only start f M V).
  rewrite setUTCDate_midnight by exact B.
  cbn [Date.toISOString mbind exc_bind JS.bind mret exc_ret]. rewrite P.
  unfold mockRecord, dateAfter. now rewrite M.
Qed.

Lemma tripInCalendar_days start days : tripInCalendar start days = true -> days <= 4000001.
Proof.
  intros H. apply tripInCalendar_inv in H as (f & M & V & Y).
  destruct (Z.le_gt_cases days 1) as [|Hd]; [lia|].
  assert (Y0 : 0 <= year (civilOf f) <= 9999).
  { destruct f as [[y m] d]. apply matchISODate_inv in M. cbn. lia. }
  pose proof (daysFromCivil_bound _ V Y0) as B0.
  destruct (iso_prefix_after _ (Z.to_nat days - 1) V ltac:(lia)
              (Y (Z.to_nat days - 1)%nat ltac:(lia))) as [_ _].
  pose proof (civilFromDays_spec (dayNumber (civilOf f) + Z.of_nat (Z.to_nat days - 1)))
    as [V' E'].
  rewrite civilFromDays_add in V', E'. unfold dayNumber in V', E' at 1 2 3.
  rewrite civilFromDays_daysFromCivil in V', E' by exact V.
  assert (Yl : 0 <= year (Nat.iter (Z.to_nat days - 1) tomorrow (civilOf f)) <= 9999).
  { split; [|apply Y; lia].
    pose proof (iter_tomorrow_year 0 (Z.to_nat days - 1) (civilOf f) ltac:(lia)) as Mo.
    simpl in Mo. lia. }
  pose proof (daysFromCivil_bound _ V' Yl) as B1.
  rewrite E' in B1. unfold dayNumber in B1. lia.
Qed.

Lemma buildMockWeather_records params :
  tripInCalendar (wq_startDate params) (wq_days params) = true ->
  Weather.buildMockWeather params
  = JS.Return {| daily := map (mockRecord (wq_startDate params))
                              (seq 0 (Z.to_nat (wq_days params))) |}.
Proof.
  intros H. unfold Weather.buildMockWeather.
  pose proof (tripInCalendar_days _ _ H) as D.
  destruct (wq_days params >? 4294967295) eqn:E; [apply Z.gtb_lt in E; lia|].
  unfold Weather.indices.
  rewrite (mapM_map _ (fun z => mockRecord (wq_startDate params) (Z.to_nat z))).
  - cbn [mbind exc_bind JS.bind mret exc_ret]. rewrite map_map.
    do 2 f_equal. apply map_ext. intros i. now rewrite Nat2Z.id.
  - intros z Hz. apply in_map_iff in Hz as (i & <- & Hi). apply in_seq in Hi.
    rewrite Nat2Z.id. apply (mockDay_record _ _ _ H). lia.
Qed.

Lemma Ctx_get_miss context now key :
  fst (Ctx.get context now key) = None ->
  exists context',
    Ctx.get context now key = (None, context')
    /\ providersUsed context' = providersUsed context.
Proof.
  unfold Ctx.get. destruct (Cache.get (cache context) now key) as [v c] eqn:E.
  simpl. intros ->. eexists. split; reflexivity.
Qed.

Lemma tryCatch_useMock params now c :
  Ctx.tryCatch (Weather.useMock params now c) (fun c' => Weather.useMock params now c')
  = Weather.useMock params now c.
Proof.
  unfold Weather.useMock, Ctx.tryCatch.
  now destruct (Weather.buildMockWeather params).
Qed.

Lemma weatherProvider_fallback params context config now upstream :
  fst (Ctx.get context now (Weather.cacheKey params)) = None ->
  liveWeatherFails upstream = true ->
  exists context',
    Weather.weatherProvider params context config now upstream
    = Weather.useMock params now context'
    /\ providersUsed context' = providersUsed context.
Proof.
  intros Hmiss Hfail. apply Ctx_get_miss in Hmiss as (c1 & G & P).
  exists c1. split; [|exact P].
  unfold Weather.weatherProvider. rewrite G.
  destruct (Weather.addDays (wq_startDate params) (wq_days params - 1)) as [endDate|e];
    [|reflexivity].
  destruct upstream as [|ok status body]; [reflexivity|].
  simpl in Hfail.
  destruct ok; cbn [negb orb] in Hfail |- *; [|apply tryCatch_useMock].
  destruct body as [data|]; [|reflexivity].
  destruct (Weather.om_daily data) as [d|]; [rewrite Hfail|]; apply tryCatch_useMock.
Qed.

(** C8, as stated for every weather query, fails on queries that pass the
    validation of the weather tool with a start date that is no date of the
    calendar, or with days beyond the year 9999: with the request answered by
    status 500, the two mock records from 2025-02-30 are dated 2025-03-02 and
    2025-03-03, none of them on the start date, and the second record from
    9999-12-31 is dated +010000-01, which is no date. *)
Lemma mock_weather_dates_leave_the_calendar :
  let context := Mcp.createProviderContext (Cache.new None) in
  let config := {| amadeus := None; skyscanner := None; booking := None;
                   openTripMap := None |} in
  let raw (start : string) :=
    Mcp.JObject [("lat", Mcp.JNumber 18%Q); ("lon", Mcp.JNumber 98%Q);
                 ("startDate", Mcp.JString start); ("days", Mcp.JNumber 2%Q)] in
  let query (start : string) :=
    {| wq_lat := 18; wq_lon := 98; wq_startDate := start; wq_days := 2 |} in
  let dates (start : string) :=
    match fst (Weather.weatherProvider (query start) context config 0
                 (Response false 500 None)) with
    | JS.Return snapshot => Some (map wd_date (daily snapshot))
    | JS.Raise _ => None
    end in
  Mcp.validateWeatherInput (raw "2025-02-30") = JS.Return (query "2025-02-30")
  /\ dates "2025-02-30" = Some ["2025-03-02"; "2025-03-03"]
  /\ Mcp.validateWeatherInput (raw "9999-12-31") = JS.Return (query "9999-12-31")
  /\ dates "9999-12-31" = Some ["9999-12-31"; "+010000-01"].
Proof. repeat split; vm_compute; reflexivity. Qed.

(** C8, amended: for a weather query whose start date is a date of the
    calendar and whose days stay within four-digit years, when no snapshot is
    cached and the live path fails, the provider returns the mock forecast:
    exactly [days] records, record [i] dated [i] calendar days after the start
    date (the first on the start date), each with a high that exceeds its low
    by exactly 6. *)
Theorem mock_weather_fallback :
  forall (params : WeatherQueryParams) (context : ProviderContext)
         (config : ProviderConfig) (now : Z)
         (upstream : FetchOutcome Weather.OpenMeteoResponse),
    tripInCalendar (wq_startDate params) (wq_days params) = true ->
    fst (Ctx.get context now (Weather.cacheKey params)) = None ->
    liveWeatherFails upstream = true ->
    exists (snapshot : WeatherSnapshot) (context' : ProviderContext),
      Weather.weatherProvider params context config now upstream
      = (JS.Return snapshot, context')
      /\ Weather.buildMockWeather params = JS.Return snapshot
      /\ Z.of_nat (List.length (daily snapshot)) = Z.max 0 (wq_days params)
      /\ dateAfter (wq_startDate params) 0 = wq_startDate params
      /\ forall i : nat, (i < Z.to_nat (wq_days params))%nat ->
           exists (d : WeatherDay) (hi lo : Q),
             nth_error (daily snapshot) i = Some d
             /\ wd_date d = dateAfter (wq_startDate params) i
             /\ hiC d = Some hi /\ loC d = Some lo
             /\ (hi - lo == 6)%Q /\ (lo < hi)%Q.
Proof.
  intros params context config now upstream H Hmiss Hfail.
  destruct (weatherProvider_fallback params context config now upstream Hmiss Hfail)
    as (c1 & W & _).
  pose proof (buildMockWeather_records params H) as B.
  eexists. eexists. split.
  { rewrite W. unfold Weather.useMock. rewrite B. reflexivity. }
  split; [exact B|]. cbn [daily].
  split; [rewrite length_map, length_seq; lia|].
  split; [now apply (dateAfter_zero _ (wq_days params))|].
  intros i Hi.
  exists (mockRecord (wq_startDate params) i),
    (inject_Z (30 - Z.of_nat i)), (inject_Z (30 - Z.of_nat i - 6)).
  split.
  { rewrite nth_error_map, nth_error_seq.
    destruct (Nat.ltb i (Z.to_nat (wq_days params))) eqn:E; [reflexivity|].
    apply Nat.ltb_ge in E. lia. }
  repeat split.
  - unfold Qeq, Qminus, Qplus, Qopp, inject_Z. simpl. lia.
  - unfold Qlt, inject_Z. simpl. lia.
Qed.

(** C8 on the query of the specification, with a response of status 500. *)
Lemma mock_weather_fallback_witness :
  let params := {| wq_lat := 187883 # 10000; wq_lon := 989853 # 10000;
                   wq_startDate := "2025-11-20"; wq_days := 3 |} in
  let context := Mcp.createProviderContext (Cache.new None) in
  let config := {| amadeus := None; skyscanner := None; booking := None;
                   openTripMap := None |} in
  exists snapshot context',
    Weather.weatherProvider params context config 0 (Response false 500 None)
    = (JS.Return snapshot, context')
    /\ Z.of_nat (List.length (daily snapshot)) = 3.
Proof.
  intros params context config.
  destruct (mock_weather_fallback params context config 0 (Response false 500 None)
              eq_refl eq_refl eq_refl)
    as (snapshot & context' & W & _ & L & _).
  exists snapshot, context'. split; [exact W|exact L].
Defined.


(** * The key discipline of the shared cache *)

Lemma WellKeyed_new ttl : WellKeyed (Cache.new ttl).
Proof. intros key r H. unfold Cache.new in H. simpl in H. now rewrite lookup_empty in H. Qed.

Lemma Ctx_get_spec context now key v context' :
  WellKeyed (cache context) ->
  Ctx.get context now key = (v, context') ->
  WellKeyed (cache context')
  /\ providersUsed context' = providersUsed context
  /\ (forall x, v = Some x -> JS.startsWith key (keyPrefix x) = true).
Proof.
  intros W. unfold Ctx.get, Cache.get.
  destruct (Cache.store (cache context) !! key) as [r|] eqn:E.
  - destruct (Cache.expiresAt r <? now).
    + intros H. inversion H; subst. simpl. repeat split; [|discriminate].
      intros k r' Hk. simpl in Hk.
      destruct (decide (key = k)) as [->|Hne].
      * now rewrite lookup_delete_eq in Hk.
      * rewrite lookup_delete_ne in Hk by exact Hne. now apply W.
    + intros H. inversion H; subst. simpl. repeat split; [exact W|].
      intros x Hx. inversion Hx; subst. now apply W.
  - intros H. inversion H; subst. simpl. repeat split; [exact W|discriminate].
Qed.

Lemma Ctx_set_WellKeyed context now key v :
  WellKeyed (cache context) -> JS.startsWith key (keyPrefix v) = true ->
  WellKeyed (cache (Ctx.set context now key v)).
Proof.
  intros W P k r H. unfold Ctx.set, Cache.set in H. simpl in H.
  destruct (decide (key = k)) as [->|Hne].
  - rewrite lookup_insert_eq in H. inversion H; subst. exact P.
  - rewrite lookup_insert_ne in H by exact Hne. now apply W.
Qed.

Lemma Ctx_add_cache context tag : cache (Ctx.add context tag) = cache context.
Proof. reflexivity. Qed.

Lemma Set_add_here tag s : In tag (JS.Set_add tag s).
Proof. apply Set_add_In. now right. Qed.

Lemma Ctx_set_tags context now key v :
  providersUsed (Ctx.set context now key v) = providersUsed context.
Proof. reflexivity. Qed.

(** ** Stays *)

Lemma startsWith_append p s : JS.startsWith (p ++ s) p = true.
Proof.
  induction p as [|c p IH]; [reflexivity|].
  change (JS.startsWith (String c (p ++ s)) (String c p) = true).
  cbn [JS.startsWith]. now rewrite Ascii.eqb_refl, IH.
Qed.

Lemma prefix_clash (p q s : string) (a b : ascii) (p' q' : string) :
  p = String a p' -> q = String b q' -> a <> b ->
  JS.startsWith (p ++ s) q = true -> False.
Proof.
  intros -> -> Hne H.
  change (JS.startsWith (String a (p' ++ s)) (String b q') = true) in H.
  cbn [JS.startsWith] in H. apply andb_true_iff in H as [H _].
  apply Ascii.eqb_eq in H. contradiction.
Qed.

Ltac clash H :=
  exfalso;
  first
    [ eapply (prefix_clash _ _ _ _ _ _ _ eq_refl eq_refl); [|exact H]; discriminate ].

Lemma searchStaysProvider_total params context config now :
  WellKeyed (cache context) ->
  exists r context',
    Stays.searchStaysProvider params context config now = (JS.Return r, context')
    /\ WellKeyed (cache context')
    /\ (fst (Ctx.get context now (Stays.cacheKey params)) = None ->
        r = {| sr_note := Some Stays.mockNote;
               sr_options := Stays.withPricing Stays.MOCK_STAYS params |}
        /\ In "stays:mock" (providersUsed context')).
Proof.
  intros W. unfold Stays.searchStaysProvider.
  destruct (Ctx.get context now (Stays.cacheKey params)) as [v c1] eqn:G.
  destruct (Ctx_get_spec _ _ _ _ _ W G) as (W1 & P1 & K).
  destruct v as [x|].
  - specialize (K x eq_refl). unfold Stays.cacheKey in K.
    destruct x; try (clash K).
    eexists. eexists. split; [reflexivity|]. split; [exact W1|].
    simpl. discriminate.
  - eexists. eexists. split; [reflexivity|]. split.
    + apply Ctx_set_WellKeyed; [exact W1|apply startsWith_append].
    + intros _. split; [reflexivity|]. simpl. apply Set_add_here.
Qed.

(** ** Destination *)

Lemma useMockDestination_spec city now c :
  WellKeyed (cache c) ->
  exists c', Places.useMockDestination city now c = (JS.Return Places.MOCK_DESTINATION, c')
             /\ WellKeyed (cache c')
             /\ In "opentripmap:mock" (providersUsed c').
Proof.
  intros W. eexists. split; [reflexivity|]. split.
  - apply Ctx_set_WellKeyed; [exact W|apply startsWith_append].
  - simpl. apply Set_add_here.
Qed.

Lemma resolveDestination_total city context config now upstream :
  WellKeyed (cache context) ->
  exists d context',
    Places.resolveDestination city context config now upstream = (JS.Return d, context')
    /\ WellKeyed (cache context')
    /\ (fst (Ctx.get context now (Places.destKey city)) = None ->
        JS.truthyOpt (openTripMap config) = false \/ geoFails upstream = true ->
        d = Places.MOCK_DESTINATION /\ In "opentripmap:mock" (providersUsed context')).
Proof.
  intros W. unfold Places.resolveDestination.
  destruct (Ctx.get context now (Places.destKey city)) as [v c1] eqn:G.
  destruct (Ctx_get_spec _ _ _ _ _ W G) as (W1 & P1 & K).
  destruct v as [x|].
  - specialize (K x eq_refl). unfold Places.destKey in K.
    destruct x; try (clash K).
    eexists. eexists. split; [reflexivity|]. split; [exact W1|].
    simpl. discriminate.
  - destruct (useMockDestination_spec city now c1 W1) as (c2 & U & W2 & T2).
    destruct (JS.truthyOpt (openTripMap config)) eqn:Key; cbn [negb].
    + destruct upstream as [|ok status body].
      * unfold Ctx.tryCatch. rewrite U. eauto 10.
      * destruct ok; cbn [negb].
        -- destruct body as [data|].
           ++ unfold Ctx.tryCatch. eexists. eexists. split; [reflexivity|]. split.
              ** apply Ctx_set_WellKeyed; [exact W1|apply startsWith_append].
              ** intros _ [F|F]; discriminate.
           ++ unfold Ctx.tryCatch. rewrite U. eauto 10.
        -- unfold Ctx.tryCatch. rewrite U. eauto 10.
    + rewrite U. eauto 10.
Qed.

(** ** Weather *)

Lemma useMockWeather_spec params now c :
  WellKeyed (cache c) ->
  tripInCalendar (wq_startDate params) (wq_days params) = true ->
  exists w c', Weather.useMock params now c = (JS.Return w, c')
               /\ Weather.buildMockWeather params = JS.Return w
               /\ WellKeyed (cache c')
               /\ In "weather:mock" (providersUsed c').
Proof.
  intros W H. unfold Weather.useMock. rewrite (buildMockWeather_records params H).
  eexists. eexists. split; [reflexivity|]. split; [reflexivity|]. split.
  - apply Ctx_set_WellKeyed; [exact W|apply startsWith_append].
  - simpl. apply Set_add_here.
Qed.

Lemma weatherProvider_total params context config now upstream :
  WellKeyed (cache context) ->
  tripInCalendar (wq_startDate params) (wq_days params) = true ->
  exists w context',
    Weather.weatherProvider params context config now upstream = (JS.Return w, context')
    /\ WellKeyed (cache context')
    /\ (fst (Ctx.get context now (Weather.cacheKey params)) = None ->
        liveWeatherFails upstream = true ->
        Weather.buildMockWeather params = JS.Return w
        /\ In "weather:mock" (providersUsed context')).
Proof.
  intros W H. unfold Weather.weatherProvider.
  destruct (Ctx.get context now (Weather.cacheKey params)) as [v c1] eqn:G.
  destruct (Ctx_get_spec _ _ _ _ _ W G) as (W1 & P1 & K).
  destruct (useMockWeather_spec params now c1 W1 H) as (w & c2 & U & B & W2 & T2).
  destruct v as [x|].
  - specialize (K x eq_refl). unfold Weather.cacheKey in K.
    destruct x; try (clash K).
    eexists. eexists. split; [reflexivity|]. split; [exact W1|].
    simpl. discriminate.
  - assert (M : exists w' c',
               Ctx.tryCatch (Weather.useMock params now c1)
                 (fun c => Weather.useMock params now c) = (JS.Return w', c')
               /\ WellKeyed (cache c')
               /\ (fst (None : option CacheValue, c1) = None -> liveWeatherFails upstream = true ->
                   Weather.buildMockWeather params = JS.Return w'
                   /\ In "weather:mock" (providersUsed c'))).
    { rewrite tryCatch_useMock, U. eauto 10. }
    assert (R : forall e, exists w' c',
               Ctx.tryCatch (JS.Raise e, c1)
                 (fun c => Weather.useMock params now c) = (JS.Return w', c')
               /\ WellKeyed (cache c')
               /\ (fst (None : option CacheValue, c1) = None -> liveWeatherFails upstream = true ->
                   Weather.buildMockWeather params = JS.Return w'
                   /\ In "weather:mock" (providersUsed c'))).
    { intros e. unfold Ctx.tryCatch. rewrite U. eauto 10. }
    destruct (Weather.addDays (wq_startDate params) (wq_days params - 1)) as [endDate|e];
      [|apply R].
    destruct upstream as [|ok status body]; [apply R|].
    destruct ok; cbn [negb]; [|apply M].
    destruct body as [data|]; [|apply R].
    destruct (Weather.om_daily data) as [d|] eqn:D; [|apply M].
    destruct (Nat.eqb (List.length (Weather.om_time d)) 0) eqn:L; [apply M|].
    unfold Ctx.tryCatch. eexists. eexists. split; [reflexivity|]. split.
    + apply Ctx_set_WellKeyed; [exact W1|apply startsWith_append].
    + intros _ F. simpl in F. rewrite D, L in F. discriminate.
Qed.

(** ** Flights *)

Lemma daysFromCivil_bound_lenient y m d :
  0 <= y <= 9999 -> 1 <= m <= 12 -> 1 <= d <= 31 ->
  -1000000 <= daysFromCivil y m d <= 3000000.
Proof.
  intros Hy Hm Hd. rewrite daysFromCivil_closed. unfold marchBased. cbv zeta.
  destruct (m <=? 2); Z.div_mod_to_equations; lia.
Qed.

Lemma parse_date_fields s y m d :
  Date.matchISODate s = Some (y, m, d) ->
  Date.parse s
  = if ((1 <=? m) && (m <=? 12) && (1 <=? d) && (d <=? 31))%bool
    then Date.TimeClip (Date.MakeDate (Date.MakeDay y (m - 1) d) 0)
    else None.
Proof.
  intros M. pose proof (matchISODate_inv _ _ _ _ M) as (_ & _ & _ & L & _).
  unfold Date.parse, Date.timeOfDay. rewrite <- L at 1. rewrite substring_all, M.
  cbn [mbind option_bind]. rewrite L. cbn [Nat.eqb mbind option_bind].
  change ((0 <=? 23) && (0 <=? 59) && (0 <=? 59))%bool with true.
  replace (0 * 3600000 + 0 * 60000 + 0 * 1000 + 0) with 0 by lia.
  destruct ((1 <=? m) && (m <=? 12) && (1 <=? d) && (d <=? 31))%bool; reflexivity.
Qed.

(** What [validateISODate] accepts. *)
Lemma validateISODate_inv s field :
  Mcp.validateISODate s field = JS.Return tt ->
  exists y m d, Date.matchISODate s = Some (y, m, d)
                /\ 0 <= y <= 9999 /\ 1 <= m <= 12 /\ 1 <= d <= 31.
Proof.
  unfold Mcp.validateISODate.
  destruct (Date.matchISODate s) as [[[y m] d]|] eqn:M; [|discriminate].
  rewrite (parse_date_fields s y m d M).
  destruct ((1 <=? m) && (m <=? 12) && (1 <=? d) && (d <=? 31))%bool eqn:E; [|discriminate].
  intros _. exists y, m, d. split; [reflexivity|].
  pose proof (matchISODate_inv _ _ _ _ M) as (Hy & _).
  rewrite !andb_true_iff, !Z.leb_le in E. lia.
Qed.

Lemma substring_suffix a b :
  String.substring (String.length a) (String.length b) (a ++ b) = b.
Proof.
  induction a as [|c a IH].
  - simpl. apply substring_all.
  - change (String.substring (S (String.length a)) (String.length b) (String c (a ++ b)) = b).
    cbn [String.substring]. exact IH.
Qed.

Lemma parse_time_fields s y m d suffix h mi se :
  Date.matchISODate s = Some (y, m, d) ->
  String.length suffix = 10%nat ->
  Date.matchTimeZ suffix = Some (h, mi, se) ->
  Date.parse (s ++ suffix)
  = if ((1 <=? m) && (m <=? 12) && (1 <=? d) && (d <=? 31)
        && (h <=? 23) && (mi <=? 59) && (se <=? 59))%bool
    then Date.TimeClip (Date.MakeDate (Date.MakeDay y (m - 1) d)
                          (h * 3600000 + mi * 60000 + se * 1000))
    else None.
Proof.
  intros M Ls T.
  pose proof (matchISODate_inv _ _ _ _ M) as (_ & _ & _ & L & _).
  unfold Date.parse, Date.timeOfDay.
  rewrite <- L at 1. rewrite substring_prefix, M. cbn [mbind option_bind].
  rewrite length_append, L, Ls. cbn [Nat.add Nat.eqb Nat.sub].
  replace 10%nat with (String.length s) at 1 by exact L.
  replace 10%nat with (String.length suffix) at 1 by exact Ls.
  rewrite substring_suffix, T. cbn [mbind option_bind].
  now replace (h * 3600000 + mi * 60000 + se * 1000 + 0)
    with (h * 3600000 + mi * 60000 + se * 1000) by lia.
Qed.

(** A validated date followed by a time of the day is a valid date-time. *)
Lemma parse_with_time s field suffix h mi se :
  Mcp.validateISODate s field = JS.Return tt ->
  String.length suffix = 10%nat ->
  Date.matchTimeZ suffix = Some (h, mi, se) ->
  0 <= h <= 23 -> 0 <= mi <= 59 -> 0 <= se <= 59 ->
  exists tv, Date.parse (s ++ suffix) = Some tv.
Proof.
  intros V Ls T Hh Hmi Hse.
  apply validateISODate_inv in V as (y & m & d & M & Hy & Hm & Hd).
  rewrite (parse_time_fields s y m d suffix h mi se M Ls T).
  assert (E : ((1 <=? m) && (m <=? 12) && (1 <=? d) && (d <=? 31)
               && (h <=? 23) && (mi <=? 59) && (se <=? 59))%bool = true).
  { rewrite !andb_true_iff, !Z.leb_le. lia. }
  rewrite E. rewrite MakeDay_civil by lia.
  pose proof (daysFromCivil_bound_lenient y m d Hy Hm Hd) as B.
  unfold Date.TimeClip, Date.MakeDate, Date.msPerDay.
  destruct (Z.abs (daysFromCivil y m d * 86400000 + (h * 3600000 + mi * 60000 + se * 1000))
            >? 8640000000000000) eqn:C.
  - apply Z.gtb_lt in C. lia.
  - eauto.
Qed.

Lemma iso_with_time s field suffix h mi se :
  Mcp.validateISODate s field = JS.Return tt ->
  String.length suffix = 10%nat ->
  Date.matchTimeZ suffix = Some (h, mi, se) ->
  0 <= h <= 23 -> 0 <= mi <= 59 -> 0 <= se <= 59 ->
  exists iso, Date.toISOString (Date.new (s ++ suffix)) = JS.Return iso.
Proof.
  intros V Ls T Hh Hmi Hse.
  destruct (parse_with_time s field suffix h mi se V Ls T Hh Hmi Hse) as (tv & P).
  unfold Date.new. rewrite P. simpl. eauto.
Qed.

Lemma mockFlight_returns params field i flight :
  Mcp.validateISODate (departDate params) field = JS.Return tt ->
  (i < 3)%nat ->
  exists o, Flights.mockFlight params (i, flight) = JS.Return o.
Proof.
  intros V Hi.
  assert (D : exists iso, Date.toISOString (Date.new (departDate params ++ fst (mockTimes i)))
                          = JS.Return iso).
  { assert (Hc : i = 0%nat \/ i = 1%nat \/ i = 2%nat) by lia.
    destruct Hc as [E|[E|E]]; subst i;
      eapply (iso_with_time _ field); try exact V; try reflexivity;
        vm_compute; split; discriminate. }
  assert (A : exists iso, Date.toISOString (Date.new (departDate params ++ snd (mockTimes i)))
                          = JS.Return iso).
  { assert (Hc : i = 0%nat \/ i = 1%nat \/ i = 2%nat) by lia.
    destruct Hc as [E|[E|E]]; subst i;
      eapply (iso_with_time _ field); try exact V; try reflexivity;
        vm_compute; split; discriminate. }
  destruct D as (d & D). destruct A as (a & A).
  unfold Flights.mockFlight. unfold mockTimes in D, A. cbn [fst snd] in D, A.
  rewrite D. cbn [mbind exc_bind JS.bind]. rewrite A.
  cbn [mbind exc_bind JS.bind mret exc_ret]. eauto.
Qed.

Lemma buildMockFlights_returns params field :
  Mcp.validateISODate (departDate params) field = JS.Return tt ->
  exists options, Flights.buildMockFlights params = JS.Return options.
Proof.
  intros V. unfold Flights.buildMockFlights, Flights.MOCK_FLIGHTS.
  cbn [List.length seq combine JS.mapM].
  destruct (mockFlight_returns params field 0 (nth 0 Flights.MOCK_FLIGHTS (flightWithPrice 0)) V
              ltac:(lia)) as (o0 & E0).
  destruct (mockFlight_returns params field 1 (nth 1 Flights.MOCK_FLIGHTS (flightWithPrice 0)) V
              ltac:(lia)) as (o1 & E1).
  destruct (mockFlight_returns params field 2 (nth 2 Flights.MOCK_FLIGHTS (flightWithPrice 0)) V
              ltac:(lia)) as (o2 & E2).
  cbn [nth Flights.MOCK_FLIGHTS] in E0, E1, E2.
  rewrite E0. cbn [JS.bind]. rewrite E1. cbn [JS.bind]. rewrite E2. cbn [JS.bind]. eauto.
Qed.

Lemma fetchAmadeusFlights_fails params config tok srch :
  flightsLiveFails params config tok srch = true ->
  Flights.fetchAmadeusFlights params config tok srch = None.
Proof.
  unfold flightsLiveFails, Flights.fetchAmadeusFlights.
  destruct (amadeus config) as [cr|]; [|reflexivity].
  destruct (negb (JS.truthy (clientId cr) && JS.truthy (clientSecret cr))); [reflexivity|].
  cbn [orb]. unfold Flights.searchOffers, Flights.fetchAmadeusToken, tokenFails, searchFails.
  destruct tok as [|ok st body]; [reflexivity|].
  destruct ok; cbn [negb orb]; [|].
  - destruct body as [json|]; [|reflexivity].
    cbn [mbind exc_bind JS.bind].
    destruct (negb (JS.truthyOpt (Flights.access_token json))); [reflexivity|].
    cbn [orb]. destruct srch as [|ok2 st2 body2]; [reflexivity|].
    destruct ok2; cbn [negb orb]; [|reflexivity].
    destruct body2 as [j2|]; [|reflexivity].
    destruct (Flights.data j2) as [offers|]; [|reflexivity].
    intros ->. reflexivity.
  - reflexivity.
Qed.

Lemma searchFlightsProvider_total params context config now tok srch field :
  WellKeyed (cache context) ->
  Mcp.validateISODate (departDate params) field = JS.Return tt ->
  exists f context',
    Flights.searchFlightsProvider params context config now tok srch
    = (JS.Return f, context')
    /\ WellKeyed (cache context')
    /\ (fst (Ctx.get context now (Flights.cacheKey params)) = None ->
        flightsLiveFails params config tok srch = true ->
        fr_note f = Some Flights.mockNote
        /\ Flights.buildMockFlights params = JS.Return (fr_options f)
        /\ In "flights:mock" (providersUsed context')).
Proof.
  intros W V. unfold Flights.searchFlightsProvider.
  destruct (Ctx.get context now (Flights.cacheKey params)) as [v c1] eqn:G.
  destruct (Ctx_get_spec _ _ _ _ _ W G) as (W1 & P1 & K).
  destruct v as [x|].
  - specialize (K x eq_refl). unfold Flights.cacheKey in K.
    destruct x; try (clash K).
    eexists. eexists. split; [reflexivity|]. split; [exact W1|].
    simpl. discriminate.
  - destruct (Flights.fetchAmadeusFlights params config tok srch) as [live|] eqn:L.
    + eexists. eexists. split; [reflexivity|]. split.
      * apply Ctx_set_WellKeyed; [exact W1|apply startsWith_append].
      * intros _ F. apply fetchAmadeusFlights_fails in F. congruence.
    + destruct (buildMockFlights_returns params field V) as (options & B). rewrite B.
      eexists. eexists. split; [reflexivity|]. split.
      * apply Ctx_set_WellKeyed; [exact W1|apply startsWith_append].
      * intros _ _. cbn [fr_note fr_options]. repeat split. simpl. apply Set_add_here.
Qed.

(** ** Places *)

Lemma useMockPlaces_spec params note now c :
  WellKeyed (cache c) -> JS.truthy note = true ->
  exists r c',
    Places.useMockPlaces params note (JS.nullish (limit params) 12) now c
    = (JS.Return r, c')
    /\ WellKeyed (cache c') /\ mockPlaces params r
    /\ In "opentripmap:mock" (providersUsed c').
Proof.
  intros W T. eexists. eexists. split; [reflexivity|]. split; [|split].
  - apply Ctx_set_WellKeyed; [exact W|apply startsWith_append].
  - split; [eauto|reflexivity].
  - simpl. apply Set_add_here.
Qed.

Lemma nearbyAttractionsProvider_total params context config now geo upstream :
  WellKeyed (cache context) ->
  exists r context',
    Places.nearbyAttractionsProvider params context config now geo upstream
    = (JS.Return r, context')
    /\ WellKeyed (cache context')
    /\ (fst (Ctx.get context now (Places.cacheKey params)) = None ->
        JS.truthyOpt (openTripMap config) = false \/ placesLiveFails params upstream = true ->
        mockPlaces params r /\ In "opentripmap:mock" (providersUsed context')).
Proof.
  intros W. unfold Places.nearbyAttractionsProvider.
  destruct (Ctx.get context now (Places.cacheKey params)) as [v c1] eqn:G.
  destruct (Ctx_get_spec _ _ _ _ _ W G) as (W1 & P1 & K).
  destruct v as [x|].
  - specialize (K x eq_refl). unfold Places.cacheKey in K.
    destruct x; try (clash K).
    eexists. eexists. split; [reflexivity|]. split; [exact W1|].
    simpl. discriminate.
  - destruct (JS.truthyOpt (openTripMap config)) eqn:Key; cbn [negb].
    + destruct (resolveDestination_total (asp_destination params) c1 config now geo W1)
        as (d & c2 & R & W2 & _).
      rewrite R.
      destruct (useMockPlaces_spec params Places.noteFailed now c2 W2 eq_refl)
        as (rf & cf & Uf & Wf & Mf & Tf).
      destruct (useMockPlaces_spec params Places.noteEmpty now c2 W2 eq_refl)
        as (re & ce & Ue & We & Me & Te).
      destruct (useMockPlaces_spec params Places.noteErrored now c2 W2 eq_refl)
        as (rr & cr & Ur & Wr & Mr & Tr).
      destruct upstream as [|ok status body].
      * unfold Ctx.tryCatch. rewrite Ur. eauto 10.
      * destruct ok; cbn [negb].
        -- destruct body as [json|].
           ++ fold (liveOptions params json).
              destruct (Nat.eqb (List.length (liveOptions params json)) 0) eqn:L.
              ** unfold Ctx.tryCatch. rewrite Ue. eauto 10.
              ** unfold Ctx.tryCatch. eexists. eexists. split; [reflexivity|]. split.
                 --- apply Ctx_set_WellKeyed; [exact W2|apply startsWith_append].
                 --- intros _ [F|F]; [discriminate|]. simpl in F. rewrite L in F.
                     discriminate.
           ++ unfold Ctx.tryCatch. rewrite Ur. eauto 10.
        -- unfold Ctx.tryCatch. rewrite Uf. eauto 10.
    + destruct (useMockPlaces_spec params Places.noteNoKey now c1 W1 eq_refl)
        as (r & c2 & U & W2 & M & T).
      rewrite U. eauto 10.
Qed.


(** * The providers never raise for reasons of the network *)

(** C1, as stated, fails for the destination and the weather providers:
    their mock results are returned without raising, but a [DestinationInfo]
    and a [WeatherSnapshot] have no note field, so that no advisory note comes
    with them.  Here both providers run without credentials, the weather
    request being answered with status 500. *)
Lemma weather_and_destination_mock_without_note :
  let context := Mcp.createProviderContext (Cache.new None) in
  exists (w : WeatherSnapshot) (c1 c2 : ProviderContext),
    Weather.weatherProvider chiangMaiWeather context noCredentials 0 (Response false 500 None)
    = (JS.Return w, c1)
    /\ In "weather:mock" (providersUsed c1)
    /\ resultNote (VWeather w) = None
    /\ Places.resolveDestination "Chiang Mai" context noCredentials 0 FetchRejected
       = (JS.Return Places.MOCK_DESTINATION, c2)
    /\ In "opentripmap:mock" (providersUsed c2)
    /\ resultNote (VDestination Places.MOCK_DESTINATION) = None.
Proof.
  intros context.
  destruct (weatherProvider_total chiangMaiWeather context noCredentials 0
              (Response false 500 None) (WellKeyed_new None) eq_refl)
    as (w & c1 & E & _ & F).
  destruct (F eq_refl eq_refl) as [_ T].
  exists w, c1. eexists. split; [exact E|]. split; [exact T|]. split; [reflexivity|].
  split; [reflexivity|]. split; [|reflexivity]. simpl. now left.
Qed.

(** C1, amended: on a cache that keeps each provider's entries under that
    provider's keys, no provider call raises, whatever the network answers:
    the destination, stay and attraction providers for every input, the
    weather provider for a start date of the calendar whose days stay within
    four-digit years, the flight provider for a departure date that passed
    validation.  When nothing is cached for the call and the live path fails
    (no credentials, a rejected request, a status that is not a success, a
    body that cannot be read; for the weather, flight and attraction
    providers also a body that is read and holds no day, no token or no
    usable offer, no named place), the result is the mock result and the mock
    tag is recorded; the stay provider has no live path and answers every
    miss from the mock.  The mock results of the flight, stay and attraction
    providers carry an advisory note; the results of the destination and
    weather providers have no note field and carry none. *)
Theorem providers_fall_back_without_raising :
  forall (context : ProviderContext) (config : ProviderConfig) (now : Z),
    WellKeyed (cache context) ->
    (forall (city : string) (upstream : FetchOutcome DestinationInfo),
       exists d context',
         Places.resolveDestination city context config now upstream
         = (JS.Return d, context')
         /\ WellKeyed (cache context')
         /\ resultNote (VDestination d) = None
         /\ (fst (Ctx.get context now (Places.destKey city)) = None ->
             JS.truthyOpt (openTripMap config) = false \/ geoFails upstream = true ->
             d = Places.MOCK_DESTINATION
             /\ In "opentripmap:mock" (providersUsed context')))
    /\ (forall (params : WeatherQueryParams)
               (upstream : FetchOutcome Weather.OpenMeteoResponse),
          tripInCalendar (wq_startDate params) (wq_days params) = true ->
          exists w context',
            Weather.weatherProvider params context config now upstream
            = (JS.Return w, context')
            /\ WellKeyed (cache context')
            /\ resultNote (VWeather w) = None
            /\ (fst (Ctx.get context now (Weather.cacheKey params)) = None ->
                liveWeatherFails upstream = true ->
                Weather.buildMockWeather params = JS.Return w
                /\ In "weather:mock" (providersUsed context')))
    /\ (forall (params : FlightSearchParams)
               (tokenUpstream : FetchOutcome Flights.AmadeusTokenResponse)
               (searchUpstream : FetchOutcome Flights.SearchResponse),
          Mcp.validateISODate (departDate params) "departDate" = JS.Return tt ->
          exists f context',
            Flights.searchFlightsProvider params context config now tokenUpstream
              searchUpstream
            = (JS.Return f, context')
            /\ WellKeyed (cache context')
            /\ (fst (Ctx.get context now (Flights.cacheKey params)) = None ->
                flightsLiveFails params config tokenUpstream searchUpstream = true ->
                resultNote (VFlights f) = Some Flights.mockNote
                /\ Flights.buildMockFlights params = JS.Return (fr_options f)
                /\ In "flights:mock" (providersUsed context')))
    /\ (forall params : StaySearchParams,
          exists s context',
            Stays.searchStaysProvider params context config now = (JS.Return s, context')
            /\ WellKeyed (cache context')
            /\ (fst (Ctx.get context now (Stays.cacheKey params)) = None ->
                resultNote (VStays s) = Some Stays.mockNote
                /\ sr_options s = Stays.withPricing Stays.MOCK_STAYS params
                /\ In "stays:mock" (providersUsed context')))
    /\ (forall (params : AttractionSearchParams)
               (geoUpstream : FetchOutcome DestinationInfo)
               (upstream : FetchOutcome Places.RadiusResponse),
          exists p context',
            Places.nearbyAttractionsProvider params context config now geoUpstream upstream
            = (JS.Return p, context')
            /\ WellKeyed (cache context')
            /\ (fst (Ctx.get context now (Places.cacheKey params)) = None ->
                JS.truthyOpt (openTripMap config) = false
                \/ placesLiveFails params upstream = true ->
                (exists note, resultNote (VPlaces p) = Some note /\ JS.truthy note = true)
                /\ pr_options p
                   = JS.slice0 Places.MOCK_PLACES (JS.nullish (limit params) 12)
                /\ In "opentripmap:mock" (providersUsed context'))).
Proof.
  intros context config now W. repeat split.
  - intros city upstream.
    destruct (resolveDestination_total city context config now upstream W)
      as (d & c & E & W' & F).
    exists d, c. auto.
  - intros params upstream H.
    destruct (weatherProvider_total params context config now upstream W H)
      as (w & c & E & W' & F).
    exists w, c. auto.
  - intros params tok srch V.
    destruct (searchFlightsProvider_total params context config now tok srch _ W V)
      as (f & c & E & W' & F).
    exists f, c. auto.
  - intros params.
    destruct (searchStaysProvider_total params context config now W)
      as (s & c & E & W' & F).
    exists s, c. split; [exact E|]. split; [exact W'|].
    intros M. destruct (F M) as [-> T]. auto.
  - intros params geo upstream.
    destruct (nearbyAttractionsProvider_total params context config now geo upstream W)
      as (p & c & E & W' & F).
    exists p, c. split; [exact E|]. split; [exact W'|].
    intros M K. destruct (F M K) as [[N O] T]. auto.
Qed.

(** The amended C1 on an empty cache without credentials: the flight
    provider answers a validated search with the mock flights and their note. *)
Lemma providers_fall_back_without_raising_witness :
  let context := Mcp.createProviderContext (Cache.new None) in
  let params := {| fsp_origin := "BKK"; fsp_destination := "Chiang Mai";
                   departDate := "2025-11-20"; returnDate := None; adults := Some 1;
                   cabin := None |} in
  exists f context',
    Flights.searchFlightsProvider params context noCredentials 0 FetchRejected FetchRejected
    = (JS.Return f, context')
    /\ resultNote (VFlights f) = Some Flights.mockNote
    /\ In "flights:mock" (providersUsed context').
Proof.
  intros context params.
  destruct (providers_fall_back_without_raising context noCredentials 0 (WellKeyed_new None))
    as (_ & _ & F & _).
  destruct (F params FetchRejected FetchRejected eq_refl) as (f & c & E & _ & M).
  destruct (M eq_refl eq_refl) as (N & _ & T).
  exists f, c. split; [exact E|]. split; [exact N|exact T].
Defined.


(** * More on the cache: writes, reads and the other keys *)

Lemma get_fst_lookup {T : Type} (c : Cache.TTLCache T) now key :
  fst (Cache.get c now key)
  = match Cache.store c !! key with
    | Some r => if Cache.expiresAt r <? now then None else Some (Cache.value r)
    | None => None
    end.
Proof.
  unfold Cache.get. destruct (Cache.store c !! key) as [r|]; [|reflexivity].
  now destruct (Cache.expiresAt r <? now).
Qed.

Lemma get_store_other {T : Type} (c : Cache.TTLCache T) now key other :
  other <> key -> Cache.store (snd (Cache.get c now key)) !! other = Cache.store c !! other.
Proof.
  intros Hne. unfold Cache.get. destruct (Cache.store c !! key) as [r|]; [|reflexivity].
  destruct (Cache.expiresAt r <? now); [|reflexivity].
  simpl. apply lookup_delete_ne. congruence.
Qed.

Lemma set_store_other {T : Type} (c : Cache.TTLCache T) now key other v options :
  other <> key -> Cache.store (Cache.set c now key v options) !! other = Cache.store c !! other.
Proof. intros Hne. unfold Cache.set. simpl. apply lookup_insert_ne. congruence. Qed.

(** X1: the last write wins.  Two writes to a key leave the cache exactly as
    the second write alone would, and a read then returns the second value
    until the expiry of the second write. *)
Theorem cache_last_write_wins :
  forall (T : Type) (c : Cache.TTLCache T) (key : string) (v1 v2 : T)
         (o1 o2 : option Cache.CacheOptions) (t1 t2 now : Z),
    let c2 := Cache.set (Cache.set c t1 key v1 o1) t2 key v2 o2 in
    c2 = Cache.set c t2 key v2 o2
    /\ fst (Cache.get c2 now key)
       = (if t2 + Cache.ttlOf c o2 <? now then None else Some v2).
Proof.
  intros T c key v1 v2 o1 o2 t1 t2 now c2.
  assert (E : c2 = Cache.set c t2 key v2 o2).
  { unfold c2, Cache.set, Cache.ttlOf. cbn [Cache.store Cache.defaultTtlMs].
    now rewrite insert_insert_eq. }
  split; [exact E|].
  rewrite E, get_fst_lookup, store_set. reflexivity.
Qed.

(** X2: writing or reading one key does not disturb another.  Whatever is
    stored under a different key stays stored, unchanged, and a read of that
    other key gives the same answer as before. *)
Theorem cache_other_keys_untouched :
  forall (T : Type) (c : Cache.TTLCache T) (key other : string) (v : T)
         (options : option Cache.CacheOptions) (t now : Z),
    other <> key ->
    let written := Cache.set c t key v options in
    let read := snd (Cache.get c t key) in
    Cache.store written !! other = Cache.store c !! other
    /\ Cache.store read !! other = Cache.store c !! other
    /\ fst (Cache.get written now other) = fst (Cache.get c now other)
    /\ fst (Cache.get read now other) = fst (Cache.get c now other).
Proof.
  intros T c key other v options t now Hne written read.
  pose proof (set_store_other c t key other v options Hne) as W.
  pose proof (get_store_other c t key other Hne) as R.
  repeat split; [exact W|exact R| |].
  - rewrite !get_fst_lookup. unfold written. now rewrite W.
  - rewrite !get_fst_lookup. unfold read. now rewrite R.
Qed.

(** X2 on a cache with two entries: writing and reading "a" leaves "b". *)
Lemma cache_other_keys_untouched_witness :
  let c := Cache.set (Cache.set (Cache.new None) 0 "a" 1 None) 0 "b" 2 None in
  fst (Cache.get (Cache.set c 5 "a" 3 (Some {| Cache.ttlMs := Some 0 |})) 10 "b") = Some 2
  /\ fst (Cache.get (snd (Cache.get c 5 "a")) 10 "b") = Some 2.
Proof.
  intros c.
  destruct (cache_other_keys_untouched Z c "a" "b" 3 (Some {| Cache.ttlMs := Some 0 |}) 5 10)
    as (_ & _ & A & B); [discriminate|].
  split; [rewrite A|rewrite B]; reflexivity.
Defined.

(** X3: a read never adds or alters an entry.  Every entry of the cache
    after [get] was there before; the only entry that can disappear is the
    one read, and only when it has expired; the default time-to-live is kept;
    reading again at the same clock reading gives the same answer and changes
    nothing more; and a key found absent stays absent at every later clock
    reading. *)
Theorem cache_get_only_drops_expired :
  forall (T : Type) (c : Cache.TTLCache T) (now : Z) (key : string),
    let c' := snd (Cache.get c now key) in
    (forall k r, Cache.store c' !! k = Some r -> Cache.store c !! k = Some r)
    /\ (forall k r, Cache.store c !! k = Some r -> Cache.store c' !! k = None ->
                    k = key /\ Cache.expiresAt r < now)
    /\ Cache.defaultTtlMs c' = Cache.defaultTtlMs c
    /\ Cache.get c' now key = (fst (Cache.get c now key), c')
    /\ (forall later, now <= later -> fst (Cache.get c now key) = None ->
                      fst (Cache.get c' later key) = None
                      /\ fst (Cache.get c later key) = None).
Proof.
  intros T c now key c'.
  assert (Sub : forall k r, Cache.store c' !! k = Some r -> Cache.store c !! k = Some r).
  { intros k r. unfold c', Cache.get.
    destruct (Cache.store c !! key) as [r0|] eqn:E; [|auto].
    destruct (Cache.expiresAt r0 <? now); [|auto]. simpl.
    destruct (decide (key = k)) as [->|Hne].
    - now rewrite lookup_delete_eq.
    - now rewrite lookup_delete_ne. }
  assert (Gone : forall k r, Cache.store c !! k = Some r -> Cache.store c' !! k = None ->
                             k = key /\ Cache.expiresAt r < now).
  { intros k r. unfold c', Cache.get.
    destruct (Cache.store c !! key) as [r0|] eqn:E; [|simpl; congruence].
    destruct (Cache.expiresAt r0 <? now) eqn:X; [|simpl; congruence]. simpl.
    destruct (decide (key = k)) as [->|Hne].
    - intros H _. apply Z.ltb_lt in X. split; [reflexivity|congruence].
    - rewrite lookup_delete_ne by exact Hne. congruence. }
  assert (Ttl : Cache.defaultTtlMs c' = Cache.defaultTtlMs c).
  { unfold c', Cache.get. destruct (Cache.store c !! key) as [r0|]; [|reflexivity].
    now destruct (Cache.expiresAt r0 <? now). }
  assert (Again : Cache.get c' now key = (fst (Cache.get c now key), c')).
  { unfold c'. unfold Cache.get at 2 3 4.
    destruct (Cache.store c !! key) as [r0|] eqn:E.
    - destruct (Cache.expiresAt r0 <? now) eqn:X; cbn [fst snd].
      + unfold Cache.get. cbn [Cache.store]. now rewrite lookup_delete_eq.
      + unfold Cache.get. now rewrite E, X.
    - cbn [fst snd]. unfold Cache.get. now rewrite E. }
  split; [exact Sub|]. split; [exact Gone|]. split; [exact Ttl|]. split; [exact Again|].
  intros later H H0. split.
  - rewrite get_fst_lookup in *. destruct (Cache.store c' !! key) as [r'|] eqn:E'; [|reflexivity].
    rewrite (Sub _ _ E') in H0.
    destruct (Cache.expiresAt r' <? now) eqn:X; [|discriminate].
    apply Z.ltb_lt in X. assert (L : (Cache.expiresAt r' <? later) = true) by (apply Z.ltb_lt; lia).
    now rewrite L.
  - rewrite get_fst_lookup in *. destruct (Cache.store c !! key) as [r'|] eqn:E'; [|reflexivity].
    destruct (Cache.expiresAt r' <? now) eqn:X; [|discriminate].
    apply Z.ltb_lt in X. assert (L : (Cache.expiresAt r' <? later) = true) by (apply Z.ltb_lt; lia).
    now rewrite L.
Qed.


(** * [escapeHtml] *)

Lemma append_assoc (a b c : string) : ((a ++ b) ++ c)%string = (a ++ (b ++ c))%string.
Proof.
  induction a as [|x a IH]; [reflexivity|].
  change (String x ((a ++ b) ++ c) = String x (a ++ (b ++ c))). now rewrite IH.
Qed.

Lemma replaceAllChar_app c by_ a b :
  JS.replaceAllChar c by_ (a ++ b)
  = (JS.replaceAllChar c by_ a ++ JS.replaceAllChar c by_ b)%string.
Proof.
  induction a as [|x a IH]; [reflexivity|].
  change (String x a ++ b)%string with (String x (a ++ b)).
  cbn [JS.replaceAllChar]. rewrite IH. destruct (Ascii.eqb x c).
  - now rewrite append_assoc.
  - reflexivity.
Qed.

Lemma escapeHtml_app a b :
  Mcp.escapeHtml (a ++ b) = (Mcp.escapeHtml a ++ Mcp.escapeHtml b)%string.
Proof. unfold Mcp.escapeHtml. now rewrite !replaceAllChar_app. Qed.

Lemma escapeHtml_char c : Mcp.escapeHtml (String c EmptyString) = entityOf c.
Proof.
  unfold entityOf.
  destruct (Ascii.eqb c "&") eqn:E1; [apply Ascii.eqb_eq in E1; now subst|].
  destruct (Ascii.eqb c "<") eqn:E2; [apply Ascii.eqb_eq in E2; now subst|].
  destruct (Ascii.eqb c ">") eqn:E3; [apply Ascii.eqb_eq in E3; now subst|].
  destruct (Ascii.eqb c JS.dquote) eqn:E4; [apply Ascii.eqb_eq in E4; now subst|].
  destruct (Ascii.eqb c "'") eqn:E5; [apply Ascii.eqb_eq in E5; now subst|].
  unfold Mcp.escapeHtml. cbn [JS.replaceAllChar].
  rewrite E1. cbn [JS.replaceAllChar]. rewrite E2. cbn [JS.replaceAllChar].
  rewrite E3. cbn [JS.replaceAllChar]. rewrite E4. cbn [JS.replaceAllChar].
  now rewrite E5.
Qed.

Lemma escapeHtml_cons c s :
  Mcp.escapeHtml (String c s) = (entityOf c ++ Mcp.escapeHtml s)%string.
Proof.
  change (String c s) with (String c EmptyString ++ s)%string.
  now rewrite escapeHtml_app, escapeHtml_char.
Qed.

Lemma escapeHtml_escapeChars s : Mcp.escapeHtml s = escapeChars s.
Proof.
  induction s as [|c s IH]; [reflexivity|].
  rewrite escapeHtml_cons, IH. reflexivity.
Qed.

(** The cases of a character under [entityOf]. *)
Lemma entityOf_cases c :
  (isHtmlSpecial c = true /\ In (entityOf c) htmlEntities)
  \/ (isHtmlSpecial c = false /\ entityOf c = String c EmptyString).
Proof.
  unfold isHtmlSpecial, entityOf, htmlEntities.
  destruct (Ascii.eqb c "&"); [left; simpl; auto|].
  destruct (Ascii.eqb c "<"); [left; simpl; auto|].
  destruct (Ascii.eqb c ">"); [left; simpl; auto|].
  destruct (Ascii.eqb c JS.dquote); [left; simpl; auto 6|].
  destruct (Ascii.eqb c "'"); [left; simpl; auto 7|].
  right. auto.
Qed.

Lemma entityOf_length c :
  (if isHtmlSpecial c then 4 <= String.length (entityOf c)
   else String.length (entityOf c) = 1)%nat.
Proof.
  unfold isHtmlSpecial, entityOf.
  destruct (Ascii.eqb c "&"); [simpl; lia|].
  destruct (Ascii.eqb c "<"); [simpl; lia|].
  destruct (Ascii.eqb c ">"); [simpl; lia|].
  destruct (Ascii.eqb c JS.dquote); [simpl; lia|].
  destruct (Ascii.eqb c "'"); [simpl; lia|].
  reflexivity.
Qed.

Lemma escapeChars_length s : (String.length s <= String.length (escapeChars s))%nat.
Proof.
  induction s as [|c s IH]; [reflexivity|].
  cbn [escapeChars]. rewrite length_append. pose proof (entityOf_length c) as L.
  destruct (isHtmlSpecial c); simpl; lia.
Qed.

(** X4: [escapeHtml] acts character by character.  Although it makes five
    passes, its result is the one-pass replacement of each of the five
    characters by its entity (the [&] of an entity written by a later pass is
    never escaped again); it distributes over concatenation, and a string
    without any of the five characters is returned unchanged. *)
Theorem escapeHtml_one_pass :
  forall a b : string,
    Mcp.escapeHtml a = escapeChars a
    /\ Mcp.escapeHtml (a ++ b) = (Mcp.escapeHtml a ++ Mcp.escapeHtml b)%string
    /\ (plainText a = true <-> Mcp.escapeHtml a = a).
Proof.
  intros a b. split; [apply escapeHtml_escapeChars|]. split; [apply escapeHtml_app|].
  rewrite escapeHtml_escapeChars. clear b.
  induction a as [|c a IH]; [split; reflexivity|].
  cbn [plainText escapeChars]. rewrite andb_true_iff, negb_true_iff.
  destruct (entityOf_cases c) as [[S Hin]|[S E]]; rewrite S.
  - split; [intros [? _]; discriminate|]. intros H. exfalso.
    apply (f_equal String.length) in H. rewrite length_append in H.
    pose proof (entityOf_length c) as L. rewrite S in L.
    pose proof (escapeChars_length a) as La. simpl in H. lia.
  - rewrite E. change (String c "" ++ escapeChars a)%string with (String c (escapeChars a)).
    split.
    + intros [_ P]. f_equal. now apply IH.
    + intros H. split; [reflexivity|]. apply IH. inversion H as [H1]. now rewrite H1.
Qed.

Lemma eqb_false_neq (a b : ascii) : Ascii.eqb a b = false -> a <> b.
Proof. intros H E. subst. now rewrite Ascii.eqb_refl in H. Qed.

Lemma safeAt_shift out (pre : string) i c :
  safeAt out i c ->
  (forall n, String.substring (String.length pre + i) n (pre ++ out) = String.substring i n out) ->
  safeAt (pre ++ out) (String.length pre + i) c.
Proof.
  intros (A & B & C & D & F) S. unfold safeAt. do 4 (split; [assumption|]).
  intros X. destruct (F X) as (e & He & Hs). exists e. split; [exact He|].
  now rewrite S.
Qed.

Lemma substring_skip (pre out : string) i n :
  String.substring (String.length pre + i) n (pre ++ out) = String.substring i n out.
Proof.
  induction pre as [|x pre IH]; [reflexivity|].
  change (String.substring (S (String.length pre + i)) n (String x (pre ++ out))
          = String.substring i n out).
  cbn [String.substring]. exact IH.
Qed.

Lemma get_skip (pre out : string) i :
  String.get (String.length pre + i) (pre ++ out) = String.get i out.
Proof.
  induction pre as [|x pre IH]; [reflexivity|].
  change (String.get (S (String.length pre + i)) (String x (pre ++ out)) = String.get i out).
  cbn [String.get]. exact IH.
Qed.

Lemma safeAt_entity e out i c :
  In e htmlEntities ->
  (forall j d, String.get j out = Some d -> safeAt out j d) ->
  String.get i (e ++ out) = Some c -> safeAt (e ++ out) i c.
Proof.
  intros He IH H.
  assert (Far : forall k, String.get (String.length e + k) (e ++ out) = Some c ->
                          safeAt (e ++ out) (String.length e + k) c).
  { intros k Hk. rewrite get_skip in Hk. apply safeAt_shift; [now apply IH|].
    intros n. apply substring_skip. }
  assert (Start : String.substring 0 (String.length e) (e ++ out) = e)
    by apply substring_prefix.
  destruct He as [<-|[<-|[<-|[<-|[<-|[]]]]]];
    repeat (destruct i as [|i];
            [ cbv in H; inversion H; subst c; unfold safeAt;
              do 4 (split; [discriminate|]);
              first [ intros X; discriminate X
                    | intros _; eexists; split; [|exact Start]; simpl; auto 7 ]
            | ]);
    first [ exact (Far i H) ].
Qed.

Lemma escapeChars_safe s : forall i c, String.get i (escapeChars s) = Some c ->
                                       safeAt (escapeChars s) i c.
Proof.
  induction s as [|c0 s IH]; intros i c H.
  - destruct i; discriminate H.
  - cbn [escapeChars] in *.
    destruct (entityOf_cases c0) as [[S Hin]|[S E]].
    + now apply safeAt_entity.
    + rewrite E in *.
      change (String c0 "" ++ escapeChars s)%string with (String c0 (escapeChars s)) in *.
      destruct i as [|i].
      * cbn [String.get] in H. inversion H; subst c.
        unfold isHtmlSpecial in S. rewrite !orb_false_iff in S.
        destruct S as ((((S1 & S2) & S3) & S4) & S5).
        unfold safeAt. repeat (split; [now apply eqb_false_neq|]).
        intros X. subst. discriminate S1.
      * cbn [String.get] in H.
        apply (safeAt_shift (escapeChars s) (String c0 EmptyString) i c (IH _ _ H)).
        intros n. apply (substring_skip (String c0 EmptyString)).
Qed.

(** X5: the result of [escapeHtml] is safe to put into markup.  It holds
    none of the characters [<], [>], the double quote and the apostrophe,
    and every [&] in it begins one of the five entities. *)
Theorem escapeHtml_output_is_safe :
  forall (s : string) (i : nat) (c : ascii),
    String.get i (Mcp.escapeHtml s) = Some c ->
    c <> "<"%char /\ c <> ">"%char /\ c <> JS.dquote /\ c <> "'"%char
    /\ (c = "&"%char ->
        exists e, In e htmlEntities
                  /\ String.substring i (String.length e) (Mcp.escapeHtml s) = e).
Proof.
  intros s i c H. rewrite escapeHtml_escapeChars in *.
  exact (escapeChars_safe s i c H).
Qed.

(** X5 on a script tag: position 0 of the result holds the [&] of [&lt;]. *)
Lemma escapeHtml_output_is_safe_witness :
  String.get 0 (Mcp.escapeHtml "<script>'x'&") = Some "&"%char
  /\ exists e, In e htmlEntities
               /\ String.substring 0 (String.length e) (Mcp.escapeHtml "<script>'x'&") = e.
Proof.
  split; [reflexivity|].
  destruct (escapeHtml_output_is_safe "<script>'x'&" 0 "&" eq_refl) as (_ & _ & _ & _ & H).
  exact (H eq_refl).
Defined.

Lemma entityOf_nonempty c : entityOf c <> EmptyString.
Proof.
  intros H. apply (f_equal String.length) in H. pose proof (entityOf_length c) as L.
  destruct (isHtmlSpecial c); simpl in H; lia.
Qed.

Ltac ascii_eq E := apply Ascii.eqb_eq in E; subst.

(** Entities and plain characters can be told apart from the left. *)
Lemma entityOf_prefix_free c1 c2 x y :
  (entityOf c1 ++ x)%string = (entityOf c2 ++ y)%string -> c1 = c2 /\ x = y.
Proof.
  unfold entityOf.
  destruct (Ascii.eqb c1 "&") eqn:A1; [ascii_eq A1|];
    [|destruct (Ascii.eqb c1 "<") eqn:A2; [ascii_eq A2|];
      [|destruct (Ascii.eqb c1 ">") eqn:A3; [ascii_eq A3|];
        [|destruct (Ascii.eqb c1 JS.dquote) eqn:A4; [ascii_eq A4|];
          [|destruct (Ascii.eqb c1 "'") eqn:A5; [ascii_eq A5|]]]]];
    (destruct (Ascii.eqb c2 "&") eqn:B1; [ascii_eq B1|];
     [|destruct (Ascii.eqb c2 "<") eqn:B2; [ascii_eq B2|];
       [|destruct (Ascii.eqb c2 ">") eqn:B3; [ascii_eq B3|];
         [|destruct (Ascii.eqb c2 JS.dquote) eqn:B4; [ascii_eq B4|];
           [|destruct (Ascii.eqb c2 "'") eqn:B5; [ascii_eq B5|]]]]]);
    cbv [String.append]; intros H; inversion H; subst;
    try discriminate; try (split; reflexivity);
    try (rewrite Ascii.eqb_refl in *; discriminate).
Qed.

(** X6: [escapeHtml] loses nothing: two strings with the same escaped form
    are the same string. *)
Theorem escapeHtml_injective :
  forall a b : string, Mcp.escapeHtml a = Mcp.escapeHtml b -> a = b.
Proof.
  intros a b. rewrite !escapeHtml_escapeChars. revert b.
  induction a as [|c a IH]; intros [|d b] H; cbn [escapeChars] in H.
  - reflexivity.
  - exfalso. symmetry in H. destruct (entityOf d) eqn:E; [now apply entityOf_nonempty in E|].
    discriminate H.
  - exfalso. destruct (entityOf c) eqn:E; [now apply entityOf_nonempty in E|].
    discriminate H.
  - apply entityOf_prefix_free in H as [-> H]. f_equal. now apply IH.
Qed.

(** X6 on two spellings of a string with all five characters. *)
Lemma escapeHtml_injective_witness :
  Mcp.escapeHtml "<a>&'" = "&lt;a&gt;&amp;&#39;"
  /\ "<a>&'" = ("<a" ++ ">&'")%string.
Proof.
  split; [reflexivity|]. apply escapeHtml_injective. reflexivity.
Defined.


(** * What the validators let through *)

(** ** [trim] and [toLowerCase] *)

Lemma trimStart_head c s : JS.isSpace c = false -> JS.trimStart (String c s) = String c s.
Proof. intros H. simpl. now rewrite H. Qed.

Lemma trimStart_shape s :
  JS.trimStart s = EmptyString
  \/ exists c r, JS.trimStart s = String c r /\ JS.isSpace c = false.
Proof.
  induction s as [|c s IH]; [now left|].
  simpl. destruct (JS.isSpace c) eqn:E; [exact IH|]. right. eauto.
Qed.

Lemma trimEnd_idem s : JS.trimEnd (JS.trimEnd s) = JS.trimEnd s.
Proof.
  induction s as [|c s IH]; [reflexivity|].
  cbn [JS.trimEnd]. destruct (JS.trimEnd s) as [|d r] eqn:E.
  - destruct (JS.isSpace c) eqn:Sp; [reflexivity|]. cbn [JS.trimEnd]. now rewrite Sp.
  - cbn [JS.trimEnd]. cbn [JS.trimEnd] in IH. now rewrite IH.
Qed.

Lemma trimEnd_head c s :
  JS.isSpace c = false -> exists r, JS.trimEnd (String c s) = String c r.
Proof.
  intros H. cbn [JS.trimEnd]. destruct (JS.trimEnd s); [rewrite H|]; eauto.
Qed.

Lemma trim_idem s : JS.trim (JS.trim s) = JS.trim s.
Proof.
  unfold JS.trim. destruct (trimStart_shape s) as [E|(c & r & E & Sp)]; rewrite E.
  - reflexivity.
  - destruct (trimEnd_head c r Sp) as (r' & E'). rewrite E'.
    rewrite (trimStart_head c r' Sp). rewrite <- E'. apply trimEnd_idem.
Qed.

Lemma lowerChar_idem c : JS.lowerChar (JS.lowerChar c) = JS.lowerChar c.
Proof.
  unfold JS.lowerChar.
  destruct ((65 <=? nat_of_ascii c)%nat && (nat_of_ascii c <=? 90)%nat)%bool eqn:E.
  - apply andb_true_iff in E as [A B]. apply Nat.leb_le in A, B.
    rewrite nat_ascii_embedding by lia.
    assert (X : ((65 <=? nat_of_ascii c + 32)%nat && (nat_of_ascii c + 32 <=? 90)%nat)%bool
                = false).
    { apply andb_false_iff. right. apply Nat.leb_gt. lia. }
    now rewrite X.
  - now rewrite E.
Qed.

Lemma lowerChar_space c : JS.isSpace (JS.lowerChar c) = JS.isSpace c.
Proof.
  unfold JS.lowerChar.
  destruct ((65 <=? nat_of_ascii c)%nat && (nat_of_ascii c <=? 90)%nat)%bool eqn:E;
    [|reflexivity].
  apply andb_true_iff in E as [A B]. apply Nat.leb_le in A, B.
  unfold JS.isSpace. rewrite nat_ascii_embedding by lia.
  assert (X1 : (nat_of_ascii c + 32 =? 32)%nat = false) by (apply Nat.eqb_neq; lia).
  assert (X2 : (nat_of_ascii c + 32 <=? 13)%nat = false) by (apply Nat.leb_gt; lia).
  assert (Y1 : (nat_of_ascii c =? 32)%nat = false) by (apply Nat.eqb_neq; lia).
  assert (Y2 : (nat_of_ascii c <=? 13)%nat = false) by (apply Nat.leb_gt; lia).
  rewrite X1, X2, Y1, Y2. now rewrite !andb_false_r.
Qed.

Lemma toLowerCase_idem s : JS.toLowerCase (JS.toLowerCase s) = JS.toLowerCase s.
Proof.
  unfold JS.toLowerCase. induction s as [|c s IH]; [reflexivity|].
  cbn [JS.mapChars]. now rewrite lowerChar_idem, IH.
Qed.

Lemma trimStart_lower s :
  JS.trimStart (JS.toLowerCase s) = JS.toLowerCase (JS.trimStart s).
Proof.
  unfold JS.toLowerCase. induction s as [|c s IH]; [reflexivity|].
  cbn [JS.mapChars JS.trimStart]. rewrite lowerChar_space.
  destruct (JS.isSpace c); [exact IH|reflexivity].
Qed.

Lemma trimEnd_lower s :
  JS.trimEnd (JS.toLowerCase s) = JS.toLowerCase (JS.trimEnd s).
Proof.
  unfold JS.toLowerCase. induction s as [|c s IH]; [reflexivity|].
  cbn [JS.mapChars JS.trimEnd]. rewrite IH, lowerChar_space.
  destruct (JS.trimEnd s) as [|d r]; cbn [JS.mapChars]; [|reflexivity].
  now destruct (JS.isSpace c).
Qed.

Lemma trim_lower s : JS.trim (JS.toLowerCase s) = JS.toLowerCase (JS.trim s).
Proof. unfold JS.trim. now rewrite trimStart_lower, trimEnd_lower. Qed.

Lemma nonempty_length s : (0 <? String.length s)%nat = true -> s <> EmptyString.
Proof. intros H ->. discriminate H. Qed.

(** ** The pieces that the validators share *)

Lemma coerceString_trimmed value s :
  Mcp.coerceString value = Some s -> trimmedText s.
Proof.
  unfold Mcp.coerceString. destruct value; try discriminate.
  destruct (0 <? String.length (JS.trim s0))%nat eqn:L; [|discriminate].
  intros H. inversion H; subst. split; [now apply nonempty_length|apply trim_idem].
Qed.

Lemma cleanStrings_keywords items l :
  Mcp.cleanStrings items = Some l -> keywordList l.
Proof.
  unfold Mcp.cleanStrings.
  set (strings := omap _ items).
  set (filtered := List.filter _ _).
  destruct (0 <? List.length filtered)%nat eqn:L; [|discriminate].
  intros H. inversion H; subst l. split.
  - intros E. rewrite E in L. discriminate L.
  - apply List.Forall_forall. intros s Hs. unfold filtered in Hs.
    apply filter_In in Hs as [Hin Hlen]. apply in_map_iff in Hin as (x & <- & _).
    split; [split|].
    + now apply nonempty_length.
    + now rewrite trim_lower, trim_idem.
    + apply toLowerCase_idem.
Qed.

Lemma validateISODate_shaped s field :
  Mcp.validateISODate s field = JS.Return tt -> isoShaped s.
Proof. intros H. apply validateISODate_inv in H. exact H. Qed.

(** A number that passes the test [Number.isInteger(n) && n >= 1]. *)
Lemma positive_integer q :
  negb (JS.Number_isInteger q) || negb (Qle_bool 1 q) = false ->
  1 <= Qfloor q /\ (inject_Z (Qfloor q) == q)%Q.
Proof.
  rewrite orb_false_iff, !negb_false_iff. intros [I L].
  apply Qle_bool_iff in L. split.
  - change 1 with (Qfloor 1). now apply Qfloor_resp_le.
  - unfold JS.Number_isInteger in I. apply Z.eqb_eq in I.
    destruct q as [n d]. unfold Qfloor. cbn [Qnum Qden] in I.
    unfold Qeq, inject_Z. cbn [Qnum Qden].
    pose proof (Z.div_mod n (Z.pos d) ltac:(lia)) as E. rewrite I in E. lia.
Qed.

(** An optional count: absent, or an integer that is at least 1. *)
Lemma optional_positive_inv (v : Mcp.JSValue) (msg : string) (r : option Z) :
  match v with
  | Mcp.JUndefined => mret None
  | _ =>
      match Mcp.ToNumber v with
      | Some n =>
          if negb (JS.Number_isInteger n) || negb (Qle_bool 1 n)
          then Mcp.error msg
          else mret (Some (Qfloor n))
      | None => Mcp.error msg
      end
  end = JS.Return r ->
  (v = Mcp.JUndefined <-> r = None) /\ forall z, r = Some z -> 1 <= z.
Proof.
  intros H.
  assert (G : v = Mcp.JUndefined /\ r = None
              \/ v <> Mcp.JUndefined /\ exists n, r = Some (Qfloor n) /\ 1 <= Qfloor n).
  { destruct v; try (left; inversion H; now split); right; (split; [discriminate|]);
      match type of H with
      | context [Mcp.ToNumber ?x] => destruct (Mcp.ToNumber x) as [n|]; [|discriminate H]
      end;
      destruct (negb (JS.Number_isInteger n) || negb (Qle_bool 1 n)) eqn:T;
      try discriminate H;
      inversion H; exists n; (split; [reflexivity|now apply positive_integer]). }
  destruct G as [[-> ->]|(Hv & n & -> & Hn)].
  - split; [tauto|discriminate].
  - split; [split; [contradiction|discriminate]|]. intros z E. inversion E. now subst.
Qed.

(** A required count: an integer that is at least 1. *)
Lemma required_positive_inv (v : Mcp.JSValue) (msg : string) (z : Z) :
  match Mcp.ToNumber v with
  | Some n =>
      if negb (JS.Number_isInteger n) || negb (Qle_bool 1 n)
      then Mcp.error msg
      else mret (Qfloor n)
  | None => Mcp.error msg
  end = JS.Return z ->
  v <> Mcp.JUndefined /\ 1 <= z.
Proof.
  intros H. split; [intros ->; discriminate H|].
  destruct (Mcp.ToNumber v) as [n|]; [|discriminate H].
  destruct (negb (JS.Number_isInteger n) || negb (Qle_bool 1 n)) eqn:T; [discriminate H|].
  inversion H. now apply positive_integer.
Qed.

Lemma plan_days_inv (v : Mcp.JSValue) (msg : string) (z : Z) :
  match v with
  | Mcp.JUndefined => mret 4
  | _ =>
      match Mcp.ToNumber v with
      | Some n =>
          if negb (JS.Number_isInteger n) || negb (Qle_bool 1 n)
          then Mcp.error msg
          else mret (Qfloor n)
      | None => Mcp.error msg
      end
  end = JS.Return z ->
  1 <= z.
Proof.
  intros H.
  destruct v; try (inversion H; lia);
    match type of H with
    | context [Mcp.ToNumber ?x] => destruct (Mcp.ToNumber x) as [n|]; [|discriminate H]
    end;
    destruct (negb (JS.Number_isInteger n) || negb (Qle_bool 1 n)) eqn:T;
    try discriminate H; inversion H; now apply positive_integer.
Qed.

Lemma plan_budget_inv (v : Mcp.JSValue) (msg : string) (r : option Q) :
  match v with
  | Mcp.JUndefined => mret None
  | _ =>
      match Mcp.ToNumber v with
      | Some n => if negb (Qle_bool 0 n) then Mcp.error msg else mret (Some n)
      | None => Mcp.error msg
      end
  end = JS.Return r ->
  forall b, r = Some b -> (0 <= b)%Q.
Proof.
  intros H b E. subst r.
  destruct v; try discriminate H;
    match type of H with
    | context [Mcp.ToNumber ?x] => destruct (Mcp.ToNumber x) as [n|]; [|discriminate H]
    end;
    destruct (Qle_bool 0 n) eqn:T; try discriminate H;
    inversion H; subst; now apply Qle_bool_iff.
Qed.

Ltac bind_step name E :=
  match goal with
  | |- JS.bind ?m _ = _ -> _ =>
      let e := fresh "e" in
      destruct m as [name|e] eqn:E; [|discriminate]; cbn [JS.bind]
  end.

(** X7: what [validatePlanTripInput] lets through.  An accepted input has a
    destination that is non-empty and trimmed, a start date of the shape
    [YYYY-MM-DD] with month 01..12 and day 01..31, a day count that is an
    integer of at least 1, a budget (if any) that is not negative, interests
    (if any) that form a non-empty list of non-empty trimmed lower-case
    keywords, and an origin (if any) that is non-empty and trimmed. *)
Theorem validated_plan_input :
  forall (raw : Mcp.JSValue) (input : PlanTripInput),
    Mcp.validatePlanTripInput raw = JS.Return input ->
    trimmedText (pti_destination input)
    /\ isoShaped (pti_startDate input)
    /\ (exists d, pti_days input = Some d /\ 1 <= d)
    /\ (forall b, pti_budgetUSD input = Some b -> (0 <= b)%Q)
    /\ (forall l, pti_interests input = Some l -> keywordList l)
    /\ (forall o, pti_origin input = Some o -> trimmedText o).
Proof.
  intros raw input. unfold Mcp.validatePlanTripInput.
  destruct (negb (Mcp.isObject raw)); [discriminate|].
  destruct (Mcp.coerceString (Mcp.getField raw "destination")) as [dest|] eqn:Cd;
    [|discriminate].
  destruct (Mcp.coerceString (Mcp.getField raw "startDate")) as [start|] eqn:Cs;
    [|discriminate].
  unfold mbind, exc_bind.
  bind_step u Eu. bind_step nd End. bind_step nb Enb.
  cbn [mret exc_ret]. intros H. inversion H; subst input; clear H.
  cbn [pti_destination pti_startDate pti_days pti_budgetUSD pti_interests pti_origin].
  destruct u.
  split; [now apply coerceString_trimmed in Cd|].
  split; [now apply validateISODate_shaped in Eu|].
  split; [exists nd; split; [reflexivity|now apply plan_days_inv in End]|].
  split; [exact (plan_budget_inv _ _ _ Enb)|].
  split.
  - intros l. destruct (Mcp.getField raw "interests"); try discriminate.
    apply cleanStrings_keywords.
  - intros o. apply coerceString_trimmed.
Qed.

(** X7 on a request with padded texts, a day count and mixed interests. *)
Lemma validated_plan_input_witness :
  let raw := Mcp.JObject [("destination", Mcp.JString "  Chiang Mai ");
                          ("startDate", Mcp.JString "2025-11-20");
                          ("days", Mcp.JNumber 3);
                          ("interests",
                           Mcp.JArray [Mcp.JString " Temple "; Mcp.JNumber 7;
                                       Mcp.JString "  "])] in
  exists input,
    Mcp.validatePlanTripInput raw = JS.Return input
    /\ pti_destination input = "Chiang Mai"
    /\ pti_interests input = Some ["temple"]
    /\ trimmedText (pti_destination input)
    /\ exists d, pti_days input = Some d /\ 1 <= d.
Proof.
  intros raw. eexists. split; [reflexivity|]. split; [reflexivity|]. split; [reflexivity|].
  destruct (validated_plan_input raw _ eq_refl) as (A & _ & B & _). split; [exact A|exact B].
Defined.

Lemma cabinOfString_spelling s c :
  Mcp.cabinOfString s = Some c -> s = Flights.CabinClass_toString c.
Proof.
  unfold Mcp.cabinOfString.
  destruct (String.eqb s "economy") eqn:E1.
  { apply String.eqb_eq in E1. intros H. inversion H. now subst. }
  destruct (String.eqb s "premium_economy") eqn:E2.
  { apply String.eqb_eq in E2. intros H. inversion H. now subst. }
  destruct (String.eqb s "business") eqn:E3.
  { apply String.eqb_eq in E3. intros H. inversion H. now subst. }
  destruct (String.eqb s "first") eqn:E4.
  { apply String.eqb_eq in E4. intros H. inversion H. now subst. }
  discriminate.
Qed.

Lemma coerceString_source value s :
  Mcp.coerceString value = Some s -> exists text, value = Mcp.JString text /\ JS.trim text = s.
Proof.
  unfold Mcp.coerceString. destruct value; try discriminate.
  destruct (0 <? String.length (JS.trim s0))%nat; [|discriminate].
  intros H. inversion H. eauto.
Qed.

(** X8: what [validateFlightSearchInput] lets through.  Origin, destination
    and departure date are present, the texts non-empty and trimmed, the
    dates of the shape [YYYY-MM-DD]; a return date, if any, has that shape
    too; the number of adults, if any, is an integer of at least 1; and a
    cabin, if any, was spelled exactly (up to surrounding white space) as one
    of economy, premium_economy, business, first. *)
Theorem validated_flight_search :
  forall (raw : Mcp.JSValue) (params : FlightSearchParams),
    Mcp.validateFlightSearchInput raw = JS.Return params ->
    trimmedText (fsp_origin params)
    /\ trimmedText (fsp_destination params)
    /\ isoShaped (departDate params)
    /\ (forall r, returnDate params = Some r -> trimmedText r /\ isoShaped r)
    /\ (forall a, adults params = Some a -> 1 <= a)
    /\ (forall c, cabin params = Some c ->
          exists text, Mcp.getField raw "cabin" = Mcp.JString text
                       /\ JS.trim text = Flights.CabinClass_toString c).
Proof.
  intros raw params. unfold Mcp.validateFlightSearchInput.
  destruct (negb (Mcp.isObject raw)); [discriminate|].
  destruct (Mcp.coerceString (Mcp.getField raw "origin")) as [orig|] eqn:Co;
    [|discriminate].
  destruct (Mcp.coerceString (Mcp.getField raw "destination")) as [dest|] eqn:Cd;
    [|discriminate].
  destruct (Mcp.coerceString (Mcp.getField raw "departDate")) as [dep|] eqn:Cs;
    [|discriminate].
  unfold mbind at 1 2 3 4, exc_bind.
  bind_step u Eu. bind_step rd Erd. bind_step na Ena. bind_step nc Enc.
  cbn [mret exc_ret]. intros H. inversion H; subst params; clear H.
  cbn [fsp_origin fsp_destination departDate returnDate adults cabin].
  destruct u.
  split; [now apply coerceString_trimmed in Co|].
  split; [now apply coerceString_trimmed in Cd|].
  split; [now apply validateISODate_shaped in Eu|].
  split; [|split].
  - intros r ->.
    destruct (Mcp.getField raw "returnDate"); try discriminate Erd;
      match type of Erd with
      | context [Mcp.coerceString ?x] =>
          destruct (Mcp.coerceString x) as [text|] eqn:Cr; [|discriminate Erd]
      end;
      unfold mbind, exc_bind in Erd;
      destruct (Mcp.validateISODate text "returnDate") as [[]|] eqn:Vr;
      try discriminate Erd; inversion Erd; subst;
      (split; [now apply coerceString_trimmed in Cr|now apply validateISODate_shaped in Vr]).
  - exact (proj2 (optional_positive_inv _ _ _ Ena)).
  - intros c ->.
    destruct (Mcp.getField raw "cabin") eqn:G; try discriminate Enc;
      match type of Enc with
      | context [Mcp.coerceString ?x] =>
          destruct (Mcp.coerceString x) as [text|] eqn:Cc; [|discriminate Enc]
      end;
      cbn [mbind option_bind] in Enc;
      destruct (Mcp.cabinOfString text) as [c'|] eqn:K; try discriminate Enc;
      inversion Enc; subst c';
      apply cabinOfString_spelling in K; subst text;
      apply coerceString_source in Cc as (t0 & Ht & Tr);
      first [ discriminate Ht | inversion Ht; subst; eauto ].
Qed.

(** X8 on a request for two adults in business class. *)
Lemma validated_flight_search_witness :
  let raw := Mcp.JObject [("origin", Mcp.JString "bkk"); ("destination", Mcp.JString "cnx");
                          ("departDate", Mcp.JString "2025-11-20");
                          ("adults", Mcp.JNumber 2);
                          ("cabin", Mcp.JString " business ")] in
  exists params,
    Mcp.validateFlightSearchInput raw = JS.Return params
    /\ cabin params = Some business
    /\ forall a, adults params = Some a -> 1 <= a.
Proof.
  intros raw. eexists. split; [reflexivity|]. split; [reflexivity|].
  destruct (validated_flight_search raw _ eq_refl) as (_ & _ & _ & _ & A & _). exact A.
Defined.

(** X9: what [validateStaySearchInput] lets through.  The destination is
    non-empty and trimmed, the check-in date has the shape [YYYY-MM-DD], the
    number of nights was given (there is no default) and is an integer of at
    least 1, and the number of guests, if any, is an integer of at least 1. *)
Theorem validated_stay_search :
  forall (raw : Mcp.JSValue) (params : StaySearchParams),
    Mcp.validateStaySearchInput raw = JS.Return params ->
    trimmedText (ssp_destination params)
    /\ isoShaped (checkIn params)
    /\ Mcp.getField raw "nights" <> Mcp.JUndefined
    /\ 1 <= nights params
    /\ (forall g, guests params = Some g -> 1 <= g).
Proof.
  intros raw params. unfold Mcp.validateStaySearchInput.
  destruct (negb (Mcp.isObject raw)); [discriminate|].
  destruct (Mcp.coerceString (Mcp.getField raw "destination")) as [dest|] eqn:Cd;
    [|discriminate].
  destruct (Mcp.coerceString (Mcp.getField raw "checkIn")) as [start|] eqn:Cs;
    [|discriminate].
  unfold mbind, exc_bind.
  bind_step u Eu. bind_step nn Enn. bind_step ng Eng.
  cbn [mret exc_ret]. intros H. inversion H; subst params; clear H.
  cbn [ssp_destination checkIn nights guests].
  destruct u. apply required_positive_inv in Enn as [N1 N2].
  split; [now apply coerceString_trimmed in Cd|].
  split; [now apply validateISODate_shaped in Eu|].
  split; [exact N1|]. split; [exact N2|].
  exact (proj2 (optional_positive_inv _ _ _ Eng)).
Qed.

(** X9 on a request for three nights, the count given as a string. *)
Lemma validated_stay_search_witness :
  let raw := Mcp.JObject [("destination", Mcp.JString "Chiang Mai");
                          ("checkIn", Mcp.JString "2025-11-20");
                          ("nights", Mcp.JString "3")] in
  exists params,
    Mcp.validateStaySearchInput raw = JS.Return params
    /\ nights params = 3 /\ 1 <= nights params.
Proof.
  intros raw. eexists. split; [reflexivity|]. split; [reflexivity|].
  destruct (validated_stay_search raw _ eq_refl) as (_ & _ & _ & A & _). exact A.
Defined.

(** X10: what [validateNearbyAttractionsInput] lets through.  The
    destination is non-empty and trimmed, the tags (if any) form a non-empty
    list of non-empty trimmed lower-case keywords, and the limit (if any) is
    an integer of at least 1. *)
Theorem validated_attraction_search :
  forall (raw : Mcp.JSValue) (params : AttractionSearchParams),
    Mcp.validateNearbyAttractionsInput raw = JS.Return params ->
    trimmedText (asp_destination params)
    /\ (forall l, tags params = Some l -> keywordList l)
    /\ (forall n, limit params = Some n -> 1 <= n).
Proof.
  intros raw params. unfold Mcp.validateNearbyAttractionsInput.
  destruct (negb (Mcp.isObject raw)); [discriminate|].
  destruct (Mcp.coerceString (Mcp.getField raw "destination")) as [dest|] eqn:Cd;
    [|discriminate].
  unfold mbind, exc_bind.
  bind_step nl Enl.
  cbn [mret exc_ret]. intros H. inversion H; subst params; clear H.
  cbn [asp_destination tags limit].
  split; [now apply coerceString_trimmed in Cd|]. split.
  - intros l. destruct (Mcp.getField raw "tags"); try discriminate.
    apply cleanStrings_keywords.
  - exact (proj2 (optional_positive_inv _ _ _ Enl)).
Qed.

(** X10 on a request with tags and a limit. *)
Lemma validated_attraction_search_witness :
  let raw := Mcp.JObject [("destination", Mcp.JString "Chiang Mai");
                          ("tags", Mcp.JArray [Mcp.JString "Food"; Mcp.JNull]);
                          ("limit", Mcp.JNumber 5)] in
  exists params,
    Mcp.validateNearbyAttractionsInput raw = JS.Return params
    /\ tags params = Some ["food"]
    /\ forall n, limit params = Some n -> 1 <= n.
Proof.
  intros raw. eexists. split; [reflexivity|]. split; [reflexivity|].
  destruct (validated_attraction_search raw _ eq_refl) as (_ & _ & A). exact A.
Defined.

(** X11: what [validateWeatherInput] lets through.  The latitude lies in
    [-90, 90], the longitude in [-180, 180], the start date has the shape
    [YYYY-MM-DD], and the day count was given and is an integer of at least 1. *)
Theorem validated_weather_query :
  forall (raw : Mcp.JSValue) (params : WeatherQueryParams),
    Mcp.validateWeatherInput raw = JS.Return params ->
    (-90 <= wq_lat params <= 90)%Q
    /\ (-180 <= wq_lon params <= 180)%Q
    /\ trimmedText (wq_startDate params)
    /\ isoShaped (wq_startDate params)
    /\ Mcp.getField raw "days" <> Mcp.JUndefined
    /\ 1 <= wq_days params.
Proof.
  intros raw params. unfold Mcp.validateWeatherInput.
  destruct (negb (Mcp.isObject raw)); [discriminate|].
  destruct (Mcp.ToNumber (Mcp.getField raw "lat")) as [la|]; [|discriminate].
  destruct (Qle_bool (-90) la) eqn:La1; [|discriminate].
  destruct (Qle_bool la 90) eqn:La2; [|discriminate]. cbn [negb orb].
  destruct (Mcp.ToNumber (Mcp.getField raw "lon")) as [lo|]; [|discriminate].
  destruct (Qle_bool (-180) lo) eqn:Lo1; [|discriminate].
  destruct (Qle_bool lo 180) eqn:Lo2; [|discriminate]. cbn [negb orb].
  destruct (Mcp.coerceString (Mcp.getField raw "startDate")) as [start|] eqn:Cs;
    [|discriminate].
  unfold mbind, exc_bind.
  bind_step u Eu. destruct u.
  destruct (Mcp.ToNumber (Mcp.getField raw "days")) as [nd|] eqn:Nd; [|discriminate].
  destruct (negb (JS.Number_isInteger nd) || negb (Qle_bool 1 nd)) eqn:T; [discriminate|].
  cbn [mret exc_ret]. intros H. inversion H; subst params; clear H.
  cbn [wq_lat wq_lon wq_startDate wq_days].
  apply Qle_bool_iff in La1, La2, Lo1, Lo2.
  split; [split; assumption|]. split; [split; assumption|].
  split; [now apply coerceString_trimmed in Cs|].
  split; [now apply validateISODate_shaped in Eu|].
  split; [intros U; rewrite U in Nd; discriminate Nd|].
  now apply positive_integer.
Qed.

(** X11 on the query of the documentation. *)
Lemma validated_weather_query_witness :
  let raw := Mcp.JObject [("lat", Mcp.JNumber (187883 # 10000));
                          ("lon", Mcp.JNumber (989853 # 10000));
                          ("startDate", Mcp.JString "2025-11-20");
                          ("days", Mcp.JNumber 3)] in
  exists params,
    Mcp.validateWeatherInput raw = JS.Return params
    /\ wq_days params = 3
    /\ (-90 <= wq_lat params <= 90)%Q.
Proof.
  intros raw. eexists. split; [reflexivity|]. split; [reflexivity|].
  destruct (validated_weather_query raw _ eq_refl) as (A & _). exact A.
Defined.

Ltac reject :=
  repeat first
    [ reflexivity
    | progress cbn [JS.returns Mcp.error Mcp.coerceString Mcp.ToNumber mbind exc_bind JS.bind
                    mret exc_ret]
    | progress unfold mbind, exc_bind
    | match goal with
      | |- context [match ?x with _ => _ end] => destruct x
      | |- context [JS.bind ?m _] => destruct m
      end ].

(** X12: the fields that cannot be left out.  A value that is not an object
    is refused by every validator with the same message; and an object
    without [destination], [startDate], [origin], [departDate], [checkIn],
    [nights], [lat], [lon] or (for the weather tool) [days] is refused by
    each validator that reads that field: only the trip planner has a
    default for [days]. *)
Theorem required_fields_are_required :
  forall raw : Mcp.JSValue,
    (Mcp.isObject raw = false ->
     Mcp.validatePlanTripInput raw = Mcp.error "Input must be an object."
     /\ Mcp.validateFlightSearchInput raw = Mcp.error "Input must be an object."
     /\ Mcp.validateStaySearchInput raw = Mcp.error "Input must be an object."
     /\ Mcp.validateNearbyAttractionsInput raw = Mcp.error "Input must be an object."
     /\ Mcp.validateWeatherInput raw = Mcp.error "Input must be an object.")
    /\ (Mcp.getField raw "destination" = Mcp.JUndefined ->
        JS.returns (Mcp.validatePlanTripInput raw) = false
        /\ JS.returns (Mcp.validateFlightSearchInput raw) = false
        /\ JS.returns (Mcp.validateStaySearchInput raw) = false
        /\ JS.returns (Mcp.validateNearbyAttractionsInput raw) = false)
    /\ (Mcp.getField raw "startDate" = Mcp.JUndefined ->
        JS.returns (Mcp.validatePlanTripInput raw) = false
        /\ JS.returns (Mcp.validateWeatherInput raw) = false)
    /\ (Mcp.getField raw "origin" = Mcp.JUndefined
        \/ Mcp.getField raw "departDate" = Mcp.JUndefined ->
        JS.returns (Mcp.validateFlightSearchInput raw) = false)
    /\ (Mcp.getField raw "checkIn" = Mcp.JUndefined
        \/ Mcp.getField raw "nights" = Mcp.JUndefined ->
        JS.returns (Mcp.validateStaySearchInput raw) = false)
    /\ (Mcp.getField raw "lat" = Mcp.JUndefined
        \/ Mcp.getField raw "lon" = Mcp.JUndefined
        \/ Mcp.getField raw "days" = Mcp.JUndefined ->
        JS.returns (Mcp.validateWeatherInput raw) = false).
Proof.
  intros raw.
  unfold Mcp.validatePlanTripInput, Mcp.validateFlightSearchInput,
    Mcp.validateStaySearchInput, Mcp.validateNearbyAttractionsInput,
    Mcp.validateWeatherInput.
  split; [intros ->; cbn [negb]; repeat split|].
  destruct (negb (Mcp.isObject raw)); [cbn [JS.returns Mcp.error]; tauto|].
  split; [intros ->; cbn [Mcp.coerceString]; repeat split; reject|].
  split; [intros ->; cbn [Mcp.coerceString]; split; reject|].
  split; [intros [-> | ->]; reject|].
  split; [intros [-> | ->]; reject|].
  intros [-> | [-> | ->]]; reject.
Qed.


(** * The providers and the shared cache *)

Create HintDb frame.

Lemma touchesOnly_refl keys c : touchesOnly keys c c.
Proof. repeat split; auto. Qed.

Lemma touchesOnly_set keys c0 c now key v :
  In key keys -> touchesOnly keys c0 c -> touchesOnly keys c0 (Ctx.set c now key v).
Proof.
  intros Hk (T & S & G). repeat split; [exact T| |exact G].
  intros k Hn. unfold Ctx.set. cbn [cache]. rewrite set_store_other; [now apply S|].
  intros ->. contradiction.
Qed.

Lemma touchesOnly_add keys c0 c tag :
  touchesOnly keys c0 c -> touchesOnly keys c0 (Ctx.add c tag).
Proof.
  intros (T & S & G). repeat split; [exact T|exact S|].
  intros t Ht. unfold Ctx.add. cbn [providersUsed]. apply Set_add_In. left. now apply G.
Qed.

Lemma touchesOnly_get keys c0 c now key :
  In key keys -> touchesOnly keys c0 c -> touchesOnly keys c0 (snd (Ctx.get c now key)).
Proof.
  intros Hk (T & S & G). unfold Ctx.get.
  pose proof (get_store_other (cache c) now key) as O.
  destruct (Cache.get (cache c) now key) as [v c'] eqn:E. cbn [snd cache providersUsed].
  repeat split; [| |exact G].
  - rewrite <- T. unfold Cache.get in E.
    destruct (Cache.store (cache c) !! key) as [r|]; [|now inversion E].
    destruct (Cache.expiresAt r <? now); now inversion E.
  - intros k Hn. cbn [snd] in O. rewrite O; [now apply S|]. intros ->. contradiction.
Qed.

Lemma touchesOnly_tryCatch {A : Type} keys c0
    (body : JS.Exc A * ProviderContext)
    (handler : ProviderContext -> JS.Exc A * ProviderContext) :
  touchesOnly keys c0 (snd body) ->
  (forall c, touchesOnly keys c0 c -> touchesOnly keys c0 (snd (handler c))) ->
  touchesOnly keys c0 (snd (Ctx.tryCatch body handler)).
Proof. intros B H. destruct body as [[a|e] c]; cbn [Ctx.tryCatch snd] in *; auto. Qed.

Lemma touchesOnly_more keys keys' c0 c :
  (forall k, In k keys -> In k keys') -> touchesOnly keys c0 c -> touchesOnly keys' c0 c.
Proof. intros Sub (T & S & G). repeat split; auto. Qed.

Lemma touchesOnly_trans keys c0 c1 c2 :
  touchesOnly keys c0 c1 -> touchesOnly keys c1 c2 -> touchesOnly keys c0 c2.
Proof.
  intros (T1 & S1 & G1) (T2 & S2 & G2). repeat split.
  - congruence.
  - intros k Hk. rewrite S2, S1; auto.
  - auto.
Qed.

#[local] Hint Resolve touchesOnly_refl touchesOnly_set touchesOnly_add touchesOnly_get
  touchesOnly_tryCatch : frame.
#[local] Hint Extern 1 (In _ _) => simpl; tauto : frame.

Ltac branches :=
  repeat match goal with
         | |- context [match ?x with _ => _ end] => destruct x
         end;
  cbn [snd fst negb Ctx.confused].

Lemma useMockDestination_frame keys c0 city now c :
  In (Places.destKey city) keys -> touchesOnly keys c0 c ->
  touchesOnly keys c0 (snd (Places.useMockDestination city now c)).
Proof. intros. unfold Places.useMockDestination. cbn [snd]. auto with frame. Qed.

Lemma resolveDestination_frame keys c0 city c config now upstream :
  In (Places.destKey city) keys -> touchesOnly keys c0 c ->
  touchesOnly keys c0 (snd (Places.resolveDestination city c config now upstream)).
Proof.
  intros Hk H. unfold Places.resolveDestination.
  pose proof (touchesOnly_get keys c0 c now (Places.destKey city) Hk H) as G.
  destruct (Ctx.get c now (Places.destKey city)) as [v c1]. cbn [snd] in G.
  destruct v as [[d|w|f|s|p]|]; cbn [snd Ctx.confused]; auto with frame.
  destruct (negb (JS.truthyOpt (openTripMap config))).
  - now apply useMockDestination_frame.
  - apply touchesOnly_tryCatch; [|intros; now apply useMockDestination_frame].
    destruct upstream as [|ok st body]; [exact G|].
    destruct (negb ok); [now apply useMockDestination_frame|].
    destruct body; cbn [snd]; auto with frame.
Qed.

Lemma useMockWeather_frame keys c0 params now c :
  In (Weather.cacheKey params) keys -> touchesOnly keys c0 c ->
  touchesOnly keys c0 (snd (Weather.useMock params now c)).
Proof.
  intros. unfold Weather.useMock.
  destruct (Weather.buildMockWeather params); cbn [snd]; auto with frame.
Qed.

Lemma weatherProvider_frame keys c0 params c config now upstream :
  In (Weather.cacheKey params) keys -> touchesOnly keys c0 c ->
  touchesOnly keys c0 (snd (Weather.weatherProvider params c config now upstream)).
Proof.
  intros Hk H. unfold Weather.weatherProvider.
  pose proof (touchesOnly_get keys c0 c now (Weather.cacheKey params) Hk H) as G.
  destruct (Ctx.get c now (Weather.cacheKey params)) as [v c1]. cbn [snd] in G.
  destruct v as [[d|w|f|s|p]|]; cbn [snd Ctx.confused]; auto with frame.
  apply touchesOnly_tryCatch; [|intros; now apply useMockWeather_frame].
  destruct (Weather.addDays (wq_startDate params) (wq_days params - 1)); [|exact G].
  destruct upstream as [|ok st body]; [exact G|].
  destruct (negb ok); [now apply useMockWeather_frame|].
  destruct body as [data|]; [|exact G].
  destruct (Weather.om_daily data) as [d|]; [|now apply useMockWeather_frame].
  destruct (Nat.eqb (List.length (Weather.om_time d)) 0);
    [now apply useMockWeather_frame|].
  cbn [snd]. auto with frame.
Qed.

Lemma searchFlightsProvider_frame keys c0 params c config now tok srch :
  In (Flights.cacheKey params) keys -> touchesOnly keys c0 c ->
  touchesOnly keys c0 (snd (Flights.searchFlightsProvider params c config now tok srch)).
Proof.
  intros Hk H. unfold Flights.searchFlightsProvider.
  pose proof (touchesOnly_get keys c0 c now (Flights.cacheKey params) Hk H) as G.
  destruct (Ctx.get c now (Flights.cacheKey params)) as [v c1]. cbn [snd] in G.
  destruct v as [[d|w|f|s|p]|]; cbn [snd Ctx.confused]; auto with frame.
  destruct (Flights.fetchAmadeusFlights params config tok srch); cbn [snd];
    auto with frame.
  destruct (Flights.buildMockFlights params); cbn [snd]; auto with frame.
Qed.

Lemma searchStaysProvider_frame keys c0 params c config now :
  In (Stays.cacheKey params) keys -> touchesOnly keys c0 c ->
  touchesOnly keys c0 (snd (Stays.searchStaysProvider params c config now)).
Proof.
  intros Hk H. unfold Stays.searchStaysProvider.
  pose proof (touchesOnly_get keys c0 c now (Stays.cacheKey params) Hk H) as G.
  destruct (Ctx.get c now (Stays.cacheKey params)) as [v c1]. cbn [snd] in G.
  destruct v as [[d|w|f|s|p]|]; cbn [snd Ctx.confused]; auto with frame.
Qed.

Lemma useMockPlaces_frame keys c0 params note n now c :
  In (Places.cacheKey params) keys -> touchesOnly keys c0 c ->
  touchesOnly keys c0 (snd (Places.useMockPlaces params note n now c)).
Proof. intros. unfold Places.useMockPlaces. cbn [snd]. auto with frame. Qed.

Lemma nearbyAttractionsProvider_frame keys c0 params c config now geo upstream :
  In (Places.cacheKey params) keys -> In (Places.destKey (asp_destination params)) keys ->
  touchesOnly keys c0 c ->
  touchesOnly keys c0
    (snd (Places.nearbyAttractionsProvider params c config now geo upstream)).
Proof.
  intros Hk Hd H. unfold Places.nearbyAttractionsProvider.
  pose proof (touchesOnly_get keys c0 c now (Places.cacheKey params) Hk H) as G.
  destruct (Ctx.get c now (Places.cacheKey params)) as [v c1]. cbn [snd] in G.
  destruct v as [[d|w|f|s|p]|]; cbn [snd Ctx.confused]; auto with frame.
  destruct (negb (JS.truthyOpt (openTripMap config)));
    [now apply useMockPlaces_frame|].
  apply touchesOnly_tryCatch; [|intros; now apply useMockPlaces_frame].
  pose proof (resolveDestination_frame keys c0 (asp_destination params) c1 config now geo
                Hd G) as R.
  destruct (Places.resolveDestination (asp_destination params) c1 config now geo)
    as [[dest|e] c2]; cbn [snd] in R; [|exact R].
  destruct upstream as [|ok st body]; [exact R|].
  destruct (negb ok); [now apply useMockPlaces_frame|].
  destruct body as [json|]; [|exact R].
  match goal with
  | |- context [if ?b then _ else _] => destruct b
  end; [now apply useMockPlaces_frame|].
  cbn [snd]. auto with frame.
Qed.

(** X13: every provider keeps to its own cache key.  Whatever the
    configuration, the clock and the answers of the network, and whether the
    call returns or raises, a provider call leaves every cache entry under
    another key exactly as it was, keeps the default time-to-live of the
    cache, and removes no provenance tag.  The destination, weather, flight
    and stay providers touch only the key of their query; the attraction
    provider touches its own key and the destination key of its city. *)
Theorem providers_keep_to_their_keys :
  forall (context : ProviderContext) (config : ProviderConfig) (now : Z),
    (forall city upstream,
        touchesOnly [Places.destKey city] context
          (snd (Places.resolveDestination city context config now upstream)))
    /\ (forall params upstream,
           touchesOnly [Weather.cacheKey params] context
             (snd (Weather.weatherProvider params context config now upstream)))
    /\ (forall params tokenUpstream searchUpstream,
           touchesOnly [Flights.cacheKey params] context
             (snd (Flights.searchFlightsProvider params context config now
                     tokenUpstream searchUpstream)))
    /\ (forall params,
           touchesOnly [Stays.cacheKey params] context
             (snd (Stays.searchStaysProvider params context config now)))
    /\ (forall params geoUpstream upstream,
           touchesOnly [Places.cacheKey params; Places.destKey (asp_destination params)]
             context
             (snd (Places.nearbyAttractionsProvider params context config now
                     geoUpstream upstream))).
Proof.
  intros context config now. split; [|split; [|split; [|split]]]; intros.
  - apply resolveDestination_frame; [simpl; tauto|apply touchesOnly_refl].
  - apply weatherProvider_frame; [simpl; tauto|apply touchesOnly_refl].
  - apply searchFlightsProvider_frame; [simpl; tauto|apply touchesOnly_refl].
  - apply searchStaysProvider_frame; [simpl; tauto|apply touchesOnly_refl].
  - apply nearbyAttractionsProvider_frame; [simpl; tauto|simpl; tauto|apply touchesOnly_refl].
Qed.

(** ** Hits *)

Lemma Ctx_get_hit c now key r :
  Cache.store (cache c) !! key = Some r -> now <= Cache.expiresAt r ->
  Ctx.get c now key
  = (Some (Cache.value r), {| cache := cache c; providersUsed := providersUsed c |}).
Proof.
  intros L E. unfold Ctx.get, Cache.get. rewrite L.
  apply Z.ltb_ge in E. now rewrite E.
Qed.

Lemma Ctx_get_none c now key :
  fst (Ctx.get c now key) = None ->
  exists c1, Ctx.get c now key = (None, c1)
             /\ providersUsed c1 = providersUsed c
             /\ Cache.defaultTtlMs (cache c1) = Cache.defaultTtlMs (cache c).
Proof.
  pose proof (touchesOnly_get [key] c c now key ltac:(simpl; tauto) (touchesOnly_refl _ _))
    as (T & _ & _).
  unfold Ctx.get in *. destruct (Cache.get (cache c) now key) as [v c1].
  cbn [fst snd cache] in *. intros ->. eexists. split; [reflexivity|]. split; [reflexivity|].
  exact T.
Qed.

Lemma set_entry c c0 now key v :
  Cache.defaultTtlMs (cache c) = Cache.defaultTtlMs c0 ->
  Cache.store (cache (Ctx.set c now key v)) !! key = Some (entryFor c0 now v).
Proof.
  intros T. unfold Ctx.set, Cache.set, Cache.ttlOf, entryFor. cbn [cache Cache.store].
  rewrite lookup_insert_eq. cbn [mbind option_bind JS.nullish]. now rewrite T.
Qed.

Lemma resolveDestination_hit city c config now upstream r d :
  Cache.store (cache c) !! Places.destKey city = Some r ->
  Cache.value r = VDestination d -> now <= Cache.expiresAt r ->
  Places.resolveDestination city c config now upstream
  = (JS.Return d, afterHit c "cache:opentripmap").
Proof.
  intros L V E. unfold Places.resolveDestination.
  rewrite (Ctx_get_hit c now _ r L E), V. reflexivity.
Qed.

Lemma weatherProvider_hit params c config now upstream r w :
  Cache.store (cache c) !! Weather.cacheKey params = Some r ->
  Cache.value r = VWeather w -> now <= Cache.expiresAt r ->
  Weather.weatherProvider params c config now upstream
  = (JS.Return w, afterHit c "cache:open-meteo").
Proof.
  intros L V E. unfold Weather.weatherProvider.
  rewrite (Ctx_get_hit c now _ r L E), V. reflexivity.
Qed.

Lemma searchFlightsProvider_hit params c config now tok srch r f :
  Cache.store (cache c) !! Flights.cacheKey params = Some r ->
  Cache.value r = VFlights f -> now <= Cache.expiresAt r ->
  Flights.searchFlightsProvider params c config now tok srch
  = (JS.Return f, afterHit c "cache:flights").
Proof.
  intros L V E. unfold Flights.searchFlightsProvider.
  rewrite (Ctx_get_hit c now _ r L E), V. reflexivity.
Qed.

Lemma searchStaysProvider_hit params c config now r s :
  Cache.store (cache c) !! Stays.cacheKey params = Some r ->
  Cache.value r = VStays s -> now <= Cache.expiresAt r ->
  Stays.searchStaysProvider params c config now
  = (JS.Return s, afterHit c "cache:stays").
Proof.
  intros L V E. unfold Stays.searchStaysProvider.
  rewrite (Ctx_get_hit c now _ r L E), V. reflexivity.
Qed.

Lemma nearbyAttractionsProvider_hit params c config now geo upstream r p :
  Cache.store (cache c) !! Places.cacheKey params = Some r ->
  Cache.value r = VPlaces p -> now <= Cache.expiresAt r ->
  Places.nearbyAttractionsProvider params c config now geo upstream
  = (JS.Return p, afterHit c "cache:opentripmap").
Proof.
  intros L V E. unfold Places.nearbyAttractionsProvider.
  rewrite (Ctx_get_hit c now _ r L E), V. reflexivity.
Qed.

(** ** What a miss leaves in the cache *)

Ltac stored T :=
  intros X; inversion X; subst; apply set_entry; cbn [Ctx.add cache]; exact T.

Lemma useMockDestination_stores city now c c0 d c' :
  Cache.defaultTtlMs (cache c) = Cache.defaultTtlMs c0 ->
  Places.useMockDestination city now c = (JS.Return d, c') ->
  Cache.store (cache c') !! Places.destKey city = Some (entryFor c0 now (VDestination d)).
Proof. intros T. unfold Places.useMockDestination. stored T. Qed.

Lemma resolveDestination_stores city c config now upstream d c' :
  fst (Ctx.get c now (Places.destKey city)) = None ->
  Places.resolveDestination city c config now upstream = (JS.Return d, c') ->
  Cache.store (cache c') !! Places.destKey city
  = Some (entryFor (cache c) now (VDestination d)).
Proof.
  intros M. unfold Places.resolveDestination.
  destruct (Ctx_get_none c now _ M) as (c1 & -> & _ & T).
  destruct (negb (JS.truthyOpt (openTripMap config)));
    [now apply useMockDestination_stores|].
  destruct upstream as [|ok st body]; cbn [Ctx.tryCatch];
    [now apply useMockDestination_stores|].
  destruct (negb ok).
  - unfold Places.useMockDestination at 1. cbn [Ctx.tryCatch]. stored T.
  - destruct body; cbn [Ctx.tryCatch]; [stored T|now apply useMockDestination_stores].
Qed.

Lemma useMockWeather_stores params now c c0 w c' :
  Cache.defaultTtlMs (cache c) = Cache.defaultTtlMs c0 ->
  Weather.useMock params now c = (JS.Return w, c') ->
  Cache.store (cache c') !! Weather.cacheKey params = Some (entryFor c0 now (VWeather w)).
Proof.
  intros T. unfold Weather.useMock.
  destruct (Weather.buildMockWeather params); [stored T|discriminate].
Qed.

Lemma tryCatch_useMockWeather_stores params now c c0 w c' :
  Cache.defaultTtlMs (cache c) = Cache.defaultTtlMs c0 ->
  Ctx.tryCatch (Weather.useMock params now c) (fun c => Weather.useMock params now c)
  = (JS.Return w, c') ->
  Cache.store (cache c') !! Weather.cacheKey params = Some (entryFor c0 now (VWeather w)).
Proof.
  intros T. rewrite tryCatch_useMock. now apply useMockWeather_stores.
Qed.

Lemma weatherProvider_stores params c config now upstream w c' :
  fst (Ctx.get c now (Weather.cacheKey params)) = None ->
  Weather.weatherProvider params c config now upstream = (JS.Return w, c') ->
  Cache.store (cache c') !! Weather.cacheKey params
  = Some (entryFor (cache c) now (VWeather w)).
Proof.
  intros M. unfold Weather.weatherProvider.
  destruct (Ctx_get_none c now _ M) as (c1 & -> & _ & T).
  destruct (Weather.addDays (wq_startDate params) (wq_days params - 1));
    [|cbn [Ctx.tryCatch]; now apply useMockWeather_stores].
  destruct upstream as [|ok st body];
    [cbn [Ctx.tryCatch]; now apply useMockWeather_stores|].
  destruct (negb ok); [now apply tryCatch_useMockWeather_stores|].
  destruct body as [data|]; [|cbn [Ctx.tryCatch]; now apply useMockWeather_stores].
  destruct (Weather.om_daily data) as [d|]; [|now apply tryCatch_useMockWeather_stores].
  destruct (Nat.eqb (List.length (Weather.om_time d)) 0);
    [now apply tryCatch_useMockWeather_stores|].
  cbn [Ctx.tryCatch]. stored T.
Qed.

Lemma searchFlightsProvider_stores params c config now tok srch f c' :
  fst (Ctx.get c now (Flights.cacheKey params)) = None ->
  Flights.searchFlightsProvider params c config now tok srch = (JS.Return f, c') ->
  Cache.store (cache c') !! Flights.cacheKey params
  = Some (entryFor (cache c) now (VFlights f)).
Proof.
  intros M. unfold Flights.searchFlightsProvider.
  destruct (Ctx_get_none c now _ M) as (c1 & -> & _ & T).
  destruct (Flights.fetchAmadeusFlights params config tok srch); [stored T|].
  destruct (Flights.buildMockFlights params); [stored T|discriminate].
Qed.

Lemma searchStaysProvider_stores params c config now s c' :
  fst (Ctx.get c now (Stays.cacheKey params)) = None ->
  Stays.searchStaysProvider params c config now = (JS.Return s, c') ->
  Cache.store (cache c') !! Stays.cacheKey params
  = Some (entryFor (cache c) now (VStays s)).
Proof.
  intros M. unfold Stays.searchStaysProvider.
  destruct (Ctx_get_none c now _ M) as (c1 & -> & _ & T). stored T.
Qed.

Lemma useMockPlaces_stores params note n now c c0 p c' :
  Cache.defaultTtlMs (cache c) = Cache.defaultTtlMs c0 ->
  Places.useMockPlaces params note n now c = (JS.Return p, c') ->
  Cache.store (cache c') !! Places.cacheKey params = Some (entryFor c0 now (VPlaces p)).
Proof. intros T. unfold Places.useMockPlaces. stored T. Qed.

Lemma nearbyAttractionsProvider_stores params c config now geo upstream p c' :
  fst (Ctx.get c now (Places.cacheKey params)) = None ->
  Places.nearbyAttractionsProvider params c config now geo upstream = (JS.Return p, c') ->
  Cache.store (cache c') !! Places.cacheKey params
  = Some (entryFor (cache c) now (VPlaces p)).
Proof.
  intros M. unfold Places.nearbyAttractionsProvider.
  destruct (Ctx_get_none c now _ M) as (c1 & -> & _ & T).
  destruct (negb (JS.truthyOpt (openTripMap config)));
    [now apply useMockPlaces_stores|].
  pose proof (resolveDestination_frame [Places.destKey (asp_destination params)] c1
                (asp_destination params) c1 config now geo ltac:(simpl; tauto)
                (touchesOnly_refl _ _)) as (T2 & _ & _).
  destruct (Places.resolveDestination (asp_destination params) c1 config now geo)
    as [[dest|e] c2]; cbn [snd] in T2;
    [|cbn [Ctx.tryCatch]; apply useMockPlaces_stores; congruence].
  assert (T3 : Cache.defaultTtlMs (cache c2) = Cache.defaultTtlMs (cache c)) by congruence.
  destruct upstream as [|ok st body];
    [cbn [Ctx.tryCatch]; now apply useMockPlaces_stores|].
  destruct (negb ok).
  { unfold Places.useMockPlaces at 1. cbn [Ctx.tryCatch]. stored T3. }
  destruct body as [json|]; [|cbn [Ctx.tryCatch]; now apply useMockPlaces_stores].
  match goal with
  | |- context [if ?b then _ else _] => destruct b
  end.
  - unfold Places.useMockPlaces at 1. cbn [Ctx.tryCatch]. stored T3.
  - cbn [Ctx.tryCatch]. stored T3.
Qed.

(** X14: a repeated query is answered from the cache.  When a provider call
    that missed the cache has returned a result, the same query, put again
    on the cache as that call left it and no later than the default
    time-to-live after it, returns the same result again, whatever the
    configuration and the network are by then; it only adds the cache tag of
    the provider and changes nothing in the cache. *)
Theorem repeated_query_is_served_from_cache :
  forall (context again : ProviderContext) (config config' : ProviderConfig)
         (now later : Z),
    later <= now + Cache.defaultTtlMs (cache context) ->
    (forall city upstream upstream' d context',
        fst (Ctx.get context now (Places.destKey city)) = None ->
        Places.resolveDestination city context config now upstream
        = (JS.Return d, context') ->
        cache again = cache context' ->
        Places.resolveDestination city again config' later upstream'
        = (JS.Return d, afterHit again "cache:opentripmap"))
    /\ (forall params upstream upstream' w context',
           fst (Ctx.get context now (Weather.cacheKey params)) = None ->
           Weather.weatherProvider params context config now upstream
           = (JS.Return w, context') ->
           cache again = cache context' ->
           Weather.weatherProvider params again config' later upstream'
           = (JS.Return w, afterHit again "cache:open-meteo"))
    /\ (forall params tok srch tok' srch' f context',
           fst (Ctx.get context now (Flights.cacheKey params)) = None ->
           Flights.searchFlightsProvider params context config now tok srch
           = (JS.Return f, context') ->
           cache again = cache context' ->
           Flights.searchFlightsProvider params again config' later tok' srch'
           = (JS.Return f, afterHit again "cache:flights"))
    /\ (forall params s context',
           fst (Ctx.get context now (Stays.cacheKey params)) = None ->
           Stays.searchStaysProvider params context config now = (JS.Return s, context') ->
           cache again = cache context' ->
           Stays.searchStaysProvider params again config' later
           = (JS.Return s, afterHit again "cache:stays"))
    /\ (forall params geo upstream geo' upstream' p context',
           fst (Ctx.get context now (Places.cacheKey params)) = None ->
           Places.nearbyAttractionsProvider params context config now geo upstream
           = (JS.Return p, context') ->
           cache again = cache context' ->
           Places.nearbyAttractionsProvider params again config' later geo' upstream'
           = (JS.Return p, afterHit again "cache:opentripmap")).
Proof.
  intros context again config config' now later Hl.
  split; [|split; [|split; [|split]]].
  - intros city upstream upstream' d context' M R C.
    eapply resolveDestination_hit;
      [rewrite C; exact (resolveDestination_stores _ _ _ _ _ _ _ M R)|reflexivity|exact Hl].
  - intros params upstream upstream' w context' M R C.
    eapply weatherProvider_hit;
      [rewrite C; exact (weatherProvider_stores _ _ _ _ _ _ _ M R)|reflexivity|exact Hl].
  - intros params tok srch tok' srch' f context' M R C.
    eapply searchFlightsProvider_hit;
      [rewrite C; exact (searchFlightsProvider_stores _ _ _ _ _ _ _ _ M R)|reflexivity
      |exact Hl].
  - intros params s context' M R C.
    eapply searchStaysProvider_hit;
      [rewrite C; exact (searchStaysProvider_stores _ _ _ _ _ _ M R)|reflexivity|exact Hl].
  - intros params geo upstream geo' upstream' p context' M R C.
    eapply nearbyAttractionsProvider_hit;
      [rewrite C; exact (nearbyAttractionsProvider_stores _ _ _ _ _ _ _ _ M R)|reflexivity
      |exact Hl].
Qed.

(** X14 on the stay provider: a query put at time 1000 on an empty cache,
    and again at time 2000. *)
Lemma repeated_query_is_served_from_cache_witness :
  let params := {| ssp_destination := "Chiang Mai"; checkIn := "2025-11-20";
                   nights := 2; guests := None |} in
  let config := {| amadeus := None; skyscanner := None; booking := None;
                   openTripMap := None |} in
  let fresh := Mcp.createProviderContext (Cache.new None) in
  exists s context',
    Stays.searchStaysProvider params fresh config 1000 = (JS.Return s, context')
    /\ Stays.searchStaysProvider params (Mcp.createProviderContext (cache context'))
         config 2000
       = (JS.Return s,
          afterHit (Mcp.createProviderContext (cache context')) "cache:stays").
Proof.
  intros params config fresh.
  destruct (searchStaysProvider_total params fresh config 1000 (WellKeyed_new None))
    as (s & context' & R & _).
  exists s, context'. split; [exact R|].
  destruct (repeated_query_is_served_from_cache fresh
              (Mcp.createProviderContext (cache context')) config config 1000 2000)
    as (_ & _ & _ & S & _).
  - simpl. lia.
  - apply (S params s context'); [reflexivity|exact R|reflexivity].
Defined.


(** * The ranking of the candidates *)

Section Stability.
Context {A : Type} (leb : A -> A -> bool) (keep : A -> bool).
Hypothesis keep_leb : forall x y, keep x = true -> keep y = true -> leb x y = true.

Lemma sortInsert_stable x l :
  List.filter keep (JS.sortInsert leb x l) = List.filter keep (x :: l).
Proof.
  induction l as [|y l IH]; [reflexivity|].
  cbn [JS.sortInsert]. destruct (leb x y) eqn:E; [reflexivity|].
  cbn [List.filter] in *. rewrite IH.
  destruct (keep x) eqn:Kx; [|reflexivity].
  destruct (keep y) eqn:Ky; [|reflexivity].
  rewrite (keep_leb x y Kx Ky) in E. discriminate E.
Qed.

Lemma sort_stable l : List.filter keep (JS.sort leb l) = List.filter keep l.
Proof.
  induction l as [|x l IH]; [reflexivity|].
  unfold JS.sort in *. cbn [fold_right]. rewrite sortInsert_stable.
  cbn [List.filter]. now rewrite IH.
Qed.
End Stability.

Lemma filter_map_fst {A B : Type} (keepA : A -> bool) (keepB : A * B -> bool)
    (l : list (A * B)) :
  (forall x, In x l -> keepB x = keepA (fst x)) ->
  List.filter keepA (map fst l) = map fst (List.filter keepB l).
Proof.
  induction l as [|x l IH]; intros H; [reflexivity|].
  cbn [map List.filter]. rewrite (H x (or_introl eq_refl)).
  rewrite IH by (intros y Hy; apply H; now right).
  now destruct (keepA (fst x)).
Qed.

Lemma filter_all {A : Type} (keep : A -> bool) (l : list A) :
  (forall x, In x l -> keep x = true) -> List.filter keep l = l.
Proof.
  induction l as [|x l IH]; intros H; [reflexivity|].
  cbn [List.filter]. rewrite (H x (or_introl eq_refl)).
  f_equal. apply IH. intros y Hy. apply H. now right.
Qed.

(** X21: the ranking is stable.  Sorting the candidates by score never
    changes the order among candidates of equal score; in particular,
    without interests, when every candidate scores 1, the candidates come
    back in the order in which they were given. *)
Theorem ranking_is_stable :
  forall (places : list PlaceOption) (interests : option (list string)) (v : Q),
    withScore interests v (Mcp.scoredPlaces places interests)
    = withScore interests v places
    /\ (Mcp.interestSet interests = [] -> Mcp.scoredPlaces places interests = places).
Proof.
  intros places interests.
  assert (S : forall v, withScore interests v (Mcp.scoredPlaces places interests)
                        = withScore interests v places).
  { intros v. unfold withScore, Mcp.scoredPlaces.
    set (scored := map (fun place =>
                          (place, Mcp.computeInterestScore place (Mcp.interestSet interests)))
                       places).
    change (fun a b : PlaceOption * Q => Qle_bool (snd b - snd a) 0) with scoreLeb.
    set (keepB := fun x : PlaceOption * Q => Qeq_bool (snd x) v).
    rewrite (filter_map_fst (fun p => Qeq_bool (scoreOf interests p) v) keepB).
    - rewrite (sort_stable scoreLeb keepB).
      + rewrite <- (filter_map_fst (fun p => Qeq_bool (scoreOf interests p) v) keepB).
        * unfold scored. rewrite map_map. cbn [fst]. now rewrite map_id.
        * intros x Hx. unfold scored in Hx. apply in_map_iff in Hx as (p & <- & _).
          reflexivity.
      + intros x y Kx Ky. unfold keepB in Kx, Ky. apply Qeq_bool_iff in Kx, Ky.
        apply scoreLeb_le. rewrite Kx, Ky. apply Qle_refl.
    - intros x Hx. apply (Permutation_in _ (sort_perm scoreLeb scored)) in Hx.
      unfold scored in Hx. apply in_map_iff in Hx as (p & <- & _). reflexivity. }
  intros v. split; [apply S|].
  intros E. specialize (S 1%Q). unfold withScore in S.
  assert (One : forall p, Qeq_bool (scoreOf interests p) 1 = true).
  { intros p. unfold scoreOf, Mcp.computeInterestScore. rewrite E. reflexivity. }
  rewrite !filter_all in S by (intros; apply One). exact S.
Qed.

(** X21 on the twelve mock places, without interests and with one. *)
Lemma ranking_is_stable_witness :
  Mcp.scoredPlaces Places.MOCK_PLACES None = Places.MOCK_PLACES
  /\ map place_name (withScore (Some ["market"]) 3 (Mcp.scoredPlaces Places.MOCK_PLACES
                                                       (Some ["market"])))
     = ["Sunday Walking Street"; "Chiang Mai Night Bazaar"].
Proof.
  destruct (ranking_is_stable Places.MOCK_PLACES None 1) as [_ A].
  destruct (ranking_is_stable Places.MOCK_PLACES (Some ["market"]) 3) as [B _].
  split; [apply A; reflexivity|]. rewrite B. reflexivity.
Defined.


(** * [addDays] *)

Lemma digitVal_digitChar v : 0 <= v <= 9 -> JS.digitVal (JS.digitChar v) = Some v.
Proof.
  intros H. unfold JS.digitVal, JS.digitChar.
  rewrite nat_ascii_embedding by lia.
  assert (A : (48 <=? Z.to_nat (v + 48))%nat = true) by (apply Nat.leb_le; lia).
  assert (B : (Z.to_nat (v + 48) <=? 57)%nat = true) by (apply Nat.leb_le; lia).
  rewrite A, B. cbn [andb]. f_equal. lia.
Qed.

Lemma digits2_chars v :
  JS.digits 2 v
  = String (JS.digitChar (v / 10 mod 10)) (String (JS.digitChar (v mod 10)) EmptyString).
Proof. reflexivity. Qed.

Lemma digits4_chars v :
  JS.digits 4 v
  = String (JS.digitChar (v / 10 / 10 / 10 mod 10))
      (String (JS.digitChar (v / 10 / 10 mod 10))
         (String (JS.digitChar (v / 10 mod 10))
            (String (JS.digitChar (v mod 10)) EmptyString))).
Proof. reflexivity. Qed.

Lemma parseDigits_digits2 v : 0 <= v <= 99 -> JS.parseDigits (JS.digits 2 v) = Some v.
Proof.
  intros H. rewrite digits2_chars. unfold JS.parseDigits. cbn [JS.parseDigitsFrom].
  rewrite !digitVal_digitChar by (Z.div_mod_to_equations; lia).
  f_equal. Z.div_mod_to_equations. lia.
Qed.

Lemma parseDigits_digits4 v : 0 <= v <= 9999 -> JS.parseDigits (JS.digits 4 v) = Some v.
Proof.
  intros H. rewrite digits4_chars. unfold JS.parseDigits. cbn [JS.parseDigitsFrom].
  rewrite !digitVal_digitChar by (Z.div_mod_to_equations; lia).
  f_equal. Z.div_mod_to_equations. lia.
Qed.

(** Reading back the spelling of a date. *)
Lemma matchISODate_isoDate c :
  0 <= year c <= 9999 -> 0 <= month c <= 99 -> 0 <= day c <= 99 ->
  Date.matchISODate (Date.isoDate c) = Some (year c, month c, day c).
Proof.
  intros Hy Hm Hd. unfold Date.isoDate, Date.isoYear.
  assert (E : ((0 <=? year c) && (year c <=? 9999))%bool = true).
  { apply andb_true_iff. split; apply Z.leb_le; lia. }
  rewrite E.
  pose proof (parseDigits_digits4 (year c) Hy) as Py.
  pose proof (parseDigits_digits2 (month c) Hm) as Pm.
  pose proof (parseDigits_digits2 (day c) Hd) as Pd.
  rewrite digits4_chars, !digits2_chars in *.
  cbv [String.append]. unfold Date.matchISODate.
  cbn [String.length Nat.eqb Date.isChar String.get String.substring andb].
  change (Ascii.eqb "-" "-") with true. cbn [andb].
  rewrite Py, Pm, Pd. reflexivity.
Qed.

Lemma iter_tomorrow_valid (i : nat) c :
  validCivil c = true -> validCivil (Nat.iter i tomorrow c) = true.
Proof.
  intros V. induction i as [|i IH]; [exact V|].
  simpl Nat.iter. now apply tomorrow_spec.
Qed.


(** X22: [addDays] counts calendar days.  From a start date of the calendar
    and within four-digit years, adding no day gives the date back, and
    adding [i] days and then [j] days is adding [i + j] days at once; the
    result is a date of the calendar, spelled [YYYY-MM-DD], that [addDays]
    accepts again.  The copy of the function in the weather provider agrees
    with the one of the toolset. *)
Theorem addDays_composes :
  forall (start : string) (i j : nat),
    tripInCalendar start (Z.of_nat (i + j) + 1) = true ->
    exists later : string,
      Mcp.addDays start 0 = JS.Return start
      /\ Mcp.addDays start (Z.of_nat i) = JS.Return later
      /\ later = dateAfter start i
      /\ Mcp.addDays later (Z.of_nat j) = Mcp.addDays start (Z.of_nat (i + j))
      /\ Mcp.addDays later (Z.of_nat j) = JS.Return (dateAfter start (i + j))
      /\ Weather.addDays start (Z.of_nat i) = Mcp.addDays start (Z.of_nat i).
Proof.
  intros start i j H.
  pose proof (addDays_dateAfter start _ i H ltac:(lia)) as Ei.
  pose proof (addDays_dateAfter start _ (i + j) H ltac:(lia)) as Eij.
  pose proof (addDays_dateAfter start _ 0 H ltac:(lia)) as E0.
  rewrite (dateAfter_zero start _ H) in E0.
  exists (dateAfter start i).
  split; [exact E0|]. split; [exact Ei|]. split; [reflexivity|].
  assert (Ej : Mcp.addDays (dateAfter start i) (Z.of_nat j)
               = JS.Return (dateAfter start (i + j))).
  { apply tripInCalendar_inv in H as (f & M & V & Y).
    unfold dateAfter. rewrite M.
    set (c := Nat.iter i tomorrow (civilOf f)).
    assert (Vc : validCivil c = true) by now apply iter_tomorrow_valid.
    assert (Y0 : 0 <= year (civilOf f)).
    { destruct f as [[y m] d]. apply matchISODate_inv in M. cbn. lia. }
    assert (Yc : 0 <= year c <= 9999).
    { split; [|apply Y; lia].
      pose proof (iter_tomorrow_year 0 i (civilOf f) ltac:(lia)) as L. simpl in L.
      unfold c. lia. }
    pose proof Vc as Vc'. apply validCivil_iff in Vc'.
    pose proof (daysInMonth_bound (year c) (month c)) as B.
    assert (Mc : Date.matchISODate (Date.isoDate c) = Some (year c, month c, day c)).
    { apply matchISODate_isoDate; lia. }
    assert (Cc : civilOf (year c, month c, day c) = c) by now destruct c.
    rewrite (addDays_calendar (Date.isoDate c) (year c, month c, day c) j Mc).
    - rewrite Cc. unfold c. now rewrite <- Nat.iter_add, Nat.add_comm.
    - now rewrite Cc.
    - rewrite Cc. unfold c. rewrite <- Nat.iter_add. apply Y. lia. }
  split; [now rewrite Ej, Eij|]. split; [exact Ej|reflexivity].
Qed.

(** X22 across the end of February 2024 and of the year 2025. *)
Lemma addDays_composes_witness :
  Mcp.addDays "2024-02-27" 2 = JS.Return "2024-02-29"
  /\ Mcp.addDays "2024-02-29" 1 = JS.Return "2024-03-01"
  /\ Mcp.addDays "2024-02-27" 3 = JS.Return "2024-03-01".
Proof.
  destruct (addDays_composes "2024-02-27" 2 1 eq_refl)
    as (later & _ & A & L & _ & B & _).
  destruct (addDays_composes "2024-02-27" 3 0 eq_refl)
    as (later' & _ & A' & L' & _).
  subst later later'. split; [exact A|]. split; [exact B|exact A'].
Defined.


(** * Rendering *)

Lemma formatDate_returns host s :
  parses s -> exists text, Mcp.formatDate host s = JS.Return text.
Proof.
  intros [tv P]. unfold Mcp.formatDate, Mcp.newDate. rewrite P. eauto.
Qed.

Lemma formatTime_returns host s :
  parses s -> exists text, Mcp.formatTime host s = JS.Return text.
Proof.
  intros [tv P]. unfold Mcp.formatTime, Mcp.newDate. rewrite P. eauto.
Qed.

Lemma mapM_returns {A B : Type} (f : A -> JS.Exc B) (l : list A) :
  List.Forall (fun x => exists y, f x = JS.Return y) l ->
  exists ys, JS.mapM f l = JS.Return ys.
Proof.
  induction 1 as [|x l [y E] _ [ys IH]]; [now exists []|].
  exists (y :: ys). cbn [JS.mapM]. rewrite E. cbn [JS.bind]. rewrite IH. reflexivity.
Qed.

Lemma mapM_inv {A B : Type} (f : A -> JS.Exc B) (l : list A) ys :
  JS.mapM f l = JS.Return ys ->
  List.Forall (fun x => exists y, f x = JS.Return y) l.
Proof.
  revert ys. induction l as [|x l IH]; intros ys H; [constructor|].
  cbn [JS.mapM] in H. destruct (f x) as [y|e] eqn:E; [|discriminate].
  cbn [JS.bind] in H. destruct (JS.mapM f l) as [zs|e] eqn:M; [|discriminate].
  constructor; [eauto|]. now apply (IH zs).
Qed.

Lemma renderFlightsSection_returns host flights :
  flightTimesParse flights ->
  exists text, Mcp.renderFlightsSection host flights = JS.Return text.
Proof.
  intros H. unfold Mcp.renderFlightsSection. destruct flights as [f|]; [|eauto].
  assert (C : exists cards, JS.mapM (Mcp.flightCard host) (fr_options f) = JS.Return cards).
  { apply mapM_returns. eapply List.Forall_impl; [|apply (H f eq_refl)].
    intros o [D A]. unfold Mcp.flightCard.
    destruct (formatTime_returns host _ D) as [d ->].
    destruct (formatTime_returns host _ A) as [a ->]. eauto. }
  destruct C as [cards ->]. eauto.
Qed.

Lemma renderWeatherSection_returns host w :
  List.Forall (fun d => parses (wd_date d)) (daily w) ->
  exists text, Mcp.renderWeatherSection host w = JS.Return text.
Proof.
  intros H. unfold Mcp.renderWeatherSection.
  assert (R : exists rows, JS.mapM (Mcp.weatherRow host) (daily w) = JS.Return rows).
  { apply mapM_returns. eapply List.Forall_impl; [|exact H].
    intros d D. unfold Mcp.weatherRow.
    destruct (formatDate_returns host _ D) as [t ->]. eauto. }
  destruct R as [rows ->]. eauto.
Qed.

Lemma renderItinerarySection_returns host itinerary :
  List.Forall (fun d => parses (it_date d)) itinerary ->
  exists text, Mcp.renderItinerarySection host itinerary = JS.Return text.
Proof.
  intros H. unfold Mcp.renderItinerarySection.
  assert (R : exists cards, JS.mapM (Mcp.dayCard host) itinerary = JS.Return cards).
  { apply mapM_returns. eapply List.Forall_impl; [|exact H].
    intros d D. unfold Mcp.dayCard.
    destruct (formatDate_returns host _ D) as [t ->]. eauto. }
  destruct R as [cards ->]. eauto.
Qed.

(** The renderer of a plan returns when [Date.parse] reads every date and
    time of the plan. *)
Lemma renderPlanTripHtml_returns host plan :
  flightTimesParse (ptr_flights plan) ->
  List.Forall (fun d => parses (wd_date d)) (daily (ptr_weather plan)) ->
  List.Forall (fun d => parses (it_date d)) (ptr_itinerary plan) ->
  parses (td_start (ptr_dates plan)) -> parses (td_end (ptr_dates plan)) ->
  exists html, Mcp.renderPlanTripHtml host plan = JS.Return html.
Proof.
  intros F W I S E. unfold Mcp.renderPlanTripHtml.
  destruct (renderFlightsSection_returns host _ F) as [f ->].
  destruct (renderWeatherSection_returns host _ W) as [w ->].
  destruct (renderItinerarySection_returns host _ I) as [i ->].
  destruct (formatDate_returns host _ S) as [s ->].
  destruct (formatDate_returns host _ E) as [e ->]. eauto.
Qed.

Lemma renderFlightsHtml_returns host result :
  flightTimesParse (Some (ftr_flights result)) ->
  exists html, Mcp.renderFlightsHtml host result = JS.Return html.
Proof.
  intros F. unfold Mcp.renderFlightsHtml.
  destruct (renderFlightsSection_returns host _ F) as [f ->]. eauto.
Qed.

Lemma renderWeatherHtml_returns host result :
  List.Forall (fun d => parses (wd_date d)) (daily (wtr_weather result)) ->
  exists html, Mcp.renderWeatherHtml host result = JS.Return html.
Proof.
  intros W. unfold Mcp.renderWeatherHtml.
  destruct (renderWeatherSection_returns host _ W) as [w ->]. eauto.
Qed.

(** ** The dates of a trip in the calendar are read back *)

Lemma parses_dateAfter start days (i : nat) :
  tripInCalendar start days = true -> (i < Z.to_nat days \/ i = 0)%nat ->
  parses (dateAfter start i).
Proof.
  intros H Hi. apply tripInCalendar_inv in H as (f & M & V & Y).
  unfold dateAfter. rewrite M.
  set (c := Nat.iter i tomorrow (civilOf f)).
  assert (Vc : validCivil c = true) by now apply iter_tomorrow_valid.
  assert (Y0 : 0 <= year (civilOf f) <= 9999).
  { destruct f as [[y m] d]. apply matchISODate_inv in M. cbn. lia. }
  assert (Yc : 0 <= year c <= 9999).
  { split.
    - pose proof (iter_tomorrow_year 0 i (civilOf f) ltac:(lia)) as L. simpl in L.
      unfold c. lia.
    - destruct Hi as [Hi| ->]; [apply Y; lia|]. unfold c. simpl. lia. }
  pose proof Vc as Vc'. apply validCivil_iff in Vc'.
  pose proof (daysInMonth_bound (year c) (month c)) as B.
  assert (Mc : Date.matchISODate (Date.isoDate c) = Some (year c, month c, day c)).
  { apply matchISODate_isoDate; lia. }
  assert (Cc : civilOf (year c, month c, day c) = c) by now destruct c.
  eexists. apply (parse_date_only _ _ Mc). now rewrite Cc.
Qed.

Lemma parses_start start days : tripInCalendar start days = true -> parses start.
Proof.
  intros H. rewrite <- (dateAfter_zero start days H).
  apply (parses_dateAfter start days 0 H). now right.
Qed.

(** ** The spelling of [toISOString] is read back *)

Lemma digits3_chars v :
  JS.digits 3 v
  = String (JS.digitChar (v / 10 / 10 mod 10))
      (String (JS.digitChar (v / 10 mod 10))
         (String (JS.digitChar (v mod 10)) EmptyString)).
Proof. reflexivity. Qed.

Lemma parseDigits_digits3 v : 0 <= v <= 999 -> JS.parseDigits (JS.digits 3 v) = Some v.
Proof.
  intros H. rewrite digits3_chars. unfold JS.parseDigits. cbn [JS.parseDigitsFrom].
  rewrite !digitVal_digitChar by (Z.div_mod_to_equations; lia).
  f_equal. Z.div_mod_to_equations. lia.
Qed.

Lemma isoString_split tv :
  Date.isoString tv
  = (Date.isoDate (civilFromDays (Date.Day tv)) ++ isoTime (Date.TimeWithinDay tv))%string.
Proof. reflexivity. Qed.

Lemma matchTime_isoTime tm :
  0 <= tm < 86400000 ->
  String.length (isoTime tm) = 14%nat
  /\ Date.matchTimeZ (isoTime tm) = None
  /\ Date.matchTimeMsZ (isoTime tm)
     = Some (tm / 3600000, tm / 60000 mod 60, tm / 1000 mod 60, tm mod 1000).
Proof.
  intros H.
  pose proof (parseDigits_digits2 (tm / 3600000) ltac:(Z.div_mod_to_equations; lia)) as Ph.
  pose proof (parseDigits_digits2 (tm / 60000 mod 60) ltac:(Z.div_mod_to_equations; lia))
    as Pm.
  pose proof (parseDigits_digits2 (tm / 1000 mod 60) ltac:(Z.div_mod_to_equations; lia))
    as Ps.
  pose proof (parseDigits_digits3 (tm mod 1000) ltac:(Z.div_mod_to_equations; lia)) as Pl.
  unfold isoTime. rewrite !digits2_chars, digits3_chars in *.
  cbv [String.append].
  unfold Date.matchTimeZ, Date.matchTimeMsZ.
  cbn [String.length Nat.eqb Date.isChar String.get String.substring andb].
  change (Ascii.eqb "T" "T") with true.
  change (Ascii.eqb ":" ":") with true.
  change (Ascii.eqb "." ".") with true.
  change (Ascii.eqb "Z" "Z") with true.
  cbn [andb]. rewrite Ph, Pm, Ps, Pl. repeat split.
Qed.

(** [Date.parse] reads the spelling of a time value whose year has four
    digits. *)
Lemma parse_isoString tv :
  0 <= year (civilFromDays (Date.Day tv)) <= 9999 ->
  Date.parse (Date.isoString tv) = Some tv.
Proof.
  intros Hy. set (c := civilFromDays (Date.Day tv)) in *.
  set (tm := Date.TimeWithinDay tv).
  assert (Htm : 0 <= tm < 86400000).
  { unfold tm, Date.TimeWithinDay, Date.msPerDay. apply Z.mod_pos_bound. lia. }
  destruct (civilFromDays_spec (Date.Day tv)) as [V E]. fold c in V, E.
  pose proof V as V'. apply validCivil_iff in V'.
  pose proof (daysInMonth_bound (year c) (month c)) as B.
  pose proof (isoDate_length c Hy) as L.
  destruct (matchTime_isoTime tm Htm) as (Lt & T1 & T2).
  assert (Mc : Date.matchISODate (Date.isoDate c) = Some (year c, month c, day c)).
  { apply matchISODate_isoDate; lia. }
  rewrite isoString_split. fold c tm.
  unfold Date.parse, Date.timeOfDay. cbv zeta.
  rewrite <- L at 1. rewrite substring_prefix, Mc. cbn [mbind option_bind].
  rewrite length_append, L, Lt. cbn [Nat.add Nat.eqb Nat.sub].
  pose proof (substring_suffix (Date.isoDate c) (isoTime tm)) as Sx.
  rewrite L, Lt in Sx. rewrite !Sx, T1, T2. cbn [mbind option_bind].
  assert (R : ((1 <=? month c) && (month c <=? 12) && (1 <=? day c) && (day c <=? 31)
               && (tm / 3600000 <=? 23) && (tm / 60000 mod 60 <=? 59)
               && (tm / 1000 mod 60 <=? 59))%bool = true).
  { rewrite !andb_true_iff, !Z.leb_le. repeat split; try lia;
      Z.div_mod_to_equations; lia. }
  rewrite R. rewrite MakeDay_civil by lia. rewrite E.
  replace (tm / 3600000 * 3600000 + tm / 60000 mod 60 * 60000 + tm / 1000 mod 60 * 1000
           + tm mod 1000) with tm by (Z.div_mod_to_equations; lia).
  pose proof (daysFromCivil_bound c V Hy) as D. rewrite E in D.
  unfold Date.TimeClip, Date.MakeDate.
  assert (Etv : Date.Day tv * Date.msPerDay + tm = tv).
  { unfold tm, Date.Day, Date.TimeWithinDay, Date.msPerDay.
    Z.div_mod_to_equations. lia. }
  rewrite Etv.
  destruct (Z.abs tv >? 8640000000000000) eqn:C; [|reflexivity].
  apply Z.gtb_lt in C. unfold Date.msPerDay in Etv. lia.
Qed.

(** ** The mock flights *)

Lemma mockFlight_parses params f (i : nat) flight :
  Date.matchISODate (departDate params) = Some f -> validCivil (civilOf f) = true ->
  (i < 3)%nat ->
  exists o, Flights.mockFlight params (i, flight) = JS.Return o
            /\ parses (depart o) /\ parses (arrive o).
Proof.
  intros M V Hi. destruct f as [[y m] d].
  pose proof (matchISODate_inv _ _ _ _ M) as (Hy & _ & _ & L & _).
  pose proof V as V'. apply validCivil_iff in V'. cbn [civilOf year month day] in V'.
  pose proof (daysInMonth_bound y m) as B.
  pose proof (daysFromCivil_bound _ V ltac:(cbn; lia)) as D.
  cbn [civilOf year month day] in D.
  assert (T : forall suffix h mi,
             Date.matchTimeZ suffix = Some (h, mi, 0) -> String.length suffix = 10%nat ->
             0 <= h <= 23 -> 0 <= mi <= 59 ->
             exists iso, Date.toISOString (Date.new (departDate params ++ suffix))
                         = JS.Return iso /\ parses iso).
  { intros suffix h mi Ts Ls Hh Hmi.
    unfold Date.new. rewrite (parse_time_fields _ y m d suffix h mi 0 M Ls Ts).
    assert (R : ((1 <=? m) && (m <=? 12) && (1 <=? d) && (d <=? 31)
                 && (h <=? 23) && (mi <=? 59) && (0 <=? 59))%bool = true).
    { rewrite !andb_true_iff, !Z.leb_le. lia. }
    rewrite R. rewrite MakeDay_civil by lia.
    unfold Date.TimeClip, Date.MakeDate, Date.msPerDay.
    set (tv := daysFromCivil y m d * 86400000 + (h * 3600000 + mi * 60000 + 0 * 1000)).
    destruct (Z.abs tv >? 8640000000000000) eqn:C.
    { apply Z.gtb_lt in C. unfold tv in C. lia. }
    cbn [Date.toISOString]. eexists. split; [reflexivity|].
    exists tv. apply parse_isoString.
    assert (Dv : Date.Day tv = daysFromCivil y m d).
    { unfold Date.Day, Date.msPerDay, tv. Z.div_mod_to_equations. lia. }
    rewrite Dv.
    pose proof (civilFromDays_daysFromCivil {| year := y; month := m; day := d |} V) as Cv.
    cbn [year month day] in Cv. rewrite Cv. cbn [year]. lia. }
  assert (Hc : i = 0%nat \/ i = 1%nat \/ i = 2%nat) by lia.
  unfold Flights.mockFlight.
  destruct Hc as [->|[->| ->]]; cbn [nth_error Flights.schedule JS.nullishOpt JS.nullish
                                     fst snd].
  - destruct (T "T08:15:00Z" 8 15 eq_refl eq_refl ltac:(lia) ltac:(lia)) as (a & Ea & Pa).
    destruct (T "T12:45:00Z" 12 45 eq_refl eq_refl ltac:(lia) ltac:(lia)) as (b & Eb & Pb).
    change (departDate params ++ "T" ++ Flights.padStart2 (JS.Z_toString 8) ++ ":15:00Z")%string
      with (departDate params ++ "T08:15:00Z")%string.
    change (departDate params ++ "T" ++ Flights.padStart2 (JS.Z_toString 12) ++ ":45:00Z")%string
      with (departDate params ++ "T12:45:00Z")%string.
    rewrite Ea. cbn [mbind exc_bind JS.bind]. rewrite Eb.
    cbn [mbind exc_bind JS.bind mret exc_ret]. eexists. split; [reflexivity|].
    cbn [depart arrive]. now split.
  - destruct (T "T13:15:00Z" 13 15 eq_refl eq_refl ltac:(lia) ltac:(lia)) as (a & Ea & Pa).
    destruct (T "T17:45:00Z" 17 45 eq_refl eq_refl ltac:(lia) ltac:(lia)) as (b & Eb & Pb).
    change (departDate params ++ "T" ++ Flights.padStart2 (JS.Z_toString 13) ++ ":15:00Z")%string
      with (departDate params ++ "T13:15:00Z")%string.
    change (departDate params ++ "T" ++ Flights.padStart2 (JS.Z_toString 17) ++ ":45:00Z")%string
      with (departDate params ++ "T17:45:00Z")%string.
    rewrite Ea. cbn [mbind exc_bind JS.bind]. rewrite Eb.
    cbn [mbind exc_bind JS.bind mret exc_ret]. eexists. split; [reflexivity|].
    cbn [depart arrive]. now split.
  - destruct (T "T19:15:00Z" 19 15 eq_refl eq_refl ltac:(lia) ltac:(lia)) as (a & Ea & Pa).
    destruct (T "T23:45:00Z" 23 45 eq_refl eq_refl ltac:(lia) ltac:(lia)) as (b & Eb & Pb).
    change (departDate params ++ "T" ++ Flights.padStart2 (JS.Z_toString 19) ++ ":15:00Z")%string
      with (departDate params ++ "T19:15:00Z")%string.
    change (departDate params ++ "T" ++ Flights.padStart2 (JS.Z_toString 23) ++ ":45:00Z")%string
      with (departDate params ++ "T23:45:00Z")%string.
    rewrite Ea. cbn [mbind exc_bind JS.bind]. rewrite Eb.
    cbn [mbind exc_bind JS.bind mret exc_ret]. eexists. split; [reflexivity|].
    cbn [depart arrive]. now split.
Qed.

(** The times of the mock flights for a departure date of the calendar are
    read back by [Date.parse]. *)
Lemma buildMockFlights_parses params options :
  tripInCalendar (departDate params) 1 = true ->
  Flights.buildMockFlights params = JS.Return options ->
  List.Forall (fun o => parses (depart o) /\ parses (arrive o)) options.
Proof.
  intros H. apply tripInCalendar_inv in H as (f & M & V & _).
  unfold Flights.buildMockFlights, Flights.MOCK_FLIGHTS.
  cbn [List.length seq combine JS.mapM].
  destruct (mockFlight_parses params f 0 (nth 0 Flights.MOCK_FLIGHTS (flightWithPrice 0))
              M V ltac:(lia)) as (o0 & E0 & P0).
  destruct (mockFlight_parses params f 1 (nth 1 Flights.MOCK_FLIGHTS (flightWithPrice 0))
              M V ltac:(lia)) as (o1 & E1 & P1).
  destruct (mockFlight_parses params f 2 (nth 2 Flights.MOCK_FLIGHTS (flightWithPrice 0))
              M V ltac:(lia)) as (o2 & E2 & P2).
  cbn [nth Flights.MOCK_FLIGHTS] in E0, E1, E2.
  rewrite E0. cbn [JS.bind]. rewrite E1. cbn [JS.bind]. rewrite E2. cbn [JS.bind].
  intros R. inversion R; subst. repeat constructor; tauto.
Qed.

(** The dates of the mock forecast are read back. *)
Lemma buildMockWeather_parses params w :
  tripInCalendar (wq_startDate params) (wq_days params) = true ->
  Weather.buildMockWeather params = JS.Return w ->
  List.Forall (fun d => parses (wd_date d)) (daily w).
Proof.
  intros H. rewrite (buildMockWeather_records params H). intros R. inversion R; subst.
  cbn [daily]. apply List.Forall_forall. intros d Hd.
  apply in_map_iff in Hd as (i & <- & Hi). apply in_seq in Hi.
  cbn [wd_date mockRecord]. apply (parses_dateAfter _ _ i H). left. lia.
Qed.


(** * The single tools of the toolset *)

Lemma providersFromContext_of_tags c now_meta tags :
  providersUsed c = tags ->
  Mcp.providersFromContext c now_meta
  = Mcp.providersFromContext {| cache := cache c; providersUsed := tags |} now_meta.
Proof. intros <-. reflexivity. Qed.

Lemma mapM_raises {A B : Type} (f : A -> JS.Exc B) (l : list A) (e : JS.Error) :
  (forall x, In x l -> (exists y, f x = JS.Return y) \/ f x = JS.Raise e) ->
  (exists x, In x l /\ f x = JS.Raise e) ->
  JS.mapM f l = JS.Raise e.
Proof.
  induction l as [|x l IH]; intros All (z & Hz & Ez); [destruct Hz|].
  cbn [JS.mapM]. destruct (All x (or_introl eq_refl)) as [[y Ey]|Ex].
  - rewrite Ey. cbn [JS.bind]. rewrite IH; [reflexivity| |].
    + intros x' Hx'. apply All. now right.
    + destruct Hz as [<-|Hz]; [congruence|eauto].
  - now rewrite Ex.
Qed.

(** A forecast with a date that the host cannot read is not rendered. *)
Lemma renderWeatherHtml_raises host result :
  (exists d, In d (daily (wtr_weather result)) /\ Mcp.newDate host (wd_date d) = None) ->
  Mcp.renderWeatherHtml host result = JS.Raise (JS.RangeError "Invalid time value").
Proof.
  intros (d & Hd & N). unfold Mcp.renderWeatherHtml, Mcp.renderWeatherSection.
  rewrite (mapM_raises (Mcp.weatherRow host) _ (JS.RangeError "Invalid time value")).
  - reflexivity.
  - intros x _. unfold Mcp.weatherRow, Mcp.formatDate.
    destruct (Mcp.newDate host (wd_date x)); [left; eexists; reflexivity|now right].
  - exists d. split; [exact Hd|]. unfold Mcp.weatherRow, Mcp.formatDate. now rewrite N.
Qed.

(** X15: a tool answer that comes from the cache names no source.  When the
    cache holds an entry for the query that has not expired, each of the four
    single tools leaves the cache as it was, and whenever it returns, its
    result is the cached result with metadata that says [cached = true] with
    the source list ["mock-data"], whichever source the cached result once
    came from.  The stay tool always returns then; the weather tool raises a
    [RangeError] instead when the host cannot read one of the cached dates. *)
Theorem tool_served_from_cache_reports_mock_data :
  forall (host : Mcp.Host) (config : ProviderConfig) (cache0 : Cache.TTLCache CacheValue)
         (now now_meta : Z) (r : Cache.CacheRecord CacheValue),
    now <= Cache.expiresAt r ->
    let meta := metaOf now_meta ["mock-data"] true in
    (forall input tok srch f,
        Cache.store cache0 !! Flights.cacheKey input = Some r ->
        Cache.value r = VFlights f ->
        let answer := Mcp.searchFlights host config cache0 input now now_meta tok srch in
        snd answer = cache0
        /\ forall result, fst answer = JS.Return result ->
                          ftr_flights result = f /\ ftr_meta result = meta)
    /\ (forall input s,
           Cache.store cache0 !! Stays.cacheKey input = Some r ->
           Cache.value r = VStays s ->
           exists html,
             Mcp.searchStays host config cache0 input now now_meta
             = (JS.Return {| str_stays := s; str_html := html; str_meta := meta |}, cache0))
    /\ (forall input geo upstream p,
           Cache.store cache0 !! Places.cacheKey input = Some r ->
           Cache.value r = VPlaces p ->
           let answer :=
             Mcp.nearbyAttractions host config cache0 input now now_meta geo upstream in
           snd answer = cache0
           /\ forall result, fst answer = JS.Return result ->
                             plr_places result = p /\ plr_meta result = meta)
    /\ (forall input upstream w,
           Cache.store cache0 !! Weather.cacheKey input = Some r ->
           Cache.value r = VWeather w ->
           let answer := Mcp.weather host config cache0 input now now_meta upstream in
           snd answer = cache0
           /\ (forall result, fst answer = JS.Return result ->
                              wtr_weather result = w /\ wtr_meta result = meta)
           /\ ((exists d, In d (daily w) /\ Mcp.newDate host (wd_date d) = None) ->
               fst answer = JS.Raise (JS.RangeError "Invalid time value"))).
Proof.
  intros host config cache0 now now_meta r E meta.
  split; [|split; [|split]].
  - intros input tok srch f L V. unfold Mcp.searchFlights.
    rewrite (searchFlightsProvider_hit input (Mcp.createProviderContext cache0) config
               now tok srch r f L V E).
    cbv zeta. split; [reflexivity|]. intros result. cbn [fst].
    destruct (Mcp.renderFlightsHtml host _) as [html|]; [|discriminate].
    intros H. inversion H. split; reflexivity.
  - intros input s L V. unfold Mcp.searchStays.
    rewrite (searchStaysProvider_hit input (Mcp.createProviderContext cache0) config
               now r s L V E).
    eexists. reflexivity.
  - intros input geo upstream p L V. unfold Mcp.nearbyAttractions.
    rewrite (nearbyAttractionsProvider_hit input (Mcp.createProviderContext cache0)
               config now geo upstream r p L V E).
    cbv zeta. split; [reflexivity|]. intros result. cbn [fst].
    intros H. inversion H. split; reflexivity.
  - intros input upstream w L V. unfold Mcp.weather.
    rewrite (weatherProvider_hit input (Mcp.createProviderContext cache0) config
               now upstream r w L V E).
    cbv zeta. split; [reflexivity|]. cbn [fst]. split.
    + intros result.
      destruct (Mcp.renderWeatherHtml host _) as [html|]; [|discriminate].
      intros H. inversion H. split; reflexivity.
    + intros Bad. rewrite renderWeatherHtml_raises; [reflexivity|exact Bad].
Qed.

(** X15 on a cache that holds a stay result, and on one that holds a live
    forecast with a date that no host reads as one. *)
Lemma tool_served_from_cache_reports_mock_data_witness :
  let config := {| amadeus := None; skyscanner := None; booking := None;
                   openTripMap := None |} in
  let stay := {| ssp_destination := "Chiang Mai"; checkIn := "2025-11-20";
                 nights := 2; guests := None |} in
  let kept := {| sr_note := None; sr_options := [] |} in
  let query := {| wq_lat := 18; wq_lon := 98; wq_startDate := "2025-11-20";
                  wq_days := 1 |} in
  let live := {| daily := [{| wd_date := "x"; hiC := Some 30%Q; loC := Some 20%Q;
                              precipProb := None |}] |} in
  let stayCache := Cache.set (Cache.new None) 0 (Stays.cacheKey stay) (VStays kept) None in
  let weatherCache :=
    Cache.set (Cache.new None) 0 (Weather.cacheKey query) (VWeather live) None in
  (exists html,
      Mcp.searchStays isoHost config stayCache stay 1000 1000
      = (JS.Return {| str_stays := kept; str_html := html;
                      str_meta := metaOf 1000 ["mock-data"] true |}, stayCache))
  /\ Mcp.weather isoHost config weatherCache query 1000 1000 FetchRejected
     = (JS.Raise (JS.RangeError "Invalid time value"), weatherCache).
Proof.
  intros config stay kept query live stayCache weatherCache. split.
  - destruct (tool_served_from_cache_reports_mock_data isoHost config stayCache 1000 1000
                {| Cache.value := VStays kept; Cache.expiresAt := 21600000 |})
      as (_ & S & _).
    + simpl. lia.
    + apply S; [|reflexivity]. unfold stayCache. apply store_set.
  - destruct (tool_served_from_cache_reports_mock_data isoHost config weatherCache 1000 1000
                {| Cache.value := VWeather live; Cache.expiresAt := 21600000 |})
      as (_ & _ & _ & W).
    + simpl. lia.
    + destruct (W query FetchRejected live) as (C & _ & R).
      * unfold weatherCache. apply store_set.
      * reflexivity.
      * rewrite (surjective_pairing (Mcp.weather _ _ _ _ _ _ _)), C, R; [reflexivity|].
        eexists. split; [left; reflexivity|reflexivity].
Defined.

Lemma Ctx_get_fst c now key : fst (Ctx.get c now key) = fst (Cache.get (cache c) now key).
Proof. unfold Ctx.get. now destruct (Cache.get (cache c) now key). Qed.

Lemma omap_length_le {A B : Type} (f : A -> option B) (l : list A) :
  (List.length (omap f l) <= List.length l)%nat.
Proof.
  induction l as [|x l IH]; [reflexivity|].
  cbn [omap list_omap]. destruct (f x); simpl; lia.
Qed.

Lemma slice0_length_le {A : Type} (l : list A) (n : Z) :
  0 <= n -> (List.length (JS.slice0 l n) <= Z.to_nat n)%nat.
Proof.
  intros H. unfold JS.slice0. destruct (n <? 0) eqn:E; [apply Z.ltb_lt in E; lia|].
  rewrite length_firstn. lia.
Qed.

(** What a live answer of the flight search looks like. *)
Lemma fetchAmadeusFlights_live params config tok srch r :
  Flights.fetchAmadeusFlights params config tok srch = Some r ->
  fr_note r = None /\ (1 <= List.length (fr_options r) <= 5)%nat.
Proof.
  unfold Flights.fetchAmadeusFlights.
  destruct (amadeus config) as [cr|]; [|discriminate].
  destruct (negb (JS.truthy (clientId cr) && JS.truthy (clientSecret cr))); [discriminate|].
  unfold Flights.searchOffers.
  destruct (Flights.fetchAmadeusToken (clientId cr) (clientSecret cr) tok) as [token|];
    [|discriminate].
  cbn [mbind exc_bind JS.bind].
  destruct (negb (JS.truthyOpt token)); [discriminate|].
  destruct srch as [|ok st body]; [discriminate|].
  destruct (negb ok); [discriminate|].
  destruct body as [json|]; [|discriminate].
  match goal with
  | |- context [Nat.eqb (List.length ?o) 0] => set (options := o)
  end.
  destruct (Nat.eqb (List.length options) 0) eqn:L; [discriminate|].
  intros H. inversion H; subst r. cbn [fr_note fr_options]. split; [reflexivity|].
  apply Nat.eqb_neq in L. split; [lia|].
  unfold options. destruct (Flights.data json) as [offers|]; [|simpl; lia].
  etransitivity; [apply omap_length_le|].
  exact (slice0_length_le offers 5 ltac:(lia)).
Qed.

Lemma mapM_length {A B : Type} (f : A -> JS.Exc B) (l : list A) (r : list B) :
  JS.mapM f l = JS.Return r -> List.length r = List.length l.
Proof.
  revert r. induction l as [|x l IH]; intros r H.
  - inversion H. reflexivity.
  - cbn [JS.mapM] in H. destruct (f x) as [y|]; [|discriminate H]. cbn [JS.bind] in H.
    destruct (JS.mapM f l) as [ys|]; [|discriminate H]. cbn [JS.bind] in H.
    inversion H. simpl. f_equal. now apply IH.
Qed.

Lemma searchFlightsProvider_miss params context context' config now tok srch f :
  fst (Ctx.get context now (Flights.cacheKey params)) = None ->
  Flights.searchFlightsProvider params context config now tok srch
  = (JS.Return f, context') ->
  (Flights.fetchAmadeusFlights params config tok srch = Some f
   /\ providersUsed context' = JS.Set_add "amadeus" (providersUsed context))
  \/ (Flights.fetchAmadeusFlights params config tok srch = None
      /\ fr_note f = Some Flights.mockNote
      /\ Flights.buildMockFlights params = JS.Return (fr_options f)
      /\ providersUsed context' = JS.Set_add "flights:mock" (providersUsed context)).
Proof.
  intros M. unfold Flights.searchFlightsProvider.
  destruct (Ctx_get_none context now _ M) as (c1 & -> & P & _).
  destruct (Flights.fetchAmadeusFlights params config tok srch) as [live|] eqn:L.
  - intros H. inversion H; subst. left.
    cbn [Ctx.set Ctx.add providersUsed]. rewrite P. auto.
  - destruct (Flights.buildMockFlights params) as [options|] eqn:B; [|discriminate].
    intros H. inversion H; subst. right.
    cbn [Ctx.set Ctx.add providersUsed fr_note fr_options]. rewrite P. auto.
Qed.

(** X16: on a miss the flight provider never comes back empty-handed.  If
    the call returns, the result is either the live offers, between one and
    five of them, without a note and tagged [amadeus], or the three mock
    flights with the note that asks for credentials, tagged [flights:mock];
    in both cases the result is now in the cache under the key of the query. *)
Theorem flight_provider_result_on_miss :
  forall (params : FlightSearchParams) (context context' : ProviderContext)
         (config : ProviderConfig) (now : Z)
         (tok : FetchOutcome Flights.AmadeusTokenResponse)
         (srch : FetchOutcome Flights.SearchResponse) (f : FlightsResult),
    fst (Ctx.get context now (Flights.cacheKey params)) = None ->
    Flights.searchFlightsProvider params context config now tok srch
    = (JS.Return f, context') ->
    ((Flights.fetchAmadeusFlights params config tok srch = Some f
      /\ fr_note f = None
      /\ (1 <= List.length (fr_options f) <= 5)%nat
      /\ providersUsed context' = JS.Set_add "amadeus" (providersUsed context))
     \/ (Flights.fetchAmadeusFlights params config tok srch = None
         /\ fr_note f = Some Flights.mockNote
         /\ Flights.buildMockFlights params = JS.Return (fr_options f)
         /\ List.length (fr_options f) = 3%nat
         /\ providersUsed context' = JS.Set_add "flights:mock" (providersUsed context)))
    /\ Cache.store (cache context') !! Flights.cacheKey params
       = Some (entryFor (cache context) now (VFlights f)).
Proof.
  intros params context context' config now tok srch f M R.
  split; [|exact (searchFlightsProvider_stores _ _ _ _ _ _ _ _ M R)].
  destruct (searchFlightsProvider_miss _ _ _ _ _ _ _ _ M R) as [[L T]|(L & N & B & T)].
  - left. destruct (fetchAmadeusFlights_live _ _ _ _ _ L) as [N Bd]. auto.
  - right. repeat split; auto. exact (mapM_length _ _ _ B).
Qed.

(** X16 on a query without credentials on an empty cache. *)
Lemma flight_provider_result_on_miss_witness :
  let params := {| fsp_origin := "bkk"; fsp_destination := "cnx";
                   departDate := "2025-11-20"; returnDate := None; adults := Some 1;
                   cabin := None |} in
  let config := {| amadeus := None; skyscanner := None; booking := None;
                   openTripMap := None |} in
  exists f context',
    Flights.searchFlightsProvider params (Mcp.createProviderContext (Cache.new None))
      config 0 FetchRejected FetchRejected = (JS.Return f, context')
    /\ List.length (fr_options f) = 3%nat
    /\ providersUsed context' = ["flights:mock"].
Proof.
  intros params config.
  destruct (searchFlightsProvider_total params (Mcp.createProviderContext (Cache.new None))
              config 0 FetchRejected FetchRejected "departDate" (WellKeyed_new None)
              eq_refl) as (f & context' & R & _).
  exists f, context'. split; [exact R|].
  destruct (flight_provider_result_on_miss params
              (Mcp.createProviderContext (Cache.new None)) context' config 0 FetchRejected
              FetchRejected f eq_refl R) as [[(L & _)|(_ & _ & _ & N & T)] _].
  - discriminate L.
  - split; [exact N|exact T].
Defined.

Lemma weatherProvider_miss params context context' config now upstream w :
  fst (Ctx.get context now (Weather.cacheKey params)) = None ->
  Weather.weatherProvider params context config now upstream = (JS.Return w, context') ->
  (exists d, upstream = Response true d.1 (Some {| Weather.om_daily := Some d.2 |})
             /\ w = {| daily := Weather.liveDays d.2 |}
             /\ providersUsed context' = JS.Set_add "open-meteo" (providersUsed context))
  \/ (Weather.buildMockWeather params = JS.Return w
      /\ providersUsed context' = JS.Set_add "weather:mock" (providersUsed context)).
Proof.
  intros M. unfold Weather.weatherProvider.
  destruct (Ctx_get_none context now _ M) as (c1 & -> & P & _).
  assert (U : forall c, providersUsed c = providersUsed context ->
                        Weather.useMock params now c = (JS.Return w, context') ->
                        Weather.buildMockWeather params = JS.Return w
                        /\ providersUsed context'
                           = JS.Set_add "weather:mock" (providersUsed context)).
  { intros c Pc. unfold Weather.useMock.
    destruct (Weather.buildMockWeather params) as [mock|]; [|discriminate].
    intros H. inversion H; subst. cbn [Ctx.set Ctx.add providersUsed]. now rewrite Pc. }
  assert (U2 : Ctx.tryCatch (Weather.useMock params now c1)
                 (fun c => Weather.useMock params now c) = (JS.Return w, context') ->
               Weather.buildMockWeather params = JS.Return w
               /\ providersUsed context'
                  = JS.Set_add "weather:mock" (providersUsed context)).
  { rewrite tryCatch_useMock. now apply U. }
  destruct (Weather.addDays (wq_startDate params) (wq_days params - 1));
    [|cbn [Ctx.tryCatch]; intros H; right; now apply (U c1)].
  destruct upstream as [|ok st body];
    [cbn [Ctx.tryCatch]; intros H; right; now apply (U c1)|].
  destruct ok; cbn [negb]; [|intros H; right; now apply U2].
  destruct body as [data|]; [|cbn [Ctx.tryCatch]; intros H; right; now apply (U c1)].
  destruct data as [daily]. cbn [Weather.om_daily].
  destruct daily as [d|]; [|intros H; right; now apply U2].
  destruct (Nat.eqb (List.length (Weather.om_time d)) 0); [intros H; right; now apply U2|].
  cbn [Ctx.tryCatch]. intros H. inversion H; subst. left. exists (st, d).
  cbn [fst snd Ctx.set Ctx.add providersUsed]. now rewrite P.
Qed.

(** X17: on a miss a single tool names the one source it used.  With no
    entry for the query in the cache, the stay tool always answers from the
    mock, with the source list ["Mock stays"]; the flight tool, when it
    returns, names ["Amadeus"] for live offers and ["Mock flights"] for the
    mock with its note; the weather tool, when it returns, names
    ["Open-Meteo"] for a live forecast and ["Weather (mock)"] for the mock
    forecast; in every case [cached] is false. *)
Theorem tool_on_miss_names_its_source :
  forall (host : Mcp.Host) (config : ProviderConfig)
         (cache0 : Cache.TTLCache CacheValue) (now now_meta : Z),
    (forall input,
        fst (Cache.get cache0 now (Stays.cacheKey input)) = None ->
        exists cache' html,
          Mcp.searchStays host config cache0 input now now_meta
          = (JS.Return
               {| str_stays := {| sr_note := Some Stays.mockNote;
                                  sr_options := Stays.withPricing Stays.MOCK_STAYS input |};
                  str_html := html;
                  str_meta := metaOf now_meta ["Mock stays"] false |},
             cache'))
    /\ (forall input tok srch result cache',
           fst (Cache.get cache0 now (Flights.cacheKey input)) = None ->
           Mcp.searchFlights host config cache0 input now now_meta tok srch
           = (JS.Return result, cache') ->
           (ftr_meta result = metaOf now_meta ["Amadeus"] false
            /\ fr_note (ftr_flights result) = None)
           \/ (ftr_meta result = metaOf now_meta ["Mock flights"] false
               /\ fr_note (ftr_flights result) = Some Flights.mockNote))
    /\ (forall input upstream result cache',
           fst (Cache.get cache0 now (Weather.cacheKey input)) = None ->
           Mcp.weather host config cache0 input now now_meta upstream
           = (JS.Return result, cache') ->
           wtr_meta result = metaOf now_meta ["Open-Meteo"] false
           \/ (wtr_meta result = metaOf now_meta ["Weather (mock)"] false
               /\ Weather.buildMockWeather input = JS.Return (wtr_weather result))).
Proof.
  intros host config cache0 now now_meta. split; [|split].
  - intros input M. unfold Mcp.searchStays, Stays.searchStaysProvider.
    rewrite <- (Ctx_get_fst (Mcp.createProviderContext cache0)) in M.
    destruct (Ctx_get_none _ now _ M) as (c1 & -> & P & _).
    eexists. eexists. unfold Mcp.providersFromContext.
    cbn [Ctx.set Ctx.add providersUsed cache].
    rewrite P. reflexivity.
  - intros input tok srch result cache' M. unfold Mcp.searchFlights.
    rewrite <- (Ctx_get_fst (Mcp.createProviderContext cache0)) in M.
    destruct (Flights.searchFlightsProvider input (Mcp.createProviderContext cache0) config
                now tok srch) as [[f|e] c'] eqn:R; [|discriminate].
    cbv zeta. destruct (Mcp.renderFlightsHtml host _) as [html|]; [|discriminate].
    intros H. inversion H; subst result cache'. cbn [ftr_meta ftr_flights].
    destruct (searchFlightsProvider_miss _ _ _ _ _ _ _ _ M R) as [[L T]|(L & N & B & T)].
    + left. destruct (fetchAmadeusFlights_live _ _ _ _ _ L) as [N _].
      split; [|exact N]. unfold Mcp.providersFromContext. rewrite T. reflexivity.
    + right. split; [|exact N]. unfold Mcp.providersFromContext. rewrite T. reflexivity.
  - intros input upstream result cache' M. unfold Mcp.weather.
    rewrite <- (Ctx_get_fst (Mcp.createProviderContext cache0)) in M.
    destruct (Weather.weatherProvider input (Mcp.createProviderContext cache0) config
                now upstream) as [[w|e] c'] eqn:R; [|discriminate].
    cbv zeta. destruct (Mcp.renderWeatherHtml host _) as [html|]; [|discriminate].
    intros H. inversion H; subst result cache'. cbn [wtr_meta wtr_weather].
    destruct (weatherProvider_miss _ _ _ _ _ _ _ M R) as [(d & _ & _ & T)|[B T]].
    + left. unfold Mcp.providersFromContext. rewrite T. reflexivity.
    + right. split; [|exact B]. unfold Mcp.providersFromContext. rewrite T. reflexivity.
Qed.

(** X17 on the stay tool and an empty cache. *)
Lemma tool_on_miss_names_its_source_witness :
  let input := {| ssp_destination := "Chiang Mai"; checkIn := "2025-11-20";
                  nights := 2; guests := None |} in
  let config := {| amadeus := None; skyscanner := None; booking := None;
                   openTripMap := None |} in
  exists result cache',
    Mcp.searchStays isoHost config (Cache.new None) input 0 0 = (JS.Return result, cache')
    /\ providers (str_meta result) = ["Mock stays"]
    /\ cached (str_meta result) = false.
Proof.
  intros input config.
  destruct (tool_on_miss_names_its_source isoHost config (Cache.new None) 0 0) as (S & _).
  destruct (S input eq_refl) as (cache' & html & E).
  eexists. exists cache'. split; [exact E|]. split; reflexivity.
Defined.


(** * The runs of [planTrip] *)

Lemma M_bind_call {A B : Type} (f : ProviderContext -> JS.Exc A * ProviderContext)
    (k : A -> Ctx.M B) c a c' :
  f c = (JS.Return a, c') -> (Ctx.call f ≫= k) c = k a c'.
Proof. intros H. unfold mbind, Ctx.M_bind, Ctx.call. now rewrite H. Qed.

Lemma M_bind_lift {A B : Type} (e : JS.Exc A) (k : A -> Ctx.M B) c a :
  e = JS.Return a -> (Ctx.lift e ≫= k) c = k a c.
Proof. intros ->. reflexivity. Qed.

Lemma M_bind_ret {A B : Type} (a : A) (k : A -> Ctx.M B) c :
  ((mret a : Ctx.M A) ≫= k) c = k a c.
Proof. reflexivity. Qed.

Lemma M_bind_assoc {A B C : Type} (m : Ctx.M A) (g : A -> Ctx.M B) (k : B -> Ctx.M C) c :
  ((m ≫= g) ≫= k) c = (m ≫= (fun a => g a ≫= k)) c.
Proof.
  unfold mbind, Ctx.M_bind. now destruct (m c) as [[a|e] c'].
Qed.

Lemma M_bind_inv {A B : Type} (m : Ctx.M A) (k : A -> Ctx.M B) c b c' :
  (m ≫= k) c = (JS.Return b, c') ->
  exists a c1, m c = (JS.Return a, c1) /\ k a c1 = (JS.Return b, c').
Proof.
  unfold mbind, Ctx.M_bind. destruct (m c) as [[a|e] c1]; [eauto|discriminate].
Qed.

(** A run that returns is made of returning steps, and conversely. *)
Lemma planTripObject_run config input up c0 plan c' :
  Mcp.planTripObject config input up c0 = (JS.Return plan, c')
  <-> exists r, runOf config c0 input up (JS.nullish (pti_days input) 4) r
                /\ plan = planOfRun input up (JS.nullish (pti_days input) 4) r
                /\ c' = run_c5 r.
Proof.
  set (days := JS.nullish (pti_days input) 4).
  unfold Mcp.planTripObject. fold days. split.
  - intros H.
    apply M_bind_inv in H as (dest & c1 & E1 & H). unfold Ctx.call in E1.
    apply M_bind_inv in H as (endDate & c1' & E2 & H). unfold Ctx.lift in E2.
    destruct (Mcp.addDays (pti_startDate input) (days - 1)) as [e2|] eqn:A;
      inversion E2; subst e2 c1'; clear E2.
    apply M_bind_inv in H as (weather & c2 & E3 & H). unfold Ctx.call in E3.
    apply M_bind_inv in H as ([flights notesFlights] & c3 & E4 & H).
    apply M_bind_inv in H as (staysR & c4 & E5 & H). unfold Ctx.call in E5.
    cbv zeta in H.
    apply M_bind_inv in H as (placesR & c5 & E6 & H). unfold Ctx.call in E6.
    apply M_bind_inv in H as (itinerary & c5' & E7 & H). unfold Ctx.lift in E7.
    destruct (Mcp.groupPlacesForItinerary (pti_startDate input) days (pr_options placesR)
                (pti_interests input)) as [it|] eqn:G; inversion E7; subst it c5'; clear E7.
    apply M_bind_inv in H as (cx & c5' & E8 & H). unfold Ctx.current in E8.
    inversion E8; subst cx c5'; clear E8.
    inversion H; subst plan c'; clear H.
    exists {| run_dest := dest; run_c1 := c1; run_end := endDate; run_weather := weather;
              run_c2 := c2; run_flights := flights; run_c3 := c3; run_stays := staysR;
              run_c4 := c4; run_places := placesR; run_c5 := c5;
              run_itinerary := itinerary |}.
    unfold runOf, planOfRun, notesOfRun.
    cbn [run_dest run_c1 run_end run_weather run_c2 run_flights run_c3 run_stays run_c4
         run_places run_c5 run_itinerary].
    destruct (JS.truthyOpt (pti_origin input)) eqn:O.
    + apply M_bind_inv in E4 as (fl & c3' & E4 & R). unfold Ctx.call in E4.
      inversion R; subst flights notesFlights c3'; clear R.
      repeat split; assumption.
    + inversion E4; subst flights notesFlights c3; clear E4.
      repeat split; assumption.
  - intros (r & (E1 & E2 & E3 & E4 & E5 & E6 & E7) & -> & ->).
    rewrite (M_bind_call _ _ _ _ _ E1).
    rewrite (M_bind_lift _ _ _ _ E2).
    unfold weatherQuery in E3. rewrite (M_bind_call _ _ _ _ _ E3).
    assert (Rest : forall notesFlights,
               notesFlights = Mcp.cn_flights (notesOfRun input r) ->
               (staysResult ← Ctx.call (fun context =>
                  Stays.searchStaysProvider
                    {| ssp_destination := dest_name (run_dest r);
                       checkIn := pti_startDate input; nights := days; guests := None |}
                    context config (Mcp.now_stays up));
                let notesStays :=
                  if JS.truthyOpt (sr_note staysResult) then sr_note staysResult else None in
                let stayOptions := Mcp.selectStayTiers (sr_options staysResult) in
                placesResult ← Ctx.call (fun context =>
                  Places.nearbyAttractionsProvider
                    {| asp_destination := dest_name (run_dest r);
                       tags := pti_interests input;
                       limit := Some (Z.max 12 (days * 3)) |}
                    context config (Mcp.now_places up) (Mcp.up_geoPlaces up)
                    (Mcp.up_radius up));
                let notesPlaces :=
                  if JS.truthyOpt (pr_note placesResult) then pr_note placesResult else None in
                itinerary ← Ctx.lift
                  (Mcp.groupPlacesForItinerary (pti_startDate input) days
                     (pr_options placesResult) (pti_interests input));
                let notes := {| Mcp.cn_flights := notesFlights; Mcp.cn_stays := notesStays;
                                Mcp.cn_places := notesPlaces; Mcp.cn_weather := None |} in
                let costEstimate :=
                  Mcp.computeCostEstimate days stayOptions (Some (run_flights r))
                    (pti_budgetUSD input) (JS.truthyOpt (pti_origin input)) notes in
                context ← Ctx.current;
                let meta := Mcp.providersFromContext context (Mcp.now_meta up) in
                mret {| ptr_destination := run_dest r;
                        ptr_dates := {| td_start := pti_startDate input;
                                        td_end := run_end r; td_days := days |};
                        ptr_weather := run_weather r;
                        ptr_flights := Some (run_flights r);
                        ptr_stays := stayOptions;
                        ptr_places := pr_options placesResult;
                        ptr_itinerary := itinerary;
                        ptr_costEstimate := costEstimate;
                        ptr_html := "";
                        ptr_meta := meta |}) (run_c3 r)
               = (JS.Return (planOfRun input up days r), run_c5 r)).
    { intros notesFlights ->.
      unfold stayQuery in E5. rewrite (M_bind_call _ _ _ _ _ E5). cbv zeta.
      unfold placeQuery in E6. rewrite (M_bind_call _ _ _ _ _ E6).
      rewrite (M_bind_lift _ _ _ _ E7). reflexivity. }
    destruct (JS.truthyOpt (pti_origin input)) eqn:O.
    + rewrite M_bind_assoc. unfold flightQuery in E4.
      rewrite (M_bind_call _ _ _ _ _ E4). rewrite M_bind_ret.
      apply Rest. unfold notesOfRun. cbn [Mcp.cn_flights]. now rewrite O.
    + destruct E4 as [Ef Ec]. rewrite M_bind_ret.
      assert (N : None = Mcp.cn_flights (notesOfRun input r))
        by (unfold notesOfRun; cbn [Mcp.cn_flights]; now rewrite O).
      specialize (Rest None N). rewrite Ef, Ec in Rest. exact Rest.
Qed.

(** [planTrip] is its run followed by the rendering. *)
Lemma planTrip_unfold host config cache0 input up :
  Mcp.planTrip host config cache0 input up
  = match Mcp.planTripObject config input up (Mcp.createProviderContext cache0) with
    | (JS.Return plan, c') =>
        (html ← Mcp.renderPlanTripHtml host plan; mret (Mcp.withHtml plan html), cache c')
    | (JS.Raise e, c') => (JS.Raise e, cache c')
    end.
Proof.
  unfold Mcp.planTrip. unfold mbind at 1. unfold Ctx.M_bind.
  destruct (Mcp.planTripObject config input up (Mcp.createProviderContext cache0))
    as [[plan|e] c']; [|reflexivity].
  unfold mbind at 1. unfold Ctx.M_bind, Ctx.lift.
  now destruct (Mcp.renderPlanTripHtml host plan).
Qed.

(** A plan that [planTrip] returns is the plan of a run, with its rendering. *)
Lemma planTrip_returns_run host config cache0 input up plan cache' :
  Mcp.planTrip host config cache0 input up = (JS.Return plan, cache') ->
  exists r html,
    runOf config (Mcp.createProviderContext cache0) input up (JS.nullish (pti_days input) 4) r
    /\ plan = Mcp.withHtml (planOfRun input up (JS.nullish (pti_days input) 4) r) html
    /\ cache' = cache (run_c5 r).
Proof.
  rewrite planTrip_unfold.
  destruct (Mcp.planTripObject config input up (Mcp.createProviderContext cache0))
    as [[plan0|e] c'] eqn:E; [|discriminate].
  apply planTripObject_run in E as (r & R & -> & ->).
  destruct (Mcp.renderPlanTripHtml host _) as [html|]; [|discriminate].
  intros H. inversion H; subst. eauto.
Qed.

(** ** What every run has *)

Lemma itineraryLoop_shape start (rounds : nat) k queue l :
  Mcp.itineraryLoop start rounds k queue = JS.Return l ->
  List.length l = rounds
  /\ map it_day l = map (fun i => k + Z.of_nat i + 1) (seq 0 rounds)
  /\ forall (i : nat) e, nth_error l i = Some e ->
                         Mcp.addDays start (k + Z.of_nat i) = JS.Return (it_date e).
Proof.
  revert k queue l. induction rounds as [|rounds IH]; intros k queue l H.
  - inversion H. repeat split. intros [|i] e Hi; discriminate Hi.
  - cbn [Mcp.itineraryLoop] in H.
    destruct (Mcp.addDays start k) as [date|] eqn:A; [|discriminate].
    cbn [mbind exc_bind JS.bind] in H.
    destruct (JS.shift queue) as [m q1]. destruct (JS.shift q1) as [a q2].
    destruct (JS.shift q2) as [e q3].
    destruct (Mcp.itineraryLoop start rounds (k + 1) q3) as [rest|] eqn:L; [|discriminate].
    cbn [mbind exc_bind JS.bind mret exc_ret] in H. inversion H; subst l.
    destruct (IH _ _ _ L) as (Ln & Dy & Dt).
    split; [simpl; now rewrite Ln|]. split.
    + cbn [map seq]. f_equal; [unfold Mcp.makeSlots; cbn [it_day]; lia|].
      rewrite Dy. rewrite <- seq_shift, map_map. apply map_ext. intros i. lia.
    + intros [|i] x Hi.
      * inversion Hi; subst x. unfold Mcp.makeSlots. cbn [it_date].
        now replace (k + Z.of_nat 0) with k by lia.
      * replace (k + Z.of_nat (S i)) with (k + 1 + Z.of_nat i) by lia.
        now apply Dt.
Qed.

Lemma selectStayTiers_length options : (List.length (Mcp.selectStayTiers options) <= 3)%nat.
Proof.
  destruct options as [|o rest]; [simpl; lia|].
  rewrite selectStayTiers_cons. simpl. lia.
Qed.

Lemma providersFromContext_nonempty c now : providers (Mcp.providersFromContext c now) <> [].
Proof.
  unfold Mcp.providersFromContext. cbn [providers].
  match goal with
  | |- (if Nat.ltb 0 (List.length ?l) then _ else _) <> _ => destruct l
  end; discriminate.
Qed.

Lemma tripInCalendar_validates start days field :
  tripInCalendar start days = true -> Mcp.validateISODate start field = JS.Return tt.
Proof.
  intros H. apply tripInCalendar_inv in H as (f & M & V & _).
  unfold Mcp.validateISODate. rewrite M, (parse_date_only start f M V). reflexivity.
Qed.

Lemma tripInCalendar_one start days :
  tripInCalendar start days = true -> tripInCalendar start 1 = true.
Proof.
  intros H. apply tripInCalendar_inv in H as (f & M & V & _).
  unfold tripInCalendar. rewrite M, V. cbn [andb Z.to_nat Pos.to_nat Pos.iter_op Nat.sub].
  simpl Nat.iter. apply Z.leb_le.
  destruct f as [[y m] d]. apply matchISODate_inv in M. cbn. lia.
Qed.

(** The dates of a run for a trip in the calendar. *)
Lemma runOf_calendar config c0 input up r :
  let days := JS.nullish (pti_days input) 4 in
  let start := pti_startDate input in
  runOf config c0 input up days r ->
  1 <= days -> tripInCalendar start days = true ->
  run_end r = dateAfter start (Z.to_nat (days - 1))
  /\ run_itinerary r
     = map (entryOf start (Mcp.scoredPlaces (pr_options (run_places r)) (pti_interests input)))
           (seq 0 (Z.to_nat days)).
Proof.
  intros days start (_ & E2 & _ & _ & _ & _ & E7) Hd H.
  pose proof (addDays_dateAfter start days (Z.to_nat (days - 1)) H ltac:(lia)) as A.
  rewrite Z2Nat.id in A by lia. fold start in E2. rewrite A in E2.
  split; [now inversion E2|].
  assert (I : Mcp.groupPlacesForItinerary start days (pr_options (run_places r))
                (pti_interests input)
              = JS.Return
                  (map (entryOf start (Mcp.scoredPlaces (pr_options (run_places r))
                                         (pti_interests input)))
                       (seq 0 (Z.to_nat days)))).
  { unfold Mcp.groupPlacesForItinerary.
    apply (itineraryLoop_spec start days _ (Z.to_nat days) 0 H). lia. }
  fold start in E7. rewrite I in E7. now inversion E7.
Qed.

(** ** Runs without a live source on a fresh cache *)

Lemma weather_key_apart (w : WeatherQueryParams) (city : string) :
  ~ In (Weather.cacheKey w) [Places.destKey city].
Proof.
  unfold Weather.cacheKey, Places.destKey.
  intros [E|[]]; cbv [String.append] in E; discriminate E.
Qed.

Lemma flights_key_apart (f : FlightSearchParams) (city : string) (w : WeatherQueryParams) :
  ~ In (Flights.cacheKey f) [Places.destKey city; Weather.cacheKey w].
Proof.
  unfold Weather.cacheKey, Places.destKey, Flights.cacheKey.
  intros [E|[E|[]]]; cbv [String.append] in E; discriminate E.
Qed.

Lemma stays_key_apart (p : StaySearchParams) (city : string) (w : WeatherQueryParams)
    (f : FlightSearchParams) :
  ~ In (Stays.cacheKey p) [Places.destKey city; Weather.cacheKey w; Flights.cacheKey f].
Proof.
  unfold Stays.cacheKey, Places.destKey, Weather.cacheKey, Flights.cacheKey.
  intros [E|[E|[E|[]]]]; cbv [String.append] in E; discriminate E.
Qed.

Lemma miss_of_absent c now key :
  Cache.store (cache c) !! key = None -> fst (Ctx.get c now key) = None.
Proof. intros H. rewrite Ctx_get_fst, get_fst_lookup. now rewrite H. Qed.

(** The first three provider calls of a run on a fresh cache leave no entry
    under a key of the providers that follow. *)
Lemma fresh_run_frames config ttl input up days r :
  runOf config (Mcp.createProviderContext (Cache.new ttl)) input up days r ->
  let c0 := Mcp.createProviderContext (Cache.new ttl) in
  let keys := [Places.destKey (pti_destination input);
               Weather.cacheKey (weatherQuery input (run_dest r) days);
               Flights.cacheKey (flightQuery input (run_dest r))] in
  touchesOnly keys c0 (run_c1 r) /\ touchesOnly keys c0 (run_c2 r)
  /\ touchesOnly keys c0 (run_c3 r)
  /\ fst (Ctx.get (run_c1 r) (Mcp.now_weather up)
            (Weather.cacheKey (weatherQuery input (run_dest r) days))) = None
  /\ fst (Ctx.get (run_c2 r) (Mcp.now_flights up)
            (Flights.cacheKey (flightQuery input (run_dest r)))) = None
  /\ fst (Ctx.get (run_c3 r) (Mcp.now_stays up)
            (Stays.cacheKey (stayQuery input (run_dest r) days))) = None.
Proof.
  intros R. cbv zeta.
  set (c0 := Mcp.createProviderContext (Cache.new ttl)) in *.
  set (keys := [Places.destKey (pti_destination input);
                Weather.cacheKey (weatherQuery input (run_dest r) days);
                Flights.cacheKey (flightQuery input (run_dest r))]).
  destruct R as (E1 & _ & E3 & E4 & _).
  assert (F1 : touchesOnly [Places.destKey (pti_destination input)] c0 (run_c1 r)).
  { replace (run_c1 r)
      with (snd (Places.resolveDestination (pti_destination input) c0 config
                   (Mcp.now_destination up) (Mcp.up_geo up))) by (now rewrite E1).
    apply resolveDestination_frame; [simpl; tauto|apply touchesOnly_refl]. }
  assert (F2 : touchesOnly [Places.destKey (pti_destination input);
                            Weather.cacheKey (weatherQuery input (run_dest r) days)]
                 c0 (run_c2 r)).
  { replace (run_c2 r)
      with (snd (Weather.weatherProvider (weatherQuery input (run_dest r) days) (run_c1 r)
                   config (Mcp.now_weather up) (Mcp.up_weather up))) by (now rewrite E3).
    apply weatherProvider_frame; [simpl; tauto|].
    eapply touchesOnly_more; [|exact F1]. simpl. tauto. }
  assert (F3 : touchesOnly keys c0 (run_c3 r)).
  { destruct (JS.truthyOpt (pti_origin input)).
    - replace (run_c3 r)
        with (snd (Flights.searchFlightsProvider (flightQuery input (run_dest r))
                     (run_c2 r) config (Mcp.now_flights up) (Mcp.up_token up)
                     (Mcp.up_search up))) by (now rewrite E4).
      apply searchFlightsProvider_frame; [simpl; tauto|].
      eapply touchesOnly_more; [|exact F2]. simpl. tauto.
    - destruct E4 as (_ & ->). eapply touchesOnly_more; [|exact F2]. simpl. tauto. }
  split; [eapply touchesOnly_more; [|exact F1]; simpl; tauto|].
  split; [eapply touchesOnly_more; [|exact F2]; simpl; tauto|].
  split; [exact F3|].
  split; [|split]; apply miss_of_absent.
  - destruct F1 as (_ & S & _). rewrite S by apply weather_key_apart. reflexivity.
  - destruct F2 as (_ & S & _). rewrite S by apply flights_key_apart. reflexivity.
  - destruct F3 as (_ & S & _). rewrite S by apply stays_key_apart. reflexivity.
Qed.

(** The stays of a run on a fresh cache are the mock stays. *)
Lemma fresh_run_stays config ttl input up days r :
  runOf config (Mcp.createProviderContext (Cache.new ttl)) input up days r ->
  run_stays r
  = {| sr_note := Some Stays.mockNote;
       sr_options := Stays.withPricing Stays.MOCK_STAYS (stayQuery input (run_dest r) days) |}.
Proof.
  intros R. destruct (fresh_run_frames config ttl input up days r R)
    as (_ & _ & _ & _ & _ & M).
  destruct R as (_ & _ & _ & _ & E5 & _).
  unfold Stays.searchStaysProvider in E5.
  destruct (Ctx_get_none _ _ _ M) as (c & G & _). rewrite G in E5.
  now inversion E5.
Qed.

(** A trip in the calendar on a cache that keeps the key discipline has a
    run: no step before the rendering raises. *)
Lemma planTripObject_total config cache0 input up :
  let days := JS.nullish (pti_days input) 4 in
  1 <= days -> WellKeyed cache0 -> tripInCalendar (pti_startDate input) days = true ->
  exists r, runOf config (Mcp.createProviderContext cache0) input up days r
            /\ WellKeyed (cache (run_c5 r)).
Proof.
  intros days Hd W H.
  set (start := pti_startDate input) in *.
  destruct (resolveDestination_total (pti_destination input)
              (Mcp.createProviderContext cache0) config (Mcp.now_destination up)
              (Mcp.up_geo up) W) as (dest & c1 & E1 & W1 & _).
  pose proof (addDays_dateAfter start days (Z.to_nat (days - 1)) H ltac:(lia)) as E2.
  rewrite Z2Nat.id in E2 by lia.
  destruct (weatherProvider_total (weatherQuery input dest days) c1 config
              (Mcp.now_weather up) (Mcp.up_weather up) W1 H)
    as (weather & c2 & E3 & W2 & _).
  assert (F : exists flights c3,
             (if JS.truthyOpt (pti_origin input)
              then Flights.searchFlightsProvider (flightQuery input dest) c2 config
                     (Mcp.now_flights up) (Mcp.up_token up) (Mcp.up_search up)
                   = (JS.Return flights, c3)
              else flights = noOriginFlights /\ c3 = c2)
             /\ WellKeyed (cache c3)).
  { destruct (JS.truthyOpt (pti_origin input)).
    - pose proof (tripInCalendar_validates start days "departDate" H) as Vf.
      destruct (searchFlightsProvider_total (flightQuery input dest) c2 config
                  (Mcp.now_flights up) (Mcp.up_token up) (Mcp.up_search up)
                  "departDate" W2 Vf) as (flights & c3 & E4 & W3 & _).
      eauto.
    - exists noOriginFlights, c2. auto. }
  destruct F as (flights & c3 & E4 & W3).
  destruct (searchStaysProvider_total (stayQuery input dest days) c3 config
              (Mcp.now_stays up) W3) as (staysR & c4 & E5 & W4 & _).
  destruct (nearbyAttractionsProvider_total (placeQuery input dest days) c4 config
              (Mcp.now_places up) (Mcp.up_geoPlaces up) (Mcp.up_radius up) W4)
    as (placesR & c5 & E6 & W5 & _).
  exists {| run_dest := dest; run_c1 := c1; run_end := dateAfter start (Z.to_nat (days - 1));
            run_weather := weather; run_c2 := c2; run_flights := flights; run_c3 := c3;
            run_stays := staysR; run_c4 := c4; run_places := placesR; run_c5 := c5;
            run_itinerary :=
              map (entryOf start (Mcp.scoredPlaces (pr_options placesR)
                                    (pti_interests input)))
                  (seq 0 (Z.to_nat days)) |}.
  split; [|exact W5]. unfold runOf.
  cbn [run_dest run_c1 run_end run_weather run_c2 run_flights run_c3 run_stays run_c4
       run_places run_c5 run_itinerary].
  repeat split; try assumption.
  unfold Mcp.groupPlacesForItinerary.
  apply (itineraryLoop_spec start days _ (Z.to_nat days) 0 H). lia.
Qed.

(** Without keys and without a forecast, on a fresh cache, a trip in the
    calendar is planned and rendered on every host: all the dates of the plan
    are dates that [Date.parse] reads. *)
Lemma planTrip_without_live_source host config ttl input up :
  let days := JS.nullish (pti_days input) 4 in
  1 <= days -> tripInCalendar (pti_startDate input) days = true ->
  amadeus config = None -> openTripMap config = None ->
  liveWeatherFails (Mcp.up_weather up) = true ->
  exists r html,
    runOf config (Mcp.createProviderContext (Cache.new ttl)) input up days r
    /\ Mcp.planTrip host config (Cache.new ttl) input up
       = (JS.Return (Mcp.withHtml (planOfRun input up days r) html), cache (run_c5 r))
    /\ WellKeyed (cache (run_c5 r)).
Proof.
  intros days Hd H Ka Ko Fw.
  set (start := pti_startDate input) in *.
  destruct (planTripObject_total config (Cache.new ttl) input up Hd (WellKeyed_new ttl) H)
    as (r & R & Wk).
  fold days in R.
  destruct (fresh_run_frames config ttl input up days r R) as (_ & _ & _ & Mw & Mf & _).
  destruct (runOf_calendar config _ input up r R Hd H) as [Ee Ei].
  fold days start in Ee, Ei.
  pose proof R as (_ & _ & E3 & E4 & _).
  exists r.
  rewrite planTrip_unfold.
  rewrite (proj2 (planTripObject_run config input up _ _ _)) by eauto.
  fold days.
  destruct (renderPlanTripHtml_returns host (planOfRun input up days r)) as [html Eh].
  - unfold planOfRun. cbn [ptr_flights]. intros f Ef. inversion Ef; subst f.
    destruct (JS.truthyOpt (pti_origin input)).
    + destruct (searchFlightsProvider_miss _ _ _ _ _ _ _ _ Mf E4)
        as [[L _]|(_ & _ & B & _)].
      * unfold Flights.fetchAmadeusFlights in L. rewrite Ka in L. discriminate L.
      * exact (buildMockFlights_parses (flightQuery input (run_dest r)) _
                 (tripInCalendar_one start days H) B).
    + destruct E4 as [-> _]. constructor.
  - unfold planOfRun. cbn [ptr_weather].
    destruct (weatherProvider_fallback _ _ config _ _ Mw Fw) as (cw & Ew & _).
    rewrite Ew in E3. unfold Weather.useMock in E3.
    destruct (Weather.buildMockWeather (weatherQuery input (run_dest r) days))
      as [mock|] eqn:B; [|discriminate E3].
    inversion E3; subst.
    apply (buildMockWeather_parses (weatherQuery input (run_dest r) days)); [exact H|].
    now rewrite B.
  - unfold planOfRun. cbn [ptr_itinerary]. rewrite Ei.
    apply List.Forall_forall. intros d Hd'.
    apply in_map_iff in Hd' as (i & <- & Hi). apply in_seq in Hi.
    unfold entryOf, Mcp.makeSlots. cbn [it_date].
    apply (parses_dateAfter start days i H). left. lia.
  - unfold planOfRun. cbn [ptr_dates td_start]. exact (parses_start start days H).
  - unfold planOfRun. cbn [ptr_dates td_end]. rewrite Ee.
    apply (parses_dateAfter start days _ H). left. lia.
  - exists html. rewrite Eh. cbn [mbind exc_bind JS.bind mret exc_ret]. auto.
Qed.

(** What the plan of a run says about its days, whatever the dates are. *)
Lemma planOfRun_days config c0 input up r :
  let days := JS.nullish (pti_days input) 4 in
  let start := pti_startDate input in
  runOf config c0 input up days r ->
  Mcp.addDays start (days - 1) = JS.Return (run_end r)
  /\ List.length (run_itinerary r) = Z.to_nat days
  /\ map it_day (run_itinerary r) = map (fun i => Z.of_nat i + 1) (seq 0 (Z.to_nat days))
  /\ forall (i : nat) e, nth_error (run_itinerary r) i = Some e ->
                         Mcp.addDays start (Z.of_nat i) = JS.Return (it_date e).
Proof.
  intros days start (_ & E2 & _ & _ & _ & _ & E7).
  split; [exact E2|]. unfold Mcp.groupPlacesForItinerary in E7.
  destruct (itineraryLoop_shape _ _ _ _ _ E7) as (L & D & T).
  split; [exact L|]. split; [exact D|]. exact T.
Qed.


(** * [planTrip] *)

(** An input without the field [days] is validated with four days. *)
Lemma validatePlanTripInput_default raw input :
  Mcp.getField raw "days" = Mcp.JUndefined ->
  Mcp.validatePlanTripInput raw = JS.Return input ->
  pti_days input = Some 4
  /\ Mcp.validateISODate (pti_startDate input) "startDate" = JS.Return tt.
Proof.
  intros D. unfold Mcp.validatePlanTripInput. rewrite D.
  destruct (negb (Mcp.isObject raw)); [discriminate|].
  destruct (Mcp.coerceString (Mcp.getField raw "destination")) as [dest|]; [|discriminate].
  destruct (Mcp.coerceString (Mcp.getField raw "startDate")) as [start|]; [|discriminate].
  destruct (Mcp.validateISODate start "startDate") as [[]|e] eqn:V; [|discriminate].
  cbn [mbind exc_bind JS.bind mret exc_ret].
  destruct (Mcp.getField raw "budgetUSD") as [| | | | | |] eqn:Bu;
    cbn [mbind exc_bind JS.bind mret exc_ret];
    try (intros H; inversion H; subst; cbn [pti_days pti_startDate]; now split);
    match goal with
    | |- context [Mcp.ToNumber ?v] => destruct (Mcp.ToNumber v) as [nb|]
    end; try discriminate;
    destruct (negb (Qle_bool 0 nb)); try discriminate;
    cbn [mbind exc_bind JS.bind mret exc_ret];
    intros H; inversion H; subst; cbn [pti_days pti_startDate]; now split.
Qed.

(** C10, as stated for every input that passes validation, fails when the
    four days leave the years of four digits: the request for Chiang Mai from
    9999-12-30 without a day count passes validation, and its plan, made
    without credentials with every request rejected, has a date range that
    ends on +010000-01, which is no date, and its last two itinerary entries
    are dated +010000-01 as well. *)
Lemma plan_past_year_9999_ends_on_no_date :
  let raw := Mcp.JObject [("destination", Mcp.JString "Chiang Mai");
                          ("startDate", Mcp.JString "9999-12-30")] in
  let input := {| pti_origin := None; pti_destination := "Chiang Mai";
                  pti_startDate := "9999-12-30"; pti_days := Some 4;
                  pti_budgetUSD := None; pti_interests := None |} in
  Mcp.getField raw "days" = Mcp.JUndefined
  /\ Mcp.validatePlanTripInput raw = JS.Return input
  /\ match fst (Mcp.planTrip expandedYearHost noCredentials (Cache.new None) input
                  rejecting) with
     | JS.Return plan => Some (td_end (ptr_dates plan), map it_date (ptr_itinerary plan))
     | JS.Raise _ => None
     end
     = Some ("+010000-01", ["9999-12-30"; "9999-12-31"; "+010000-01"; "+010000-01"]).
Proof. repeat split; vm_compute; reflexivity. Qed.

(** C10, amended: an input without the field [days] that passes validation
    is validated with 4 days, and every plan that [planTrip] returns for it,
    on whatever host, configuration, cache and network answers, is a plan for
    exactly four days: its day count is 4, its range starts on the start date
    and ends on what [addDays] makes of the start date and 3, and its
    itinerary has four entries numbered 1 to 4, entry [i] dated by [addDays]
    of the start date and [i]; when the start date is a date of the calendar
    whose next three days stay within four-digit years, these dates are the
    start date and the three days that follow it, and the range ends three
    days after the start date.  For such a start date [planTrip] does return
    a plan when it runs on a fresh cache without credentials for the flight
    and attraction services and the forecast request fails. *)
Theorem plan_defaults_to_four_days :
  forall (raw : Mcp.JSValue) (input : PlanTripInput),
    Mcp.getField raw "days" = Mcp.JUndefined ->
    Mcp.validatePlanTripInput raw = JS.Return input ->
    let start := pti_startDate input in
    pti_days input = Some 4
    /\ (forall (host : Mcp.Host) (config : ProviderConfig)
               (cache0 : Cache.TTLCache CacheValue) (up : Mcp.Upstreams)
               (plan : PlanTripResult) (cache' : Cache.TTLCache CacheValue),
          Mcp.planTrip host config cache0 input up = (JS.Return plan, cache') ->
          td_days (ptr_dates plan) = 4
          /\ td_start (ptr_dates plan) = start
          /\ Mcp.addDays start 3 = JS.Return (td_end (ptr_dates plan))
          /\ List.length (ptr_itinerary plan) = 4%nat
          /\ map it_day (ptr_itinerary plan) = [1; 2; 3; 4]
          /\ (forall (i : nat) (e : ItineraryDay),
                nth_error (ptr_itinerary plan) i = Some e ->
                Mcp.addDays start (Z.of_nat i) = JS.Return (it_date e))
          /\ (tripInCalendar start 4 = true ->
              td_end (ptr_dates plan) = dateAfter start 3
              /\ map it_date (ptr_itinerary plan) = map (dateAfter start) [0; 1; 2; 3]%nat
              /\ dateAfter start 0 = start))
    /\ (forall (host : Mcp.Host) (config : ProviderConfig) (ttl : option Z)
               (up : Mcp.Upstreams),
          tripInCalendar start 4 = true ->
          amadeus config = None -> openTripMap config = None ->
          liveWeatherFails (Mcp.up_weather up) = true ->
          exists (plan : PlanTripResult) (cache' : Cache.TTLCache CacheValue),
            Mcp.planTrip host config (Cache.new ttl) input up = (JS.Return plan, cache')).
Proof.
  intros raw input D V start.
  destruct (validatePlanTripInput_default raw input D V) as [Days _].
  assert (N : JS.nullish (pti_days input) 4 = 4) by (now rewrite Days).
  split; [exact Days|]. split.
  - intros host config cache0 up plan cache' E.
    apply planTrip_returns_run in E as (r & html & R & -> & _).
    pose proof (planOfRun_days config (Mcp.createProviderContext cache0) input up r)
      as Shape.
    pose proof (runOf_calendar config (Mcp.createProviderContext cache0) input up r)
      as Dates.
    cbv zeta in Shape, Dates. rewrite N in *.
    destruct (Shape R) as (E2 & L & Dy & Dt). fold start in E2, Dt.
    unfold Mcp.withHtml, planOfRun.
    cbn [ptr_dates ptr_itinerary td_days td_start td_end].
    split; [reflexivity|]. split; [reflexivity|]. split; [exact E2|].
    split; [exact L|]. split; [exact Dy|]. split; [exact Dt|].
    intros H.
    destruct (Dates R ltac:(lia) H) as [Ee Ei]. fold start in Ee, Ei.
    split; [exact Ee|]. split; [|now apply (dateAfter_zero start 4)].
    rewrite Ei. reflexivity.
  - intros host config ttl up H Ka Ko Fw.
    destruct (planTrip_without_live_source host config ttl input up)
      as (r & html & _ & E & _); try assumption.
    + rewrite N. lia.
    + now rewrite N.
    + eauto.
Qed.

(** C10 on the request for Chiang Mai from 2025-11-20 without a day count,
    without credentials and with every request rejected. *)
Lemma plan_defaults_to_four_days_witness :
  let raw := Mcp.JObject [("destination", Mcp.JString "Chiang Mai");
                          ("startDate", Mcp.JString "2025-11-20")] in
  exists input plan cache',
    Mcp.validatePlanTripInput raw = JS.Return input
    /\ Mcp.planTrip isoHost noCredentials (Cache.new None) input rejecting
       = (JS.Return plan, cache')
    /\ List.length (ptr_itinerary plan) = 4%nat
    /\ td_end (ptr_dates plan) = "2025-11-23".
Proof.
  intros raw.
  destruct (plan_defaults_to_four_days raw
              {| pti_origin := None; pti_destination := "Chiang Mai";
                 pti_startDate := "2025-11-20"; pti_days := Some 4;
                 pti_budgetUSD := None; pti_interests := None |}
              eq_refl eq_refl)
    as (_ & Shape & Made).
  destruct (Made isoHost noCredentials None rejecting eq_refl eq_refl eq_refl eq_refl)
    as (plan & cache' & E).
  destruct (Shape isoHost noCredentials (Cache.new None) rejecting plan cache' E)
    as (_ & _ & _ & L & _ & _ & C).
  destruct (C eq_refl) as (De & _).
  eexists. exists plan, cache'. split; [reflexivity|]. split; [exact E|].
  split; [exact L|exact De].
Defined.


(** * Whole plans *)

(** X18: what every plan looks like, and when a plan is certain.  A plan
    that [planTrip] returns, on whatever host, configuration, cache and
    network answers, covers exactly the requested days: its range starts on
    the start date and ends on what [addDays] makes of the start date and the
    day count less one, the itinerary has one entry per day, numbered from 1,
    entry [i] dated by [addDays] of the start date and [i], there is a flight
    section and at most three stays, and the source list is not empty; for a
    day count of at least 1 and a start date of the calendar whose trip stays
    within four-digit years, the dates are the consecutive days from the
    start date.  For such a request [planTrip] does return a plan, and leaves
    a cache that keeps the key discipline, when it runs on a fresh cache
    without credentials for the flight and attraction services and the
    forecast request fails. *)
Theorem plan_trip_succeeds :
  forall (input : PlanTripInput),
    let days := JS.nullish (pti_days input) 4 in
    let start := pti_startDate input in
    (forall (host : Mcp.Host) (config : ProviderConfig)
            (cache0 : Cache.TTLCache CacheValue) (up : Mcp.Upstreams)
            (plan : PlanTripResult) (cache' : Cache.TTLCache CacheValue),
        Mcp.planTrip host config cache0 input up = (JS.Return plan, cache') ->
        td_days (ptr_dates plan) = days
        /\ td_start (ptr_dates plan) = start
        /\ Mcp.addDays start (days - 1) = JS.Return (td_end (ptr_dates plan))
        /\ List.length (ptr_itinerary plan) = Z.to_nat days
        /\ map it_day (ptr_itinerary plan)
           = map (fun i => Z.of_nat i + 1) (seq 0 (Z.to_nat days))
        /\ (forall (i : nat) (e : ItineraryDay),
              nth_error (ptr_itinerary plan) i = Some e ->
              Mcp.addDays start (Z.of_nat i) = JS.Return (it_date e))
        /\ (exists flights, ptr_flights plan = Some flights)
        /\ (List.length (ptr_stays plan) <= 3)%nat
        /\ providers (ptr_meta plan) <> []
        /\ (1 <= days -> tripInCalendar start days = true ->
            td_end (ptr_dates plan) = dateAfter start (Z.to_nat (days - 1))
            /\ map it_date (ptr_itinerary plan)
               = map (dateAfter start) (seq 0 (Z.to_nat days))))
    /\ (forall (host : Mcp.Host) (config : ProviderConfig) (ttl : option Z)
               (up : Mcp.Upstreams),
          1 <= days -> tripInCalendar start days = true ->
          amadeus config = None -> openTripMap config = None ->
          liveWeatherFails (Mcp.up_weather up) = true ->
          exists (plan : PlanTripResult) (cache' : Cache.TTLCache CacheValue),
            Mcp.planTrip host config (Cache.new ttl) input up = (JS.Return plan, cache')
            /\ WellKeyed cache').
Proof.
  intros input days start. split.
  - intros host config cache0 up plan cache' E.
    apply planTrip_returns_run in E as (r & html & R & -> & _). fold days in R.
    destruct (planOfRun_days config _ input up r R) as (E2 & L & Dy & Dt).
    fold days start in E2, L, Dy, Dt.
    unfold Mcp.withHtml, planOfRun.
    cbn [ptr_dates ptr_itinerary ptr_flights ptr_stays ptr_meta td_days td_start td_end].
    split; [reflexivity|]. split; [reflexivity|]. split; [exact E2|].
    split; [exact L|]. split; [exact Dy|]. split; [exact Dt|].
    split; [eauto|]. split; [apply selectStayTiers_length|].
    split; [apply providersFromContext_nonempty|].
    intros Hd H.
    destruct (runOf_calendar config _ input up r R Hd H) as [Ee Ei].
    fold days start in Ee, Ei.
    split; [exact Ee|]. rewrite Ei, map_map. reflexivity.
  - intros host config ttl up Hd H Ka Ko Fw.
    destruct (planTrip_without_live_source host config ttl input up Hd H Ka Ko Fw)
      as (r & html & _ & E & W).
    eauto.
Qed.

(** X18 on a week in Chiang Mai with every request rejected. *)
Lemma plan_trip_succeeds_witness :
  let input := {| pti_origin := Some "BKK"; pti_destination := "Chiang Mai";
                  pti_startDate := "2025-12-29"; pti_days := Some 7;
                  pti_budgetUSD := None; pti_interests := Some ["food"] |} in
  exists plan cache',
    Mcp.planTrip isoHost noCredentials (Cache.new None) input rejecting
    = (JS.Return plan, cache')
    /\ td_end (ptr_dates plan) = "2026-01-04"
    /\ List.length (ptr_itinerary plan) = 7%nat.
Proof.
  intros input.
  destruct (plan_trip_succeeds input) as (Shape & Made).
  destruct (Made isoHost noCredentials None rejecting) as (plan & cache' & E & _).
  - simpl. lia.
  - reflexivity.
  - reflexivity.
  - reflexivity.
  - reflexivity.
  - destruct (Shape isoHost noCredentials (Cache.new None) rejecting plan cache' E)
      as (_ & _ & _ & L & _ & _ & _ & _ & _ & C).
    destruct C as (De & _); [simpl; lia|reflexivity|].
    exists plan, cache'. split; [exact E|]. split; [exact De|exact L].
Defined.

(** ** The first plan on an empty cache *)

(** X19: the first plan on an empty cache has ordered costs.  For a day count
    of at least 1, every plan that [planTrip] returns on a cache without
    entries has the budget, mid and premium picks of the mock list as its
    stays, in this order, with totals of 35, 86 and 204 per night, and a cost
    estimate with low <= mid <= high, whatever the flights are.  Such a plan
    is returned when, moreover, the start date is a date of the calendar
    whose trip stays within four-digit years, there are no credentials for
    the flight and attraction services, and the forecast request fails. *)
Theorem first_plan_has_ordered_costs :
  forall (input : PlanTripInput) (host : Mcp.Host) (config : ProviderConfig)
         (ttl : option Z) (up : Mcp.Upstreams),
    let days := JS.nullish (pti_days input) 4 in
    1 <= days ->
    (forall (plan : PlanTripResult) (cache' : Cache.TTLCache CacheValue),
        Mcp.planTrip host config (Cache.new ttl) input up = (JS.Return plan, cache') ->
        map stay_type (ptr_stays plan) = [budget; mid; premium]
        /\ map totalUSD (ptr_stays plan) = [35 * days; 86 * days; 204 * days]
        /\ lowUSD (ptr_costEstimate plan) <= midUSD (ptr_costEstimate plan)
           <= highUSD (ptr_costEstimate plan))
    /\ (tripInCalendar (pti_startDate input) days = true ->
        amadeus config = None -> openTripMap config = None ->
        liveWeatherFails (Mcp.up_weather up) = true ->
        exists (plan : PlanTripResult) (cache' : Cache.TTLCache CacheValue),
          Mcp.planTrip host config (Cache.new ttl) input up = (JS.Return plan, cache')).
Proof.
  intros input host config ttl up days Hd. split.
  - intros plan cache' E.
    apply planTrip_returns_run in E as (r & html & R & -> & _). fold days in R.
    pose proof (fresh_run_stays config ttl input up days r R) as Es.
    unfold Mcp.withHtml, planOfRun. cbn [ptr_stays ptr_costEstimate].
    rewrite Es. cbn [sr_options].
    split; [reflexivity|]. split; [reflexivity|].
    pose proof (computeCostEstimate_totals days
                  (Mcp.selectStayTiers
                     (Stays.withPricing Stays.MOCK_STAYS (stayQuery input (run_dest r) days)))
                  (Some (run_flights r)) (pti_budgetUSD input)
                  (JS.truthyOpt (pti_origin input)) (notesOfRun input r)) as T.
    pose proof (flightComponents_ordered (Some (run_flights r))
                  (JS.truthyOpt (pti_origin input))) as Fo.
    pose proof (mock_selection_ordered (stayQuery input (run_dest r) days)
                  ltac:(simpl; lia)) as So.
    cbv zeta in T.
    destruct (Mcp.flightComponents (Some (run_flights r)) (JS.truthyOpt (pti_origin input)))
      as [[fl fm] fh].
    destruct (Mcp.stayComponents
                (Mcp.selectStayTiers
                   (Stays.withPricing Stays.MOCK_STAYS (stayQuery input (run_dest r) days))))
      as [[sb sm] sp].
    fold days. destruct T as (-> & -> & ->). lia.
  - intros H Ka Ko Fw.
    destruct (planTrip_without_live_source host config ttl input up Hd H Ka Ko Fw)
      as (r & html & _ & E & _).
    eauto.
Qed.

(** X19 on a first request with three mock flights. *)
Lemma first_plan_has_ordered_costs_witness :
  let input := {| pti_origin := Some "BKK"; pti_destination := "Chiang Mai";
                  pti_startDate := "2025-11-20"; pti_days := Some 2;
                  pti_budgetUSD := None; pti_interests := None |} in
  exists plan cache',
    Mcp.planTrip isoHost noCredentials (Cache.new None) input rejecting
    = (JS.Return plan, cache')
    /\ map totalUSD (ptr_stays plan) = [70; 172; 408]
    /\ lowUSD (ptr_costEstimate plan) <= midUSD (ptr_costEstimate plan)
       <= highUSD (ptr_costEstimate plan).
Proof.
  intros input.
  destruct (first_plan_has_ordered_costs input isoHost noCredentials None rejecting)
    as (Costs & Made).
  - simpl. lia.
  - destruct Made as (plan & cache' & E); try reflexivity.
    destruct (Costs plan cache' E) as (_ & T & C).
    exists plan, cache'. split; [exact E|]. split; [exact T|exact C].
Defined.

(** X20: without an origin no flight is looked for.  For an input without
    an origin the whole call, result and cache, is the same whatever the
    flight service would have answered; and every plan that [planTrip]
    returns has a flight section without options and with the note "No origin
    provided.", and the flight part of each cost figure is 0, so that each
    figure is the stay total of its tier plus 45, 75 or 130 per day. *)
Theorem plan_without_origin_has_no_flights :
  forall (input : PlanTripInput) (host : Mcp.Host) (config : ProviderConfig)
         (cache0 : Cache.TTLCache CacheValue) (up : Mcp.Upstreams),
    let days := JS.nullish (pti_days input) 4 in
    JS.truthyOpt (pti_origin input) = false ->
    (forall tok srch,
        Mcp.planTrip host config cache0 input (withFlightAnswers up tok srch)
        = Mcp.planTrip host config cache0 input up)
    /\ (forall (plan : PlanTripResult) (cache' : Cache.TTLCache CacheValue),
          Mcp.planTrip host config cache0 input up = (JS.Return plan, cache') ->
          ptr_flights plan = Some noOriginFlights
          /\ let '(sb, sm, sp) := Mcp.stayComponents (ptr_stays plan) in
             lowUSD (ptr_costEstimate plan) = sb + 45 * days
             /\ midUSD (ptr_costEstimate plan) = sm + 75 * days
             /\ highUSD (ptr_costEstimate plan) = sp + 130 * days).
Proof.
  intros input host config cache0 up days O. split.
  - intros tok srch. unfold Mcp.planTrip, Mcp.planTripObject. rewrite O. reflexivity.
  - intros plan cache' E.
    apply planTrip_returns_run in E as (r & html & R & -> & _). fold days in R.
    destruct R as (_ & _ & _ & E4 & _). rewrite O in E4. destruct E4 as (Ef & _).
    unfold Mcp.withHtml, planOfRun. cbn [ptr_flights ptr_stays ptr_costEstimate].
    rewrite Ef. split; [reflexivity|].
    pose proof (computeCostEstimate_totals days
                  (Mcp.selectStayTiers (sr_options (run_stays r)))
                  (Some noOriginFlights) (pti_budgetUSD input)
                  (JS.truthyOpt (pti_origin input)) (notesOfRun input r)) as T.
    cbv zeta in T. rewrite O in T.
    change (Mcp.flightComponents (Some noOriginFlights) false) with (0, 0, 0) in T.
    rewrite O. fold days.
    destruct (Mcp.stayComponents (Mcp.selectStayTiers (sr_options (run_stays r))))
      as [[sb sm] sp].
    destruct T as (-> & -> & ->). repeat split; lia.
Qed.

(** X20 on a request for Chiang Mai without an origin, without credentials
    and with every request rejected. *)
Lemma plan_without_origin_has_no_flights_witness :
  let input := {| pti_origin := None; pti_destination := "Chiang Mai";
                  pti_startDate := "2025-11-20"; pti_days := Some 4;
                  pti_budgetUSD := None; pti_interests := None |} in
  exists plan cache',
    Mcp.planTrip isoHost noCredentials (Cache.new None) input rejecting
    = (JS.Return plan, cache')
    /\ ptr_flights plan = Some noOriginFlights.
Proof.
  intros input.
  destruct (planTrip_without_live_source isoHost noCredentials None input rejecting)
    as (r & html & _ & E & _); try reflexivity.
  - simpl. lia.
  - destruct (plan_without_origin_has_no_flights input isoHost noCredentials
                (Cache.new None) rejecting eq_refl) as (_ & P).
    destruct (P _ _ E) as (F & _).
    eexists. eexists. split; [exact E|exact F].
Defined.


(** * Dates that cannot be read *)




(** * Prices of the stays *)








(** * The notes of the cost estimate *)

(** X25: what the budget does to the estimate.  The budget never changes
    the three figures.  The notes always begin with the daily activity
    budgets; a budget that is not zero adds, right after, the target budget
    and the verdict, "within" exactly when the mid-range figure does not
    exceed the budget; a budget of zero, which the validation accepts, is
    treated like no budget at all. *)
Theorem budget_only_adds_notes :
  forall (days : Z) (stays : list StayOption) (flights : option FlightsResult)
         (budget : option Q) (originProvided : bool) (notes : Mcp.CostNotes),
    let e := Mcp.computeCostEstimate days stays flights budget originProvided notes in
    let plain := Mcp.computeCostEstimate days stays flights None originProvided notes in
    lowUSD e = lowUSD plain /\ midUSD e = midUSD plain /\ highUSD e = highUSD plain
    /\ exists others,
         ce_notes plain = dailyBudgetNote :: others
         /\ ce_notes e
            = dailyBudgetNote
                :: match budget with
                   | Some b => if Qeq_bool b 0 then [] else budgetNotes b (midUSD e)
                   | None => []
                   end ++ others.
Proof.
  intros days stays flights budget originProvided notes e plain.
  unfold e, plain, Mcp.computeCostEstimate.
  generalize (Mcp.flightComponents flights originProvided). intros [[fl fm] fh].
  generalize (Mcp.stayComponents stays). intros [[sb sm] sp].
  cbn [lowUSD midUSD highUSD ce_notes]. repeat split.
  change (JS.Z_toString 45) with "45". change (JS.Z_toString 75) with "75".
  change (JS.Z_toString 130) with "130".
  change ("Daily activity budgets: $" ++ "45" ++ "/" ++ "75" ++ "/" ++ "130"
          ++ " (low/mid/high).")%string with dailyBudgetNote.
  unfold budgetNotes.
  destruct notes as [nf ns np nw]. cbn [Mcp.cn_flights Mcp.cn_stays Mcp.cn_places
                                         Mcp.cn_weather].
  destruct nf as [nf|]; [destruct (JS.truthy nf)|];
    (destruct ns as [ns|]; [destruct (JS.truthy ns)|]);
    (destruct np as [np|]; [destruct (JS.truthy np)|]);
    (destruct nw as [nw|]; [destruct (JS.truthy nw)|]);
    (eexists; split; [reflexivity|]);
    (destruct budget as [b|]; [destruct (Qeq_bool b 0)|]); try reflexivity;
    destruct (Qle_bool (inject_Z (Mcp.Math_round (fm + sm + 75 * days))) b); reflexivity.
Qed.

(** * The configuration read from the environment *)

Lemma truthy_nonempty s : JS.truthy s = true <-> s <> EmptyString.
Proof.
  unfold JS.truthy. rewrite negb_true_iff. split.
  - intros H ->. discriminate H.
  - intros H. apply String.eqb_neq. exact H.
Qed.

(** X26: the credentials come from the environment, and an empty one counts
    as missing.  The resolved configuration has Amadeus credentials exactly
    when both variables are set and not empty, and then they are these two
    strings; without them no answer of the network makes the flight search
    go live.  It has an OpenTripMap key exactly when that variable is set and
    not empty; without it the destination of a query that misses the cache
    is the mock destination, whatever the network answers. *)
Theorem configuration_from_environment :
  forall env : gmap string string,
    let config := Mcp.resolveProviderConfigFromEnv env in
    (forall credentials,
        amadeus config = Some credentials
        <-> env !! "AMADEUS_CLIENT_ID" = Some (clientId credentials)
            /\ env !! "AMADEUS_CLIENT_SECRET" = Some (clientSecret credentials)
            /\ clientId credentials <> EmptyString
            /\ clientSecret credentials <> EmptyString)
    /\ (amadeus config = None ->
        forall params tok srch, Flights.fetchAmadeusFlights params config tok srch = None)
    /\ (forall key,
           openTripMap config = Some key
           <-> env !! "OPENTRIPMAP_API_KEY" = Some key /\ key <> EmptyString)
    /\ (openTripMap config = None ->
        forall city context now upstream,
          fst (Ctx.get context now (Places.destKey city)) = None ->
          fst (Places.resolveDestination city context config now upstream)
          = JS.Return Places.MOCK_DESTINATION).
Proof.
  intros env config. unfold config, Mcp.resolveProviderConfigFromEnv.
  cbn [amadeus openTripMap]. split; [|split; [|split]].
  - intros [id secret]. cbn [clientId clientSecret].
    destruct (env !! "AMADEUS_CLIENT_ID") as [i|]; [|split; [discriminate|intros [H _]; discriminate H]].
    destruct (env !! "AMADEUS_CLIENT_SECRET") as [s|];
      [|split; [discriminate|intros (_ & H & _); discriminate H]].
    destruct (JS.truthy i) eqn:Ti; destruct (JS.truthy s) eqn:Ts; cbn [andb]; split;
      try discriminate;
      try (intros H; inversion H; subst; repeat split; now apply truthy_nonempty);
      try (intros (Hi & Hs & Ni & Ns); inversion Hi; inversion Hs; subst; reflexivity);
      intros (Hi & Hs & Ni & Ns); inversion Hi; inversion Hs; subst;
      apply truthy_nonempty in Ni, Ns; congruence.
  - intros H params tok srch. unfold Flights.fetchAmadeusFlights. cbn [amadeus].
    now rewrite H.
  - intros key. destruct (env !! "OPENTRIPMAP_API_KEY") as [k|];
      [|split; [discriminate|intros [H _]; discriminate H]].
    destruct (JS.truthy k) eqn:Tk; split.
    + intros H. inversion H; subst. split; [reflexivity|now apply truthy_nonempty].
    + intros [H _]. exact H.
    + discriminate.
    + intros [H N]. inversion H; subst. apply truthy_nonempty in N. congruence.
  - intros H city context now upstream M. unfold Places.resolveDestination.
    destruct (Ctx_get_none context now _ M) as (c1 & -> & _ & _).
    cbn [openTripMap]. rewrite H. reflexivity.
Qed.

(** X26 on an environment with an empty Amadeus secret. *)
Lemma configuration_from_environment_witness :
  let env : gmap string string :=
    <["AMADEUS_CLIENT_ID" := "id"]> (<["AMADEUS_CLIENT_SECRET" := ""]> ∅) in
  amadeus (Mcp.resolveProviderConfigFromEnv env) = None
  /\ forall params tok srch,
       Flights.fetchAmadeusFlights params (Mcp.resolveProviderConfigFromEnv env) tok srch
       = None.
Proof.
  intros env. split; [reflexivity|].
  destruct (configuration_from_environment env) as (_ & F & _).
  apply F. reflexivity.
Defined.

(** * What the attraction and weather providers return on a miss *)

Lemma Set_add_In_here tag s : In tag (JS.Set_add tag s).
Proof. apply Set_add_In. now right. Qed.

Lemma Set_add_keeps tag t s : In t s -> In t (JS.Set_add tag s).
Proof. intros H. apply Set_add_In. now left. Qed.

Lemma firstn_Forall {A : Type} (P : A -> Prop) n (l : list A) :
  List.Forall P l -> List.Forall P (firstn n l).
Proof.
  intros H. revert n. induction H as [|x l Hx Hl IH]; intros [|n]; cbn [firstn];
    constructor; auto.
Qed.

Lemma slice0_Forall {A : Type} (P : A -> Prop) (l : list A) (n : Z) :
  List.Forall P l -> List.Forall P (JS.slice0 l n).
Proof. intros H. unfold JS.slice0. destruct (n <? 0); now apply firstn_Forall. Qed.

Lemma liveOptions_named params json :
  List.Forall (fun o => place_name o <> EmptyString) (liveOptions params json).
Proof.
  unfold liveOptions. apply slice0_Forall. apply List.Forall_forall. intros o Ho.
  apply in_map_iff in Ho as (feature & <- & Hf). apply filter_In in Hf as [_ T].
  unfold Places.featureToPlace. destruct (Places.coordinates feature) as [lon lat].
  cbn [place_name]. now apply truthy_nonempty.
Qed.

Lemma useMockPlaces_result params note n now c p c' :
  Places.useMockPlaces params note n now c = (JS.Return p, c') ->
  pr_note p = Some note /\ pr_options p = JS.slice0 Places.MOCK_PLACES n
  /\ In "opentripmap:mock" (providersUsed c').
Proof.
  unfold Places.useMockPlaces. intros H. inversion H; subst.
  cbn [pr_note pr_options Ctx.set Ctx.add providersUsed].
  repeat split. apply Set_add_In_here.
Qed.

Lemma nearbyAttractionsProvider_miss params context context' config now geo upstream p :
  fst (Ctx.get context now (Places.cacheKey params)) = None ->
  Places.nearbyAttractionsProvider params context config now geo upstream
  = (JS.Return p, context') ->
  (pr_note p = None
   /\ (exists status json,
          upstream = Response true status (Some json)
          /\ pr_options p = liveOptions params json)
   /\ pr_options p <> []
   /\ In "opentripmap" (providersUsed context'))
  \/ ((exists note, pr_note p = Some note /\ note <> EmptyString)
      /\ pr_options p = JS.slice0 Places.MOCK_PLACES (JS.nullish (limit params) 12)
      /\ In "opentripmap:mock" (providersUsed context')).
Proof.
  intros M. unfold Places.nearbyAttractionsProvider.
  destruct (Ctx_get_none context now _ M) as (c1 & -> & _ & _).
  assert (U : forall note c, note <> EmptyString ->
                Places.useMockPlaces params note (JS.nullish (limit params) 12) now c
                = (JS.Return p, context') ->
                (exists note, pr_note p = Some note /\ note <> EmptyString)
                /\ pr_options p
                   = JS.slice0 Places.MOCK_PLACES (JS.nullish (limit params) 12)
                /\ In "opentripmap:mock" (providersUsed context')).
  { intros note c N H. apply useMockPlaces_result in H as (A & B & C). eauto. }
  destruct (negb (JS.truthyOpt (openTripMap config)));
    [intros H; right; refine (U _ _ _ H); vm_compute; discriminate|].
  destruct (Places.resolveDestination (asp_destination params) c1 config now geo)
    as [[dest|e] c2];
    [|cbn [Ctx.tryCatch]; intros H; right; refine (U _ _ _ H); vm_compute; discriminate].
  destruct upstream as [|ok st body];
    [cbn [Ctx.tryCatch]; intros H; right; refine (U _ _ _ H); vm_compute; discriminate|].
  destruct ok; cbn [negb].
  2:{ unfold Places.useMockPlaces at 1. cbn [Ctx.tryCatch].
      fold (Places.useMockPlaces params Places.noteFailed (JS.nullish (limit params) 12)
              now c2).
      intros H; right; refine (U _ _ _ H); vm_compute; discriminate. }
  destruct body as [json|];
    [|cbn [Ctx.tryCatch]; intros H; right; refine (U _ _ _ H); vm_compute; discriminate].
  fold (liveOptions params json).
  destruct (Nat.eqb (List.length (liveOptions params json)) 0) eqn:L.
  - unfold Places.useMockPlaces at 1. cbn [Ctx.tryCatch].
    fold (Places.useMockPlaces params Places.noteEmpty (JS.nullish (limit params) 12)
            now c2).
    intros H; right; refine (U _ _ _ H); vm_compute; discriminate.
  - cbn [Ctx.tryCatch]. intros H. inversion H; subst. left.
    cbn [pr_note pr_options Ctx.set Ctx.add providersUsed].
    split; [reflexivity|]. split; [eauto|]. split.
    + intros E. rewrite E in L. discriminate L.
    + apply Set_add_In_here.
Qed.

(** X27: what the attraction provider returns on a miss.  With a limit of
    at least 1 (or none, which means 12), a call that misses the cache and
    returns gives at least one place and at most the limit.  Either the
    places are live: then there is no note, every place has a name, they are
    the first named features of the answer in its order, and the tag is
    [opentripmap]; or they are the first mock places, with a note that says
    why, and the tag is [opentripmap:mock]. *)
Theorem attraction_provider_result_on_miss :
  forall (params : AttractionSearchParams) (context context' : ProviderContext)
         (config : ProviderConfig) (now : Z) (geo : FetchOutcome DestinationInfo)
         (upstream : FetchOutcome Places.RadiusResponse) (p : PlacesResult),
    (forall n, limit params = Some n -> 1 <= n) ->
    fst (Ctx.get context now (Places.cacheKey params)) = None ->
    Places.nearbyAttractionsProvider params context config now geo upstream
    = (JS.Return p, context') ->
    (1 <= List.length (pr_options p) <= Z.to_nat (JS.nullish (limit params) 12%Z))%nat
    /\ ((pr_note p = None
         /\ List.Forall (fun o => place_name o <> EmptyString) (pr_options p)
         /\ (exists status json,
                upstream = Response true status (Some json)
                /\ pr_options p = liveOptions params json)
         /\ In "opentripmap" (providersUsed context'))
        \/ ((exists note, pr_note p = Some note /\ note <> EmptyString)
            /\ pr_options p
               = firstn (Z.to_nat (JS.nullish (limit params) 12)) Places.MOCK_PLACES
            /\ In "opentripmap:mock" (providersUsed context')))
    /\ Cache.store (cache context') !! Places.cacheKey params
       = Some (entryFor (cache context) now (VPlaces p)).
Proof.
  intros params context context' config now geo upstream p Hl M R.
  assert (N : 1 <= JS.nullish (limit params) 12).
  { destruct (limit params) as [n|]; cbn [JS.nullish]; [now apply Hl|lia]. }
  assert (S0 : forall (A : Type) (l : list A),
             JS.slice0 l (JS.nullish (limit params) 12)
             = firstn (Z.to_nat (JS.nullish (limit params) 12)) l).
  { intros A l. unfold JS.slice0.
    destruct (JS.nullish (limit params) 12 <? 0) eqn:E; [apply Z.ltb_lt in E; lia|].
    reflexivity. }
  split; [|split; [|exact (nearbyAttractionsProvider_stores _ _ _ _ _ _ _ _ M R)]].
  - destruct (nearbyAttractionsProvider_miss _ _ _ _ _ _ _ _ M R)
      as [(_ & (st & json & _ & E) & Ne & _)|(_ & E & _)].
    + split.
      * destruct (pr_options p); [contradiction|simpl; lia].
      * rewrite E. unfold liveOptions. rewrite S0, length_firstn. lia.
    + rewrite E, S0, length_firstn.
      change (List.length Places.MOCK_PLACES) with 12%nat. lia.
  - destruct (nearbyAttractionsProvider_miss _ _ _ _ _ _ _ _ M R)
      as [(A & (st & json & U & E) & Ne & T)|(A & E & T)].
    + left. split; [exact A|]. split; [rewrite E; apply liveOptions_named|].
      split; [eauto|exact T].
    + right. split; [exact A|]. split; [now rewrite E, S0|exact T].
Qed.

(** X27 on a query without a key on an empty cache. *)
Lemma attraction_provider_result_on_miss_witness :
  let params := {| asp_destination := "Chiang Mai"; tags := None; limit := Some 5 |} in
  let config := {| amadeus := None; skyscanner := None; booking := None;
                   openTripMap := None |} in
  exists p context',
    Places.nearbyAttractionsProvider params (Mcp.createProviderContext (Cache.new None))
      config 0 FetchRejected FetchRejected = (JS.Return p, context')
    /\ (1 <= List.length (pr_options p) <= 5)%nat.
Proof.
  intros params config. eexists. eexists. split; [reflexivity|].
  eapply (attraction_provider_result_on_miss params
            (Mcp.createProviderContext (Cache.new None)) _ config 0 FetchRejected
            FetchRejected).
  - intros n H. inversion H. lia.
  - reflexivity.
  - reflexivity.
Defined.

Lemma liveDays_dates d : map wd_date (Weather.liveDays d) = Weather.om_time d.
Proof.
  unfold Weather.liveDays. rewrite map_map. generalize 0%nat.
  induction (Weather.om_time d) as [|t ts IH]; intros k; [reflexivity|].
  cbn [List.length seq combine map wd_date]. f_equal. apply IH.
Qed.

Lemma liveDays_length d :
  List.length (Weather.liveDays d) = List.length (Weather.om_time d).
Proof.
  transitivity (List.length (map wd_date (Weather.liveDays d))).
  - now rewrite length_map.
  - now rewrite liveDays_dates.
Qed.

(** X28: what the weather provider returns on a miss.  A call that misses
    the cache and returns gives either the live forecast, which has one
    record for each date that the service sent, dated as the service dated
    them and however many were asked for, under the tag [open-meteo]; or the
    mock forecast of the query, under the tag [weather:mock].  In both cases
    the forecast is now in the cache under the key of the query. *)
Theorem weather_provider_result_on_miss :
  forall (params : WeatherQueryParams) (context context' : ProviderContext)
         (config : ProviderConfig) (now : Z)
         (upstream : FetchOutcome Weather.OpenMeteoResponse) (w : WeatherSnapshot),
    fst (Ctx.get context now (Weather.cacheKey params)) = None ->
    Weather.weatherProvider params context config now upstream = (JS.Return w, context') ->
    ((exists status d,
         upstream = Response true status (Some {| Weather.om_daily := Some d |})
         /\ map wd_date (daily w) = Weather.om_time d
         /\ daily w <> []
         /\ providersUsed context' = JS.Set_add "open-meteo" (providersUsed context))
     \/ (Weather.buildMockWeather params = JS.Return w
         /\ providersUsed context' = JS.Set_add "weather:mock" (providersUsed context)))
    /\ Cache.store (cache context') !! Weather.cacheKey params
       = Some (entryFor (cache context) now (VWeather w)).
Proof.
  intros params context context' config now upstream w M R.
  split; [|exact (weatherProvider_stores _ _ _ _ _ _ _ M R)].
  revert R. unfold Weather.weatherProvider.
  destruct (Ctx_get_none context now _ M) as (c1 & -> & P & _).
  assert (U : forall c, providersUsed c = providersUsed context ->
                Weather.useMock params now c = (JS.Return w, context') ->
                Weather.buildMockWeather params = JS.Return w
                /\ providersUsed context'
                   = JS.Set_add "weather:mock" (providersUsed context)).
  { intros c Pc. unfold Weather.useMock.
    destruct (Weather.buildMockWeather params) as [mock|]; [|discriminate].
    intros H. inversion H; subst. cbn [Ctx.set Ctx.add providersUsed]. now rewrite Pc. }
  assert (U2 : Ctx.tryCatch (Weather.useMock params now c1)
                 (fun c => Weather.useMock params now c) = (JS.Return w, context') ->
               Weather.buildMockWeather params = JS.Return w
               /\ providersUsed context'
                  = JS.Set_add "weather:mock" (providersUsed context)).
  { rewrite tryCatch_useMock. now apply U. }
  destruct (Weather.addDays (wq_startDate params) (wq_days params - 1));
    [|cbn [Ctx.tryCatch]; intros H; right; now apply (U c1)].
  destruct upstream as [|ok st body];
    [cbn [Ctx.tryCatch]; intros H; right; now apply (U c1)|].
  destruct ok; cbn [negb]; [|intros H; right; now apply U2].
  destruct body as [data|]; [|cbn [Ctx.tryCatch]; intros H; right; now apply (U c1)].
  destruct data as [dl]. cbn [Weather.om_daily].
  destruct dl as [d|]; [|intros H; right; now apply U2].
  destruct (Nat.eqb (List.length (Weather.om_time d)) 0) eqn:L;
    [intros H; right; now apply U2|].
  cbn [Ctx.tryCatch]. intros H. inversion H; subst. left. exists st, d.
  cbn [daily Ctx.set Ctx.add providersUsed]. rewrite P.
  split; [reflexivity|]. split; [|split; [|reflexivity]].
  - apply liveDays_dates.
  - intros E. apply (f_equal (@List.length _)) in E. rewrite liveDays_length in E.
    rewrite E in L. discriminate L.
Qed.

(** X28 on the query of the documentation with the request rejected. *)
Lemma weather_provider_result_on_miss_witness :
  let params := {| wq_lat := 187883 # 10000; wq_lon := 989853 # 10000;
                   wq_startDate := "2025-11-20"; wq_days := 3 |} in
  let config := {| amadeus := None; skyscanner := None; booking := None;
                   openTripMap := None |} in
  exists w context',
    Weather.weatherProvider params (Mcp.createProviderContext (Cache.new None)) config 0
      FetchRejected = (JS.Return w, context')
    /\ Weather.buildMockWeather params = JS.Return w
    /\ providersUsed context' = ["weather:mock"].
Proof.
  intros params config.
  destruct (weatherProvider_total params (Mcp.createProviderContext (Cache.new None))
              config 0 FetchRejected (WellKeyed_new None) eq_refl)
    as (w & context' & R & _).
  exists w, context'. split; [exact R|].
  destruct (weather_provider_result_on_miss params
              (Mcp.createProviderContext (Cache.new None)) context' config 0
              FetchRejected w eq_refl R) as [[(st & d & U & _)|(B & T)] _].
  - discriminate U.
  - split; [exact B|exact T].
Defined.

